(** * Adaptive login pipeline of the OTT access-control service

    A shallow embedding of the risk-and-session-enforcement pipeline:
    device fingerprinting and spoofing detection
    (utils/enhancedFingerprint), geographic impossibility
    (utils/geoDetection.js), device trust scoring (DeviceTrustScorer),
    the Redis session helpers (config/redis.js), the alert rules engine
    (utils/alertRulesEngine.js) and the login handler of the auth
    controller; then the rate-limit store and the block middleware
    (middleware/rateLimiter.js), the auth middleware, the session
    endpoints of the auth controller, the block and terminate routes of
    the admin router and the protected route; followed by the properties
    proved about them.

    Conventions of the model.
    - JavaScript numbers that only ever hold integers (scores, counters,
      millisecond timestamps) are [Z]; the coordinates and distances of
      the geo detector are real numbers [R] (IEEE doubles idealised as
      exact reals), with [Math.sin], [Math.cos], [Math.sqrt], [Math.atan2]
      and [Math.PI] read as the mathematical functions they approximate.
    - Strings are byte strings; [toLowerCase] folds the ASCII letters.
    - What the client controls without a schema, the fingerprint of the
      request body, is an arbitrary JSON value [JValue]; the operations
      the code applies to it (truthiness, [||], [===], property access,
      conversion to a string, method calls) are modelled on all of them,
      with the TypeErrors they throw.
    - The clock stands still while one handler runs. Where the source
      reads the time more than once, or Redis starts a time to live
      between two reads, the properties are stated for the first instant
      or as bounds, not as equalities between the readings.
    - Asynchronous code is sequential within one request; [await] is
      sequencing in the monad [M] below, which threads the world
      (MongoDB collections, the Redis keyspace, the clock, the trace of
      external interactions) and propagates JavaScript exceptions.
    - Redis values that the source writes with [JSON.stringify] and reads
      back with [JSON.parse] are kept as the typed payload.
    - Library code that is not part of the repository (SHA-256, UAParser,
      bcrypt, jsonwebtoken, geoip-lite, the OTP generator) is taken as the
      operations of the class [Platform]. *)

From Stdlib Require Import ZArith String Ascii List Bool Lia Reals Lra Sorted.
From stdpp Require Import gmap strings list pretty.
Import ListNotations.

Local Open Scope string_scope.
Local Open Scope Z_scope.

(* ===================================================================== *)
(** ** JavaScript string primitives *)
(* ===================================================================== *)

Definition lower_ascii (c : ascii) : ascii :=
  let n := nat_of_ascii c in
  if ((65 <=? n)%nat && (n <=? 90)%nat)%bool then ascii_of_nat (n + 32) else c.

(** [String.prototype.toLowerCase] on the ASCII range. *)
Fixpoint toLowerCase (s : string) : string :=
  match s with
  | EmptyString => EmptyString
  | String c s' => String (lower_ascii c) (toLowerCase s')
  end.

(** [s.includes(sub)]. *)
Fixpoint includes (s sub : string) : bool :=
  String.prefix sub s ||
  match s with
  | EmptyString => false
  | String _ s' => includes s' sub
  end.

(** [s.startsWith(p)]. *)
Definition startsWith (s p : string) : bool := String.prefix p s.

(** [s.length] as a JavaScript number. *)
Definition strlen (s : string) : Z := Z.of_nat (String.length s).

(** Truthiness of a value known to be a string: the empty string is
    falsy. *)
Definition truthy (s : string) : bool := negb (String.eqb s "").

(** [v || d] where [v] is a string or [undefined]. *)
Definition or_default (v : option string) (d : string) : string :=
  match v with
  | Some s => if truthy s then s else d
  | None => d
  end.

(** Truthiness of a document or [null]. *)
Definition defined {A : Type} (o : option A) : bool :=
  match o with Some _ => true | None => false end.

(** [arr.join(sep)]. *)
Fixpoint join (sep : string) (l : list string) : string :=
  match l with
  | [] => ""
  | [x] => x
  | x :: rest => x +:+ sep +:+ join sep rest
  end.

(** Comparison [a > b] and [a >= b] where either side may be [undefined]
    (it converts to NaN, and every comparison with NaN is false). *)
Definition gt_undef (a b : option Z) : bool :=
  match a, b with
  | Some x, Some y => y <? x
  | _, _ => false
  end.

Definition ge_undef (a b : option Z) : bool :=
  match a, b with
  | Some x, Some y => y <=? x
  | _, _ => false
  end.

(** [Math.max(0, Math.min(100, x))] on integers. *)
Definition clamp100 (x : Z) : Z := Z.max 0 (Z.min 100 x).

(** [Math.round] is the identity on the integers it is applied to. *)
Definition Math_round (x : Z) : Z := x.

(* ===================================================================== *)
(** ** Exceptions and results *)
(* ===================================================================== *)

Inductive Exn :=
| ReferenceError (binding : string)
| TypeError (what : string)
| RedisError.

(** [err.message]. *)
Definition exn_message (e : Exn) : string :=
  match e with
  | ReferenceError x => "Cannot access '" +:+ x +:+ "' before initialization"
  | TypeError what => what
  | RedisError => "Connection is closed."
  end.

(** The outcome of evaluating an expression: a value, or an exception. *)
Inductive Res (A : Type) :=
| Ok (a : A)
| Throw (e : Exn).
Arguments Ok {A} a.
Arguments Throw {A} e.

#[global] Instance Res_ret : MRet Res := fun A a => Ok a.

#[global] Instance Res_bind : MBind Res := fun A B f r =>
  match r with
  | Ok a => f a
  | Throw e => Throw e
  end.

(* ===================================================================== *)
(** ** JavaScript values *)
(* ===================================================================== *)

(** The values a parsed JSON body can hold, and [undefined] for what it
    leaves out.  A number is given by the decimal text that
    [Number.prototype.toString] prints for it (zero, of either sign,
    prints "0").  Arrays and objects are heap objects: each carries the
    identity [ref] that [===] compares, next to its elements or its own
    properties (every name once, as [JSON.parse] leaves them). *)
#[warnings="-register-all"] Inductive JValue :=
| JUndefined
| JNull
| JBool (b : bool)
| JNum (repr : string)
| JStr (s : string)
| JArr (ref : nat) (items : list JValue)
| JObj (ref : nat) (fields : list (string * JValue)).

(** Truthiness: [undefined], [null], [false], zero and the empty string
    are falsy; every object and array is truthy. *)
Definition js_truthy (v : JValue) : bool :=
  match v with
  | JUndefined | JNull => false
  | JBool b => b
  | JNum repr => negb (String.eqb repr "0")
  | JStr s => truthy s
  | JArr _ _ | JObj _ _ => true
  end.

(** [v || d]. *)
Definition js_or (v d : JValue) : JValue := if js_truthy v then v else d.

(** [a === b]: primitives by value, arrays and objects by identity. *)
Definition strict_eq (a b : JValue) : bool :=
  match a, b with
  | JUndefined, JUndefined => true
  | JNull, JNull => true
  | JBool x, JBool y => Bool.eqb x y
  | JNum x, JNum y => String.eqb x y
  | JStr x, JStr y => String.eqb x y
  | JArr x _, JArr y _ => Nat.eqb x y
  | JObj x _, JObj y _ => Nat.eqb x y
  | _, _ => false
  end.

(** The own property [name] of a parsed object. *)
Fixpoint own_property (name : string) (fields : list (string * JValue))
  : option JValue :=
  match fields with
  | [] => None
  | (k, v) :: rest => if String.eqb k name then Some v else own_property name rest
  end.

(** [v.name] for a value other than [undefined] and [null], and a [name]
    that no prototype defines: the own property of an object, [undefined]
    on an array or a primitive. *)
Definition get_property (v : JValue) (name : string) : JValue :=
  match v with
  | JObj _ fields =>
      match own_property name fields with Some x => x | None => JUndefined end
  | _ => JUndefined
  end.

(** [ToString(v)], which a template literal applies to each substitution.
    A parsed object prints as "[object Object]", unless an own property
    named "toString" hides [Object.prototype.toString]: a JSON value is
    never callable, so the conversion finds no method and throws.  An
    array prints its elements separated by commas, [null] and [undefined]
    as the empty string. *)
Fixpoint js_toString (v : JValue) : Res string :=
  match v with
  | JUndefined => Ok "undefined"
  | JNull => Ok "null"
  | JBool b => Ok (if b then "true" else "false")
  | JNum repr => Ok repr
  | JStr s => Ok s
  | JArr _ items =>
      match
        (fix elements (l : list JValue) : Res (list string) :=
           match l with
           | [] => Ok []
           | x :: l' =>
               match
                 match x with
                 | JUndefined | JNull => Ok ""
                 | _ => js_toString x
                 end
               with
               | Ok s =>
                   match elements l' with
                   | Ok ss => Ok (s :: ss)
                   | Throw e => Throw e
                   end
               | Throw e => Throw e
               end
           end) items
      with
      | Ok ss => Ok (join "," ss)
      | Throw e => Throw e
      end
  | JObj _ fields =>
      match own_property "toString" fields with
      | Some _ => Throw (TypeError "Cannot convert object to primitive value")
      | None => Ok "[object Object]"
      end
  end.

(** [path.method()] where [method] is a method of strings only: the call
    succeeds on a string and throws on everything else. *)
Definition string_method (path method : string) (v : JValue) : Res string :=
  match v with
  | JStr s => Ok s
  | JUndefined =>
      Throw (TypeError ("Cannot read properties of undefined (reading '"
                        +:+ method +:+ "')"))
  | JNull =>
      Throw (TypeError ("Cannot read properties of null (reading '"
                        +:+ method +:+ "')"))
  | _ => Throw (TypeError (path +:+ "." +:+ method +:+ " is not a function"))
  end.

(* ===================================================================== *)
(** ** Platform: the libraries the service calls *)
(* ===================================================================== *)

(** Result of [new UAParser(ua).getResult()], restricted to the fields the
    fingerprint reads; an absent field is [None]. *)
Record UAResult := {
  ua_browser_name : option string;
  ua_browser_version : option string;
  ua_engine_name : option string;
  ua_os_name : option string;
  ua_os_version : option string;
  ua_device_type : option string;
  ua_device_vendor : option string;
  ua_device_model : option string;
  ua_cpu_architecture : option string
}.

(** Result of [geoip.lookup(ip)]: [geo.country], [geo.city], [geo.ll]. *)
Record GeoInfo := {
  gi_country : string;
  gi_city : string;
  gi_lat : R;
  gi_lon : R
}.

Class Platform := {
  (** [crypto.createHash("sha256").update(s).digest("hex")] *)
  sha256_hex : string -> string;
  (** [new UAParser(header).getResult()] *)
  uaParse : option string -> UAResult;
  (** [bcrypt.compare(password, hash)] *)
  bcrypt_compare : string -> string -> bool;
  (** [jwt.sign({userId, deviceId, email}, secret, {expiresIn: "24h"})],
      issued at the given time *)
  jwt_sign : string -> string -> string -> Z -> string;
  (** [geoip.lookup(ip)]; [None] is the library's [null] *)
  geoip_lookup : string -> option GeoInfo;
  (** [generateOTP()], as drawn at the given time *)
  generateOTP : Z -> string
}.

(* ===================================================================== *)
(** ** Sorting: [Array.prototype.sort] with a comparator *)
(* ===================================================================== *)

(** [le a b] stands for [compare(a, b) <= 0]; the sort is stable, as the
    language requires of [Array.prototype.sort]. *)
Fixpoint insert_sorted {A : Type} (le : A -> A -> bool) (x : A) (l : list A)
  : list A :=
  match l with
  | [] => [x]
  | y :: l' => if le x y then x :: l else y :: insert_sorted le x l'
  end.

Fixpoint sort_by {A : Type} (le : A -> A -> bool) (l : list A) : list A :=
  match l with
  | [] => []
  | x :: l' => insert_sorted le x (sort_by le l')
  end.

(* ===================================================================== *)
(** ** Device fingerprint (utils/enhancedFingerprint) *)
(* ===================================================================== *)

(** The keys of the [components] object, in the order the object literal
    of [generateEnhancedFingerprint] declares them. *)
Inductive ComponentKey :=
| K_userAgent | K_ip
| K_browser | K_browserVersion | K_engine
| K_os | K_osVersion
| K_deviceType | K_deviceVendor | K_deviceModel
| K_cpu
| K_acceptLanguage | K_acceptEncoding | K_accept
| K_screenResolution | K_timezone | K_timezoneOffset
| K_canvas | K_webgl | K_fonts | K_plugins | K_audioContext
| K_platform | K_hardwareConcurrency | K_deviceMemory
| K_colorDepth | K_pixelRatio.

Definition key_name (k : ComponentKey) : string :=
  match k with
  | K_userAgent => "userAgent" | K_ip => "ip"
  | K_browser => "browser" | K_browserVersion => "browserVersion"
  | K_engine => "engine"
  | K_os => "os" | K_osVersion => "osVersion"
  | K_deviceType => "deviceType" | K_deviceVendor => "deviceVendor"
  | K_deviceModel => "deviceModel"
  | K_cpu => "cpu"
  | K_acceptLanguage => "acceptLanguage"
  | K_acceptEncoding => "acceptEncoding"
  | K_accept => "accept"
  | K_screenResolution => "screenResolution"
  | K_timezone => "timezone" | K_timezoneOffset => "timezoneOffset"
  | K_canvas => "canvas" | K_webgl => "webgl" | K_fonts => "fonts"
  | K_plugins => "plugins" | K_audioContext => "audioContext"
  | K_platform => "platform"
  | K_hardwareConcurrency => "hardwareConcurrency"
  | K_deviceMemory => "deviceMemory"
  | K_colorDepth => "colorDepth" | K_pixelRatio => "pixelRatio"
  end.

Definition component_keys : list ComponentKey :=
  [ K_userAgent; K_ip; K_browser; K_browserVersion; K_engine; K_os;
    K_osVersion; K_deviceType; K_deviceVendor; K_deviceModel; K_cpu;
    K_acceptLanguage; K_acceptEncoding; K_accept; K_screenResolution;
    K_timezone; K_timezoneOffset; K_canvas; K_webgl; K_fonts; K_plugins;
    K_audioContext; K_platform; K_hardwareConcurrency; K_deviceMemory;
    K_colorDepth; K_pixelRatio ].


(** The [components] object: the value under every key. *)
Definition Components : Type := ComponentKey -> JValue.


(** The part of an HTTP request the pipeline reads. *)
Record Request := {
  headers : gmap string string;
  remoteAddress : string;            (* req.socket.remoteAddress *)
  body_email : string;
  body_password : string;
  body_fingerprint : JValue          (* req.body.fingerprint *)
}.

(** [req.headers["x-forwarded-for"] || req.socket.remoteAddress] *)
Definition request_ip (req : Request) : string :=
  or_default (headers req !! "x-forwarded-for") (remoteAddress req).

(** The object literal [components] of [generateEnhancedFingerprint].
    The headers and the parsed user agent hold strings; the properties of
    [clientFingerprint] are kept as they are, whatever their type.
    Reading a property of [null] or [undefined] throws. *)
Definition components_of `{Platform} (req : Request)
  (clientFingerprint : JValue) : Res Components :=
  let ua := uaParse (headers req !! "user-agent") in
  let client (name : string) :=
    js_or (get_property clientFingerprint name) (JStr "") in
  match clientFingerprint with
  | JUndefined =>
      Throw (TypeError
               "Cannot read properties of undefined (reading 'screenResolution')")
  | JNull =>
      Throw (TypeError
               "Cannot read properties of null (reading 'screenResolution')")
  | _ =>
  Ok (fun k =>
    match k with
    | K_userAgent => JStr (or_default (headers req !! "user-agent") "")
    | K_ip => JStr (or_default (headers req !! "x-forwarded-for")
                      (or_default (Some (remoteAddress req)) ""))
    | K_browser => JStr (or_default (ua_browser_name ua) "")
    | K_browserVersion => JStr (or_default (ua_browser_version ua) "")
    | K_engine => JStr (or_default (ua_engine_name ua) "")
    | K_os => JStr (or_default (ua_os_name ua) "")
    | K_osVersion => JStr (or_default (ua_os_version ua) "")
    | K_deviceType => JStr (or_default (ua_device_type ua) "desktop")
    | K_deviceVendor => JStr (or_default (ua_device_vendor ua) "")
    | K_deviceModel => JStr (or_default (ua_device_model ua) "")
    | K_cpu => JStr (or_default (ua_cpu_architecture ua) "")
    | K_acceptLanguage => JStr (or_default (headers req !! "accept-language") "")
    | K_acceptEncoding => JStr (or_default (headers req !! "accept-encoding") "")
    | K_accept => JStr (or_default (headers req !! "accept") "")
    | K_screenResolution => client "screenResolution"
    | K_timezone => client "timezone"
    | K_timezoneOffset => client "timezoneOffset"
    | K_canvas => client "canvas"
    | K_webgl => client "webgl"
    | K_fonts => client "fonts"
    | K_plugins => client "plugins"
    | K_audioContext => client "audioContext"
    | K_platform => client "platform"
    | K_hardwareConcurrency => client "hardwareConcurrency"
    | K_deviceMemory => client "deviceMemory"
    | K_colorDepth => client "colorDepth"
    | K_pixelRatio => client "pixelRatio"
    end)
  end.

(** [Object.entries(components)]: the pairs in declaration order. *)
Definition entries (c : Components) : list (string * JValue) :=
  map (fun k => (key_name k, c k)) component_keys.

(** [keyA.localeCompare(keyB) <= 0] on the component keys, which are ASCII
    letters: alphabetical order regardless of case. *)
Definition localeCompare_le (a b : string) : bool :=
  String.leb (toLowerCase a) (toLowerCase b).

(** The template literal [`${key}:${value}`]. *)
Definition render_entry (e : string * JValue) : Res string :=
  value ← js_toString (snd e);
  Ok (fst e +:+ ":" +:+ value).

(** [arr.map(f)] for a callback that may throw: the first exception ends
    the traversal. *)
Fixpoint map_res {A B : Type} (f : A -> Res B) (l : list A) : Res (list B) :=
  match l with
  | [] => Ok []
  | x :: l' =>
      y ← f x;
      ys ← map_res f l';
      Ok (y :: ys)
  end.

(** The "stable fingerprint string":
    entries sorted by key, rendered [key:value], joined with a bar. *)
Definition fingerprintString (c : Components) : Res string :=
  rendered ← map_res render_entry
    (sort_by (fun a b => localeCompare_le (fst a) (fst b)) (entries c));
  Ok (join "|" rendered).

Definition deviceId_of `{Platform} (c : Components) : Res string :=
  s ← fingerprintString c;
  Ok (sha256_hex s).

Record FingerprintMetadata := {
  browserInfo : string;
  osInfo : string;
  deviceInfo : string;
  fp_timestamp : Z
}.

Record Fingerprint := {
  fp_deviceId : string;
  fp_components : Components;
  fp_metadata : FingerprintMetadata
}.

(** A template literal prints an absent field as "undefined". *)
Definition show_undef (v : option string) : string :=
  match v with Some s => s | None => "undefined" end.

(** [generateEnhancedFingerprint(req, clientFingerprint = {})] at time
    [now].  The default applies to [undefined] only: [null] stays [null]. *)
Definition generateEnhancedFingerprint `{Platform} (now : Z) (req : Request)
  (clientFingerprint : JValue) : Res Fingerprint :=
  let clientFingerprint :=
    match clientFingerprint with
    | JUndefined => JObj 0 []
    | v => v
    end in
  let ua := uaParse (headers req !! "user-agent") in
  components ← components_of req clientFingerprint;
  deviceId ← deviceId_of components;
  Ok {| fp_deviceId := deviceId;
        fp_components := components;
        fp_metadata :=
          {| browserInfo := show_undef (ua_browser_name ua) +:+ " "
                              +:+ show_undef (ua_browser_version ua);
             osInfo := show_undef (ua_os_name ua) +:+ " "
                         +:+ show_undef (ua_os_version ua);
             deviceInfo := or_default (ua_device_type ua) "desktop";
             fp_timestamp := now |} |}.

(** The legacy identifier (utils/generateDeviceId.js): the hash of the
    user agent followed by the address. *)
Definition generateDeviceId `{Platform} (userAgent ip : string) : string :=
  sha256_hex (userAgent +:+ ip).

(** *** Spoofing detection *)

Record SpoofAssessment := {
  isSuspicious : bool;
  spoof_riskScore : Z;
  warnings : list string
}.

Definition automationSignals : list string :=
  [ "headless"; "phantom"; "selenium"; "webdriver";
    "puppeteer"; "playwright"; "automation" ].

(** The condition of the "Platform-OS mismatch" rule, on the lower-cased
    platform and operating system names. *)
Definition platform_os_mismatch (platform os : string) : bool :=
  (includes platform "win" && negb (includes os "windows")) ||
  (includes platform "mac" && negb (includes os "mac")) ||
  (includes platform "linux" && negb (includes os "linux")).

(** The loop over [automationSignals], on the pair (warnings, riskScore). *)
Definition scan_signal (uaLower : string) (st : list string * Z)
  (signal : string) : list string * Z :=
  if includes uaLower signal
  then ((fst st ++ ["Automation detected: " +:+ signal])%list, snd st + 50)
  else st.

(** What [detectSpoofing] throws on a [userAgent] that is not a string.
    The test of its length only pushes to a local, and the call of
    [toLowerCase] that follows throws; the one exception that comes
    earlier is the comparison [userAgent.length < 20] when the property
    [length] of an object has no primitive value. *)
Definition userAgent_not_a_string (v : JValue) : Exn :=
  let at_toLowerCase :=
    match string_method "components.userAgent" "toLowerCase" v with
    | Throw e => e
    | Ok _ => TypeError "components.userAgent.toLowerCase is not a function"
    end in
  match v with
  | JObj _ fields =>
      match own_property "length" fields with
      | Some x =>
          match js_toString x with
          | Throw e => e
          | Ok _ => at_toLowerCase
          end
      | None => at_toLowerCase
      end
  | _ => at_toLowerCase
  end.

Definition detectSpoofing (components : Components) : Res SpoofAssessment :=
  match components K_userAgent with
  | JStr userAgent =>
  let st0 : list string * Z := ([], 0) in
  let st1 :=
    if negb (truthy userAgent) || (strlen userAgent <? 20)
    then ((fst st0 ++ ["Suspicious user agent"])%list, snd st0 + 30)
    else st0 in
  let uaLower := toLowerCase userAgent in
  let st2 := fold_left (scan_signal uaLower) automationSignals st1 in
  st3 ←
    (if js_truthy (components K_platform) && js_truthy (components K_os)
     then
       platform ← string_method "components.platform" "toLowerCase"
                    (components K_platform);
       os ← string_method "components.os" "toLowerCase" (components K_os);
       let platform := toLowerCase platform in
       let os := toLowerCase os in
       Ok (if platform_os_mismatch platform os
           then ((fst st2 ++ ["Platform-OS mismatch"])%list, snd st2 + 25)
           else st2)
     else Ok st2);
  let st4 :=
    if negb (js_truthy (components K_canvas))
       && negb (js_truthy (components K_webgl))
       && negb (js_truthy (components K_fonts))
    then ((fst st3 ++ ["No client-side fingerprint provided"])%list, snd st3 + 40)
    else st3 in
  Ok {| isSuspicious := 50 <? snd st4;
        spoof_riskScore := Z.min 100 (snd st4);
        warnings := fst st4 |}
  | v => Throw (userAgent_not_a_string v)
  end.

(* ===================================================================== *)
(** ** Geographic distance (utils/geoDetection.js, pure part) *)
(* ===================================================================== *)

Definition Rltb (x y : R) : bool := if Rlt_dec x y then true else false.

(** [Math.atan2(y, x)] on finite arguments. *)
Definition Math_atan2 (y x : R) : R :=
  (if Rlt_dec 0 x then atan (y / x)
   else if Rlt_dec x 0 then
     (if Rlt_dec y 0 then atan (y / x) - PI else atan (y / x) + PI)
   else if Rlt_dec 0 y then PI / 2
   else if Rlt_dec y 0 then - (PI / 2)
   else 0)%R.

Definition toRad (deg : R) : R := (deg * (PI / 180))%R.

(** Haversine distance in kilometres. *)
Definition calculateDistance (lat1 lon1 lat2 lon2 : R) : R :=
  (let R_earth := 6371 in
   let dLat := toRad (lat2 - lat1) in
   let dLon := toRad (lon2 - lon1) in
   let a :=
     sin (dLat / 2) * sin (dLat / 2) +
     cos (toRad lat1) * cos (toRad lat2) *
     sin (dLon / 2) * sin (dLon / 2) in
   let c := 2 * Math_atan2 (sqrt a) (sqrt (1 - a)) in
   R_earth * c)%R.

(** Least travel time in milliseconds at 900 km/h. *)
Definition getMinTravelTime (distanceKm : R) : R :=
  (let avgFlightSpeed := 900 in
   (distanceKm / avgFlightSpeed) * 3600 * 1000)%R.

(* ===================================================================== *)
(** ** Documents, stored values and the world *)
(* ===================================================================== *)

(** [currentLocation] of the geo detector. *)
Record Location := {
  loc_country : string;
  loc_city : string;
  loc_lat : R;
  loc_lon : R;
  loc_timestamp : Z
}.

(** The [reason] text of a geo check, before its numbers are printed. *)
Inductive GeoReason :=
| CouldNotDetermine          (* "Could not determine location" *)
| FirstLocationRecorded      (* "First location recorded" *)
| ImpossibleTravel (distance : R) (timeDiff : Z)
| SuspiciousLongDistance     (* "Suspicious: Long distance travel in short time" *)
| CountryChanged (from to : string)
| LocationChangedBy (distance : R)
| NoReason.                  (* the empty string *)

Record GeoCheck := {
  isImpossible : bool;
  reason : GeoReason;
  geo_riskScore : Z;
  currentLocation : option Location;
  lastLocation : option Location;
  geo_distance : option R;           (* before [toFixed(2)] *)
  geo_timeDiff : option Z            (* milliseconds, before the division *)
}.

(** A document of the [User] collection, with the OTP state the
    controller keeps on it. *)
Record User := {
  user_id : string;                  (* _id *)
  user_email : string;
  user_password : string;            (* bcrypt hash *)
  user_plan : string;
  user_otp : option string;
  user_otpExpiry : option Z
}.

Record Device := {
  dev_userId : string;
  dev_deviceId : string;
  dev_userAgent : option string;
  dev_ipAddress : string;
  dev_trusted : bool;
  dev_lastLogin : Z;
  dev_createdAt : Z
}.

(** A document of the MongoDB [Session] collection. *)
Record MongoSession := {
  ms_userId : string;
  ms_deviceId : string;
  ms_token : string;
  ms_isActive : bool;
  ms_createdAt : Z
}.

(** The metadata argument of [createSession]. *)
Record Metadata := {
  md_ipAddress : option string;
  md_userAgent : option string;
  md_trustScore : option Z;
  md_location : option Location
}.

Definition no_metadata : Metadata :=
  {| md_ipAddress := None; md_userAgent := None;
     md_trustScore := None; md_location := None |}.

(** [sessionData] as stored under [session:<userId>:<deviceId>]. *)
Record SessionData := {
  token : string;
  s_deviceId : string;
  s_userId : string;
  createdAt : Z;
  lastActivity : Z;
  s_ipAddress : option string;
  s_userAgent : option string;
  s_trustScore : option Z;
  s_location : option Location
}.

(** The rendered message of an alert, by the rule whose template made it. *)
Inductive Message :=
| MsgGeoImpossibility (email : string) (r : GeoReason)
| MsgTrustCritical (email : string) (trustScore : Z)
| MsgDeviceSharing (devicePrefix : string) (count : option Z)
| MsgFailedLogins (email : string) (failed : option Z)
| MsgSessionLimit (email : string) (active max : option Z)
| MsgUnusualHour (email : string)
| MsgVPN (email : string) (country : option string)
| MsgRapidLocation (email : string) (changes : option Z)
| MsgNewDevice (email : string) (trustScore : Z)
| MsgTakeover (email : string).

Record AlertContext := {
  ac_userId : string;
  ac_email : string;
  ac_deviceId : string;
  ac_ipAddress : string;
  ac_location : option Location
}.

Record Alert := {
  ruleId : string;
  ruleName : string;
  severity : string;
  message : Message;
  alert_timestamp : Z;
  alert_context : AlertContext
}.

(** A value held under a Redis key. *)
Inductive RValue :=
| VStr (s : string)
| VInt (n : Z)
| VSet (members : list string)
| VSession (s : SessionData)
| VLocation (l : Location)
| VTrust (score : Z) (factors : list (string * Z)) (timestamp : Z)
| VAlert (a : Alert)
| VFlag (reason : Message) (severity : string) (timestamp : Z)
| VHistory (items : list (string * string * string * string * Z))
| VZSet (items : list (Z * string)).

Record Entry := {
  expiresAt : option Z;              (* milliseconds; [None]: no expiry *)
  value : RValue
}.

(** The commands sent to Redis. *)
Inductive RCmd :=
| GET (k : string)
| SETEX (k : string) (seconds : Z)
| DEL (k : string)
| SADD (k member : string)
| SREM (k member : string)
| SMEMBERS (k : string)
| SCARD (k : string)
| INCR (k : string)
| EXPIRE (k : string) (seconds : Z)
| LPUSH (k : string)
| LTRIM (k : string) (start stop : Z)
| ZADD (k : string) (score : Z) (member : string)
| ZREMRANGEBYRANK (k : string) (start stop : Z).

(** What the service does to the outside, in order. *)
Inductive Event :=
| Redis (c : RCmd)
| EmailAlert (a : Alert)             (* sendEmailAlert(alert, context) *)
| SlackAlert (a : Alert)             (* sendSlackAlert(alert, context) *)
| OtpEmail (to otp : string)         (* sendOTPEmail(email, otp) *)
| ConsoleLogAlert (m : Message)      (* the "log" action *)
| ConsoleWarn (what : string)
| ConsoleError (what : string) (e : Exn).

Record World := mkWorld {
  users : list User;
  devices : list Device;
  mongoSessions : list MongoSession;
  redis : gmap string Entry;
  clock : Z;                         (* Date.now(), milliseconds *)
  localHour : Z;                     (* new Date().getHours() *)
  faults : list bool;                (* per Redis command: does it fail? *)
  trace : list Event
}.

Definition set_users (v : list User) (w : World) : World :=
  mkWorld v (devices w) (mongoSessions w) (redis w) (clock w) (localHour w)
    (faults w) (trace w).
Definition set_devices (v : list Device) (w : World) : World :=
  mkWorld (users w) v (mongoSessions w) (redis w) (clock w) (localHour w)
    (faults w) (trace w).
Definition set_mongoSessions (v : list MongoSession) (w : World) : World :=
  mkWorld (users w) (devices w) v (redis w) (clock w) (localHour w)
    (faults w) (trace w).
Definition set_redis (v : gmap string Entry) (w : World) : World :=
  mkWorld (users w) (devices w) (mongoSessions w) v (clock w) (localHour w)
    (faults w) (trace w).
Definition set_clock (v : Z) (w : World) : World :=
  mkWorld (users w) (devices w) (mongoSessions w) (redis w) v (localHour w)
    (faults w) (trace w).
Definition set_faults (v : list bool) (w : World) : World :=
  mkWorld (users w) (devices w) (mongoSessions w) (redis w) (clock w)
    (localHour w) v (trace w).
Definition emit (e : Event) (w : World) : World :=
  mkWorld (users w) (devices w) (mongoSessions w) (redis w) (clock w)
    (localHour w) (faults w) (trace w ++ [e]).

(* ===================================================================== *)
(** ** The monad of handlers: state and exceptions *)
(* ===================================================================== *)

Definition M (A : Type) : Type := World -> Res A * World.

#[global] Instance M_ret : MRet M := fun A a w => (Ok a, w).

#[global] Instance M_bind : MBind M := fun A B f m w =>
  match m w with
  | (Ok a, w') => f a w'
  | (Throw e, w') => (Throw e, w')
  end.

Definition throw {A : Type} (e : Exn) : M A := fun w => (Throw e, w).

(** [try { m } catch (err) { h err }]. *)
Definition try_catch {A : Type} (m : M A) (h : Exn -> M A) : M A :=
  fun w =>
    match m w with
    | (Ok a, w') => (Ok a, w')
    | (Throw e, w') => h e w'
    end.

(** A synchronous computation inside a handler: it leaves the world as it
    is, and what it throws is thrown by the handler. *)
Definition lift {A : Type} (r : Res A) : M A := fun w => (r, w).

Definition get_world : M World := fun w => (Ok w, w).
Definition modify_world (f : World -> World) : M unit := fun w => (Ok tt, f w).
Definition Date_now : M Z := fun w => (Ok (clock w), w).
Definition getHours : M Z := fun w => (Ok (localHour w), w).
Definition emitM (e : Event) : M unit := modify_world (emit e).

(** A block-scoped [let] binding: in its temporal dead zone from the start
    of the block until its declaration is evaluated. *)
Inductive Binding (A : Type) :=
| TDZ
| Bound (a : A).
Arguments TDZ {A}.
Arguments Bound {A} a.

(** Reading the binding [name]. *)
Definition read_binding {A : Type} (name : string) (b : Binding A) : M A :=
  match b with
  | TDZ => throw (ReferenceError name)
  | Bound a => mret a
  end.

(* ===================================================================== *)
(** ** Redis *)
(* ===================================================================== *)

Definition live (now : Z) (e : Entry) : bool :=
  match expiresAt e with
  | Some t => now <? t
  | None => true
  end.

(** The entry under [k], unless it has expired. *)
Definition db_entry (now : Z) (db : gmap string Entry) (k : string)
  : option Entry :=
  match db !! k with
  | Some e => if live now e then Some e else None
  | None => None
  end.

Definition db_get (now : Z) (db : gmap string Entry) (k : string)
  : option RValue :=
  value <$> db_entry now db k.

Definition db_members (now : Z) (db : gmap string Entry) (k : string)
  : list string :=
  match db_get now db k with
  | Some (VSet l) => l
  | _ => []
  end.

(** One command: it is recorded, then fails or runs as the fault script
    says ([f] is its effect on the keyspace at the current time). *)
Definition redis_cmd {A : Type} (c : RCmd)
  (f : Z -> gmap string Entry -> A * gmap string Entry) : M A :=
  fun w =>
    let w1 := emit (Redis c) w in
    match faults w1 with
    | true :: rest => (Throw RedisError, set_faults rest w1)
    | false :: rest =>
        let r := f (clock w1) (redis w1) in
        (Ok (fst r), set_redis (snd r) (set_faults rest w1))
    | [] =>
        let r := f (clock w1) (redis w1) in
        (Ok (fst r), set_redis (snd r) w1)
    end.

Definition redis_get (k : string) : M (option RValue) :=
  redis_cmd (GET k) (fun now db => (db_get now db k, db)).

Definition redis_setex (k : string) (seconds : Z) (v : RValue) : M unit :=
  redis_cmd (SETEX k seconds) (fun now db =>
    (tt, <[k := {| expiresAt := Some (now + seconds * 1000); value := v |}]> db)).

Definition redis_del (k : string) : M unit :=
  redis_cmd (DEL k) (fun now db => (tt, delete k db)).

Definition redis_smembers (k : string) : M (list string) :=
  redis_cmd (SMEMBERS k) (fun now db => (db_members now db k, db)).

Definition redis_scard (k : string) : M Z :=
  redis_cmd (SCARD k) (fun now db =>
    (Z.of_nat (length (db_members now db k)), db)).

Definition redis_sadd (k member : string) : M unit :=
  redis_cmd (SADD k member) (fun now db =>
    match db_entry now db k with
    | Some {| expiresAt := t; value := VSet l |} =>
        if existsb (String.eqb member) l then (tt, db)
        else (tt, <[k := {| expiresAt := t; value := VSet (l ++ [member]) |}]> db)
    | _ => (tt, <[k := {| expiresAt := None; value := VSet [member] |}]> db)
    end).

Definition redis_srem (k member : string) : M unit :=
  redis_cmd (SREM k member) (fun now db =>
    match db_entry now db k with
    | Some {| expiresAt := t; value := VSet l |} =>
        match List.filter (fun x => negb (String.eqb member x)) l with
        | [] => (tt, delete k db)
        | l' => (tt, <[k := {| expiresAt := t; value := VSet l' |}]> db)
        end
    | _ => (tt, db)
    end).

Definition redis_incr (k : string) : M Z :=
  redis_cmd (INCR k) (fun now db =>
    match db_entry now db k with
    | Some {| expiresAt := t; value := VInt n |} =>
        (n + 1, <[k := {| expiresAt := t; value := VInt (n + 1) |}]> db)
    | _ => (1, <[k := {| expiresAt := None; value := VInt 1 |}]> db)
    end).

Definition redis_expire (k : string) (seconds : Z) : M unit :=
  redis_cmd (EXPIRE k seconds) (fun now db =>
    match db_entry now db k with
    | Some e =>
        (tt, <[k := {| expiresAt := Some (now + seconds * 1000);
                       value := value e |}]> db)
    | None => (tt, db)
    end).

(** [LPUSH] of one history record followed by nothing else. *)
Definition redis_lpush (k : string) (item : string * string * string * string * Z)
  : M unit :=
  redis_cmd (LPUSH k) (fun now db =>
    match db_entry now db k with
    | Some {| expiresAt := t; value := VHistory l |} =>
        (tt, <[k := {| expiresAt := t; value := VHistory (item :: l) |}]> db)
    | _ => (tt, <[k := {| expiresAt := None; value := VHistory [item] |}]> db)
    end).

(** [LTRIM k 0 stop]: keep the first [stop + 1] items. *)
Definition redis_ltrim (k : string) (stop : Z) : M unit :=
  redis_cmd (LTRIM k 0 stop) (fun now db =>
    match db_entry now db k with
    | Some {| expiresAt := t; value := VHistory l |} =>
        (tt, <[k := {| expiresAt := t;
                       value := VHistory (take (Z.to_nat (stop + 1)) l) |}]> db)
    | _ => (tt, db)
    end).

(** [ZADD k score member]; the index is kept in ascending score order. *)
Definition redis_zadd (k : string) (score : Z) (member : string) : M unit :=
  redis_cmd (ZADD k score member) (fun now db =>
    let old :=
      match db_entry now db k with
      | Some {| expiresAt := _; value := VZSet l |} => l
      | _ => []
      end in
    let others := List.filter (fun x => negb (String.eqb member (snd x))) old in
    (tt, <[k := {| expiresAt := None;
                   value := VZSet (insert_sorted
                                     (fun a b => fst a <=? fst b)
                                     (score, member) others) |}]> db)).

(** [ZREMRANGEBYRANK k 0 -(keep + 1)]: keep the [keep] highest ranks. *)
Definition redis_zremrangebyrank_keep (k : string) (keep : Z) : M unit :=
  redis_cmd (ZREMRANGEBYRANK k 0 (- (keep + 1))) (fun now db =>
    match db_entry now db k with
    | Some {| expiresAt := t; value := VZSet l |} =>
        (tt, <[k := {| expiresAt := t;
                       value := VZSet (drop (length l - Z.to_nat keep) l) |}]> db)
    | _ => (tt, db)
    end).

(* ===================================================================== *)
(** ** Session helpers (config/redis.js) *)
(* ===================================================================== *)

Definition session_key (userId deviceId : string) : string :=
  "session:" +:+ userId +:+ ":" +:+ deviceId.

Definition user_sessions_key (userId : string) : string :=
  "user:" +:+ userId +:+ ":sessions".

Definition createSession (userId deviceId tok : string) (metadata : Metadata)
  : M SessionData :=
  let key := session_key userId deviceId in
  now ← Date_now;
  let sessionData :=
    {| token := tok; s_deviceId := deviceId; s_userId := userId;
       createdAt := now; lastActivity := now;
       s_ipAddress := md_ipAddress metadata;
       s_userAgent := md_userAgent metadata;
       s_trustScore := md_trustScore metadata;
       s_location := md_location metadata |} in
  redis_setex key 86400 (VSession sessionData);;
  redis_sadd (user_sessions_key userId) deviceId;;
  mret sessionData.

Definition getSession (userId deviceId : string) : M (option SessionData) :=
  let key := session_key userId deviceId in
  data ← redis_get key;
  mret (match data with
        | Some (VSession s) => Some s
        | _ => None
        end).

(** The body of the loop of [getUserSessions] over the device ids. *)
Fixpoint getUserSessions_loop (userId : string) (deviceIds : list string)
  (sessions : list SessionData) : M (list SessionData) :=
  match deviceIds with
  | [] => mret sessions
  | deviceId :: rest =>
      session ← getSession userId deviceId;
      match session with
      | Some s => getUserSessions_loop userId rest (sessions ++ [s])
      | None =>
          redis_srem (user_sessions_key userId) deviceId;;
          getUserSessions_loop userId rest sessions
      end
  end.

Definition createdAt_le (a b : SessionData) : bool :=
  createdAt a <=? createdAt b.

Definition getUserSessions (userId : string) : M (list SessionData) :=
  deviceIds ← redis_smembers (user_sessions_key userId);
  sessions ← getUserSessions_loop userId deviceIds [];
  mret (sort_by createdAt_le sessions).

Definition deleteSession (userId deviceId : string) : M unit :=
  let key := session_key userId deviceId in
  redis_del key;;
  redis_srem (user_sessions_key userId) deviceId.

Definition touch (now : Z) (s : SessionData) : SessionData :=
  {| token := token s; s_deviceId := s_deviceId s; s_userId := s_userId s;
     createdAt := createdAt s; lastActivity := now;
     s_ipAddress := s_ipAddress s; s_userAgent := s_userAgent s;
     s_trustScore := s_trustScore s; s_location := s_location s |}.

Definition updateActivity (userId deviceId : string) : M unit :=
  session ← getSession userId deviceId;
  match session with
  | Some s =>
      now ← Date_now;
      redis_setex (session_key userId deviceId) 86400 (VSession (touch now s))
  | None => mret tt
  end.

Definition validateSession (userId deviceId tok : string) : M bool :=
  session ← getSession userId deviceId;
  mret (match session with
        | Some s => String.eqb (token s) tok
        | None => false
        end).

(** [blockUser(userId, durationSeconds)] (middleware/rateLimiter.js). *)
Definition blockUser (userId : string) (durationSeconds : Z) : M unit :=
  redis_setex ("blocked:" +:+ userId) durationSeconds (VStr "1").

Definition checkUserBlocked (userId : string) : M bool :=
  isBlocked ← redis_get ("blocked:" +:+ userId);
  mret (match isBlocked with
        | Some (VStr s) => String.eqb s "1"
        | _ => false
        end).

(* ===================================================================== *)
(** ** MongoDB collections *)
(* ===================================================================== *)

(** [User.findOne({ email })] *)
Definition User_findOne (email : string) : M (option User) :=
  fun w => (Ok (List.find (fun u => String.eqb (user_email u) email) (users w)), w).

(** [user.save()]: the document replaces the stored one of the same id. *)
Definition User_save (u : User) : M unit :=
  modify_world (fun w =>
    set_users (map (fun x => if String.eqb (user_id x) (user_id u) then u else x)
                   (users w)) w).

Definition same_device (userId deviceId : string) (d : Device) : bool :=
  String.eqb (dev_userId d) userId && String.eqb (dev_deviceId d) deviceId.

(** [Device.findOne({ userId, deviceId })] *)
Definition Device_findOne (userId deviceId : string) : M (option Device) :=
  fun w => (Ok (List.find (same_device userId deviceId) (devices w)), w).

(** [Device.create({...})]; the schema stamps [createdAt] and [lastLogin]. *)
Definition Device_create (userId deviceId : string) (userAgent : option string)
  (ipAddress : string) (trusted : bool) : M Device :=
  fun w =>
    let d := {| dev_userId := userId; dev_deviceId := deviceId;
                dev_userAgent := userAgent; dev_ipAddress := ipAddress;
                dev_trusted := trusted; dev_lastLogin := clock w;
                dev_createdAt := clock w |} in
    (Ok d, set_devices (devices w ++ [d]) w).

Definition replace_first {A : Type} (p : A -> bool) (y : A) : list A -> list A :=
  fix go l :=
    match l with
    | [] => []
    | x :: l' => if p x then y :: l' else x :: go l'
    end.

(** [device.save()] *)
Definition Device_save (d : Device) : M unit :=
  modify_world (fun w =>
    set_devices (replace_first (same_device (dev_userId d) (dev_deviceId d)) d
                   (devices w)) w).

(** [Session.create({ userId, deviceId, token })] *)
Definition Session_create (userId deviceId tok : string) : M unit :=
  fun w =>
    (Ok tt,
     set_mongoSessions
       (mongoSessions w ++
        [{| ms_userId := userId; ms_deviceId := deviceId; ms_token := tok;
            ms_isActive := true; ms_createdAt := clock w |}]) w).

Definition deactivate (s : MongoSession) : MongoSession :=
  {| ms_userId := ms_userId s; ms_deviceId := ms_deviceId s;
     ms_token := ms_token s; ms_isActive := false;
     ms_createdAt := ms_createdAt s |}.

Fixpoint update_first (p : MongoSession -> bool) (l : list MongoSession)
  : list MongoSession :=
  match l with
  | [] => []
  | x :: l' => if p x then deactivate x :: l' else x :: update_first p l'
  end.

(** [Session.updateOne({ userId, deviceId }, { isActive: false })] *)
Definition Session_deactivateOne (userId deviceId : string) : M unit :=
  modify_world (fun w =>
    set_mongoSessions
      (update_first (fun s => String.eqb (ms_userId s) userId
                              && String.eqb (ms_deviceId s) deviceId)
         (mongoSessions w)) w).

(* ===================================================================== *)
(** ** Device trust scoring (DeviceTrustScorer) *)
(* ===================================================================== *)

Record TrustScore := {
  score : Z;
  level : string;
  factors : list (string * Z);
  ts_timestamp : Z
}.

Definition getLoginFrequencyScore (userId deviceId : string) : M Z :=
  let key := "device:" +:+ deviceId +:+ ":login_count" in
  v ← redis_get key;
  let count := match v with Some (VInt n) => n | _ => 0 end in
  mret (if 50 <=? count then 20
        else if 30 <=? count then 15
        else if 15 <=? count then 10
        else if 5 <=? count then 5
        else 0).

Definition day_ms : Z := 1000 * 60 * 60 * 24.

(** [ageInDays >= n], the age being [(Date.now() - device.createdAt)]
    milliseconds divided by the length of a day. *)
Definition getDeviceAgeScore (userId deviceId : string) : M Z :=
  try_catch
    (device ← Device_findOne userId deviceId;
     match device with
     | None => mret 0
     | Some d =>
         now ← Date_now;
         let age := now - dev_createdAt d in
         mret (if 180 * day_ms <=? age then 15
               else if 90 * day_ms <=? age then 12
               else if 30 * day_ms <=? age then 8
               else if 7 * day_ms <=? age then 4
               else 0)
     end)
    (fun _ => mret 0).

Definition getGeoConsistencyScore `{Platform} (userId deviceId ipAddress : string)
  : M Z :=
  match geoip_lookup ipAddress with
  | None => mret 0
  | Some geo =>
      let key := "device:" +:+ deviceId +:+ ":countries" in
      countries ← redis_smembers key;
      if Nat.eqb (length countries) 0 then
        redis_sadd key (gi_country geo);;
        redis_expire key (86400 * 30);;
        mret 10
      else if existsb (String.eqb (gi_country geo)) countries then
        mret (if Nat.eqb (length countries) 1 then 25
              else if Nat.eqb (length countries) 2 then 15
              else 5)
      else
        redis_sadd key (gi_country geo);;
        mret (if (3 <? length countries)%nat then -10 else 0)
  end.

Definition getFailedAttemptsScore (userId deviceId : string) : M Z :=
  let key := "device:" +:+ deviceId +:+ ":failed_attempts" in
  v ← redis_get key;
  let failures := match v with Some (VInt n) => n | _ => 0 end in
  mret (if failures =? 0 then 0
        else if failures <=? 2 then -5
        else if failures <=? 5 then -15
        else -30).

Definition getSuspiciousHoursScore : M Z :=
  hour ← getHours;
  mret (if (2 <=? hour) && (hour <=? 6) then -10 else 0).

Definition getDeviceSharingScore (deviceId : string) : M Z :=
  let key := "device:" +:+ deviceId +:+ ":users" in
  users ← redis_smembers key;
  mret (if (length users <=? 1)%nat then 0
        else if Nat.eqb (length users) 2 then -10
        else -25).

Definition suspiciousRanges : list string := [ "10."; "172.16."; "192.168." ].

Definition getVPNScore (ipAddress : string) : Z :=
  if existsb (startsWith ipAddress) suspiciousRanges then -15 else 0.

Definition storeTrustScore (userId deviceId : string) (sc : Z)
  (fs : list (string * Z)) : M unit :=
  let key := "trust:" +:+ userId +:+ ":" +:+ deviceId in
  now ← Date_now;
  redis_setex key 86400 (VTrust sc fs now).

Definition getTrustLevel (sc : Z) : string :=
  if 80 <=? sc then "HIGH"
  else if 60 <=? sc then "MEDIUM"
  else if 40 <=? sc then "LOW"
  else "CRITICAL".

Definition calculateTrustScore `{Platform} (userId deviceId ipAddress : string)
  : M TrustScore :=
  let sc := 50 in
  let fs : list (string * Z) := [] in
  frequencyScore ← getLoginFrequencyScore userId deviceId;
  let sc := sc + frequencyScore in
  let fs := (fs ++ [("Login Frequency", frequencyScore)])%list in
  ageScore ← getDeviceAgeScore userId deviceId;
  let sc := sc + ageScore in
  let fs := (fs ++ [("Device Age", ageScore)])%list in
  geoScore ← getGeoConsistencyScore userId deviceId ipAddress;
  let sc := sc + geoScore in
  let fs := (fs ++ [("Geo Consistency", geoScore)])%list in
  failedScore ← getFailedAttemptsScore userId deviceId;
  let sc := sc + failedScore in
  let fs := (fs ++ [("Failed Attempts", failedScore)])%list in
  hoursScore ← getSuspiciousHoursScore;
  let sc := sc + hoursScore in
  let fs := (fs ++ [("Login Hours", hoursScore)])%list in
  sharingScore ← getDeviceSharingScore deviceId;
  let sc := sc + sharingScore in
  let fs := (fs ++ [("Device Sharing", sharingScore)])%list in
  let vpnScore := getVPNScore ipAddress in
  let sc := sc + vpnScore in
  let fs := (fs ++ [("VPN Usage", vpnScore)])%list in
  let sc := clamp100 sc in
  storeTrustScore userId deviceId sc fs;;
  now ← Date_now;
  mret {| score := Math_round sc; level := getTrustLevel sc;
          factors := fs; ts_timestamp := now |}.

Definition incrementLoginCount (deviceId : string) : M unit :=
  let key := "device:" +:+ deviceId +:+ ":login_count" in
  redis_incr key;;
  redis_expire key (86400 * 90).

Definition recordFailedAttempt (deviceId : string) : M unit :=
  let key := "device:" +:+ deviceId +:+ ":failed_attempts" in
  redis_incr key;;
  redis_expire key 3600.

Definition trackDeviceUser (deviceId userId : string) : M unit :=
  let key := "device:" +:+ deviceId +:+ ":users" in
  redis_sadd key userId;;
  redis_expire key (86400 * 30).

(* ===================================================================== *)
(** ** Geographic impossibility (utils/geoDetection.js) *)
(* ===================================================================== *)

Definition last_location_key (userId : string) : string :=
  "user:" +:+ userId +:+ ":last_location".

(** The comparison of the current location with the stored one: from the
    distance computation to the returned object. *)
Definition compareLocations (lastLocation currentLocation : Location) : GeoCheck :=
  let distance :=
    calculateDistance (loc_lat lastLocation) (loc_lon lastLocation)
                      (loc_lat currentLocation) (loc_lon currentLocation) in
  let td := loc_timestamp currentLocation - loc_timestamp lastLocation in
  let minTravelTime := getMinTravelTime distance in
  let impossible := Rltb (IZR td) minTravelTime && Rltb 500 distance in
  let verdict : Z * GeoReason :=
    if impossible then (95, ImpossibleTravel distance td)
    else if Rltb 3000 distance && (td <? 3600000)
    then (75, SuspiciousLongDistance)
    else if negb (String.eqb (loc_country lastLocation)
                             (loc_country currentLocation))
    then (40, CountryChanged (loc_country lastLocation)
                             (loc_country currentLocation))
    else if Rltb 100 distance then (20, LocationChangedBy distance)
    else (0, NoReason) in
  {| isImpossible := impossible;
     reason := snd verdict;
     geo_riskScore := fst verdict;
     currentLocation := Some currentLocation;
     lastLocation := Some lastLocation;
     geo_distance := Some distance;
     geo_timeDiff := Some td |}.

Definition checkGeoImpossibility `{Platform} (userId ipAddress : string)
  : M GeoCheck :=
  match geoip_lookup ipAddress with
  | None =>
      mret {| isImpossible := false; reason := CouldNotDetermine;
              geo_riskScore := 0; currentLocation := None;
              lastLocation := None; geo_distance := None;
              geo_timeDiff := None |}
  | Some geo =>
      now ← Date_now;
      let current :=
        {| loc_country := gi_country geo; loc_city := gi_city geo;
           loc_lat := gi_lat geo; loc_lon := gi_lon geo;
           loc_timestamp := now |} in
      let lastLocationKey := last_location_key userId in
      lastLocationData ← redis_get lastLocationKey;
      match lastLocationData with
      | Some (VLocation lastLoc) =>
          let result := compareLocations lastLoc current in
          redis_setex lastLocationKey (86400 * 7) (VLocation current);;
          mret result
      | _ =>
          redis_setex lastLocationKey (86400 * 7) (VLocation current);;
          mret {| isImpossible := false; reason := FirstLocationRecorded;
                  geo_riskScore := 0; currentLocation := Some current;
                  lastLocation := None; geo_distance := None;
                  geo_timeDiff := None |}
      end
  end.

Definition storeLocationHistory `{Platform} (userId ipAddress deviceId : string)
  : M unit :=
  match geoip_lookup ipAddress with
  | None => mret tt
  | Some geo =>
      let historyKey := "user:" +:+ userId +:+ ":location_history" in
      now ← Date_now;
      redis_lpush historyKey
        (deviceId, gi_country geo, gi_city geo, ipAddress, now);;
      redis_ltrim historyKey 49;;
      redis_expire historyKey (86400 * 30)
  end.

(* ===================================================================== *)
(** ** Alert rules engine (utils/alertRulesEngine.js) *)
(* ===================================================================== *)

(** The context object the login handler assembles; a field the handler
    never sets is [undefined], here [None]. *)
Record Context := {
  ctx_userId : string;
  ctx_email : string;
  ctx_deviceId : string;
  ctx_ipAddress : string;
  ctx_geoCheck : option GeoCheck;
  ctx_trustScore : Z;
  ctx_location : option Location;
  ctx_isNewDevice : bool;
  ctx_deviceUserCount : option Z;
  ctx_failedAttempts : option Z;
  ctx_activeSessions : option Z;
  ctx_maxSessions : option Z;
  ctx_isVPN : option bool;
  ctx_locationChangeCount : option Z;
  ctx_passwordChanged : option bool
}.

Record Rule := {
  rule_id : string;
  rule_name : string;
  condition : Context -> M bool;
  rule_severity : string;
  actions : list string;
  rule_message : Context -> M Message
}.

(** [s.substring(0, n)] *)
Definition substring0 (n : nat) (s : string) : string := String.substring 0 n s.

Definition rules : list Rule :=
  [ {| rule_id := "geo_impossibility";
       rule_name := "Geographic Impossibility Detected";
       condition := fun context =>
         mret (match ctx_geoCheck context with
               | Some g => isImpossible g
               | None => false
               end);
       rule_severity := "CRITICAL";
       actions := ["email"; "slack"; "block_session"];
       rule_message := fun context =>
         match ctx_geoCheck context with
         | Some g => mret (MsgGeoImpossibility (ctx_email context) (reason g))
         | None =>
             throw (TypeError
               "Cannot read properties of undefined (reading 'reason')")
         end |};
    {| rule_id := "trust_score_critical";
       rule_name := "Critical Trust Score";
       condition := fun context => mret (ctx_trustScore context <? 40);
       rule_severity := "HIGH";
       actions := ["email"; "slack"];
       rule_message := fun context =>
         mret (MsgTrustCritical (ctx_email context) (ctx_trustScore context)) |};
    {| rule_id := "device_sharing";
       rule_name := "Device Sharing Detected";
       condition := fun context =>
         mret (gt_undef (ctx_deviceUserCount context) (Some 2));
       rule_severity := "MEDIUM";
       actions := ["email"; "flag"];
       rule_message := fun context =>
         mret (MsgDeviceSharing (substring0 8 (ctx_deviceId context))
                                (ctx_deviceUserCount context)) |};
    {| rule_id := "multiple_failed_logins";
       rule_name := "Multiple Failed Login Attempts";
       condition := fun context =>
         mret (ge_undef (ctx_failedAttempts context) (Some 5));
       rule_severity := "HIGH";
       actions := ["email"; "temporary_block"];
       rule_message := fun context =>
         mret (MsgFailedLogins (ctx_email context) (ctx_failedAttempts context)) |};
    {| rule_id := "session_limit_exceeded";
       rule_name := "Session Limit Exceeded";
       condition := fun context =>
         mret (gt_undef (ctx_activeSessions context) (ctx_maxSessions context));
       rule_severity := "MEDIUM";
       actions := ["email"];
       rule_message := fun context =>
         mret (MsgSessionLimit (ctx_email context)
                 (ctx_activeSessions context) (ctx_maxSessions context)) |};
    {| rule_id := "unusual_login_hours";
       rule_name := "Login During Unusual Hours";
       condition := fun context =>
         hour ← getHours;
         mret ((2 <=? hour) && (hour <=? 5));
       rule_severity := "LOW";
       actions := ["log"];
       rule_message := fun context => mret (MsgUnusualHour (ctx_email context)) |};
    {| rule_id := "vpn_detected";
       rule_name := "VPN/Proxy Usage Detected";
       condition := fun context =>
         mret (match ctx_isVPN context with Some b => b | None => false end);
       rule_severity := "MEDIUM";
       actions := ["email"; "flag"];
       rule_message := fun context =>
         mret (MsgVPN (ctx_email context)
                 (loc_country <$> ctx_location context)) |};
    {| rule_id := "rapid_location_changes";
       rule_name := "Rapid Location Changes";
       condition := fun context =>
         mret (gt_undef (ctx_locationChangeCount context) (Some 3));
       rule_severity := "HIGH";
       actions := ["email"; "slack"; "flag"];
       rule_message := fun context =>
         mret (MsgRapidLocation (ctx_email context)
                 (ctx_locationChangeCount context)) |};
    {| rule_id := "new_device_high_risk";
       rule_name := "New Device from High-Risk Location";
       condition := fun context =>
         mret (ctx_isNewDevice context && (ctx_trustScore context <? 50));
       rule_severity := "MEDIUM";
       actions := ["email"];
       rule_message := fun context =>
         mret (MsgNewDevice (ctx_email context) (ctx_trustScore context)) |};
    {| rule_id := "account_takeover_attempt";
       rule_name := "Potential Account Takeover";
       condition := fun context =>
         mret (match ctx_passwordChanged context with
               | Some b => b
               | None => false
               end && (ctx_trustScore context <? 60));
       rule_severity := "CRITICAL";
       actions := ["email"; "slack"; "temporary_block"];
       rule_message := fun context => mret (MsgTakeover (ctx_email context)) |} ].

Definition storeAlert (alert : Alert) : M unit :=
  now ← Date_now;
  let key := "alerts:" +:+ pretty now in
  redis_setex key (86400 * 7) (VAlert alert);;
  now' ← Date_now;
  redis_zadd "alerts:sorted" now' key;;
  redis_zremrangebyrank_keep "alerts:sorted" 1000.

Definition flagUser (userId : string) (alert : Alert) : M unit :=
  let flagKey := "user:" +:+ userId +:+ ":flagged" in
  now ← Date_now;
  redis_setex flagKey (86400 * 30)
    (VFlag (message alert) (severity alert) now);;
  redis_sadd "flagged_users" userId.

(** The [switch] of [executeActions]. *)
Definition performAction (action : string) (alert : Alert) (context : Context)
  : M unit :=
  if String.eqb action "email" then emitM (EmailAlert alert)
  else if String.eqb action "slack" then emitM (SlackAlert alert)
  else if String.eqb action "block_session" then
    deleteSession (ctx_userId context) (ctx_deviceId context)
  else if String.eqb action "temporary_block" then
    blockUser (ctx_userId context) 3600
  else if String.eqb action "flag" then flagUser (ctx_userId context) alert
  else if String.eqb action "log" then emitM (ConsoleLogAlert (message alert))
  else emitM (ConsoleWarn ("Unknown action: " +:+ action)).

Fixpoint executeActions (acts : list string) (alert : Alert) (context : Context)
  : M unit :=
  match acts with
  | [] => mret tt
  | action :: rest =>
      try_catch (performAction action alert context)
        (fun err => emitM (ConsoleError ("Error executing action " +:+ action) err));;
      executeActions rest alert context
  end.

(** One iteration of the loop of [evaluateRules]: [triggered] is the
    array [triggeredAlerts] so far. *)
Definition evaluateRule (rule : Rule) (context : Context) (triggered : list Alert)
  : M (list Alert) :=
  try_catch
    (holds ← condition rule context;
     if holds : bool then
       msg ← rule_message rule context;
       now ← Date_now;
       let alert :=
         {| ruleId := rule_id rule; ruleName := rule_name rule;
            severity := rule_severity rule; message := msg;
            alert_timestamp := now;
            alert_context :=
              {| ac_userId := ctx_userId context;
                 ac_email := ctx_email context;
                 ac_deviceId := ctx_deviceId context;
                 ac_ipAddress := ctx_ipAddress context;
                 ac_location := ctx_location context |} |} in
       executeActions (actions rule) alert context;;
       storeAlert alert;;
       mret (triggered ++ [alert])%list
     else mret triggered)
    (fun err =>
       emitM (ConsoleError ("Error evaluating rule " +:+ rule_id rule) err);;
       mret triggered).

Fixpoint evaluateRulesFrom (table : list Rule) (context : Context)
  (triggered : list Alert) : M (list Alert) :=
  match table with
  | [] => mret triggered
  | rule :: rest =>
      triggered' ← evaluateRule rule context triggered;
      evaluateRulesFrom rest context triggered'
  end.

Definition evaluateRules (context : Context) : M (list Alert) :=
  evaluateRulesFrom rules context [].

(* ===================================================================== *)
(** ** The auth controller: login *)
(* ===================================================================== *)

Definition getMaxSessions (plan : string) : Z :=
  if String.eqb plan "BASIC" then 1
  else if String.eqb plan "STANDARD" then 2
  else if String.eqb plan "PREMIUM" then 4
  else 1.

(** The JSON body of a response of [login]. *)
Inductive Body :=
| ErrorBody (error : string)
| SuspiciousBody (error : string) (warnings : list string)
| GeoOtpBody (reason : GeoReason)          (* otpRequired, securityAlert *)
| NewDeviceOtpBody (trustScore : Z) (trustLevel : string)   (* otpRequired *)
| SuccessBody (token deviceId : string) (trustScore : Z) (trustLevel : string)
              (activeSessions maxSessions : Z) (metadata : FingerprintMetadata)
| LoginFailedBody (error details : string).

Record Response := {
  status : Z;
  body : Body
}.

Definition respond (st : Z) (b : Body) : M Response :=
  mret {| status := st; body := b |}.

Definition with_otp (u : User) (otp : string) (expiry : Z) : User :=
  {| user_id := user_id u; user_email := user_email u;
     user_password := user_password u; user_plan := user_plan u;
     user_otp := Some otp; user_otpExpiry := Some expiry |}.

Definition with_lastLogin (d : Device) (t : Z) : Device :=
  {| dev_userId := dev_userId d; dev_deviceId := dev_deviceId d;
     dev_userAgent := dev_userAgent d; dev_ipAddress := dev_ipAddress d;
     dev_trusted := dev_trusted d; dev_lastLogin := t;
     dev_createdAt := dev_createdAt d |}.

Definition with_trust (c : Context) (trust : Z) (isNew : bool) : Context :=
  {| ctx_userId := ctx_userId c; ctx_email := ctx_email c;
     ctx_deviceId := ctx_deviceId c; ctx_ipAddress := ctx_ipAddress c;
     ctx_geoCheck := ctx_geoCheck c; ctx_trustScore := trust;
     ctx_location := ctx_location c; ctx_isNewDevice := isNew;
     ctx_deviceUserCount := ctx_deviceUserCount c;
     ctx_failedAttempts := ctx_failedAttempts c;
     ctx_activeSessions := ctx_activeSessions c;
     ctx_maxSessions := ctx_maxSessions c; ctx_isVPN := ctx_isVPN c;
     ctx_locationChangeCount := ctx_locationChangeCount c;
     ctx_passwordChanged := ctx_passwordChanged c |}.

Definition with_deviceUserCount (c : Context) (n : Z) : Context :=
  {| ctx_userId := ctx_userId c; ctx_email := ctx_email c;
     ctx_deviceId := ctx_deviceId c; ctx_ipAddress := ctx_ipAddress c;
     ctx_geoCheck := ctx_geoCheck c; ctx_trustScore := ctx_trustScore c;
     ctx_location := ctx_location c; ctx_isNewDevice := ctx_isNewDevice c;
     ctx_deviceUserCount := Some n;
     ctx_failedAttempts := ctx_failedAttempts c;
     ctx_activeSessions := ctx_activeSessions c;
     ctx_maxSessions := ctx_maxSessions c; ctx_isVPN := ctx_isVPN c;
     ctx_locationChangeCount := ctx_locationChangeCount c;
     ctx_passwordChanged := ctx_passwordChanged c |}.

Definition with_isNewDevice (c : Context) (isNew : bool) : Context :=
  with_trust c (ctx_trustScore c) isNew.

(** The OTP challenge both early exits issue: draw a code, keep it on the
    user for five minutes, mail it. *)
Definition issueOtp `{Platform} (user : User) : M unit :=
  now ← Date_now;
  let otp := generateOTP now in
  now' ← Date_now;
  User_save (with_otp user otp (now' + 5 * 60 * 1000));;
  emitM (OtpEmail (user_email user) otp).

(** Step 9 of [login]: read the active sessions and force out the oldest
    when the plan's limit is reached. Returns [activeSessions] and
    [maxSessions]. *)
Definition enforceSessionLimit (user : User) : M (list SessionData * Z) :=
  activeSessions ← getUserSessions (user_id user);
  let maxSessions := getMaxSessions (user_plan user) in
  (if maxSessions <=? Z.of_nat (length activeSessions) then
     match activeSessions with
     | oldestSession :: _ =>
         deleteSession (user_id user) (s_deviceId oldestSession);;
         Session_deactivateOne (user_id user) (s_deviceId oldestSession)
     | [] =>
         throw (TypeError
           "Cannot read properties of undefined (reading 'deviceId')")
     end
   else mret tt);;
  mret (activeSessions, maxSessions).

(** Steps 9 to 12 of [login]: enforce the limit, sign the token, create
    the Redis session and its MongoDB copy. Returns the token,
    [activeSessions] and [maxSessions]. *)
Definition establishSession `{Platform} (user : User) (deviceId ipAddress : string)
  (userAgent : option string) (trust : Z) (location : option Location)
  : M (string * list SessionData * Z) :=
  limits ← enforceSessionLimit user;
  now ← Date_now;
  let tok := jwt_sign (user_id user) deviceId (user_email user) now in
  createSession (user_id user) deviceId tok
    {| md_ipAddress := Some ipAddress; md_userAgent := userAgent;
       md_trustScore := Some trust; md_location := location |};;
  Session_create (user_id user) deviceId tok;;
  mret (tok, fst limits, snd limits).

(** [exports.login] of the enhanced controller. *)
Definition login `{Platform} (req : Request) : M Response :=
  let email := body_email req in
  let password := body_password req in
  let fingerprint := body_fingerprint req in
  try_catch
    ((* [let device], declared at step 6, is scoped to this whole block *)
     let device : Binding (option Device) := TDZ in
     (* 1. Validate user credentials *)
     found ← User_findOne email;
     match found with
     | None => respond 400 (ErrorBody "Invalid credentials")
     | Some user =>
     if negb (bcrypt_compare password (user_password user))
     then respond 400 (ErrorBody "Invalid credentials")
     else
     (* 2. Generate enhanced device fingerprint *)
     now ← Date_now;
     fp ← lift (generateEnhancedFingerprint now req fingerprint);
     let deviceId := fp_deviceId fp in
     let components := fp_components fp in
     let metadata := fp_metadata fp in
     (* 3. Detect spoofing/automation *)
     spoofingCheck ← lift (detectSpoofing components);
     if isSuspicious spoofingCheck && (70 <? spoof_riskScore spoofingCheck)
     then
       blockUser (user_id user) 3600;;
       respond 403 (SuspiciousBody "Suspicious activity detected"
                                   (warnings spoofingCheck))
     else
     (* 4. Check geo-impossibility *)
     let ipAddress := request_ip req in
     geoCheck ← checkGeoImpossibility (user_id user) ipAddress;
     let alertContext :=
       {| ctx_userId := user_id user; ctx_email := user_email user;
          ctx_deviceId := deviceId; ctx_ipAddress := ipAddress;
          ctx_geoCheck := Some geoCheck; ctx_trustScore := 50;
          ctx_location := currentLocation geoCheck;
          ctx_isNewDevice := false;
          ctx_deviceUserCount := None; ctx_failedAttempts := None;
          ctx_activeSessions := None; ctx_maxSessions := None;
          ctx_isVPN := None; ctx_locationChangeCount := None;
          ctx_passwordChanged := None |} in
     if isImpossible geoCheck then
       evaluateRules alertContext;;
       issueOtp user;;
       respond 200 (GeoOtpBody (reason geoCheck))
     else
     (* 5. Calculate device trust score *)
     trustScore ← calculateTrustScore (user_id user) deviceId ipAddress;
     (* alertContext.isNewDevice = !device, ahead of the declaration *)
     early ← read_binding "device" device;
     let alertContext :=
       with_trust alertContext (score trustScore) (negb (defined early)) in
     deviceUserCount ← redis_scard ("device:" +:+ deviceId +:+ ":users");
     let alertContext := with_deviceUserCount alertContext deviceUserCount in
     (* 6. Check if device exists *)
     looked ← Device_findOne (user_id user) deviceId;
     let device := Bound looked in
     let continue (alertContext : Context) (dev : Device) : M Response :=
       (* Evaluate all alert rules *)
       evaluateRules alertContext;;
       (* 7. Update device last login *)
       now ← Date_now;
       Device_save (with_lastLogin dev now);;
       (* 8. Track device usage *)
       incrementLoginCount deviceId;;
       trackDeviceUser deviceId (user_id user);;
       storeLocationHistory (user_id user) ipAddress deviceId;;
       (* 9 - 12. Sessions *)
       est ← establishSession user deviceId ipAddress
               (headers req !! "user-agent") (score trustScore)
               (currentLocation geoCheck);
       let '(tok, activeSessions, maxSessions) := est in
       respond 200
         (SuccessBody tok deviceId (score trustScore) (level trustScore)
            (Z.of_nat (length activeSessions) + 1) maxSessions metadata) in
     match looked with
     | None =>
         let alertContext := with_isNewDevice alertContext true in
         evaluateRules alertContext;;
         if score trustScore <? 60 then
           issueOtp user;;
           respond 200 (NewDeviceOtpBody (score trustScore) (level trustScore))
         else
           created ← Device_create (user_id user) deviceId
                       (headers req !! "user-agent") ipAddress true;
           continue alertContext created
     | Some dev => continue alertContext dev
     end
     end)
    (fun err => respond 500 (LoginFailedBody "Login failed" (exn_message err))).

(* ===================================================================== *)
(** ** The earlier auth controller (MongoDB sessions only) *)
(* ===================================================================== *)

Module Legacy.

(** Its [getMaxSessions] has no final [return]: any other plan yields
    [undefined], here [None]. *)
Definition getMaxSessions (plan : string) : option Z :=
  if String.eqb plan "BASIC" then Some 1
  else if String.eqb plan "STANDARD" then Some 2
  else if String.eqb plan "PREMIUM" then Some 4
  else None.

(** [userAgent + ip] where the header may be absent. *)
Definition deviceId_of_request `{Platform} (req : Request) : string :=
  generateDeviceId (show_undef (headers req !! "user-agent")) (request_ip req).

(** [Session.find({ userId, isActive: true }).sort({ createdAt: 1 })]:
    the documents with their position in the collection. *)
Definition activeSessionsOf (userId : string) (l : list MongoSession)
  : list (nat * MongoSession) :=
  sort_by (fun a b => ms_createdAt (snd a) <=? ms_createdAt (snd b))
    (List.filter (fun p => String.eqb (ms_userId (snd p)) userId
                           && ms_isActive (snd p))
       (combine (seq 0 (length l)) l)).

Fixpoint deactivate_at (i : nat) (l : list MongoSession) : list MongoSession :=
  match l, i with
  | [], _ => []
  | x :: l', O => deactivate x :: l'
  | x :: l', S i' => x :: deactivate_at i' l'
  end.

Inductive LegacyBody :=
| LegacyError (error : string)
| LegacySuccess (token deviceId : string).

Definition login `{Platform} (req : Request) : M (Z * LegacyBody) :=
  found ← User_findOne (body_email req);
  match found with
  | None => mret (400, LegacyError "Invalid credentials")
  | Some user =>
  if negb (bcrypt_compare (body_password req) (user_password user))
  then mret (400, LegacyError "Invalid credentials")
  else
  let userAgent := headers req !! "user-agent" in
  let ipAddress := request_ip req in
  let deviceId := deviceId_of_request req in
  device ← Device_findOne (user_id user) deviceId;
  match device with
  | None =>
      Device_create (user_id user) deviceId userAgent ipAddress true;;
      mret tt
  | Some d =>
      now ← Date_now;
      Device_save (with_lastLogin d now)
  end;;
  w ← get_world;
  let activeSessions := activeSessionsOf (user_id user) (mongoSessions w) in
  let maxSessions := getMaxSessions (user_plan user) in
  (if ge_undef (Some (Z.of_nat (length activeSessions))) maxSessions then
     match activeSessions with
     | oldestSession :: _ =>
         modify_world (fun w =>
           set_mongoSessions
             (deactivate_at (fst oldestSession) (mongoSessions w)) w)
     | [] =>
         throw (TypeError
           "Cannot set properties of undefined (setting 'isActive')")
     end
   else mret tt);;
  now ← Date_now;
  let tok := jwt_sign (user_id user) deviceId "" now in
  Session_create (user_id user) deviceId tok;;
  mret (200, LegacySuccess tok deviceId)
  end.

End Legacy.

(* ===================================================================== *)
(** ** What the specification text says, for comparison *)
(* ===================================================================== *)

(** The automation tokens as the specification enumerates them. *)
Definition spec_automationTokens : list string :=
  [ "headless"; "phantom"; "selenium"; "webdriver"; "puppeteer"; "playwright" ].

(** The spoofing risk as a closed sum over a given token list: +30 for an
    absent or short user agent, +50 per token present, +25 for a platform
    inconsistent with the operating system, +40 without any client-side
    signal; capped at 100. *)
Definition b2z (b : bool) : Z := if b then 1 else 0.

(** The characters of a value that is a string. *)
Definition text (v : JValue) : string :=
  match v with JStr s => s | _ => "" end.

Definition is_text (v : JValue) : bool :=
  match v with JStr _ => true | _ => false end.

Definition raw_risk (tokens : list string) (c : Components) : Z :=
  30 * b2z (negb (js_truthy (c K_userAgent))
            || (strlen (text (c K_userAgent)) <? 20))
  + 50 * Z.of_nat (length (List.filter
                             (includes (toLowerCase (text (c K_userAgent))))
                             tokens))
  + 25 * b2z (js_truthy (c K_platform) && js_truthy (c K_os)
              && platform_os_mismatch (toLowerCase (text (c K_platform)))
                                      (toLowerCase (text (c K_os))))
  + 40 * b2z (negb (js_truthy (c K_canvas)) && negb (js_truthy (c K_webgl))
              && negb (js_truthy (c K_fonts))).

Definition spec_riskScore (c : Components) : Z :=
  Z.min 100 (raw_risk spec_automationTokens c).

(** The risk tiers of the geo detector as the specification lists them. *)
Definition spec_geoRisk (impossible : bool) (distance : R) (elapsed : Z)
  (countryChanged : bool) : Z :=
  if impossible then 95
  else if Rltb 3000 distance && (elapsed <? 3600000) then 75
  else if countryChanged then 40
  else if Rltb 100 distance then 20
  else 0.

(* ===================================================================== *)
(** ** A concrete platform and worlds for running scenarios *)
(* ===================================================================== *)

Definition delhi : GeoInfo :=
  {| gi_country := "IN"; gi_city := "Delhi"; gi_lat := 28.70; gi_lon := 77.10 |}.

Definition newYork : GeoInfo :=
  {| gi_country := "US"; gi_city := "New York";
     gi_lat := 40.71; gi_lon := -74.01 |}.

(** Stand-ins for the libraries: the hash is the identity (so it is
    collision-free), a password hashes to itself behind a prefix, two
    addresses resolve, every other lookup is [null]. *)
#[local] Instance scenarioPlatform : Platform :=
  {| sha256_hex := fun s => s;
     uaParse := fun _ =>
       {| ua_browser_name := Some "Chrome"; ua_browser_version := Some "120.0";
          ua_engine_name := Some "Blink"; ua_os_name := Some "Windows";
          ua_os_version := Some "10"; ua_device_type := None;
          ua_device_vendor := None; ua_device_model := None;
          ua_cpu_architecture := Some "amd64" |};
     bcrypt_compare := fun pw hash => String.eqb ("bcrypt:" +:+ pw) hash;
     jwt_sign := fun u d e t => "jwt." +:+ u +:+ "." +:+ pretty t;
     geoip_lookup := fun ip =>
       if String.eqb ip "49.36.0.1" then Some delhi
       else if String.eqb ip "8.8.4.4" then Some newYork
       else None;
     generateOTP := fun _ => "493817" |}.

Definition alice : User :=
  {| user_id := "64b7f0c2a1"; user_email := "alice@example.com";
     user_password := "bcrypt:correct horse"; user_plan := "STANDARD";
     user_otp := None; user_otpExpiry := None |}.

(** A browser request from an address the geo database does not know. *)
Definition aliceRequest : Request :=
  {| headers :=
       <["user-agent" :=
           "Mozilla/5.0 (Windows NT 10.0; Win64; x64) Chrome/120.0"]>
       (<["accept-language" := "en-US"]> ∅);
     remoteAddress := "203.0.113.7";
     body_email := "alice@example.com";
     body_password := "correct horse";
     body_fingerprint :=
       JObj 1 [("canvas", JStr "c4f1"); ("platform", JStr "Win32")] |}.

Definition t0 : Z := 1700000000000.

(** The fingerprint of that request, taken at [t0]. *)
Definition aliceFingerprint : Fingerprint :=
  match generateEnhancedFingerprint t0 aliceRequest
          (body_fingerprint aliceRequest) with
  | Ok fp => fp
  | Throw _ =>
      {| fp_deviceId := ""; fp_components := fun _ => JUndefined;
         fp_metadata := {| browserInfo := ""; osInfo := ""; deviceInfo := "";
                           fp_timestamp := t0 |} |}
  end.

Definition aliceDeviceId : string := fp_deviceId aliceFingerprint.

(** Its assessment: nothing suspicious. *)
Definition aliceAssessment : SpoofAssessment :=
  {| isSuspicious := false; spoof_riskScore := 0; warnings := [] |}.

(** Alice on the STANDARD plan, on a device first seen 100 days ago with
    20 recorded logins (trust 50 + 10 + 12 = 72), holding one active
    session from another device. *)
Definition aliceWorld : World :=
  {| users := [alice];
     devices :=
       [{| dev_userId := "64b7f0c2a1"; dev_deviceId := aliceDeviceId;
           dev_userAgent := None; dev_ipAddress := "203.0.113.7";
           dev_trusted := true; dev_lastLogin := t0 - day_ms;
           dev_createdAt := t0 - 100 * day_ms |}];
     mongoSessions := [];
     redis :=
       <["device:" +:+ aliceDeviceId +:+ ":login_count" :=
           {| expiresAt := None; value := VInt 20 |}]>
       (<[session_key "64b7f0c2a1" "tv-livingroom" :=
            {| expiresAt := Some (t0 + 3600000);
               value := VSession
                 {| token := "jwt.old"; s_deviceId := "tv-livingroom";
                    s_userId := "64b7f0c2a1"; createdAt := t0 - 82800000;
                    lastActivity := t0 - 60000; s_ipAddress := None;
                    s_userAgent := None; s_trustScore := None;
                    s_location := None |} |}]>
        (<[user_sessions_key "64b7f0c2a1" :=
             {| expiresAt := None; value := VSet ["tv-livingroom"] |}]> ∅));
     clock := t0;
     localHour := 14;
     faults := [];
     trace := [] |}.

(* ===================================================================== *)
(** ** Vocabulary of the properties *)
(* ===================================================================== *)

(** What [getSession] reads: the live session under the key. *)
Definition session_at (now : Z) (db : gmap string Entry) (userId deviceId : string)
  : option SessionData :=
  match db_get now db (session_key userId deviceId) with
  | Some (VSession s) => Some s
  | _ => None
  end.

(** [safe m]: from a world without scripted faults [m] returns normally,
    and leaves none behind. *)
Definition safe {A : Type} (m : M A) : Prop :=
  forall w, faults w = [] -> exists a w', m w = (Ok a, w') /\ faults w' = [].

(** Steps 2 and 3 of the login handler return on [req] in the world [w]:
    [fp] is the fingerprint and [check] the assessment of its components. *)
Definition assessed `{Platform} (req : Request) (w : World)
  (fp : Fingerprint) (check : SpoofAssessment) : Prop :=
  generateEnhancedFingerprint (clock w) req (body_fingerprint req) = Ok fp /\
  detectSpoofing (fp_components fp) = Ok check.

Definition credentials_valid `{Platform} (req : Request) (w : World) (user : User) : Prop :=
  List.find (fun u => String.eqb (user_email u) (body_email req)) (users w) = Some user /\
  bcrypt_compare (body_password req) (user_password user) = true.




(** [detectSpoofing] can assess the components: the user agent is a
    string, and so are the platform and the operating system when both
    are truthy. *)
Definition assessable (c : Components) : bool :=
  is_text (c K_userAgent)
  && (negb (js_truthy (c K_platform) && js_truthy (c K_os))
      || (is_text (c K_platform) && is_text (c K_os))).

(** The next Redis command is scripted to fail. *)
Definition next_command_fails (w : World) : bool :=
  match faults w with
  | true :: _ => true
  | _ => false
  end.

(** The suspension of [userId] is in force: what [checkUserBlocked] finds. *)
Definition suspended (w : World) (userId : string) : Prop :=
  db_get (clock w) (redis w) ("blocked:" +:+ userId) = Some (VStr "1").

(** Handlers whose every response satisfies [P]. *)
Definition responds_only (P : Response -> Prop) (m : M Response) : Prop :=
  forall w r w', m w = (Ok r, w') -> P r.

(** [total m]: whatever the Redis faults, [m] returns normally. *)
Definition total {A : Type} (m : M A) : Prop :=
  forall w, exists a w', m w = (Ok a, w').

Definition is_session_key (k : string) : bool := String.prefix "session:" k.

(** [extends P w w']: from [w] to [w'] no MongoDB document and no Redis
    session entry changed, and the trace grew by events that satisfy [P]. *)
Definition extends (P : Event -> Prop) (w w' : World) : Prop :=
  users w' = users w /\ devices w' = devices w /\
  mongoSessions w' = mongoSessions w /\
  (forall k, is_session_key k = true -> redis w' !! k = redis w !! k) /\
  (faults w = [] -> faults w' = []) /\
  exists evs, trace w' = (trace w ++ evs)%list /\ Forall P evs.

(** [frame P m]: every run of [m], failed or not, only [extends P]. *)
Definition frame {A : Type} (P : Event -> Prop) (m : M A) : Prop :=
  forall w r w', m w = (r, w') -> extends P w w'.

(** The effect [f] of a command changes no key but [k]. *)
Definition only_changes {A : Type} (k : string)
  (f : Z -> gmap string Entry -> A * gmap string Entry) : Prop :=
  forall now db k', k' <> k -> snd (f now db) !! k' = db !! k'.

Definition is_redis (e : Event) : Prop :=
  match e with Redis _ => True | _ => False end.

(** The location the detector builds for the current request. *)
Definition location_now (geo : GeoInfo) (now : Z) : Location :=
  {| loc_country := gi_country geo; loc_city := gi_city geo;
     loc_lat := gi_lat geo; loc_lon := gi_lon geo; loc_timestamp := now |}.




(** [head_least key l]: the first element of [l], if any, has a least key. *)
Definition head_least {A : Type} (key : A -> Z) (l : list A) : Prop :=
  match l with
  | [] => True
  | x :: _ => forall y, In y l -> key x <= key y
  end.

(** [same_but k w w']: from [w] to [w'] only the trace and the Redis entry
    under [k] may have changed. *)
Definition same_but (k : string) (w w' : World) : Prop :=
  users w' = users w /\ devices w' = devices w /\
  mongoSessions w' = mongoSessions w /\ clock w' = clock w /\
  localHour w' = localHour w /\ faults w' = faults w /\
  forall k', k' <> k -> redis w' !! k' = redis w !! k'.

(** The live sessions of [u] among the device ids [ids], in that order. *)
Fixpoint live_sessions (now : Z) (db : gmap string Entry) (u : string)
  (ids : list string) : list SessionData :=
  match ids with
  | [] => []
  | d :: rest =>
      match session_at now db u d with
      | Some s => s :: live_sessions now db u rest
      | None => live_sessions now db u rest
      end
  end.

(** The active sessions [getUserSessions] returns: the live ones among the
    indexed device ids, oldest first. *)
Definition active_sessions (now : Z) (db : gmap string Entry) (u : string)
  : list SessionData :=
  sort_by createdAt_le
    (live_sessions now db u (db_members now db (user_sessions_key u))).

(** [redis_step K w w']: the clock and the fault script are those of [w],
    and Redis differs at most under the keys of [K]. *)
Definition redis_step (K : list string) (w w' : World) : Prop :=
  clock w' = clock w /\ faults w' = faults w /\
  forall k, ~ In k K -> redis w' !! k = redis w !! k.

Definition new_session (u d tok : string) (md : Metadata) (now : Z) : SessionData :=
  {| token := tok; s_deviceId := d; s_userId := u;
     createdAt := now; lastActivity := now;
     s_ipAddress := md_ipAddress md; s_userAgent := md_userAgent md;
     s_trustScore := md_trustScore md; s_location := md_location md |}.

(** The device whose session [enforceSessionLimit] deletes, if any. *)
Definition evicted (maxSessions : Z) (active : list SessionData) : option string :=
  if maxSessions <=? Z.of_nat (length active)
  then s_deviceId <$> head active
  else None.

Definition evicted_keys (u : string) (e : option string) : list string :=
  match e with
  | Some d => [session_key u d; user_sessions_key u]
  | None => []
  end.

(** The metadata [login] stores with the session. *)
Definition login_metadata (ip : string) (ua : option string) (trust : Z)
  (loc : option Location) : Metadata :=
  {| md_ipAddress := Some ip; md_userAgent := ua;
     md_trustScore := Some trust; md_location := loc |}.

(** The body of the [try] of one loop iteration of [evaluateRules]. *)
Definition rule_attempt (rule : Rule) (context : Context) (triggered : list Alert)
  : M (list Alert) :=
  holds ← condition rule context;
  if holds : bool then
    msg ← rule_message rule context;
    now ← Date_now;
    let alert :=
      {| ruleId := rule_id rule; ruleName := rule_name rule;
         severity := rule_severity rule; message := msg;
         alert_timestamp := now;
         alert_context :=
           {| ac_userId := ctx_userId context;
              ac_email := ctx_email context;
              ac_deviceId := ctx_deviceId context;
              ac_ipAddress := ctx_ipAddress context;
              ac_location := ctx_location context |} |} in
    executeActions (actions rule) alert context;;
    storeAlert alert;;
    mret (triggered ++ [alert])%list
  else mret triggered.

Definition geoAlertAt (context : Context) (r : GeoReason) (now : Z) : Alert :=
  {| ruleId := "geo_impossibility";
     ruleName := "Geographic Impossibility Detected";
     severity := "CRITICAL";
     message := MsgGeoImpossibility (ctx_email context) r;
     alert_timestamp := now;
     alert_context :=
       {| ac_userId := ctx_userId context; ac_email := ctx_email context;
          ac_deviceId := ctx_deviceId context;
          ac_ipAddress := ctx_ipAddress context;
          ac_location := ctx_location context |} |}.

(** Events that are neither a session deletion nor a dispatch for the
    geo-impossibility alert. *)
Definition quiet (e : Event) : Prop :=
  match e with
  | Redis (DEL _) => False
  | EmailAlert a | SlackAlert a => ruleId a <> "geo_impossibility"
  | _ => True
  end.

(** A rule other than geo-impossibility that never blocks a session and
    whose condition and message do not act on the world. *)
Definition rule_quiet (rule : Rule) : Prop :=
  rule_id rule <> "geo_impossibility" /\
  forallb (fun a => negb (String.eqb a "block_session")) (actions rule) = true /\
  (forall ctx, frame quiet (condition rule ctx)) /\
  (forall ctx, frame quiet (rule_message rule ctx)).

(* ===================================================================== *)
(** ** Further scenarios *)
(* ===================================================================== *)

(** A device with six failed attempts, three accounts and a private
    address, at three in the morning: every penalty the address allows,
    a raw sum of 50 - 30 - 10 - 25 - 15 = -30. *)
Definition penalisedWorld : World :=
  {| users := []; devices := []; mongoSessions := [];
     redis :=
       <["device:dev-x:failed_attempts" :=
           {| expiresAt := None; value := VInt 6 |}]>
       (<["device:dev-x:users" :=
            {| expiresAt := None; value := VSet ["u1"; "u2"; "u3"] |}]> ∅);
     clock := t0; localHour := 3; faults := []; trace := [] |}.

(** A script that announces itself: a user agent naming two automation
    tools, and no client-side signal. *)
Definition botRequest : Request :=
  {| headers := <["user-agent" := "HeadlessChrome selenium"]> ∅;
     remoteAddress := "203.0.113.9";
     body_email := "alice@example.com";
     body_password := "correct horse";
     body_fingerprint := JUndefined |}.

(** The fingerprint of that request, and its assessment: 50 + 50 for the
    two tools and 40 for the missing client signals, capped. *)
Definition botFingerprint : Fingerprint :=
  match generateEnhancedFingerprint t0 botRequest
          (body_fingerprint botRequest) with
  | Ok fp => fp
  | Throw _ => aliceFingerprint
  end.

Definition botAssessment : SpoofAssessment :=
  {| isSuspicious := true; spoof_riskScore := 100;
     warnings := [ "Automation detected: headless";
                   "Automation detected: selenium";
                   "No client-side fingerprint provided" ] |}.

(** The same script sending [null] for its fingerprint, and sending a
    number for its platform. *)
Definition nullFingerprintRequest : Request :=
  {| headers := headers botRequest; remoteAddress := remoteAddress botRequest;
     body_email := body_email botRequest;
     body_password := body_password botRequest;
     body_fingerprint := JNull |}.

Definition numericPlatformRequest : Request :=
  {| headers := headers botRequest; remoteAddress := remoteAddress botRequest;
     body_email := body_email botRequest;
     body_password := body_password botRequest;
     body_fingerprint := JObj 8 [("platform", JNum "1")] |}.

(** A user agent that is just the word "automation". *)
Definition automationOnly : Components :=
  fun k => match k with K_userAgent => JStr "automation" | _ => JStr "" end.






(** A world whose only content is Delhi as the last location of user
    "u-42", recorded two hours before the clock. *)
Definition travellerWorld : World :=
  {| users := []; devices := []; mongoSessions := [];
     redis :=
       <[last_location_key "u-42" :=
           {| expiresAt := Some (t0 + 86400000);
              value := VLocation (location_now delhi (t0 - 7200000)) |}]> ∅;
     clock := t0; localHour := 14; faults := []; trace := [] |}.

(** A household account on the BASIC plan, without any session. *)
Definition bob : User :=
  {| user_id := "77aa01"; user_email := "bob@example.com";
     user_password := "bcrypt:hunter2"; user_plan := "BASIC";
     user_otp := None; user_otpExpiry := None |}.

Definition bobWorld : World :=
  {| users := [bob]; devices := []; mongoSessions := []; redis := ∅;
     clock := t0; localHour := 20; faults := []; trace := [] |}.

(** Bob's television holds the one session his plan allows, opened by
    [createSession] an hour before the clock. *)
Definition bobAtHome : World :=
  set_clock t0
    (snd (createSession "77aa01" "living-room-tv" "jwt.tv"
            {| md_ipAddress := Some "198.51.100.23"; md_userAgent := None;
               md_trustScore := Some 70; md_location := None |}
            (set_clock (t0 - 3600000) bobWorld))).

(** He logs in on his phone: right password, an ordinary browser with a
    canvas print, an address the geo database does not know. *)
Definition bobPhoneRequest : Request :=
  {| headers :=
       <["user-agent" :=
           "Mozilla/5.0 (iPhone; CPU iPhone OS 17_0 like Mac OS X) Safari/604.1"]>
       ∅;
     remoteAddress := "198.51.100.77";
     body_email := "bob@example.com";
     body_password := "hunter2";
     body_fingerprint := JObj 7 [("canvas", JStr "77e0")] |}.

Definition bobPhoneAssessment : SpoofAssessment :=
  {| isSuspicious := false; spoof_riskScore := 0; warnings := [] |}.

Definition bobPhoneFingerprint : Fingerprint :=
  match generateEnhancedFingerprint t0 bobPhoneRequest
          (body_fingerprint bobPhoneRequest) with
  | Ok fp => fp
  | Throw _ => aliceFingerprint
  end.

(** A context with an impossible journey, and a Redis that fails on the
    first command it is sent (the [DEL] of the session block). *)
Definition impossibleContext : Context :=
  {| ctx_userId := "64b7f0c2a1"; ctx_email := "alice@example.com";
     ctx_deviceId := "tv-livingroom"; ctx_ipAddress := "8.8.4.4";
     ctx_geoCheck :=
       Some {| isImpossible := true; reason := SuspiciousLongDistance;
               geo_riskScore := 95; currentLocation := None;
               lastLocation := None; geo_distance := None;
               geo_timeDiff := None |};
     ctx_trustScore := 50; ctx_location := None; ctx_isNewDevice := false;
     ctx_deviceUserCount := None; ctx_failedAttempts := None;
     ctx_activeSessions := None; ctx_maxSessions := None; ctx_isVPN := None;
     ctx_locationChangeCount := None; ctx_passwordChanged := None |}.

Definition faultyWorld : World :=
  mkWorld (users aliceWorld) (devices aliceWorld) (mongoSessions aliceWorld)
    (redis aliceWorld) (clock aliceWorld) (localHour aliceWorld) [true] [].

(* ===================================================================== *)
(** ** Fingerprint quality and comparison (utils/enhancedFingerprint) *)
(* ===================================================================== *)

(** [calculateStabilityScore(components)]. *)
Definition calculateStabilityScore (components : Components) : Z :=
  let score := 0 in
  let score := if js_truthy (components K_canvas) then score + 20 else score in
  let score := if js_truthy (components K_webgl) then score + 20 else score in
  let score := if js_truthy (components K_fonts) then score + 15 else score in
  let score := if js_truthy (components K_audioContext) then score + 10 else score in
  let score :=
    if js_truthy (components K_browser) && js_truthy (components K_browserVersion)
    then score + 10 else score in
  let score :=
    if js_truthy (components K_os) && js_truthy (components K_osVersion)
    then score + 10 else score in
  let score :=
    if js_truthy (components K_screenResolution) then score + 10 else score in
  let score :=
    if js_truthy (components K_hardwareConcurrency) then score + 5 else score in
  Z.min 100 score.

Definition criticalKeys : list ComponentKey :=
  [ K_browser; K_os; K_deviceType; K_screenResolution;
    K_canvas; K_webgl; K_hardwareConcurrency ].

Record FieldChange := {
  field : string;
  oldValue : JValue;
  newValue : JValue
}.

Record FingerprintComparison := {
  hasChanges : bool;
  changes : list FieldChange;
  changeCount : Z;
  suspicionLevel : string
}.

(** One iteration of the loop of [compareFingerprints] over
    [criticalKeys]. *)
Definition compare_key (oldComponents newComponents : Components)
  (changes : list FieldChange) (key : ComponentKey) : list FieldChange :=
  if js_truthy (oldComponents key) && js_truthy (newComponents key)
     && negb (strict_eq (oldComponents key) (newComponents key))
  then (changes ++ [{| field := key_name key;
                       oldValue := oldComponents key;
                       newValue := newComponents key |}])%list
  else changes.

(** [compareFingerprints(oldComponents, newComponents)]. *)
Definition compareFingerprints (oldComponents newComponents : Components)
  : FingerprintComparison :=
  let changes :=
    fold_left (compare_key oldComponents newComponents) criticalKeys [] in
  let n := Z.of_nat (length changes) in
  {| hasChanges := 0 <? n;
     changes := changes;
     changeCount := n;
     suspicionLevel :=
       if 3 <=? n then "HIGH" else if 1 <=? n then "MEDIUM" else "LOW" |}.

(* ===================================================================== *)
(** ** Rate-limit store and suspension check (middleware/rateLimiter.js) *)
(* ===================================================================== *)

(** What [RedisStore.increment] returns; [resetTime] in milliseconds. *)
Record Hit := {
  totalHits : Z;
  resetTime : Z
}.

(** [increment(key)] of a [RedisStore] built with [prefix]. *)
Definition RedisStore_increment (prefix key : string) : M Hit :=
  let fullKey := prefix +:+ key in
  current ← redis_incr fullKey;
  (if current =? 1 then redis_expire fullKey 900 else mret tt);;
  now ← Date_now;
  mret {| totalHits := current; resetTime := now + 900000 |}.

(** [resetKey(key)]. *)
Definition RedisStore_resetKey (prefix key : string) : M unit :=
  redis_del (prefix +:+ key).

(** [req.user], as the auth middleware sets it; the handlers also read
    [req.user.plan], which may be absent. *)
Record AuthUser := {
  au_userId : string;
  au_deviceId : string;
  au_email : option string;
  au_plan : option string
}.

(** One session in the reply of [getSessions]. *)
Record SessionView := {
  sv_deviceId : string;
  sv_createdAt : Z;
  sv_lastActivity : Z;
  sv_ipAddress : option string;
  sv_userAgent : option string;
  sv_trustScore : option Z;
  sv_location : option Location;
  sv_isCurrent : bool;
  sv_deviceInfo : option (bool * Z)         (* trusted, firstSeen *)
}.

(** The JSON bodies of the middleware and of the session endpoints. *)
Inductive Json :=
| JError (error : string)
| JErrorMessage (error message : string)
| JMessage (message : string)
| JMessageDevice (message deviceId : string)
| JSessions (sessions : list SessionView) (total maxAllowed : Z)
| JBlocked (message userId : string) (duration expiresAt : Z)
| JTerminated (message userId deviceId : string).

Record Reply := {
  reply_status : Z;
  reply_body : Json
}.

(** A middleware either answers or calls [next()], here with what it has
    attached to the request. *)
Inductive Outcome (A : Type) :=
| Next (a : A)
| Done (r : Reply).
Arguments Next {A} a.
Arguments Done {A} r.

Definition answer {A : Type} (st : Z) (b : Json) : M (Outcome A) :=
  mret (Done {| reply_status := st; reply_body := b |}).

(** [checkBlockedMiddleware]; [email] is [req.body.email] (empty when
    absent) and [user] is [req.user]. A user id found in the collection is
    an ObjectId, which is truthy. *)
Definition checkBlockedMiddleware (email : string) (user : option AuthUser)
  : M (Outcome unit) :=
  let reqUserId := au_userId <$> user in
  let given := match reqUserId with Some id => truthy id | None => false end in
  if negb (truthy email) && negb given then mret (Next tt)
  else
    userId ←
      (if truthy email then
         found ← User_findOne email;
         mret (user_id <$> found)
       else mret reqUserId);
    match userId with
    | Some id =>
        blocked ← checkUserBlocked id;
        if blocked : bool then
          answer 403
            (JErrorMessage "Account temporarily suspended"
               "Your account has been temporarily suspended due to suspicious activity. Please try again later or contact support.")
        else mret (Next tt)
    | None => mret (Next tt)
    end.

(* ===================================================================== *)
(** ** The auth middleware (middleware/authMiddleware) *)
(* ===================================================================== *)

(** [s.split(" ")]. *)
Fixpoint split_space (s : string) : list string :=
  match s with
  | EmptyString => [""]
  | String c s' =>
      match split_space s' with
      | piece :: rest =>
          if Ascii.eqb c " " then "" :: piece :: rest
          else String c piece :: rest
      | [] => [String c ""]
      end
  end.

(** The payload of a token of this service. *)
Record Claims := {
  claim_userId : string;
  claim_deviceId : string;
  claim_email : option string
}.

(** [jwt.verify(token, secret)] at a given time: the payload, or the
    error it throws. *)
Inductive Verdict :=
| Verified (decoded : Claims)
| TokenExpiredError
| JsonWebTokenError.

Class TokenVerifier := {
  jwt_verify : string -> Z -> Verdict
}.

Definition authMiddleware `{TokenVerifier} (req : Request) : M (Outcome AuthUser) :=
  try_catch
    (match headers req !! "authorization" with
     | None => answer 401 (JError "No token provided")
     | Some authHeader =>
     if negb (truthy authHeader) then answer 401 (JError "No token provided")
     else
     match nth_error (split_space authHeader) 1 with
     | None => answer 401 (JError "Invalid token format")
     | Some tok =>
     if negb (truthy tok) then answer 401 (JError "Invalid token format")
     else
     now ← Date_now;
     match jwt_verify tok now with
     | TokenExpiredError =>
         answer 401
           (JErrorMessage "Token expired"
              "Your session has expired. Please login again.")
     | JsonWebTokenError => answer 401 (JError "Invalid token")
     | Verified decoded =>
         isBlocked ← checkUserBlocked (claim_userId decoded);
         if isBlocked : bool then
           answer 403
             (JErrorMessage "Account suspended"
                "Your account has been temporarily suspended due to suspicious activity.")
         else
           isValid ← validateSession (claim_userId decoded)
                       (claim_deviceId decoded) tok;
           if negb isValid then
             answer 401
               (JErrorMessage "Session expired or logged out"
                  "Your session is no longer active. Please login again.")
           else
             updateActivity (claim_userId decoded) (claim_deviceId decoded);;
             mret (Next {| au_userId := claim_userId decoded;
                           au_deviceId := claim_deviceId decoded;
                           au_email := claim_email decoded;
                           au_plan := None |})
     end
     end
     end)
    (fun err =>
       emitM (ConsoleError "Auth middleware error:" err);;
       answer 500
         (JErrorMessage "Authentication failed"
            "An error occurred during authentication.")).

(* ===================================================================== *)
(** ** The session endpoints of the auth controller *)
(* ===================================================================== *)

Definition reply (st : Z) (b : Json) : M Reply :=
  mret {| reply_status := st; reply_body := b |}.

(** [Session.updateOne({ userId, deviceId, isActive: true },
    { isActive: false })] *)
Definition Session_deactivateActiveOne (userId deviceId : string) : M unit :=
  modify_world (fun w =>
    set_mongoSessions
      (update_first (fun s => String.eqb (ms_userId s) userId
                              && String.eqb (ms_deviceId s) deviceId
                              && ms_isActive s)
         (mongoSessions w)) w).

(** [exports.logout] *)
Definition logout (user : AuthUser) : M Reply :=
  try_catch
    (deleteSession (au_userId user) (au_deviceId user);;
     Session_deactivateActiveOne (au_userId user) (au_deviceId user);;
     reply 200 (JMessage "Logged out successfully"))
    (fun err =>
       emitM (ConsoleError "Logout error:" err);;
       reply 500 (JError "Logout failed")).

(** [exports.terminateSession]; [deviceId] is [req.params.deviceId]. *)
Definition terminateSession (user : AuthUser) (deviceId : option string)
  : M Reply :=
  try_catch
    (match deviceId with
     | None => reply 400 (JError "Device ID required")
     | Some d =>
         if negb (truthy d) then reply 400 (JError "Device ID required")
         else if String.eqb d (au_deviceId user) then
           reply 400
             (JError "Cannot terminate current session. Use logout instead.")
         else
           deleteSession (au_userId user) d;;
           Session_deactivateOne (au_userId user) d;;
           reply 200 (JMessageDevice "Session terminated successfully" d)
     end)
    (fun err =>
       emitM (ConsoleError "Terminate session error:" err);;
       reply 500 (JError "Failed to terminate session")).

(** [arr.map(async f)] under [Promise.all], for an [f] that only reads. *)
Fixpoint mapM {A B : Type} (f : A -> M B) (l : list A) : M (list B) :=
  match l with
  | [] => mret []
  | x :: rest =>
      y ← f x;
      ys ← mapM f rest;
      mret (y :: ys)
  end.

(** The enriched entry [getSessions] builds for one session. *)
Definition enrich (user : AuthUser) (session : SessionData) : M SessionView :=
  device ← Device_findOne (au_userId user) (s_deviceId session);
  mret {| sv_deviceId := s_deviceId session;
          sv_createdAt := createdAt session;
          sv_lastActivity := lastActivity session;
          sv_ipAddress := s_ipAddress session;
          sv_userAgent := s_userAgent session;
          sv_trustScore := s_trustScore session;
          sv_location := s_location session;
          sv_isCurrent := String.eqb (s_deviceId session) (au_deviceId user);
          sv_deviceInfo :=
            (fun d => (dev_trusted d, dev_createdAt d)) <$> device |}.

(** [exports.getSessions] *)
Definition getSessions (user : AuthUser) : M Reply :=
  try_catch
    (sessions ← getUserSessions (au_userId user);
     enrichedSessions ← mapM (enrich user) sessions;
     reply 200
       (JSessions enrichedSessions (Z.of_nat (length enrichedSessions))
          (getMaxSessions (or_default (au_plan user) "BASIC"))))
    (fun err =>
       emitM (ConsoleError "Get sessions error:" err);;
       reply 500 (JError "Failed to fetch sessions")).

(* ===================================================================== *)
(** ** Admin routes (routes/adminRoutes.js) *)
(* ===================================================================== *)

(** The loop of the block route over the user's sessions. *)
Fixpoint terminate_all (userId : string) (sessions : list SessionData) : M unit :=
  match sessions with
  | [] => mret tt
  | session :: rest =>
      deleteSession userId (s_deviceId session);;
      terminate_all userId rest
  end.

(** The handler of [POST /users/block]; [duration] is [req.body.duration],
    3600 when absent. *)
Definition admin_block (userId : string) (duration : option Z) : M Reply :=
  let duration := match duration with Some d => d | None => 3600 end in
  try_catch
    (redis_setex ("blocked:" +:+ userId) duration (VStr "1");;
     sessions ← getUserSessions userId;
     terminate_all userId sessions;;
     now ← Date_now;
     reply 200 (JBlocked "User blocked" userId duration (now + duration * 1000)))
    (fun err => reply 500 (JError (exn_message err))).

(** The handler of [POST /sessions/terminate]. *)
Definition admin_terminate (userId deviceId : string) : M Reply :=
  try_catch
    (deleteSession userId deviceId;;
     Session_deactivateOne userId deviceId;;
     reply 200 (JTerminated "Session terminated" userId deviceId))
    (fun err => reply 500 (JError (exn_message err))).

(* ===================================================================== *)
(** ** The protected route (routes/protectedRoutes.js) *)
(* ===================================================================== *)

(** [Session.findOne({ userId, token, deviceId, isActive: true })] *)
Definition Session_findOneActive (userId tok deviceId : string)
  : M (option MongoSession) :=
  fun w =>
    (Ok (List.find (fun s => String.eqb (ms_userId s) userId
                             && String.eqb (ms_token s) tok
                             && String.eqb (ms_deviceId s) deviceId
                             && ms_isActive s) (mongoSessions w)), w).

(** [verifySession]: the token is [req.headers.authorization?.split(" ")[1]];
    an error thrown by [jwt.verify] lands in the [catch], which answers
    "Invalid token". *)
Definition verifySession `{TokenVerifier} (req : Request) : M (Outcome Claims) :=
  match headers req !! "authorization" ≫= (fun h => nth_error (split_space h) 1) with
  | None => answer 401 (JMessage "No token provided")
  | Some tok =>
      if negb (truthy tok) then answer 401 (JMessage "No token provided")
      else
        now ← Date_now;
        match jwt_verify tok now with
        | Verified decoded =>
            session ← Session_findOneActive (claim_userId decoded) tok
                        (claim_deviceId decoded);
            match session with
            | None => answer 401 (JMessage "Session expired")
            | Some _ => mret (Next decoded)
            end
        | TokenExpiredError | JsonWebTokenError =>
            answer 401 (JMessage "Invalid token")
        end
  end.

(* ===================================================================== *)
(** ** Flags of the alert engine (utils/alertRulesEngine.js) *)
(* ===================================================================== *)

(** [clearUserFlag(userId)] *)
Definition clearUserFlag (userId : string) : M unit :=
  redis_srem "flagged_users" userId;;
  redis_del ("user:" +:+ userId +:+ ":flagged").

(** A verifier for the scenarios: it knows the token of Alice's
    television session and one expired token. *)
Definition scenarioVerifier : TokenVerifier :=
  {| jwt_verify := fun tok _ =>
       if String.eqb tok "jwt.old" then
         Verified {| claim_userId := "64b7f0c2a1";
                     claim_deviceId := "tv-livingroom";
                     claim_email := Some "alice@example.com" |}
       else if String.eqb tok "jwt.expired" then TokenExpiredError
       else JsonWebTokenError |}.

(** A request from Alice's television, carrying its bearer token. *)
Definition tvRequest : Request :=
  {| headers := <["authorization" := "Bearer jwt.old"]> ∅;
     remoteAddress := "203.0.113.7";
     body_email := ""; body_password := ""; body_fingerprint := JUndefined |}.

Definition aliceOnTv : AuthUser :=
  {| au_userId := "64b7f0c2a1"; au_deviceId := "tv-livingroom";
     au_email := Some "alice@example.com"; au_plan := None |}.

(** The alert of the VPN rule for Bob, whose actions are email and flag. *)
Definition vpnAlert : Alert :=
  {| ruleId := "vpn_detected"; ruleName := "VPN/Proxy Usage Detected";
     severity := "MEDIUM"; message := MsgVPN "bob@example.com" None;
     alert_timestamp := t0;
     alert_context :=
       {| ac_userId := "77aa01"; ac_email := "bob@example.com";
          ac_deviceId := "bob-laptop"; ac_ipAddress := "198.51.100.23";
          ac_location := None |} |}.

(** A login for Bob's account with a password that is not his. *)
Definition bobWrongPassword : Request :=
  {| headers := ∅; remoteAddress := "198.51.100.23";
     body_email := "bob@example.com"; body_password := "letmein";
     body_fingerprint := JUndefined |}.

(** Alice with the two active sessions her STANDARD plan allows in the
    MongoDB collection, the phone's older than the tablet's. *)
Definition aliceAtLimit : World :=
  set_mongoSessions
    [ {| ms_userId := "64b7f0c2a1"; ms_deviceId := "tablet";
         ms_token := "jwt.tablet"; ms_isActive := true;
         ms_createdAt := t0 - 3600000 |};
      {| ms_userId := "64b7f0c2a1"; ms_deviceId := "phone";
         ms_token := "jwt.phone"; ms_isActive := true;
         ms_createdAt := t0 - 7200000 |} ]
    aliceWorld.

(** Alice back on her television after a logout: the collection holds the
    inactive document of the earlier login before the active one. *)
Definition aliceReturned : World :=
  set_mongoSessions
    [ {| ms_userId := "64b7f0c2a1"; ms_deviceId := "tv-livingroom";
         ms_token := "jwt.older"; ms_isActive := false;
         ms_createdAt := t0 - 172800000 |};
      {| ms_userId := "64b7f0c2a1"; ms_deviceId := "tv-livingroom";
         ms_token := "jwt.old"; ms_isActive := true;
         ms_createdAt := t0 - 82800000 |} ]
    aliceWorld.

(** The findings [detectSpoofing] can add up, as 0 or 1 each, and the
    number of automation tokens found. *)
Definition short_userAgent (c : Components) : bool :=
  negb (js_truthy (c K_userAgent)) || (strlen (text (c K_userAgent)) <? 20).

Definition tokens_found (c : Components) : list string :=
  List.filter (includes (toLowerCase (text (c K_userAgent)))) automationSignals.

Definition platform_mismatch (c : Components) : bool :=
  js_truthy (c K_platform) && js_truthy (c K_os)
  && platform_os_mismatch (toLowerCase (text (c K_platform)))
                          (toLowerCase (text (c K_os))).

Definition no_client_signal (c : Components) : bool :=
  negb (js_truthy (c K_canvas)) && negb (js_truthy (c K_webgl))
  && negb (js_truthy (c K_fonts)).

(** A critical key whose value [compareFingerprints] reports as changed. *)
Definition differs (old new : Components) (k : ComponentKey) : bool :=
  js_truthy (old k) && js_truthy (new k) && negb (strict_eq (old k) (new k)).

Definition change_of (old new : Components) (k : ComponentKey) : FieldChange :=
  {| field := key_name k; oldValue := old k; newValue := new k |}.

(** The world after running [op] at each of the instants [ts] in turn,
    nothing else happening in between. *)
Definition replay {A : Type} (op : M A) (ts : list Z) (w : World) : World :=
  fold_left (fun w t => snd (op (set_clock t w))) ts w.

(** Each instant of [ts] is no earlier than the one before it ([prev] at
    first) and less than [window] milliseconds after it. *)
Fixpoint within (window prev : Z) (ts : list Z) : Prop :=
  match ts with
  | [] => True
  | t :: rest => prev <= t < prev + window /\ within window t rest
  end.

(** The tiers of [getLoginFrequencyScore] and of
    [getFailedAttemptsScore]. *)
Definition frequency_tier (count : Z) : Z :=
  if 50 <=? count then 20
  else if 30 <=? count then 15
  else if 15 <=? count then 10
  else if 5 <=? count then 5
  else 0.

Definition failure_penalty (failures : Z) : Z :=
  if failures =? 0 then 0
  else if failures <=? 2 then -5
  else if failures <=? 5 then -15
  else -30.

Definition sharing_penalty (accounts : nat) : Z :=
  if (accounts <=? 1)%nat then 0
  else if Nat.eqb accounts 2 then -10
  else -25.

(** The world after running [op x] for each [x] of [xs] in turn. *)
Definition run_each {A B : Type} (op : B -> M A) (xs : list B) (w : World)
  : World :=
  fold_left (fun w x => snd (op x w)) xs w.

(** The quantity [a] of [calculateDistance]: the haversine of the central
    angle between the two points. *)
Definition haversine_a (lat1 lon1 lat2 lon2 : R) : R :=
  (sin (toRad (lat2 - lat1) / 2) * sin (toRad (lat2 - lat1) / 2) +
   cos (toRad lat1) * cos (toRad lat2) *
   sin (toRad (lon2 - lon1) / 2) * sin (toRad (lon2 - lon1) / 2))%R.

(** Handlers whose every result satisfies [P]. *)
Definition results_only {A : Type} (P : A -> Prop) (m : M A) : Prop :=
  forall w a w', m w = (Ok a, w') -> P a.

(** The status of an answer of the auth middleware. *)
Definition auth_status {A : Type} (o : Outcome A) : Prop :=
  match o with
  | Next _ => True
  | Done r => reply_status r = 401 \/ reply_status r = 403 \/ reply_status r = 500
  end.

(** The entry of the [getSessions] reply for one session, given the
    device collection. *)
Definition view_of (user : AuthUser) (devs : list Device) (session : SessionData)
  : SessionView :=
  {| sv_deviceId := s_deviceId session;
     sv_createdAt := createdAt session;
     sv_lastActivity := lastActivity session;
     sv_ipAddress := s_ipAddress session;
     sv_userAgent := s_userAgent session;
     sv_trustScore := s_trustScore session;
     sv_location := s_location session;
     sv_isCurrent := String.eqb (s_deviceId session) (au_deviceId user);
     sv_deviceInfo :=
       (fun d => (dev_trusted d, dev_createdAt d))
         <$> List.find (same_device (au_userId user) (s_deviceId session)) devs |}.

(** The user id [checkBlockedMiddleware] looks up, if any. *)
Definition resolved_user (email : string) (user : option AuthUser) (w : World)
  : option string :=
  if truthy email then
    user_id <$> List.find (fun u => String.eqb (user_email u) email) (users w)
  else
    match user with
    | Some a => if truthy (au_userId a) then Some (au_userId a) else None
    | None => None
    end.

Definition suspended_reply : Reply :=
  {| reply_status := 403;
     reply_body :=
       JErrorMessage "Account temporarily suspended"
         "Your account has been temporarily suspended due to suspicious activity. Please try again later or contact support." |}.

(** The number of active sessions of [u] in the MongoDB collection, and
    the sessions of [u], active or not. *)
Definition activeCount (u : string) (l : list MongoSession) : Z :=
  Z.of_nat (length (List.filter
                      (fun s => String.eqb (ms_userId s) u && ms_isActive s) l)).

Definition sessionsOf (u : string) (l : list MongoSession) : list MongoSession :=
  List.filter (fun s => String.eqb (ms_userId s) u) l.

(** [steady m]: without scripted faults [m] returns normally, leaves no
    fault behind, and the clock and the local hour are as before. *)
Definition steady {A : Type} (m : M A) : Prop :=
  forall w, faults w = [] ->
    exists a w', m w = (Ok a, w') /\ faults w' = [] /\
                 clock w' = clock w /\ localHour w' = localHour w.

(** Whether the condition of a rule holds for a context in a world. *)
Definition fires (w : World) (context : Context) (rule : Rule) : bool :=
  match fst (condition rule context w) with
  | Ok b => b
  | Throw _ => false
  end.

(** The part of the context an alert carries. *)
Definition context_of (context : Context) : AlertContext :=
  {| ac_userId := ctx_userId context; ac_email := ctx_email context;
     ac_deviceId := ctx_deviceId context; ac_ipAddress := ctx_ipAddress context;
     ac_location := ctx_location context |}.

(** A rule whose condition reads at most the local hour and changes
    nothing, and whose message can be rendered whenever the condition
    holds. *)
Definition well_behaved (rule : Rule) : Prop :=
  forall (context : Context) (w : World),
    (exists b, forall w2, localHour w2 = localHour w ->
                          condition rule context w2 = (Ok b, w2)) /\
    (fires w context rule = true ->
     exists msg, forall w2, rule_message rule context w2 = (Ok msg, w2)).

(* ===================================================================== *)
(** * Properties *)
(* ===================================================================== *)

(** ** Running handlers *)

Lemma bind_run {A B : Type} (m : M A) (f : A -> M B) (w : World) :
  (m ≫= f) w =
  match m w with
  | (Ok a, w') => f a w'
  | (Throw e, w') => (Throw e, w')
  end.
Proof. reflexivity. Qed.

Lemma ret_run {A : Type} (a : A) (w : World) : (mret a : M A) w = (Ok a, w).
Proof. reflexivity. Qed.

(** Without scripted faults a command is its effect on the keyspace. *)
Lemma redis_cmd_nofault {A : Type} (c : RCmd)
  (f : Z -> gmap string Entry -> A * gmap string Entry) (w : World) :
  faults w = [] ->
  redis_cmd c f w =
  (Ok (fst (f (clock w) (redis w))),
   set_redis (snd (f (clock w) (redis w))) (emit (Redis c) w)).
Proof.
  intros Hf. unfold redis_cmd. cbn [faults emit clock redis]. rewrite Hf.
  reflexivity.
Qed.

Lemma getSession_nofault (u d : string) (w : World) :
  faults w = [] ->
  getSession u d w =
  (Ok (session_at (clock w) (redis w) u d),
   emit (Redis (GET (session_key u d))) w).
Proof.
  intros Hf. unfold getSession, redis_get. rewrite bind_run.
  rewrite redis_cmd_nofault by exact Hf. cbn [fst snd].
  rewrite ret_run. unfold session_at.
  destruct w; reflexivity.
Qed.

Lemma db_get_insert_live (now : Z) (db : gmap string Entry) (k : string)
  (t : Z) (v : RValue) :
  now < t ->
  db_get now (<[k := {| expiresAt := Some t; value := v |}]> db) k = Some v.
Proof.
  intros Hlt. unfold db_get, db_entry. rewrite lookup_insert_eq.
  unfold live. cbn [expiresAt].
  destruct (Z.ltb_spec now t); [reflexivity | lia].
Qed.

Lemma db_get_insert_ne (now : Z) (db : gmap string Entry) (k k' : string)
  (e : Entry) :
  k <> k' -> db_get now (<[k := e]> db) k' = db_get now db k'.
Proof.
  intros Hne. unfold db_get, db_entry. rewrite lookup_insert_ne by exact Hne.
  reflexivity.
Qed.

Lemma db_get_delete_eq (now : Z) (db : gmap string Entry) (k : string) :
  db_get now (delete k db) k = None.
Proof. unfold db_get, db_entry. rewrite lookup_delete_eq. reflexivity. Qed.

Lemma db_get_delete_ne (now : Z) (db : gmap string Entry) (k k' : string) :
  k <> k' -> db_get now (delete k db) k' = db_get now db k'.
Proof.
  intros Hne. unfold db_get, db_entry. rewrite lookup_delete_ne by exact Hne.
  reflexivity.
Qed.

(** ** Session activity *)

Lemma updateActivity_present (u d : string) (s : SessionData) (w : World) :
  faults w = [] ->
  session_at (clock w) (redis w) u d = Some s ->
  updateActivity u d w =
  (Ok tt,
   set_redis
     (<[session_key u d :=
          {| expiresAt := Some (clock w + 86400 * 1000);
             value := VSession (touch (clock w) s) |}]> (redis w))
     (emit (Redis (SETEX (session_key u d) 86400))
        (emit (Redis (GET (session_key u d))) w))).
Proof.
  intros Hf Hs. unfold updateActivity. rewrite bind_run.
  rewrite getSession_nofault by exact Hf. rewrite Hs.
  rewrite bind_run. unfold Date_now at 1. cbn [clock emit].
  unfold redis_setex. rewrite redis_cmd_nofault by (destruct w; exact Hf).
  destruct w; reflexivity.
Qed.

Lemma updateActivity_absent (u d : string) (w : World) :
  faults w = [] ->
  session_at (clock w) (redis w) u d = None ->
  updateActivity u d w = (Ok tt, emit (Redis (GET (session_key u d))) w).
Proof.
  intros Hf Hs. unfold updateActivity. rewrite bind_run.
  rewrite getSession_nofault by exact Hf. rewrite Hs. reflexivity.
Qed.

(** C10. Calling [updateActivity] on a stored session sets [lastActivity]
    to the current time and keeps [createdAt] and [token]; a second call at
    a later time (before the session expires) does the same, so the value
    never decreases; for a pair without a stored session the call leaves
    the world as it was, apart from the recorded [GET]. *)
Theorem updateActivity_touches_only_lastActivity :
  forall (w : World) (u d : string) (t2 : Z),
    faults w = [] ->
    clock w <= t2 < clock w + 86400 * 1000 ->
    match fst (getSession u d w) with
    | Ok (Some s) =>
        let w1 := snd (updateActivity u d w) in
        let w2 := snd (updateActivity u d (set_clock t2 w1)) in
        fst (updateActivity u d w) = Ok tt /\
        fst (updateActivity u d (set_clock t2 w1)) = Ok tt /\
        exists s1 s2,
          fst (getSession u d w1) = Ok (Some s1) /\
          fst (getSession u d w2) = Ok (Some s2) /\
          lastActivity s1 = clock w /\ lastActivity s2 = t2 /\
          lastActivity s1 <= lastActivity s2 /\
          createdAt s1 = createdAt s /\ createdAt s2 = createdAt s /\
          token s1 = token s /\ token s2 = token s
    | Ok None =>
        updateActivity u d w =
        (Ok tt, emit (Redis (GET (session_key u d))) w)
    | Throw _ => False
    end.
Proof.
  intros w u d t2 Hf Ht.
  rewrite getSession_nofault by exact Hf. cbn [fst].
  destruct (session_at (clock w) (redis w) u d) as [s|] eqn:Hs.
  2: { apply updateActivity_absent; assumption. }
  rewrite (updateActivity_present u d s w Hf Hs). cbn [fst snd].
  set (w1 := set_redis _ _).
  assert (Hf1 : faults w1 = []) by (destruct w; exact Hf).
  assert (Hc1 : clock w1 = clock w) by (destruct w; reflexivity).
  assert (Hs1 : session_at (clock w1) (redis w1) u d = Some (touch (clock w) s)).
  { unfold session_at. rewrite Hc1. subst w1. destruct w; cbn [redis set_redis emit clock].
    rewrite db_get_insert_live by (cbn [clock] in Ht; lia). reflexivity. }
  assert (Hf1' : faults (set_clock t2 w1) = []) by (destruct w; exact Hf).
  assert (Hs1' : session_at (clock (set_clock t2 w1)) (redis (set_clock t2 w1)) u d
                 = Some (touch (clock w) s)).
  { unfold session_at. subst w1. destruct w; cbn [redis set_redis emit clock set_clock].
    rewrite db_get_insert_live by (cbn [clock] in Ht; lia). reflexivity. }
  rewrite (updateActivity_present u d _ _ Hf1' Hs1'). cbn [fst snd].
  split; [reflexivity|]. split; [reflexivity|].
  exists (touch (clock w) s), (touch t2 (touch (clock w) s)).
  rewrite getSession_nofault by exact Hf1. rewrite Hs1. cbn [fst].
  rewrite getSession_nofault by (destruct w; exact Hf).
  cbn [fst].
  split; [reflexivity|]. split.
  { f_equal. unfold session_at. destruct w; cbn [redis set_redis emit clock set_clock].
    rewrite db_get_insert_live by lia. reflexivity. }
  cbn [lastActivity createdAt token touch]. repeat split; try reflexivity. lia.
Qed.

(** The theorem at Alice's television session, touched now and again a
    second later. *)
Lemma updateActivity_touches_only_lastActivity_witness :
  faults aliceWorld = [] /\
  clock aliceWorld <= t0 + 1000 < clock aliceWorld + 86400 * 1000 /\
  match fst (getSession "64b7f0c2a1" "tv-livingroom" aliceWorld) with
  | Ok (Some s) =>
      let w1 := snd (updateActivity "64b7f0c2a1" "tv-livingroom" aliceWorld) in
      let w2 := snd (updateActivity "64b7f0c2a1" "tv-livingroom"
                       (set_clock (t0 + 1000) w1)) in
      fst (updateActivity "64b7f0c2a1" "tv-livingroom" aliceWorld) = Ok tt /\
      fst (updateActivity "64b7f0c2a1" "tv-livingroom"
             (set_clock (t0 + 1000) w1)) = Ok tt /\
      exists s1 s2,
        fst (getSession "64b7f0c2a1" "tv-livingroom" w1) = Ok (Some s1) /\
        fst (getSession "64b7f0c2a1" "tv-livingroom" w2) = Ok (Some s2) /\
        lastActivity s1 = clock aliceWorld /\ lastActivity s2 = t0 + 1000 /\
        lastActivity s1 <= lastActivity s2 /\
        createdAt s1 = createdAt s /\ createdAt s2 = createdAt s /\
        token s1 = token s /\ token s2 = token s
  | Ok None =>
      updateActivity "64b7f0c2a1" "tv-livingroom" aliceWorld =
      (Ok tt, emit (Redis (GET (session_key "64b7f0c2a1" "tv-livingroom")))
                aliceWorld)
  | Throw _ => False
  end.
Proof.
  split; [reflexivity|]. split; [vm_compute; split; congruence|].
  apply (updateActivity_touches_only_lastActivity
           aliceWorld "64b7f0c2a1" "tv-livingroom" (t0 + 1000)).
  - reflexivity.
  - vm_compute; split; congruence.
Defined.

(** ** Handlers that cannot fail without a Redis fault *)

Lemma safe_ret {A : Type} (a : A) : safe (mret a : M A).
Proof. intros w Hf. exists a, w. split; [reflexivity | exact Hf]. Qed.

Lemma safe_bind {A B : Type} (m : M A) (f : A -> M B) :
  safe m -> (forall a, safe (f a)) -> safe (m ≫= f).
Proof.
  intros Hm Hk w Hf. destruct (Hm w Hf) as (a & w1 & E1 & Hf1).
  destruct (Hk a w1 Hf1) as (b & w2 & E2 & Hf2).
  exists b, w2. rewrite bind_run, E1. split; assumption.
Qed.

Lemma safe_redis_cmd {A : Type} (c : RCmd)
  (f : Z -> gmap string Entry -> A * gmap string Entry) :
  safe (redis_cmd c f).
Proof.
  intros w Hf. eexists _, _. split.
  - apply redis_cmd_nofault. exact Hf.
  - destruct w; exact Hf.
Qed.

Lemma safe_try_catch {A : Type} (m : M A) (h : Exn -> M A) :
  safe m -> safe (try_catch m h).
Proof.
  intros Hm w Hf. destruct (Hm w Hf) as (a & w1 & E1 & Hf1).
  exists a, w1. unfold try_catch. rewrite E1. split; [reflexivity | exact Hf1].
Qed.

Lemma safe_modify (f : World -> World) :
  (forall w, faults (f w) = faults w) -> safe (modify_world f).
Proof.
  intros Hpres w Hf. exists tt, (f w). split; [reflexivity|].
  rewrite Hpres. exact Hf.
Qed.

Lemma safe_Date_now : safe Date_now.
Proof. intros w Hf. exists (clock w), w. split; [reflexivity | exact Hf]. Qed.

Lemma safe_getHours : safe getHours.
Proof. intros w Hf. exists (localHour w), w. split; [reflexivity | exact Hf]. Qed.

Lemma safe_emitM (e : Event) : safe (emitM e).
Proof. apply safe_modify. intros w; reflexivity. Qed.

Lemma safe_Device_findOne (u d : string) : safe (Device_findOne u d).
Proof. intros w Hf. eexists _, w. split; [reflexivity | exact Hf]. Qed.

(** Decomposes a goal [safe m] along the binds of [m]. *)
Ltac safe_steps :=
  repeat first
    [ apply safe_ret
    | apply safe_redis_cmd
    | apply safe_Date_now
    | apply safe_getHours
    | apply safe_emitM
    | apply safe_Device_findOne
    | apply safe_try_catch
    | apply safe_bind; [| intros ?]
    | match goal with
      | |- safe (match ?x with _ => _ end) => destruct x
      | |- safe (if ?b then _ else _) => destruct b
      end ].

(** ** Trust score *)

Lemma clamp100_bounds (x : Z) : 0 <= clamp100 x <= 100.
Proof. unfold clamp100. lia. Qed.

Lemma getTrustLevel_cases (sc : Z) :
  (getTrustLevel sc = "HIGH" <-> 80 <= sc) /\
  (getTrustLevel sc = "MEDIUM" <-> 60 <= sc < 80) /\
  (getTrustLevel sc = "LOW" <-> 40 <= sc < 60) /\
  (getTrustLevel sc = "CRITICAL" <-> sc < 40).
Proof.
  unfold getTrustLevel.
  destruct (Z.leb_spec 80 sc); [|destruct (Z.leb_spec 60 sc);
    [|destruct (Z.leb_spec 40 sc)]];
  repeat split; intros; try lia; try discriminate; try reflexivity.
Qed.

Lemma safe_calculateTrustScore `{Platform} (u d ip : string) :
  safe (calculateTrustScore u d ip).
Proof.
  unfold calculateTrustScore, getLoginFrequencyScore, getDeviceAgeScore,
    getGeoConsistencyScore, getFailedAttemptsScore, getSuspiciousHoursScore,
    getDeviceSharingScore, storeTrustScore, redis_get, redis_smembers,
    redis_sadd, redis_expire, redis_setex.
  safe_steps.
Qed.

Lemma Ok_inj {A : Type} (a b : A) : Ok a = Ok b -> a = b.
Proof. congruence. Qed.

(** Runs the next bind of a hypothesis [E : m w = (Ok r, w')]. *)
Ltac run_bind E :=
  rewrite bind_run in E;
  match type of E with
  | match ?m ?w0 with _ => _ end = _ =>
      let v := fresh "v" in let w1 := fresh "w" in let Ev := fresh "E" in
      destruct (m w0) as [[v|?] w1] eqn:Ev; [|discriminate E]
  end.

Lemma getLoginFrequencyScore_range (u d : string) (w w' : World) (f : Z) :
  getLoginFrequencyScore u d w = (Ok f, w') -> 0 <= f <= 20.
Proof.
  unfold getLoginFrequencyScore. intros E. run_bind E.
  rewrite ret_run in E. injection E as <- _.
  repeat match goal with |- context [if ?b then _ else _] => destruct b end; lia.
Qed.

Lemma getDeviceAgeScore_range (u d : string) (w w' : World) (f : Z) :
  getDeviceAgeScore u d w = (Ok f, w') -> 0 <= f <= 15.
Proof.
  unfold getDeviceAgeScore, try_catch, Device_findOne. intros E.
  rewrite bind_run in E. cbv beta iota zeta in E.
  match type of E with context [List.find ?p ?l] => destruct (List.find p l) end.
  - rewrite bind_run in E. unfold Date_now at 1 in E. rewrite ret_run in E.
    injection E as <- _.
    repeat match goal with |- context [if ?b then _ else _] => destruct b end; lia.
  - rewrite ret_run in E. injection E as <- _. lia.
Qed.

Lemma getGeoConsistencyScore_range `{Platform} (u d ip : string) (w w' : World) (f : Z) :
  getGeoConsistencyScore u d ip w = (Ok f, w') -> -10 <= f <= 25.
Proof.
  unfold getGeoConsistencyScore. intros E.
  destruct (geoip_lookup ip); [|rewrite ret_run in E; injection E as <- _; lia].
  run_bind E.
  repeat match type of E with
         | (if ?b then _ else _) _ = _ => destruct b
         end;
    repeat run_bind E; rewrite ?ret_run in E; injection E as <- _;
    repeat match goal with |- context [if ?b then _ else _] => destruct b end; lia.
Qed.

Lemma getFailedAttemptsScore_range (u d : string) (w w' : World) (f : Z) :
  getFailedAttemptsScore u d w = (Ok f, w') -> -30 <= f <= 0.
Proof.
  unfold getFailedAttemptsScore. intros E. run_bind E.
  rewrite ret_run in E. injection E as <- _.
  repeat match goal with |- context [if ?b then _ else _] => destruct b end; lia.
Qed.

Lemma getSuspiciousHoursScore_range (w w' : World) (f : Z) :
  getSuspiciousHoursScore w = (Ok f, w') -> -10 <= f <= 0.
Proof.
  unfold getSuspiciousHoursScore. intros E. run_bind E.
  rewrite ret_run in E. injection E as <- _.
  repeat match goal with |- context [if ?b then _ else _] => destruct b end; lia.
Qed.

Lemma getDeviceSharingScore_range (d : string) (w w' : World) (f : Z) :
  getDeviceSharingScore d w = (Ok f, w') -> -25 <= f <= 0.
Proof.
  unfold getDeviceSharingScore. intros E. run_bind E.
  rewrite ret_run in E. injection E as <- _.
  repeat match goal with |- context [if ?b then _ else _] => destruct b end; lia.
Qed.

Lemma getVPNScore_range (ip : string) : -15 <= getVPNScore ip <= 0.
Proof. unfold getVPNScore. destruct (existsb _ _); lia. Qed.

(** A normal return of [calculateTrustScore], step by step. *)
Lemma calculateTrustScore_run `{Platform} (u d ip : string) (w w' : World)
  (r : TrustScore) :
  calculateTrustScore u d ip w = (Ok r, w') ->
  exists (frequencyScore ageScore geoScore failedScore hoursScore sharingScore : Z)
         (w1 w2 w3 w4 w5 w6 : World),
    getLoginFrequencyScore u d w = (Ok frequencyScore, w1) /\
    getDeviceAgeScore u d w1 = (Ok ageScore, w2) /\
    getGeoConsistencyScore u d ip w2 = (Ok geoScore, w3) /\
    getFailedAttemptsScore u d w3 = (Ok failedScore, w4) /\
    getSuspiciousHoursScore w4 = (Ok hoursScore, w5) /\
    getDeviceSharingScore d w5 = (Ok sharingScore, w6) /\
    let fs := [ ("Login Frequency", frequencyScore); ("Device Age", ageScore);
                ("Geo Consistency", geoScore); ("Failed Attempts", failedScore);
                ("Login Hours", hoursScore); ("Device Sharing", sharingScore);
                ("VPN Usage", getVPNScore ip) ] in
    let sc := clamp100 (50 + frequencyScore + ageScore + geoScore + failedScore
                        + hoursScore + sharingScore + getVPNScore ip) in
    storeTrustScore u d sc fs w6 = (Ok tt, w') /\
    r = {| score := sc; level := getTrustLevel sc; factors := fs;
           ts_timestamp := clock w' |}.
Proof.
  unfold calculateTrustScore. intros E.
  rewrite bind_run in E.
  destruct (getLoginFrequencyScore u d w) as [[f1|?] w1] eqn:E1;
    [|discriminate E].
  rewrite bind_run in E.
  destruct (getDeviceAgeScore u d w1) as [[f2|?] w2] eqn:E2;
    [|discriminate E].
  rewrite bind_run in E.
  destruct (getGeoConsistencyScore u d ip w2) as [[f3|?] w3] eqn:E3;
    [|discriminate E].
  rewrite bind_run in E.
  destruct (getFailedAttemptsScore u d w3) as [[f4|?] w4] eqn:E4;
    [|discriminate E].
  rewrite bind_run in E.
  destruct (getSuspiciousHoursScore w4) as [[f5|?] w5] eqn:E5;
    [|discriminate E].
  rewrite bind_run in E.
  destruct (getDeviceSharingScore d w5) as [[f6|?] w6] eqn:E6;
    [|discriminate E].
  rewrite bind_run in E.
  match type of E with
  | match ?m ?w0 with _ => _ end = _ =>
      destruct (m w0) as [[[]|?] w7] eqn:E7; [|discriminate E]
  end.
  unfold Date_now at 1 in E. rewrite bind_run, ret_run in E.
  apply pair_equal_spec in E. destruct E as [Er Ew]. apply Ok_inj in Er.
  subst w7 r.
  exists f1, f2, f3, f4, f5, f6, w1, w2, w3, w4, w5, w6.
  split; [reflexivity|]. split; [exact E2|]. split; [exact E3|].
  split; [exact E4|]. split; [exact E5|]. split; [exact E6|].
  cbv zeta. split; [exact E7 | reflexivity].
Qed.

(** C5. [calculateTrustScore] returns (it fails only when a Redis command
    does). Whenever it returns, the seven factors it reports are, in this
    order, the results of the six sub-score functions run one after the
    other and the VPN score of the address; each lies in the range its
    function can return (0..20, 0..15, -10..25, -30..0, -10..0, -25..0,
    -15..0), so the sum with the base 50 ranges over -40..110; the score
    is that sum clamped to [0, 100], and the level is HIGH from 80,
    MEDIUM from 60, LOW from 40 and CRITICAL below. *)
Theorem calculateTrustScore_bounded_and_levelled :
  forall `{Platform} (u d ip : string) (w : World),
    (faults w = [] ->
     exists r w', calculateTrustScore u d ip w = (Ok r, w')) /\
    (forall r w',
       calculateTrustScore u d ip w = (Ok r, w') ->
       (exists (frequencyScore ageScore geoScore failedScore hoursScore
                sharingScore : Z) (w1 w2 w3 w4 w5 w6 : World),
          getLoginFrequencyScore u d w = (Ok frequencyScore, w1) /\
          getDeviceAgeScore u d w1 = (Ok ageScore, w2) /\
          getGeoConsistencyScore u d ip w2 = (Ok geoScore, w3) /\
          getFailedAttemptsScore u d w3 = (Ok failedScore, w4) /\
          getSuspiciousHoursScore w4 = (Ok hoursScore, w5) /\
          getDeviceSharingScore d w5 = (Ok sharingScore, w6) /\
          (0 <= frequencyScore <= 20 /\ 0 <= ageScore <= 15 /\
           -10 <= geoScore <= 25 /\ -30 <= failedScore <= 0 /\
           -10 <= hoursScore <= 0 /\ -25 <= sharingScore <= 0 /\
           -15 <= getVPNScore ip <= 0) /\
          factors r =
            [ ("Login Frequency", frequencyScore); ("Device Age", ageScore);
              ("Geo Consistency", geoScore); ("Failed Attempts", failedScore);
              ("Login Hours", hoursScore); ("Device Sharing", sharingScore);
              ("VPN Usage", getVPNScore ip) ] /\
          score r =
            Z.max 0 (Z.min 100 (50 + frequencyScore + ageScore + geoScore
                                + failedScore + hoursScore + sharingScore
                                + getVPNScore ip))) /\
       0 <= score r <= 100 /\
       (level r = "HIGH" <-> 80 <= score r) /\
       (level r = "MEDIUM" <-> 60 <= score r < 80) /\
       (level r = "LOW" <-> 40 <= score r < 60) /\
       (level r = "CRITICAL" <-> score r < 40)).
Proof.
  intros P u d ip w. split.
  - intros Hf. destruct (safe_calculateTrustScore u d ip w Hf) as (r & w' & E & _).
    exists r, w'. exact E.
  - intros r w' E.
    destruct (calculateTrustScore_run u d ip w w' r E)
      as (f1 & f2 & f3 & f4 & f5 & f6 & w1 & w2 & w3 & w4 & w5 & w6
          & E1 & E2 & E3 & E4 & E5 & E6 & _ & Hr).
    cbv zeta in Hr. subst r. cbn [score level factors]. split.
    + exists f1, f2, f3, f4, f5, f6, w1, w2, w3, w4, w5, w6.
      split; [exact E1|]. split; [exact E2|]. split; [exact E3|].
      split; [exact E4|]. split; [exact E5|]. split; [exact E6|].
      split; [|split; reflexivity].
      split; [exact (getLoginFrequencyScore_range _ _ _ _ _ E1)|].
      split; [exact (getDeviceAgeScore_range _ _ _ _ _ E2)|].
      split; [exact (getGeoConsistencyScore_range _ _ _ _ _ _ E3)|].
      split; [exact (getFailedAttemptsScore_range _ _ _ _ _ E4)|].
      split; [exact (getSuspiciousHoursScore_range _ _ _ E5)|].
      split; [exact (getDeviceSharingScore_range _ _ _ _ E6)|].
      apply getVPNScore_range.
    + split; [apply clamp100_bounds | apply getTrustLevel_cases].
Qed.

(** Two runs: under every penalty at once (a failure count of 6, 3 o'clock
    at night, a device shared by three accounts, a private address) the
    sum is 50 - 30 - 10 - 25 - 15 = -30 and the score 0; on Alice's known
    device the sum is 50 + 10 + 12 = 72 and so is the score. *)
Lemma calculateTrustScore_bounded_and_levelled_witness :
  faults penalisedWorld = [] /\
  (exists r w',
     calculateTrustScore "u1" "dev-x" "10.0.0.5" penalisedWorld = (Ok r, w') /\
     factors r = [ ("Login Frequency", 0); ("Device Age", 0);
                   ("Geo Consistency", 0); ("Failed Attempts", -30);
                   ("Login Hours", -10); ("Device Sharing", -25);
                   ("VPN Usage", -15) ] /\
     score r = 0 /\ 0 <= score r <= 100 /\
     (level r = "CRITICAL" <-> score r < 40)) /\
  (exists r w',
     calculateTrustScore (user_id alice) aliceDeviceId
       (request_ip aliceRequest) aliceWorld = (Ok r, w') /\
     factors r = [ ("Login Frequency", 10); ("Device Age", 12);
                   ("Geo Consistency", 0); ("Failed Attempts", 0);
                   ("Login Hours", 0); ("Device Sharing", 0);
                   ("VPN Usage", 0) ] /\
     score r = 72 /\ (level r = "MEDIUM" <-> 60 <= score r < 80)).
Proof.
  split; [reflexivity|]. split.
  - destruct (calculateTrustScore_bounded_and_levelled
                "u1" "dev-x" "10.0.0.5" penalisedWorld) as [Hret Hval].
    destruct (Hret eq_refl) as (r & w' & E).
    exists r, w'. split; [exact E|].
    destruct (Hval r w' E) as (_ & Hb & _ & _ & _ & Hc).
    assert (Er : r = fst (match fst (calculateTrustScore "u1" "dev-x" "10.0.0.5"
                                       penalisedWorld) with
                          | Ok x => (x, tt)
                          | Throw _ => (r, tt)
                          end)) by (rewrite E; reflexivity).
    split; [rewrite Er; vm_compute; reflexivity|].
    split; [rewrite Er; vm_compute; reflexivity|].
    split; assumption.
  - destruct (calculateTrustScore_bounded_and_levelled
                (user_id alice) aliceDeviceId (request_ip aliceRequest)
                aliceWorld) as [Hret Hval].
    destruct (Hret eq_refl) as (r & w' & E).
    exists r, w'. split; [exact E|].
    destruct (Hval r w' E) as (_ & _ & _ & Hm & _).
    assert (Er : r = fst (match fst (calculateTrustScore (user_id alice)
                                       aliceDeviceId (request_ip aliceRequest)
                                       aliceWorld) with
                          | Ok x => (x, tt)
                          | Throw _ => (r, tt)
                          end)) by (rewrite E; reflexivity).
    split; [rewrite Er; vm_compute; reflexivity|].
    split; [rewrite Er; vm_compute; reflexivity|].
    exact Hm.
Defined.

(** ** Spoofing detection *)

Lemma scan_signals_fold (uaLower : string) (tokens : list string)
  (st : list string * Z) :
  snd (fold_left (scan_signal uaLower) tokens st) =
  snd st + 50 * Z.of_nat (length (List.filter (includes uaLower) tokens)).
Proof.
  revert st. induction tokens as [|t tokens IH]; intros st; cbn [fold_left List.filter].
  - cbn [length]. lia.
  - rewrite IH. unfold scan_signal.
    destruct (includes uaLower t); cbn [snd length]; lia.
Qed.

Lemma snd_step {A : Type} (b : bool) (l : A) (st : A * Z) (k : Z) :
  snd (if b then (l, snd st + k) else st) = snd st + k * b2z b.
Proof. destruct b; cbn [snd b2z]; lia. Qed.

(** The accumulated risk of [detectSpoofing] is the closed sum over the
    seven tokens of [automationSignals]. *)
Lemma detectSpoofing_closed_form (c : Components) (a : SpoofAssessment) :
  detectSpoofing c = Ok a ->
  spoof_riskScore a = Z.min 100 (raw_risk automationSignals c) /\
  isSuspicious a = (50 <? raw_risk automationSignals c).
Proof.
  unfold detectSpoofing, raw_risk.
  destruct (c K_userAgent) as [| | | |ua| |] eqn:Eua; try discriminate.
  cbv zeta. cbn [js_truthy text].
  destruct (js_truthy (c K_platform) && js_truthy (c K_os)) eqn:Eb.
  - destruct (c K_platform) as [| | | |pl| |] eqn:Epl; try discriminate;
    destruct (c K_os) as [| | | |os| |] eqn:Eos; try discriminate.
    cbn [string_method mbind Res_bind text]. intros E. apply Ok_inj in E. subst a.
    cbn [spoof_riskScore isSuspicious].
    rewrite snd_step, snd_step, scan_signals_fold, snd_step. cbn [snd andb].
    split; f_equal; lia.
  - cbn [mbind Res_bind andb]. intros E. apply Ok_inj in E. subst a.
    cbn [spoof_riskScore isSuspicious].
    rewrite snd_step, scan_signals_fold, snd_step. cbn [snd b2z].
    split; f_equal; lia.
Qed.

(** ** The login handler up to the spoofing check *)

Ltac login_enter req Hfind Hpw Hfp Hchk :=
  unfold login, try_catch; rewrite bind_run; unfold User_findOne at 1;
  rewrite Hfind, Hpw; cbn [negb]; rewrite bind_run; unfold Date_now at 1;
  rewrite bind_run; unfold lift at 1; rewrite Hfp;
  rewrite bind_run; unfold lift at 1; rewrite Hchk; cbv zeta.

(** The handler as far as the fingerprint, whatever comes of it. *)
Ltac login_to_fingerprint req Hfind Hpw :=
  unfold login, try_catch; rewrite bind_run; unfold User_findOne at 1;
  rewrite Hfind, Hpw; cbn [negb]; rewrite bind_run; unfold Date_now at 1;
  rewrite bind_run; unfold lift at 1.

Lemma block_condition (c : Components) (a : SpoofAssessment) :
  detectSpoofing c = Ok a ->
  isSuspicious a && (70 <? spoof_riskScore a) = (70 <? spoof_riskScore a).
Proof.
  intros E. destruct (detectSpoofing_closed_form c a E) as [-> ->].
  destruct (Z.ltb_spec 70 (Z.min 100 (raw_risk automationSignals c)));
    [|apply andb_false_r].
  rewrite andb_true_r. apply Z.ltb_lt. lia.
Qed.

Lemma responds_bind {A : Type} (P : Response -> Prop) (m : M A) (f : A -> M Response) :
  (forall a, responds_only P (f a)) -> responds_only P (m ≫= f).
Proof.
  intros Hk w r w' E. rewrite bind_run in E.
  destruct (m w) as [[a|e] w1]; [|discriminate E]. exact (Hk a w1 r w' E).
Qed.

Lemma responds_respond (P : Response -> Prop) (st : Z) (b : Body) :
  P {| status := st; body := b |} -> responds_only P (respond st b).
Proof. intros HP w r w' E. injection E as <- _. exact HP. Qed.

Lemma responds_try_catch (P : Response -> Prop) (m : M Response)
  (h : Exn -> M Response) :
  responds_only P m -> (forall e, responds_only P (h e)) ->
  responds_only P (try_catch m h).
Proof.
  intros Hm Hh w r w' E. unfold try_catch in E.
  destruct (m w) as [[a|e] w1] eqn:Em.
  - injection E as <- <-. exact (Hm w a w1 Em).
  - exact (Hh e w1 r w' E).
Qed.

Ltac responds_steps :=
  repeat first
    [ apply responds_respond
    | apply responds_bind; intros ?
    | match goal with
      | |- responds_only _ (match ?x with _ => _ end) => destruct x
      | |- responds_only _ (if ?b then _ else _) => destruct b
      | |- responds_only _ (let '(_, _) := ?x in _) => destruct x
      end ].

Lemma login_403_only_when_blocked `{Platform} (req : Request) (w w' : World)
  (r : Response) :
  login req w = (Ok r, w') -> status r = 403 ->
  exists user fp check,
    credentials_valid req w user /\ assessed req w fp check /\
    70 < spoof_riskScore check.
Proof.
  intros E Hst.
  destruct (List.find (fun u => String.eqb (user_email u) (body_email req)) (users w))
    as [user|] eqn:Hfind.
  2: { exfalso. revert E. unfold login, try_catch. rewrite bind_run.
       unfold User_findOne at 1. rewrite Hfind. cbv. intros E.
       injection E as <- _. discriminate Hst. }
  destruct (bcrypt_compare (body_password req) (user_password user)) eqn:Hpw.
  2: { exfalso. revert E. unfold login, try_catch. rewrite bind_run.
       unfold User_findOne at 1. rewrite Hfind, Hpw. cbv. intros E.
       injection E as <- _. discriminate Hst. }
  destruct (generateEnhancedFingerprint (clock w) req (body_fingerprint req))
    as [fp|e] eqn:Hfp.
  2: { exfalso. revert E. login_to_fingerprint req Hfind Hpw. rewrite Hfp.
       cbv. intros E. injection E as <- _. discriminate Hst. }
  destruct (detectSpoofing (fp_components fp)) as [check|e] eqn:Hchk.
  2: { exfalso. revert E. login_to_fingerprint req Hfind Hpw. rewrite Hfp.
       rewrite bind_run. unfold lift at 1. cbv zeta. rewrite Hchk.
       cbv. intros E. injection E as <- _. discriminate Hst. }
  exists user, fp, check.
  split; [split; assumption|]. split; [split; assumption|].
  destruct (Z.ltb_spec 70 (spoof_riskScore check)) as [Hlt|Hge];
    [exact Hlt|exfalso].
  revert E. login_enter req Hfind Hpw Hfp Hchk.
  rewrite (block_condition _ _ Hchk).
  destruct (Z.ltb_spec 70 (spoof_riskScore check)); [lia|].
  match goal with
  | |- (let (_, _) := ?m w in _) = _ -> _ =>
      assert (Hno : responds_only (fun r => status r <> 403) m)
  end.
  { responds_steps; cbn [status]; lia. }
  match goal with
  | |- (let (_, _) := ?m w in _) = _ -> _ =>
      destruct (m w) as [[a|e] w1] eqn:Em
  end.
  - intros E. injection E as <- <-. exact (Hno w a w1 Em Hst).
  - cbv. intros E. injection E as <- _. discriminate Hst.
Qed.

(** ** Handlers that never throw *)

Lemma total_bind {A B : Type} (m : M A) (f : A -> M B) :
  total m -> (forall a, total (f a)) -> total (m ≫= f).
Proof.
  intros Hm Hk w. destruct (Hm w) as (a & w1 & E1).
  destruct (Hk a w1) as (b & w2 & E2).
  exists b, w2. rewrite bind_run, E1. exact E2.
Qed.

Lemma total_ret {A : Type} (a : A) : total (mret a : M A).
Proof. intros w. exists a, w. reflexivity. Qed.

Lemma total_emitM (e : Event) : total (emitM e).
Proof. intros w. exists tt, (emit e w). reflexivity. Qed.

Lemma total_try_catch {A : Type} (m : M A) (h : Exn -> M A) :
  (forall e, total (h e)) -> total (try_catch m h).
Proof.
  intros Hh w. unfold try_catch. destruct (m w) as [[a|e] w1].
  - exists a, w1. reflexivity.
  - apply Hh.
Qed.

Lemma total_executeActions (acts : list string) (alert : Alert) (ctx : Context) :
  total (executeActions acts alert ctx).
Proof.
  induction acts as [|a acts IH]; cbn [executeActions].
  - apply total_ret.
  - apply total_bind; [|intros _; exact IH].
    apply total_try_catch. intros e. apply total_emitM.
Qed.

Lemma total_evaluateRule (rule : Rule) (ctx : Context) (acc : list Alert) :
  total (evaluateRule rule ctx acc).
Proof.
  unfold evaluateRule. apply total_try_catch. intros e.
  apply total_bind; [apply total_emitM | intros _; apply total_ret].
Qed.

Lemma total_evaluateRulesFrom (table : list Rule) (ctx : Context)
  (acc : list Alert) :
  total (evaluateRulesFrom table ctx acc).
Proof.
  revert acc. induction table as [|r table IH]; intros acc; cbn [evaluateRulesFrom].
  - apply total_ret.
  - apply total_bind; [apply total_evaluateRule | intros a; apply IH].
Qed.

Lemma total_Date_now : total Date_now.
Proof. intros w. exists (clock w), w. reflexivity. Qed.

Lemma total_modify (f : World -> World) : total (modify_world f).
Proof. intros w. exists tt, (f w). reflexivity. Qed.

Lemma total_issueOtp `{Platform} (user : User) : total (issueOtp user).
Proof.
  unfold issueOtp.
  apply total_bind; [apply total_Date_now | intros now].
  apply total_bind; [apply total_Date_now | intros now'].
  apply total_bind; [apply total_modify | intros _]. apply total_emitM.
Qed.

(** ** What a handler leaves untouched *)

Section Frame.
Variable P : Event -> Prop.

Lemma extends_refl (w : World) : extends P w w.
Proof.
  do 4 (split; [reflexivity|]). split; [intros Hf; exact Hf|].
  exists []. split; [symmetry; apply app_nil_r | constructor].
Qed.

Lemma extends_trans (w1 w2 w3 : World) :
  extends P w1 w2 -> extends P w2 w3 -> extends P w1 w3.
Proof.
  intros (U1 & D1 & S1 & K1 & F1 & evs1 & T1 & A1)
         (U2 & D2 & S2 & K2 & F2 & evs2 & T2 & A2).
  split; [congruence|]. split; [congruence|]. split; [congruence|].
  split; [|split].
  - intros k Hk. rewrite K2, K1 by exact Hk. reflexivity.
  - intros Hf. apply F2, F1, Hf.
  - exists (evs1 ++ evs2)%list. split.
    + rewrite T2, T1. symmetry. apply app_assoc.
    + apply Forall_app. split; assumption.
Qed.

Lemma extends_emit (e : Event) (w : World) : P e -> extends P w (emit e w).
Proof.
  intros HP. do 4 (split; [reflexivity|]). split; [intros Hf; exact Hf|].
  exists [e]. split; [reflexivity|].
  constructor; [exact HP | constructor].
Qed.

Lemma frame_ret {A : Type} (a : A) : frame P (mret a : M A).
Proof. intros w r w' E. injection E as _ <-. apply extends_refl. Qed.

Lemma frame_throw {A : Type} (e : Exn) : frame P (throw e : M A).
Proof. intros w r w' E. injection E as _ <-. apply extends_refl. Qed.

Lemma frame_bind {A B : Type} (m : M A) (f : A -> M B) :
  frame P m -> (forall a, frame P (f a)) -> frame P (m ≫= f).
Proof.
  intros Hm Hk w r w' E. rewrite bind_run in E.
  destruct (m w) as [[a|e] w1] eqn:Em.
  - apply (extends_trans w w1 w'); [exact (Hm _ _ _ Em) | exact (Hk a _ _ _ E)].
  - injection E as _ <-. exact (Hm _ _ _ Em).
Qed.

Lemma frame_try_catch {A : Type} (m : M A) (h : Exn -> M A) :
  frame P m -> (forall e, frame P (h e)) -> frame P (try_catch m h).
Proof.
  intros Hm Hh w r w' E. unfold try_catch in E.
  destruct (m w) as [[a|e] w1] eqn:Em.
  - injection E as _ <-. exact (Hm _ _ _ Em).
  - apply (extends_trans w w1 w'); [exact (Hm _ _ _ Em) | exact (Hh e _ _ _ E)].
Qed.

Lemma frame_emitM (e : Event) : P e -> frame P (emitM e).
Proof. intros HP w r w' E. injection E as _ <-. apply extends_emit, HP. Qed.

Lemma frame_Date_now : frame P Date_now.
Proof. intros w r w' E. injection E as _ <-. apply extends_refl. Qed.

Lemma frame_getHours : frame P getHours.
Proof. intros w r w' E. injection E as _ <-. apply extends_refl. Qed.

Lemma frame_Device_findOne (u d : string) : frame P (Device_findOne u d).
Proof. intros w r w' E. injection E as _ <-. apply extends_refl. Qed.

Lemma frame_redis_cmd {A : Type} (c : RCmd) (k : string)
  (f : Z -> gmap string Entry -> A * gmap string Entry) :
  P (Redis c) -> is_session_key k = false -> only_changes k f ->
  frame P (redis_cmd c f).
Proof.
  intros HP Hk Hf w r w' E. unfold redis_cmd in E.
  assert (Hkeys : forall k', is_session_key k' = true ->
            snd (f (clock w) (redis w)) !! k' = redis w !! k').
  { intros k' Hk'. apply Hf. intros ->. congruence. }
  destruct w as [us ds ms db cl hr fs tr].
  cbn [faults emit clock redis] in E, Hkeys.
  assert (Hev : exists evs, (tr ++ [Redis c])%list = (tr ++ evs)%list /\ Forall P evs).
  { exists [Redis c]. split; [reflexivity|].
    constructor; [exact HP | constructor]. }
  destruct fs as [|[] fs]; injection E as _ <-;
    (split; [reflexivity|]; split; [reflexivity|]; split; [reflexivity|];
     split; [first [exact Hkeys | reflexivity]|];
     split; [cbn [faults set_redis set_faults]; intros Hnf;
             first [exact Hnf | discriminate Hnf]
            | exact Hev]).
Qed.
End Frame.

Lemma only_changes_read {A : Type} (k : string)
  (g : Z -> gmap string Entry -> A) :
  only_changes k (fun now db => (g now db, db)).
Proof. intros now db k' _. reflexivity. Qed.

Lemma only_changes_setex (k : string) (seconds : Z) (v : RValue) :
  only_changes k (fun now db =>
    (tt, <[k := {| expiresAt := Some (now + seconds * 1000); value := v |}]> db)).
Proof. intros now db k' Hne. cbn [snd]. apply lookup_insert_ne. congruence. Qed.

Ltac only_changes_cases :=
  intros now db k' Hne;
  repeat match goal with
         | |- context [match ?x with _ => _ end] => destruct x
         end;
  cbn [snd];
  first [ reflexivity
        | apply lookup_insert_ne; congruence
        | apply lookup_delete_ne; congruence ].

Lemma frame_redis_get (P : Event -> Prop) (k : string) :
  P (Redis (GET k)) -> is_session_key k = false -> frame P (redis_get k).
Proof.
  intros HP Hk. apply (frame_redis_cmd P _ k); [exact HP | exact Hk |].
  apply only_changes_read.
Qed.

Lemma frame_redis_smembers (P : Event -> Prop) (k : string) :
  P (Redis (SMEMBERS k)) -> is_session_key k = false -> frame P (redis_smembers k).
Proof.
  intros HP Hk. apply (frame_redis_cmd P _ k); [exact HP | exact Hk |].
  apply only_changes_read.
Qed.

Lemma frame_redis_scard (P : Event -> Prop) (k : string) :
  P (Redis (SCARD k)) -> is_session_key k = false -> frame P (redis_scard k).
Proof.
  intros HP Hk. apply (frame_redis_cmd P _ k); [exact HP | exact Hk |].
  apply only_changes_read.
Qed.

Lemma frame_redis_setex (P : Event -> Prop) (k : string) (seconds : Z) (v : RValue) :
  P (Redis (SETEX k seconds)) -> is_session_key k = false ->
  frame P (redis_setex k seconds v).
Proof.
  intros HP Hk. apply (frame_redis_cmd P _ k); [exact HP | exact Hk |].
  apply only_changes_setex.
Qed.

Lemma frame_redis_sadd (P : Event -> Prop) (k member : string) :
  P (Redis (SADD k member)) -> is_session_key k = false ->
  frame P (redis_sadd k member).
Proof.
  intros HP Hk. apply (frame_redis_cmd P _ k); [exact HP | exact Hk |].
  only_changes_cases.
Qed.

Lemma frame_redis_expire (P : Event -> Prop) (k : string) (seconds : Z) :
  P (Redis (EXPIRE k seconds)) -> is_session_key k = false ->
  frame P (redis_expire k seconds).
Proof.
  intros HP Hk. apply (frame_redis_cmd P _ k); [exact HP | exact Hk |].
  only_changes_cases.
Qed.

Lemma frame_redis_zadd (P : Event -> Prop) (k : string) (sc : Z) (member : string) :
  P (Redis (ZADD k sc member)) -> is_session_key k = false ->
  frame P (redis_zadd k sc member).
Proof.
  intros HP Hk. apply (frame_redis_cmd P _ k); [exact HP | exact Hk |].
  intros now db k' Hne. cbn [snd]. apply lookup_insert_ne. congruence.
Qed.

Lemma frame_redis_zremrangebyrank_keep (P : Event -> Prop) (k : string) (keep : Z) :
  P (Redis (ZREMRANGEBYRANK k 0 (- (keep + 1)))) -> is_session_key k = false ->
  frame P (redis_zremrangebyrank_keep k keep).
Proof.
  intros HP Hk. apply (frame_redis_cmd P _ k); [exact HP | exact Hk |].
  only_changes_cases.
Qed.

(** The trust scorer and the geo check only talk to Redis, and never
    about a session. *)
Lemma frame_calculateTrustScore `{Platform} (u d ip : string) :
  frame is_redis (calculateTrustScore u d ip).
Proof.
  unfold calculateTrustScore, getLoginFrequencyScore, getDeviceAgeScore,
    getGeoConsistencyScore, getFailedAttemptsScore, getSuspiciousHoursScore,
    getDeviceSharingScore, storeTrustScore.
  repeat first
    [ apply frame_ret | apply frame_Date_now | apply frame_getHours
    | apply frame_Device_findOne
    | apply frame_redis_get; [exact Logic.I | reflexivity]
    | apply frame_redis_smembers; [exact Logic.I | reflexivity]
    | apply frame_redis_sadd; [exact Logic.I | reflexivity]
    | apply frame_redis_expire; [exact Logic.I | reflexivity]
    | apply frame_redis_setex; [exact Logic.I | reflexivity]
    | apply frame_try_catch; [| intros ?]
    | apply frame_bind; [| intros ?]
    | match goal with
      | |- frame _ (match ?x with _ => _ end) => destruct x
      | |- frame _ (if ?b then _ else _) => destruct b
      end ].
Qed.

Lemma frame_checkGeoImpossibility `{Platform} (u ip : string) :
  frame is_redis (checkGeoImpossibility u ip).
Proof.
  unfold checkGeoImpossibility.
  repeat first
    [ apply frame_ret | apply frame_Date_now
    | apply frame_redis_get; [exact Logic.I | reflexivity]
    | apply frame_redis_setex; [exact Logic.I | reflexivity]
    | apply frame_bind; [| intros ?]
    | match goal with
      | |- frame _ (match ?x with _ => _ end) => destruct x
      end ].
Qed.

(** ** The login handler after the spoofing check *)

(** An impossible journey ends the login with the OTP challenge, whatever
    fails inside the alert engine. *)
Lemma login_geo_challenge `{Platform} (req : Request) (w w1 : World)
  (user : User) (fp : Fingerprint) (check : SpoofAssessment) (geo : GeoCheck) :
  credentials_valid req w user ->
  assessed req w fp check ->
  spoof_riskScore check <= 70 ->
  checkGeoImpossibility (user_id user) (request_ip req) w = (Ok geo, w1) ->
  isImpossible geo = true ->
  exists w',
    login req w =
    (Ok {| status := 200; body := GeoOtpBody (reason geo) |}, w').
Proof.
  intros [Hfind Hpw] [Hfp Hchk] Hrisk Hgeo Himp.
  login_enter req Hfind Hpw Hfp Hchk. rewrite (block_condition _ _ Hchk).
  destruct (Z.ltb_spec 70 (spoof_riskScore check)); [lia|].
  rewrite bind_run, Hgeo, Himp.
  match goal with
  | |- context [evaluateRules ?c] =>
      destruct (total_evaluateRulesFrom rules c [] w1) as (alerts & w2 & E2)
  end.
  rewrite bind_run. unfold evaluateRules. rewrite E2.
  destruct (total_issueOtp user w2) as ([] & w3 & E3).
  rewrite bind_run, E3. eexists. reflexivity.
Qed.

(** Otherwise the handler reads [device] inside its temporal dead zone
    right after the trust score: the world it leaves is the one the trust
    scorer left. *)
Lemma login_dead_zone `{Platform} (req : Request) (w w1 : World)
  (user : User) (fp : Fingerprint) (check : SpoofAssessment) (geo : GeoCheck) :
  credentials_valid req w user ->
  assessed req w fp check ->
  spoof_riskScore check <= 70 ->
  checkGeoImpossibility (user_id user) (request_ip req) w = (Ok geo, w1) ->
  isImpossible geo = false ->
  login req w =
  (Ok {| status := 500;
         body := LoginFailedBody "Login failed"
                   (match fst (calculateTrustScore (user_id user)
                                 (fp_deviceId fp) (request_ip req) w1) with
                    | Ok _ => exn_message (ReferenceError "device")
                    | Throw e => exn_message e
                    end) |},
   snd (calculateTrustScore (user_id user) (fp_deviceId fp)
          (request_ip req) w1)).
Proof.
  intros [Hfind Hpw] [Hfp Hchk] Hrisk Hgeo Himp.
  login_enter req Hfind Hpw Hfp Hchk. rewrite (block_condition _ _ Hchk).
  destruct (Z.ltb_spec 70 (spoof_riskScore check)); [lia|].
  rewrite bind_run, Hgeo, Himp. rewrite bind_run.
  destruct (calculateTrustScore (user_id user) (fp_deviceId fp)
              (request_ip req) w1) as [[ts|e] w2]; reflexivity.
Qed.

(** A request whose fingerprint cannot be taken, or whose components
    cannot be assessed, is answered 500 with the message of the error,
    and nothing has happened. *)
Lemma login_fingerprint_throws `{Platform} (req : Request) (w : World)
  (user : User) (e : Exn) :
  credentials_valid req w user ->
  generateEnhancedFingerprint (clock w) req (body_fingerprint req) = Throw e ->
  login req w =
    (Ok {| status := 500;
           body := LoginFailedBody "Login failed" (exn_message e) |}, w).
Proof.
  intros [Hfind Hpw] Hfp. login_to_fingerprint req Hfind Hpw. rewrite Hfp.
  reflexivity.
Qed.

Lemma login_detection_throws `{Platform} (req : Request) (w : World)
  (user : User) (fp : Fingerprint) (e : Exn) :
  credentials_valid req w user ->
  generateEnhancedFingerprint (clock w) req (body_fingerprint req) = Ok fp ->
  detectSpoofing (fp_components fp) = Throw e ->
  login req w =
    (Ok {| status := 500;
           body := LoginFailedBody "Login failed" (exn_message e) |}, w).
Proof.
  intros [Hfind Hpw] Hfp Hchk. login_to_fingerprint req Hfind Hpw. rewrite Hfp.
  rewrite bind_run. unfold lift at 1. cbv zeta. rewrite Hchk.
  reflexivity.
Qed.

(** C2. For a request with valid credentials, whose fingerprint is
    assessed with a spoofing risk of at most 70, and a geo check that does
    not flag impossible travel, the handler answers 500 "Login failed":
    with Redis answering, the error is the ReferenceError of reading
    [device] before its declaration. Nothing after the trust score runs:
    the world left is the one the trust scorer left, so no user, device or
    MongoDB session document and no Redis session entry has changed, and
    the only outside interactions were Redis commands (no OTP mail, no
    alert). *)
Theorem login_always_fails_after_trust_score :
  forall `{Platform} (req : Request) (w w1 : World) (user : User)
         (fp : Fingerprint) (check : SpoofAssessment) (geo : GeoCheck),
    credentials_valid req w user ->
    assessed req w fp check ->
    spoof_riskScore check <= 70 ->
    checkGeoImpossibility (user_id user) (request_ip req) w = (Ok geo, w1) ->
    isImpossible geo = false ->
    exists details w',
      login req w =
        (Ok {| status := 500; body := LoginFailedBody "Login failed" details |},
         w') /\
      w' = snd (calculateTrustScore (user_id user) (fp_deviceId fp)
                  (request_ip req) w1) /\
      extends is_redis w w' /\
      (faults w1 = [] ->
       details = "Cannot access 'device' before initialization").
Proof.
  intros P req w w1 user fp check geo Hcred Hfp Hrisk Hgeo Himp.
  eexists _, _. split; [|split; [|split]].
  - apply (login_dead_zone req w w1 user fp check geo); assumption.
  - reflexivity.
  - apply (extends_trans _ w w1).
    + exact (frame_checkGeoImpossibility _ _ _ _ _ Hgeo).
    + eapply frame_calculateTrustScore. apply surjective_pairing.
  - intros Hf.
    destruct (safe_calculateTrustScore (user_id user) (fp_deviceId fp)
                (request_ip req) w1 Hf) as (ts & w2 & E & _).
    rewrite E. reflexivity.
Qed.

Lemma login_always_fails_after_trust_score_witness :
  credentials_valid aliceRequest aliceWorld alice /\
  assessed aliceRequest aliceWorld aliceFingerprint aliceAssessment /\
  spoof_riskScore aliceAssessment <= 70 /\
  exists details w',
    login aliceRequest aliceWorld =
      (Ok {| status := 500; body := LoginFailedBody "Login failed" details |},
       w') /\
    w' = snd (calculateTrustScore (user_id alice) (fp_deviceId aliceFingerprint)
                (request_ip aliceRequest) aliceWorld) /\
    extends is_redis aliceWorld w' /\
    (faults aliceWorld = [] ->
     details = "Cannot access 'device' before initialization").
Proof.
  assert (Hc : credentials_valid aliceRequest aliceWorld alice)
    by (split; reflexivity).
  assert (Ha : assessed aliceRequest aliceWorld aliceFingerprint aliceAssessment)
    by (split; vm_compute; reflexivity).
  assert (Hr : spoof_riskScore aliceAssessment <= 70)
    by (apply Z.leb_le; vm_compute; reflexivity).
  split; [exact Hc|]. split; [exact Ha|]. split; [exact Hr|].
  apply (login_always_fails_after_trust_score aliceRequest aliceWorld aliceWorld
           alice aliceFingerprint aliceAssessment
           {| isImpossible := false; reason := CouldNotDetermine;
              geo_riskScore := 0; currentLocation := None;
              lastLocation := None; geo_distance := None;
              geo_timeDiff := None |} Hc Ha Hr).
  - reflexivity.
  - reflexivity.
Defined.

(** C1 (the scenario run on the code). Alice is on the STANDARD plan
    (limit 2), her device is known, her trust score computes to 72
    (MEDIUM), she holds exactly one active session, and her credentials,
    the spoofing check and the geo check pass: the handler answers 500
    "Login failed" with the ReferenceError of [device], creates no session
    for the device and issues no token. *)
Theorem login_standard_known_device_returns_500 :
  getMaxSessions (user_plan alice) = 2 /\
  credentials_valid aliceRequest aliceWorld alice /\
  assessed aliceRequest aliceWorld aliceFingerprint aliceAssessment /\
  spoof_riskScore aliceAssessment <= 70 /\
  (exists dev,
     fst (Device_findOne (user_id alice) (fp_deviceId aliceFingerprint)
            aliceWorld) = Ok (Some dev)) /\
  (exists geo,
     fst (checkGeoImpossibility (user_id alice) (request_ip aliceRequest)
            aliceWorld) = Ok geo /\ isImpossible geo = false) /\
  (exists ts,
     fst (calculateTrustScore (user_id alice) (fp_deviceId aliceFingerprint)
            (request_ip aliceRequest) aliceWorld) = Ok ts /\
     score ts = 72 /\ level ts = "MEDIUM") /\
  (exists s, fst (getUserSessions (user_id alice) aliceWorld) = Ok [s]) /\
  fst (login aliceRequest aliceWorld) =
    Ok {| status := 500;
          body := LoginFailedBody "Login failed"
                    "Cannot access 'device' before initialization" |} /\
  fst (getSession (user_id alice) (fp_deviceId aliceFingerprint)
         (snd (login aliceRequest aliceWorld))) = Ok None /\
  mongoSessions (snd (login aliceRequest aliceWorld)) = [].
Proof.
  split; [reflexivity|]. split; [split; reflexivity|].
  split; [split; vm_compute; reflexivity|].
  split; [apply Z.leb_le; vm_compute; reflexivity|].
  split; [eexists; vm_compute; reflexivity|].
  split; [eexists; split; vm_compute; reflexivity|].
  split; [eexists; split; [vm_compute; reflexivity | split; reflexivity]|].
  split; [eexists; vm_compute; reflexivity|].
  split; [vm_compute; reflexivity|].
  split; vm_compute; reflexivity.
Qed.

(** *** The block threshold *)

Lemma detectSpoofing_returns_iff (c : Components) :
  (exists a, detectSpoofing c = Ok a) <-> assessable c = true.
Proof.
  unfold detectSpoofing, assessable.
  destruct (c K_userAgent) as [| | | |ua| |] eqn:Eua; cbn [is_text andb];
    try (split; [intros [a E]; discriminate E | discriminate]).
  cbv zeta.
  destruct (js_truthy (c K_platform) && js_truthy (c K_os)) eqn:Eb;
    cbn [negb orb].
  - destruct (c K_platform) as [| | | |pl| |] eqn:Epl;
      cbn [string_method mbind Res_bind is_text andb];
      try (split; [intros [a E]; discriminate E | discriminate]).
    destruct (c K_os) as [| | | |os| |] eqn:Eos;
      cbn [string_method mbind Res_bind is_text andb];
      try (split; [intros [a E]; discriminate E | discriminate]).
    split; [reflexivity|]. intros _. eexists. reflexivity.
  - split; [reflexivity|]. intros _. eexists. reflexivity.
Qed.

Lemma blockUser_run (userId : string) (seconds : Z) (w : World) :
  0 < seconds ->
  exists w',
    blockUser userId seconds w
    = (if next_command_fails w then Throw RedisError else Ok tt, w') /\
    if next_command_fails w then redis w' = redis w /\ clock w' = clock w
    else suspended w' userId.
Proof.
  intros Hpos. unfold blockUser, redis_setex, redis_cmd, next_command_fails,
    suspended.
  destruct w as [us ds ms db cl hr fs tr].
  cbn [faults emit clock redis set_faults set_redis fst snd].
  destruct fs as [|[|] rest]; eexists; (split; [reflexivity|]);
    cbn [faults emit clock redis set_faults set_redis fst snd].
  - apply db_get_insert_live. lia.
  - split; reflexivity.
  - apply db_get_insert_live. lia.
Qed.

(** What the handler does with an assessment above the threshold. *)
Lemma login_above_threshold `{Platform} (req : Request) (w : World)
  (user : User) (fp : Fingerprint) (check : SpoofAssessment) :
  credentials_valid req w user ->
  assessed req w fp check ->
  70 < spoof_riskScore check ->
  exists w',
    login req w =
      (Ok (if next_command_fails w
           then {| status := 500;
                   body := LoginFailedBody "Login failed"
                             "Connection is closed." |}
           else {| status := 403;
                   body := SuspiciousBody "Suspicious activity detected"
                             (warnings check) |}), w') /\
    if next_command_fails w then redis w' = redis w
    else suspended w' (user_id user).
Proof.
  intros [Hfind Hpw] [Hfp Hchk] Hrisk.
  login_enter req Hfind Hpw Hfp Hchk.
  rewrite (block_condition _ _ Hchk). apply Z.ltb_lt in Hrisk. rewrite Hrisk.
  rewrite bind_run.
  destruct (blockUser_run (user_id user) 3600 w) as (w1 & E & Hw1); [lia|].
  rewrite E. destruct (next_command_fails w).
  - exists w1. split; [reflexivity|]. exact (proj1 Hw1).
  - exists w1. split; [reflexivity|]. exact Hw1.
Qed.

(** C6 as stated fails: the specification lists six automation tokens, the
    code scans seven. For the user agent "automation" without client-side
    signals the code accumulates 30 + 50 + 40, capped to 100 (above the
    block threshold); the sum over the six listed tokens is 70 (not above
    it). *)
Lemma spec_token_list_misses_automation :
  detectSpoofing automationOnly =
    Ok {| isSuspicious := true; spoof_riskScore := 100;
          warnings := [ "Suspicious user agent";
                        "Automation detected: automation";
                        "No client-side fingerprint provided" ] |} /\
  spec_riskScore automationOnly = 70 /\
  100 <> spec_riskScore automationOnly.
Proof. repeat split; vm_compute; congruence. Qed.

(** C6, amended. [detectSpoofing] returns exactly on the components whose
    user agent is a string and whose platform and operating system are
    strings when both are truthy (on the others it throws). When it
    returns, the risk is additive: +30 for an absent or short user agent,
    +50 for each of the seven tokens of [automationSignals] (the six
    listed ones and "automation") found in the lower-cased user agent,
    +25 for a platform inconsistent with the operating system, +40
    without canvas, webgl and font signals; the returned score is the sum
    capped at 100 and [isSuspicious] is the uncapped sum above 50. The
    login handler answers 403 and suspends the user exactly when the
    credentials are valid, the fingerprint is taken and assessed, the
    score exceeds 70 and the Redis write of the suspension does not fail;
    when that write fails it answers 500 and writes nothing, and when the
    fingerprint cannot be taken or assessed it answers 500 with the
    message of the error and nothing has happened. *)
Theorem detectSpoofing_additive_and_login_blocks_above_70 :
  forall `{Platform},
    automationSignals = (spec_automationTokens ++ ["automation"])%list /\
    (forall c : Components,
       (exists a, detectSpoofing c = Ok a) <-> assessable c = true) /\
    (forall (c : Components) (a : SpoofAssessment),
       detectSpoofing c = Ok a ->
       spoof_riskScore a = Z.min 100 (raw_risk automationSignals c) /\
       0 <= spoof_riskScore a <= 100 /\
       isSuspicious a = (50 <? raw_risk automationSignals c)) /\
    (forall (req : Request) (w : World) (user : User)
            (fp : Fingerprint) (check : SpoofAssessment),
       credentials_valid req w user ->
       assessed req w fp check ->
       70 < spoof_riskScore check ->
       next_command_fails w = false ->
       exists w',
         login req w =
           (Ok {| status := 403;
                  body := SuspiciousBody "Suspicious activity detected"
                            (warnings check) |}, w') /\
         suspended w' (user_id user)) /\
    (forall (req : Request) (w w' : World) (r : Response),
       login req w = (Ok r, w') ->
       status r = 403 ->
       exists user fp check,
         credentials_valid req w user /\ assessed req w fp check /\
         70 < spoof_riskScore check /\ next_command_fails w = false /\
         body r = SuspiciousBody "Suspicious activity detected"
                    (warnings check) /\
         suspended w' (user_id user)) /\
    (forall (req : Request) (w : World) (user : User)
            (fp : Fingerprint) (check : SpoofAssessment),
       credentials_valid req w user ->
       assessed req w fp check ->
       70 < spoof_riskScore check ->
       next_command_fails w = true ->
       exists w',
         login req w =
           (Ok {| status := 500;
                  body := LoginFailedBody "Login failed"
                            "Connection is closed." |}, w') /\
         redis w' = redis w) /\
    (forall (req : Request) (w : World) (user : User) (e : Exn),
       credentials_valid req w user ->
       generateEnhancedFingerprint (clock w) req (body_fingerprint req)
         = Throw e \/
       (exists fp,
          generateEnhancedFingerprint (clock w) req (body_fingerprint req)
            = Ok fp /\
          detectSpoofing (fp_components fp) = Throw e) ->
       login req w =
         (Ok {| status := 500;
                body := LoginFailedBody "Login failed" (exn_message e) |}, w)).
Proof.
  intros P. split; [reflexivity|].
  split; [exact detectSpoofing_returns_iff|].
  split; [|split; [|split; [|split]]].
  - intros c a E. destruct (detectSpoofing_closed_form c a E) as [E1 E2].
    split; [exact E1|]. split; [|exact E2]. rewrite E1.
    assert (0 <= raw_risk automationSignals c); [|lia].
    unfold raw_risk, b2z.
    repeat match goal with |- context [if ?b then _ else _] => destruct b end;
      lia.
  - intros req w user fp check Hc Ha Hr Hn.
    destruct (login_above_threshold req w user fp check Hc Ha Hr)
      as (w' & E & Hw'). rewrite Hn in E, Hw'. exists w'. split; assumption.
  - intros req w w' r E Hst.
    destruct (login_403_only_when_blocked req w w' r E Hst)
      as (user & fp & check & Hc & Ha & Hr).
    exists user, fp, check.
    destruct (login_above_threshold req w user fp check Hc Ha Hr)
      as (w2 & E2 & Hw2). rewrite E in E2.
    destruct (next_command_fails w).
    + exfalso. injection E2 as E2 _. rewrite E2 in Hst. discriminate Hst.
    + injection E2 as E2 E3. subst w2. rewrite E2.
      split; [exact Hc|]. split; [exact Ha|]. split; [exact Hr|].
      split; [reflexivity|]. split; [reflexivity|]. exact Hw2.
  - intros req w user fp check Hc Ha Hr Hn.
    destruct (login_above_threshold req w user fp check Hc Ha Hr)
      as (w' & E & Hw'). rewrite Hn in E, Hw'. exists w'. split; assumption.
  - intros req w user e Hc [Hfp | (fp & Hfp & Hchk)].
    + exact (login_fingerprint_throws req w user e Hc Hfp).
    + exact (login_detection_throws req w user fp e Hc Hfp Hchk).
Qed.

(** The announced script is suspended; the same script is answered 500,
    and nobody is suspended, when it sends [null] for its fingerprint or
    a number for its platform. *)
Lemma detectSpoofing_additive_and_login_blocks_above_70_witness :
  credentials_valid botRequest aliceWorld alice /\
  assessed botRequest aliceWorld botFingerprint botAssessment /\
  70 < spoof_riskScore botAssessment /\
  next_command_fails aliceWorld = false /\
  (exists w',
     login botRequest aliceWorld =
       (Ok {| status := 403;
              body := SuspiciousBody "Suspicious activity detected"
                        (warnings botAssessment) |}, w') /\
     suspended w' (user_id alice)) /\
  login nullFingerprintRequest aliceWorld =
    (Ok {| status := 500;
           body := LoginFailedBody "Login failed"
                     "Cannot read properties of null (reading 'screenResolution')" |},
     aliceWorld) /\
  login numericPlatformRequest aliceWorld =
    (Ok {| status := 500;
           body := LoginFailedBody "Login failed"
                     "components.platform.toLowerCase is not a function" |},
     aliceWorld).
Proof.
  assert (Hc : credentials_valid botRequest aliceWorld alice)
    by (split; reflexivity).
  assert (Ha : assessed botRequest aliceWorld botFingerprint botAssessment)
    by (split; vm_compute; reflexivity).
  assert (Hr : 70 < spoof_riskScore botAssessment)
    by (apply Z.ltb_lt; vm_compute; reflexivity).
  split; [exact Hc|]. split; [exact Ha|]. split; [exact Hr|].
  split; [reflexivity|]. split; [|split].
  - exact (proj1 (proj2 (proj2 (proj2
             detectSpoofing_additive_and_login_blocks_above_70)))
             botRequest aliceWorld alice botFingerprint botAssessment
             Hc Ha Hr eq_refl).
  - apply (proj2 (proj2 (proj2 (proj2 (proj2 (proj2
             detectSpoofing_additive_and_login_blocks_above_70)))))
             nullFingerprintRequest aliceWorld alice
             (TypeError
                "Cannot read properties of null (reading 'screenResolution')")).
    + split; reflexivity.
    + left. reflexivity.
  - apply (proj2 (proj2 (proj2 (proj2 (proj2 (proj2
             detectSpoofing_additive_and_login_blocks_above_70)))))
             numericPlatformRequest aliceWorld alice
             (TypeError "components.platform.toLowerCase is not a function")).
    + split; reflexivity.
    + right.
      exists (match generateEnhancedFingerprint t0 numericPlatformRequest
                      (body_fingerprint numericPlatformRequest) with
              | Ok fp => fp
              | Throw _ => botFingerprint
              end).
      split; vm_compute; reflexivity.
Defined.

(** ** Geographic impossibility *)

Section GeoBounds.
Local Open Scope R_scope.

Lemma inv_sqrt2_sq : (1 / sqrt 2) * (1 / sqrt 2) = 1 / 2.
Proof.
  pose proof (sqrt_sqrt 2 ltac:(lra)) as H. pose proof Rlt_sqrt2_0.
  field_simplify; [|lra..]. rewrite <- Rsqr_pow2. unfold Rsqr. rewrite H. lra.
Qed.

Lemma inv_sqrt2_pos : 0 < 1 / sqrt 2.
Proof. pose proof Rlt_sqrt2_0. apply Rdiv_lt_0_compat; lra. Qed.

(** cos is at least cos (PI/4) on [0, 45] degrees *)
Lemma cos_deg_lower (deg : R) :
  0 <= deg <= 45 -> 1 / sqrt 2 <= cos (toRad deg).
Proof.
  intros Hd. rewrite <- cos_PI4. pose proof PI_RGT_0.
  unfold toRad. apply cos_decr_1; nra.
Qed.

Lemma sin_deg_lower (deg : R) :
  45 <= deg <= 90 -> 1 / sqrt 2 <= sin (toRad deg).
Proof.
  intros Hd. rewrite <- sin_PI4. pose proof PI_RGT_0.
  unfold toRad. apply sin_incr_1; nra.
Qed.

Lemma atan_lower (x : R) : 1 / sqrt 3 <= x -> 1 / 2 < atan x.
Proof.
  intros Hx. pose proof PI2_3_2. pose proof PI_RGT_0.
  assert (E : atan (1 / sqrt 3) = PI / 6).
  { rewrite <- tan_PI6. apply atan_tan. lra. }
  destruct Hx as [Hlt | <-].
  - apply atan_increasing in Hlt. lra.
  - lra.
Qed.

Lemma atan2_haversine_lower (a : R) :
  1 / 4 <= a -> 1 / 2 < Math_atan2 (sqrt a) (sqrt (1 - a)).
Proof.
  intros Ha. unfold Math_atan2.
  assert (Hsa : 1 / 2 <= sqrt a).
  { replace (1 / 2) with (sqrt (1 / 2 * (1 / 2))) by (apply sqrt_square; lra).
    apply sqrt_le_1_alt. lra. }
  pose proof PI2_3_2.
  destruct (Rlt_dec 0 (sqrt (1 - a))) as [Hpos | Hnpos].
  - apply atan_lower.
    assert (Hs3 : sqrt (1 - a) <= sqrt 3 / 2).
    { replace (sqrt 3 / 2) with (sqrt (3 / 4)).
      - apply sqrt_le_1_alt. lra.
      - replace (3 / 4) with (3 / (2 * 2)) by lra.
        rewrite sqrt_div_alt by lra. rewrite sqrt_square by lra. reflexivity. }
    assert (H3 : 0 < sqrt 3) by (apply sqrt_lt_R0; lra).
    apply (Rmult_le_reg_r (sqrt (1 - a))); [exact Hpos|].
    unfold Rdiv at 2. rewrite Rmult_assoc, Rinv_l by lra. rewrite Rmult_1_r.
    apply (Rmult_le_reg_r (sqrt 3)); [exact H3|].
    unfold Rdiv. rewrite Rmult_1_l, Rmult_comm, <- Rmult_assoc, Rinv_r by lra.
    nra.
  - destruct (Rlt_dec (sqrt (1 - a)) 0) as [Hneg | _].
    + pose proof (sqrt_pos (1 - a)). lra.
    + destruct (Rlt_dec 0 (sqrt a)) as [_ | Hz]; lra.
Qed.

Lemma delhi_newYork_far :
  6371 < calculateDistance 28.70 77.10 40.71 (-74.01).
Proof.
  unfold calculateDistance.
  set (dLat := toRad (40.71 - 28.70)).
  set (dLon := toRad (-74.01 - 77.10)).
  assert (Hc1 := cos_deg_lower 28.70 ltac:(lra)).
  assert (Hc2 := cos_deg_lower 40.71 ltac:(lra)).
  assert (Hs : 1 / sqrt 2 <= sin (toRad 75.555)) by (apply sin_deg_lower; lra).
  assert (Es : sin (dLon / 2) * sin (dLon / 2)
               = sin (toRad 75.555) * sin (toRad 75.555)).
  { replace (dLon / 2) with (- toRad 75.555) by (unfold dLon, toRad; lra).
    rewrite sin_neg. lra. }
  pose proof inv_sqrt2_sq as Hh. pose proof inv_sqrt2_pos as Hp.
  assert (Ha : 1 / 4 <= sin (dLat / 2) * sin (dLat / 2) +
                cos (toRad 28.70) * cos (toRad 40.71) *
                sin (dLon / 2) * sin (dLon / 2)).
  { rewrite Rmult_assoc, Es.
    assert (0 <= sin (dLat / 2) * sin (dLat / 2)) by nra.
    assert (1 / 2 <= cos (toRad 28.70) * cos (toRad 40.71)) by nra.
    assert (1 / 2 <= sin (toRad 75.555) * sin (toRad 75.555)) by nra.
    nra. }
  apply atan2_haversine_lower in Ha. lra.
Qed.

End GeoBounds.

Lemma Rltb_true (x y : R) : Rltb x y = true <-> (x < y)%R.
Proof.
  unfold Rltb. destruct (Rlt_dec x y); split; intros; try assumption;
    try reflexivity; try discriminate; contradiction.
Qed.

Lemma checkGeoImpossibility_stored `{Platform} (userId ip : string) (w : World)
  (geo : GeoInfo) (last : Location) :
  geoip_lookup ip = Some geo ->
  faults w = [] ->
  db_get (clock w) (redis w) (last_location_key userId) = Some (VLocation last) ->
  checkGeoImpossibility userId ip w =
  (Ok (compareLocations last (location_now geo (clock w))),
   set_redis
     (<[last_location_key userId :=
          {| expiresAt := Some (clock w + 86400 * 7 * 1000);
             value := VLocation (location_now geo (clock w)) |}]> (redis w))
     (emit (Redis (SETEX (last_location_key userId) (86400 * 7)))
        (emit (Redis (GET (last_location_key userId))) w))).
Proof.
  intros Hgeo Hf Hlast. unfold checkGeoImpossibility. rewrite Hgeo.
  rewrite bind_run. unfold Date_now at 1. cbv zeta.
  rewrite bind_run. unfold redis_get. rewrite redis_cmd_nofault by exact Hf.
  cbn [fst snd]. rewrite Hlast.
  rewrite bind_run. unfold redis_setex.
  rewrite redis_cmd_nofault by (destruct w; exact Hf).
  destruct w; reflexivity.
Qed.

(** C3. With a stored last location and a resolvable address, the check
    returns [isImpossible] exactly when the elapsed time is below the
    minimum travel time (haversine distance over 900 km/h, in
    milliseconds) and the distance exceeds 500 km; the risk is that of the
    first matching tier (95, 75, 40, 20, 0); the current location replaces
    the stored one; and from Delhi (28.70, 77.10) to New York
    (40.71, -74.01) in two hours the verdict is impossible with risk 95. *)
Theorem checkGeoImpossibility_verdict :
  forall `{Platform} (userId ip : string) (w : World) (geo : GeoInfo)
         (last : Location),
    geoip_lookup ip = Some geo ->
    faults w = [] ->
    db_get (clock w) (redis w) (last_location_key userId) = Some (VLocation last) ->
    let distance :=
      calculateDistance (loc_lat last) (loc_lon last) (gi_lat geo) (gi_lon geo) in
    let elapsed := clock w - loc_timestamp last in
    exists r w',
      checkGeoImpossibility userId ip w = (Ok r, w') /\
      getMinTravelTime distance = (distance / 900 * 3600 * 1000)%R /\
      (isImpossible r = true <->
       (IZR elapsed < getMinTravelTime distance)%R /\ (500 < distance)%R) /\
      geo_riskScore r =
        spec_geoRisk (isImpossible r) distance elapsed
          (negb (String.eqb (loc_country last) (gi_country geo))) /\
      db_get (clock w) (redis w') (last_location_key userId)
        = Some (VLocation (location_now geo (clock w))) /\
      (loc_lat last = 28.70%R -> loc_lon last = 77.10%R ->
       gi_lat geo = 40.71%R -> gi_lon geo = (-74.01)%R ->
       elapsed = 2 * 3600000 ->
       isImpossible r = true /\ geo_riskScore r = 95).
Proof.
  intros P userId ip w geo last Hgeo Hf Hlast distance elapsed.
  eexists _, _. split; [apply checkGeoImpossibility_stored; eassumption|].
  split; [reflexivity|].
  assert (Himp : isImpossible (compareLocations last (location_now geo (clock w)))
                 = Rltb (IZR elapsed) (getMinTravelTime distance)
                   && Rltb 500 distance) by reflexivity.
  split; [|split; [|split]].
  - rewrite Himp, andb_true_iff, !Rltb_true. reflexivity.
  - unfold spec_geoRisk. rewrite Himp. unfold compareLocations.
    cbn [geo_riskScore loc_lat loc_lon loc_timestamp loc_country location_now].
    fold distance. fold elapsed.
    destruct (Rltb (IZR elapsed) (getMinTravelTime distance) && Rltb 500 distance);
      [reflexivity|].
    destruct (Rltb 3000 distance && (elapsed <? 3600000)); [reflexivity|].
    destruct (negb (String.eqb (loc_country last) (gi_country geo)));
      [reflexivity|].
    destruct (Rltb 100 distance); reflexivity.
  - destruct w; cbn [clock redis set_redis emit].
    apply db_get_insert_live. lia.
  - intros E1 E2 E3 E4 E5.
    assert (Hfar : (6371 < distance)%R).
    { subst distance. rewrite E1, E2, E3, E4. apply delhi_newYork_far. }
    assert (Hi : isImpossible (compareLocations last (location_now geo (clock w)))
                 = true).
    { rewrite Himp, andb_true_iff, !Rltb_true. rewrite E5.
      unfold getMinTravelTime. split; [|lra].
      replace (IZR (2 * 3600000)) with 7200000%R by (rewrite mult_IZR; lra).
      lra. }
    split; [exact Hi|].
    unfold compareLocations in Hi |- *. cbn [isImpossible] in Hi.
    cbn [geo_riskScore]. rewrite Hi. reflexivity.
Qed.

Lemma checkGeoImpossibility_verdict_witness :
  geoip_lookup "8.8.4.4" = Some newYork /\
  faults travellerWorld = [] /\
  db_get (clock travellerWorld) (redis travellerWorld) (last_location_key "u-42")
    = Some (VLocation (location_now delhi (t0 - 7200000))) /\
  exists r w',
    checkGeoImpossibility "u-42" "8.8.4.4" travellerWorld = (Ok r, w') /\
    isImpossible r = true /\ geo_riskScore r = 95.
Proof.
  assert (Hl : db_get (clock travellerWorld) (redis travellerWorld)
                 (last_location_key "u-42")
               = Some (VLocation (location_now delhi (t0 - 7200000)))).
  { unfold travellerWorld. cbn [clock redis].
    apply db_get_insert_live. reflexivity. }
  split; [reflexivity|]. split; [reflexivity|]. split; [exact Hl|].
  destruct (@checkGeoImpossibility_verdict scenarioPlatform
              "u-42" "8.8.4.4" travellerWorld newYork
              (location_now delhi (t0 - 7200000)) eq_refl eq_refl Hl)
    as (r & w' & E & _ & _ & _ & _ & Hdn).
  exists r, w'. split; [exact E|].
  apply Hdn; reflexivity.
Defined.

(** ** Device identity *)

Lemma append_nil_l (t : string) : "" +:+ t = t.
Proof. reflexivity. Qed.

Lemma append_cons (c : ascii) (a b : string) :
  String c a +:+ b = String c (a +:+ b).
Proof. reflexivity. Qed.

Lemma append_cancel_l (p a b : string) : p +:+ a = p +:+ b -> a = b.
Proof.
  induction p as [|c p IH]; rewrite ?append_nil_l, ?append_cons; intros E;
    [exact E|].
  injection E as E. exact (IH E).
Qed.














Lemma key_name_inj (a b : ComponentKey) : key_name a = key_name b -> a = b.
Proof. destruct a, b; intros E; try reflexivity; discriminate E. Qed.




















(** ** Session limit *)

(** *** The sort puts a least element first *)

Lemma insert_sorted_In {A : Type} (le : A -> A -> bool) (x y : A) (l : list A) :
  In y (insert_sorted le x l) <-> y = x \/ In y l.
Proof.
  induction l as [|z l IH]; cbn [insert_sorted In].
  - intuition congruence.
  - destruct (le x z); cbn [In]; [intuition congruence|].
    rewrite IH. intuition congruence.
Qed.

Lemma sort_by_In {A : Type} (le : A -> A -> bool) (y : A) (l : list A) :
  In y (sort_by le l) <-> In y l.
Proof.
  induction l as [|x l IH]; cbn [sort_by In]; [reflexivity|].
  rewrite insert_sorted_In, IH. intuition congruence.
Qed.

Lemma sort_by_length {A : Type} (le : A -> A -> bool) (l : list A) :
  length (sort_by le l) = length l.
Proof.
  assert (Hins : forall x l', length (insert_sorted le x l') = S (length l')).
  { intros x l'. induction l' as [|z l' IH]; cbn [insert_sorted length];
      [reflexivity|].
    destruct (le x z); cbn [length]; [reflexivity | rewrite IH; reflexivity]. }
  induction l as [|x l IH]; cbn [sort_by length]; [reflexivity|].
  rewrite Hins, IH. reflexivity.
Qed.

Lemma insert_sorted_head_least {A : Type} (key : A -> Z) (x : A) (l : list A) :
  head_least key l ->
  head_least key (insert_sorted (fun a b => key a <=? key b) x l).
Proof.
  destruct l as [|z l]; cbn [insert_sorted head_least].
  - intros _ y [<-|[]]. lia.
  - intros Hz. destruct (Z.leb_spec (key x) (key z)) as [Hle|Hlt];
      cbn [head_least].
    + intros y [<-|Hy]; [lia|]. specialize (Hz y Hy). lia.
    + intros y [<-|Hy]; [lia|].
      apply insert_sorted_In in Hy. destruct Hy as [->|Hy]; [lia|].
      apply Hz. right. exact Hy.
Qed.

Lemma sort_by_head_least {A : Type} (key : A -> Z) (l : list A) :
  head_least key (sort_by (fun a b => key a <=? key b) l).
Proof.
  induction l as [|x l IH]; cbn [sort_by]; [exact Logic.I|].
  apply insert_sorted_head_least, IH.
Qed.

(** *** Keys *)

Lemma session_key_inj (u d d' : string) :
  session_key u d = session_key u d' -> d = d'.
Proof.
  unfold session_key. intros E.
  apply append_cancel_l, append_cancel_l, append_cancel_l in E. exact E.
Qed.

Lemma session_key_not_index (u d u' : string) :
  session_key u d <> user_sessions_key u'.
Proof. unfold session_key, user_sessions_key. intros E. discriminate E. Qed.

Lemma session_at_lookup (now : Z) (db db' : gmap string Entry) (u d : string) :
  db' !! session_key u d = db !! session_key u d ->
  session_at now db' u d = session_at now db u d.
Proof.
  intros E. unfold session_at, db_get, db_entry. rewrite E. reflexivity.
Qed.

(** *** The helpers without faults *)

Lemma same_but_refl (k : string) (w : World) : same_but k w w.
Proof. repeat split. Qed.

Lemma same_but_trans (k : string) (w1 w2 w3 : World) :
  same_but k w1 w2 -> same_but k w2 w3 -> same_but k w1 w3.
Proof.
  intros (U1 & D1 & S1 & C1 & H1 & F1 & K1) (U2 & D2 & S2 & C2 & H2 & F2 & K2).
  repeat split; try congruence.
  intros k' Hk'. rewrite K2, K1 by exact Hk'. reflexivity.
Qed.

Lemma same_but_emit (k : string) (e : Event) (w : World) : same_but k w (emit e w).
Proof. repeat split. Qed.

Lemma redis_unit_nofault (c : RCmd)
  (f : Z -> gmap string Entry -> unit * gmap string Entry) (w : World) :
  faults w = [] ->
  redis_cmd c f w =
  (Ok tt, set_redis (snd (f (clock w) (redis w))) (emit (Redis c) w)).
Proof.
  intros Hf. rewrite redis_cmd_nofault by exact Hf.
  destruct (fst (f (clock w) (redis w))). reflexivity.
Qed.

Lemma redis_srem_nofault (k member : string) (w : World) :
  faults w = [] ->
  exists w', redis_srem k member w = (Ok tt, w') /\ same_but k w w'.
Proof.
  intros Hf. unfold redis_srem. rewrite redis_unit_nofault by exact Hf.
  eexists. split; [reflexivity|].
  destruct w as [us ds ms db cl hr fs tr]. repeat split.
  intros k' Hne. cbn [redis set_redis emit clock snd].
  repeat match goal with
         | |- context [match ?x with _ => _ end] => destruct x
         end;
    cbn [snd];
    first [ reflexivity
          | apply lookup_insert_ne; congruence
          | apply lookup_delete_ne; congruence ].
Qed.

Lemma live_sessions_same (now : Z) (db db' : gmap string Entry) (u : string)
  (ids : list string) :
  (forall d, db' !! session_key u d = db !! session_key u d) ->
  live_sessions now db' u ids = live_sessions now db u ids.
Proof.
  intros Hsame. induction ids as [|d ids IH]; cbn [live_sessions]; [reflexivity|].
  rewrite (session_at_lookup now db db' u d (Hsame d)), IH. reflexivity.
Qed.

Lemma getUserSessions_loop_nofault (u : string) (ids : list string) :
  forall (acc : list SessionData) (w : World),
    faults w = [] ->
    exists w',
      getUserSessions_loop u ids acc w =
        (Ok (acc ++ live_sessions (clock w) (redis w) u ids)%list, w') /\
      same_but (user_sessions_key u) w w'.
Proof.
  induction ids as [|d ids IH]; intros acc w Hf;
    cbn [getUserSessions_loop live_sessions].
  - exists w. rewrite app_nil_r. split; [reflexivity | apply same_but_refl].
  - rewrite bind_run, getSession_nofault by exact Hf.
    destruct (session_at (clock w) (redis w) u d) as [s|] eqn:Hs.
    + destruct (IH (acc ++ [s])%list (emit (Redis (GET (session_key u d))) w))
        as (w' & E & Hsame); [destruct w; exact Hf|].
      exists w'. split.
      * rewrite E. rewrite <- app_assoc. destruct w; reflexivity.
      * apply (same_but_trans _ _ (emit (Redis (GET (session_key u d))) w));
          [apply same_but_emit | exact Hsame].
    + rewrite bind_run.
      destruct (redis_srem_nofault (user_sessions_key u) d
                  (emit (Redis (GET (session_key u d))) w))
        as (w1 & E1 & Hsame1); [destruct w; exact Hf|].
      rewrite E1.
      assert (Hf1 : faults w1 = []).
      { destruct Hsame1 as (_ & _ & _ & _ & _ & F & _). rewrite F.
        destruct w; exact Hf. }
      destruct (IH acc w1 Hf1) as (w' & E & Hsame).
      exists w'. split.
      * rewrite E. do 3 f_equal.
        destruct Hsame1 as (_ & _ & _ & C & _ & _ & K).
        rewrite C. cbn [clock emit].
        apply live_sessions_same. intros d'.
        rewrite K by apply session_key_not_index.
        destruct w; reflexivity.
      * apply (same_but_trans _ _ w1); [|exact Hsame].
        apply (same_but_trans _ _ (emit (Redis (GET (session_key u d))) w));
          [apply same_but_emit | exact Hsame1].
Qed.

Lemma getUserSessions_nofault (u : string) (w : World) :
  faults w = [] ->
  exists w',
    getUserSessions u w = (Ok (active_sessions (clock w) (redis w) u), w') /\
    same_but (user_sessions_key u) w w'.
Proof.
  intros Hf. unfold getUserSessions. rewrite bind_run.
  unfold redis_smembers. rewrite redis_cmd_nofault by exact Hf. cbn [fst snd].
  set (w0 := set_redis _ _).
  assert (Hsame0 : same_but (user_sessions_key u) w w0)
    by (destruct w; repeat split).
  destruct (getUserSessions_loop_nofault u
              (db_members (clock w) (redis w) (user_sessions_key u)) [] w0)
    as (w' & E & Hsame); [destruct w; exact Hf|].
  exists w'. split.
  - rewrite bind_run, E. cbn [app]. unfold active_sessions.
    destruct w; reflexivity.
  - exact (same_but_trans _ _ _ _ Hsame0 Hsame).
Qed.

Lemma redis_step_trans (K1 K2 : list string) (w1 w2 w3 : World) :
  redis_step K1 w1 w2 -> redis_step K2 w2 w3 ->
  redis_step (K1 ++ K2) w1 w3.
Proof.
  intros (C1 & F1 & R1) (C2 & F2 & R2). repeat split; try congruence.
  intros k Hk. rewrite R2, R1; [reflexivity| |];
    intros Hin; apply Hk, in_or_app; auto.
Qed.

Lemma redis_step_weaken (K K' : list string) (w w' : World) :
  (forall k, In k K -> In k K') -> redis_step K w w' -> redis_step K' w w'.
Proof.
  intros Hsub (C & F & R). repeat split; try assumption.
  intros k Hk. apply R. intros Hin. apply Hk, Hsub, Hin.
Qed.

Lemma same_but_redis_step (k : string) (w w' : World) :
  same_but k w w' -> redis_step [k] w w'.
Proof.
  intros (_ & _ & _ & C & _ & F & R). repeat split; try assumption.
  intros k' Hk'. apply R. intros ->. apply Hk'. left. reflexivity.
Qed.

Lemma deleteSession_nofault (u d : string) (w : World) :
  faults w = [] ->
  exists w',
    deleteSession u d w = (Ok tt, w') /\
    redis_step [session_key u d; user_sessions_key u] w w' /\
    redis w' !! session_key u d = None /\
    mongoSessions w' = mongoSessions w.
Proof.
  intros Hf. unfold deleteSession. rewrite bind_run.
  unfold redis_del. rewrite redis_unit_nofault by exact Hf. cbn [snd].
  set (w1 := set_redis _ _).
  destruct (redis_srem_nofault (user_sessions_key u) d w1)
    as (w' & E & (_ & _ & S & C & _ & F & R)); [destruct w; exact Hf|].
  exists w'. split; [exact E|]. split; [|split].
  - repeat split.
    + rewrite C. destruct w; reflexivity.
    + rewrite F. destruct w; reflexivity.
    + intros k Hk. rewrite R by (intros ->; apply Hk; right; left; reflexivity).
      subst w1. destruct w; cbn [redis set_redis emit].
      apply lookup_delete_ne. intros <-. apply Hk. left. reflexivity.
  - rewrite R by apply session_key_not_index.
    subst w1. destruct w; cbn [redis set_redis emit]. apply lookup_delete_eq.
  - rewrite S. destruct w; reflexivity.
Qed.

Lemma redis_sadd_nofault (k member : string) (w : World) :
  faults w = [] ->
  exists w', redis_sadd k member w = (Ok tt, w') /\ same_but k w w'.
Proof.
  intros Hf. unfold redis_sadd. rewrite redis_unit_nofault by exact Hf.
  eexists. split; [reflexivity|].
  destruct w as [us ds ms db cl hr fs tr]. repeat split.
  intros k' Hne. cbn [redis set_redis emit clock snd].
  repeat match goal with
         | |- context [match ?x with _ => _ end] => destruct x
         | |- context [if ?x then _ else _] => destruct x
         end;
    cbn [snd];
    first [ reflexivity | apply lookup_insert_ne; congruence ].
Qed.

Lemma createSession_nofault (u d tok : string) (md : Metadata) (w : World) :
  faults w = [] ->
  exists w',
    createSession u d tok md w = (Ok (new_session u d tok md (clock w)), w') /\
    redis_step [session_key u d; user_sessions_key u] w w' /\
    redis w' !! session_key u d
      = Some {| expiresAt := Some (clock w + 86400 * 1000);
                value := VSession (new_session u d tok md (clock w)) |} /\
    mongoSessions w' = mongoSessions w.
Proof.
  intros Hf. unfold createSession. rewrite bind_run. unfold Date_now at 1.
  cbv zeta. rewrite bind_run.
  unfold redis_setex. rewrite redis_unit_nofault by exact Hf. cbn [snd].
  set (w1 := set_redis _ _).
  destruct (redis_sadd_nofault (user_sessions_key u) d w1)
    as (w' & E & (_ & _ & S & C & _ & F & R)); [destruct w; exact Hf|].
  exists w'. rewrite bind_run, E. split; [reflexivity|]. split; [|split].
  - repeat split.
    + rewrite C. destruct w; reflexivity.
    + rewrite F. destruct w; reflexivity.
    + intros k Hk. rewrite R by (intros ->; apply Hk; right; left; reflexivity).
      subst w1. destruct w; cbn [redis set_redis emit].
      apply lookup_insert_ne. intros <-. apply Hk. left. reflexivity.
  - rewrite R by apply session_key_not_index.
    subst w1. destruct w; cbn [redis set_redis emit clock].
    apply lookup_insert_eq.
  - rewrite S. destruct w; reflexivity.
Qed.

Lemma getMaxSessions_positive (plan : string) : 1 <= getMaxSessions plan.
Proof.
  unfold getMaxSessions.
  repeat match goal with |- context [if ?b then _ else _] => destruct b end; lia.
Qed.

Lemma enforceSessionLimit_nofault (user : User) (w : World) :
  faults w = [] ->
  let active := active_sessions (clock w) (redis w) (user_id user) in
  let maxSessions := getMaxSessions (user_plan user) in
  exists w',
    enforceSessionLimit user w = (Ok (active, maxSessions), w') /\
    redis_step (user_sessions_key (user_id user)
                :: evicted_keys (user_id user) (evicted maxSessions active)) w w' /\
    (forall d, evicted maxSessions active = Some d ->
               redis w' !! session_key (user_id user) d = None).
Proof.
  intros Hf active maxSessions. unfold enforceSessionLimit. rewrite bind_run.
  destruct (getUserSessions_nofault (user_id user) w Hf) as (w1 & E1 & Hsame1).
  rewrite E1. fold active. fold maxSessions. unfold evicted.
  pose proof (same_but_redis_step _ _ _ Hsame1) as Hstep1.
  assert (Hf1 : faults w1 = []).
  { destruct Hstep1 as (_ & F & _). rewrite F. exact Hf. }
  destruct (Z.leb_spec maxSessions (Z.of_nat (length active))) as [Hfull|Hroom].
  - destruct active as [|oldest rest] eqn:Hact.
    { pose proof (getMaxSessions_positive (user_plan user)).
      cbn [length] in Hfull. subst maxSessions. lia. }
    cbn [head fmap option_fmap option_map evicted_keys].
    destruct (deleteSession_nofault (user_id user) (s_deviceId oldest) w1 Hf1)
      as (w2 & E2 & Hstep2 & Hnone & _).
    rewrite !bind_run, E2.
    eexists. split; [reflexivity|]. split.
    + pose proof (redis_step_trans _ _ _ _ _ Hstep1 Hstep2) as Hstep.
      destruct Hstep as (C & F & R). repeat split.
      * cbn [clock set_mongoSessions]. exact C.
      * cbn [faults set_mongoSessions]. exact F.
      * intros k Hk. cbn [redis set_mongoSessions]. apply R.
        intros Hin. apply Hk. cbn [app In] in Hin |- *. tauto.
    + intros d Hd. injection Hd as <-. exact Hnone.
  - rewrite !bind_run. cbn [evicted_keys]. eexists. split; [reflexivity|].
    split; [exact Hstep1 | intros d Hd; discriminate Hd].
Qed.

Lemma establishSession_nofault `{Platform} (user : User) (d ip : string)
  (ua : option string) (trust : Z) (loc : option Location) (w : World) :
  faults w = [] ->
  let u := user_id user in
  let active := active_sessions (clock w) (redis w) u in
  let maxSessions := getMaxSessions (user_plan user) in
  let tok := jwt_sign u d (user_email user) (clock w) in
  exists w',
    establishSession user d ip ua trust loc w = (Ok (tok, active, maxSessions), w') /\
    clock w' = clock w /\ faults w' = [] /\
    session_at (clock w) (redis w') u d
      = Some (new_session u d tok (login_metadata ip ua trust loc) (clock w)) /\
    (forall d', evicted maxSessions active = Some d' -> d' <> d ->
                session_at (clock w) (redis w') u d' = None) /\
    (forall d', d' <> d -> evicted maxSessions active <> Some d' ->
                session_at (clock w) (redis w') u d'
                = session_at (clock w) (redis w) u d').
Proof.
  intros Hf u active maxSessions tok. unfold establishSession.
  destruct (enforceSessionLimit_nofault user w Hf) as (w1 & E1 & Hstep1 & Hgone).
  fold u active maxSessions in E1, Hstep1, Hgone.
  rewrite bind_run, E1. rewrite bind_run. unfold Date_now at 1. cbv zeta.
  destruct Hstep1 as (C1 & F1 & R1).
  assert (Hf1 : faults w1 = []) by congruence.
  destruct (createSession_nofault u d (jwt_sign u d (user_email user) (clock w1))
              (login_metadata ip ua trust loc) w1 Hf1)
    as (w2 & E2 & (C2 & F2 & R2) & Hnew & _).
  fold u. unfold login_metadata in E2. rewrite bind_run, E2.
  rewrite C1 in *. fold tok in E2, Hnew |- *.
  rewrite !bind_run. eexists. split; [reflexivity|].
  cbn [clock faults redis set_mongoSessions Session_create snd fst].
  split; [congruence|]. split; [congruence|].
  split; [|split].
  - unfold session_at, db_get, db_entry. rewrite Hnew.
    unfold live. cbn [expiresAt value fmap option_fmap option_map].
    destruct (Z.ltb_spec (clock w) (clock w + 86400 * 1000)); [reflexivity | lia].
  - intros d' Hev Hne.
    unfold session_at, db_get, db_entry.
    rewrite R2.
    + rewrite (Hgone d' Hev). reflexivity.
    + cbn [In]. intros [Hk|[Hk|[]]].
      * apply session_key_inj in Hk. congruence.
      * symmetry in Hk. exact (session_key_not_index _ _ _ Hk).
  - intros d' Hne Hev. apply session_at_lookup.
    rewrite R2, R1; [reflexivity| |].
    + cbn [In]. intros [Hk|Hk].
      * symmetry in Hk. exact (session_key_not_index _ _ _ Hk).
      * destruct (evicted maxSessions active) as [e|]; cbn [evicted_keys In] in Hk;
          [|exact Hk].
        destruct Hk as [Hk|[Hk|[]]].
        -- apply session_key_inj in Hk. congruence.
        -- symmetry in Hk. exact (session_key_not_index _ _ _ Hk).
    + cbn [In]. intros [Hk|[Hk|[]]].
      * apply session_key_inj in Hk. congruence.
      * symmetry in Hk. exact (session_key_not_index _ _ _ Hk).
Qed.

(** The first session of a user who has no session index yet. *)
Lemma establishSession_first `{Platform} (user : User) (d ip : string)
  (ua : option string) (trust : Z) (loc : option Location) (w : World) :
  faults w = [] ->
  redis w !! user_sessions_key (user_id user) = None ->
  let u := user_id user in
  let tok := jwt_sign u d (user_email user) (clock w) in
  exists w',
    establishSession user d ip ua trust loc w
      = (Ok (tok, [], getMaxSessions (user_plan user)), w') /\
    clock w' = clock w /\ faults w' = [] /\
    redis w' =
      <[user_sessions_key u := {| expiresAt := None; value := VSet [d] |}]>
        (<[session_key u d :=
             {| expiresAt := Some (clock w + 86400 * 1000);
                value := VSession (new_session u d tok
                                     (login_metadata ip ua trust loc) (clock w)) |}]>
           (redis w)).
Proof.
  intros Hf Hnone u tok. fold u in Hnone.
  assert (Hmem : db_members (clock w) (redis w) (user_sessions_key u) = []).
  { unfold db_members, db_get, db_entry. rewrite Hnone. reflexivity. }
  unfold establishSession, enforceSessionLimit, getUserSessions.
  rewrite !bind_run. unfold redis_smembers.
  rewrite redis_cmd_nofault by exact Hf. cbn [fst snd]. fold u. rewrite Hmem.
  cbn [getUserSessions_loop]. rewrite !bind_run, !ret_run.
  cbn [sort_by length]. change (Z.of_nat 0) with 0.
  pose proof (getMaxSessions_positive (user_plan user)) as Hpos.
  destruct (Z.leb_spec (getMaxSessions (user_plan user)) 0); [lia|].
  rewrite !bind_run, !ret_run. unfold Date_now at 1.
  unfold createSession.
  rewrite !bind_run. unfold Date_now at 1. cbv zeta.
  unfold redis_setex. rewrite bind_run.
  rewrite redis_unit_nofault by (destruct w; exact Hf).
  unfold redis_sadd. rewrite bind_run.
  rewrite redis_unit_nofault by (destruct w; exact Hf).
  cbn [clock redis set_redis emit snd].
  assert (Hfresh : forall e,
            db_entry (clock w) (<[session_key u d := e]> (redis w))
              (user_sessions_key u) = None).
  { intros e. unfold db_entry.
    rewrite lookup_insert_ne by apply session_key_not_index.
    rewrite Hnone. reflexivity. }
  rewrite Hfresh. cbn [snd].
  repeat (progress (rewrite ?ret_run, ?bind_run; cbv beta iota)).
  eexists. split; [reflexivity|].
  destruct w; cbn [clock faults redis set_redis emit set_mongoSessions
                   Session_create snd] in *.
  repeat split; first [assumption | reflexivity].
Qed.

Lemma evicted_head (maxSessions : Z) (oldest : SessionData)
  (rest : list SessionData) :
  maxSessions <= Z.of_nat (length (oldest :: rest)) ->
  evicted maxSessions (oldest :: rest) = Some (s_deviceId oldest).
Proof.
  intros Hfull. unfold evicted.
  destruct (Z.leb_spec maxSessions (Z.of_nat (length (oldest :: rest))));
    [reflexivity | lia].
Qed.

(** The enforcement block taken on its own, from a Redis that answers
    (no login reaches it, see below). The helper of the enhanced
    controller maps BASIC to 1,
    STANDARD to 2, PREMIUM to 4 and any other plan to 1; the helper of the
    earlier controller maps the three plans alike and any other plan to
    [undefined], for which its limit test is false. In the enhanced
    controller, steps 9 to 12 return the active sessions oldest first
    (least [createdAt] first); when their number reaches the maximum, the
    first one is deleted before the new session is stored, and no other
    session is touched; the new session is stored under the login's
    device. On plan BASIC, running the block a second time for another
    device, within the lifetime of the first session, leaves [getSession]
    of the first device absent and that of the second present. *)
Theorem session_limit_evicts_oldest :
  forall `{Platform},
    (getMaxSessions "BASIC" = 1 /\ getMaxSessions "STANDARD" = 2 /\
     getMaxSessions "PREMIUM" = 4 /\
     (forall plan, plan <> "BASIC" -> plan <> "STANDARD" -> plan <> "PREMIUM" ->
                   getMaxSessions plan = 1 /\
                   Legacy.getMaxSessions plan = None /\
                   forall n, ge_undef (Some n) (Legacy.getMaxSessions plan) = false) /\
     Legacy.getMaxSessions "BASIC" = Some 1 /\
     Legacy.getMaxSessions "STANDARD" = Some 2 /\
     Legacy.getMaxSessions "PREMIUM" = Some 4) /\
    (forall (user : User) (d ip : string) (ua : option string) (trust : Z)
            (loc : option Location) (w : World),
       faults w = [] ->
       let u := user_id user in
       let active := active_sessions (clock w) (redis w) u in
       let maxSessions := getMaxSessions (user_plan user) in
       exists tok w',
         fst (getUserSessions u w) = Ok active /\
         establishSession user d ip ua trust loc w
           = (Ok (tok, active, maxSessions), w') /\
         head_least createdAt active /\
         (forall s, In s active <->
                    In s (live_sessions (clock w) (redis w) u
                            (db_members (clock w) (redis w) (user_sessions_key u)))) /\
         (exists s, fst (getSession u d w') = Ok (Some s) /\
                    token s = tok /\ createdAt s = clock w) /\
         (forall oldest rest,
            active = oldest :: rest ->
            maxSessions <= Z.of_nat (length active) ->
            s_deviceId oldest <> d ->
            fst (getSession u (s_deviceId oldest) w') = Ok None) /\
         (forall d',
            d' <> d ->
            (Z.of_nat (length active) < maxSessions \/
             exists oldest rest,
               active = oldest :: rest /\ s_deviceId oldest <> d') ->
            fst (getSession u d' w') = fst (getSession u d' w))) /\
    (forall (user : User) (d1 d2 ip1 ip2 : string) (ua1 ua2 : option string)
            (trust1 trust2 : Z) (loc1 loc2 : option Location) (w : World) (t2 : Z),
       faults w = [] ->
       user_plan user = "BASIC" ->
       redis w !! user_sessions_key (user_id user) = None ->
       d1 <> d2 ->
       clock w <= t2 < clock w + 86400 * 1000 ->
       let u := user_id user in
       let r1 := establishSession user d1 ip1 ua1 trust1 loc1 w in
       let r2 := establishSession user d2 ip2 ua2 trust2 loc2
                   (set_clock t2 (snd r1)) in
       exists tok1 tok2 s1 s2,
         fst r1 = Ok (tok1, [], 1) /\
         fst (getSession u d1 (snd r1)) = Ok (Some s1) /\ token s1 = tok1 /\
         fst r2 = Ok (tok2, [s1], 1) /\
         fst (getSession u d1 (snd r2)) = Ok None /\
         fst (getSession u d2 (snd r2)) = Ok (Some s2) /\ token s2 = tok2).
Proof.
  intros P. split; [|split].
  - repeat split; try reflexivity.
    + unfold getMaxSessions.
      destruct (String.eqb_spec plan "BASIC"); [contradiction|].
      destruct (String.eqb_spec plan "STANDARD"); [contradiction|].
      destruct (String.eqb_spec plan "PREMIUM"); [contradiction|]. reflexivity.
    + unfold Legacy.getMaxSessions.
      destruct (String.eqb_spec plan "BASIC"); [contradiction|].
      destruct (String.eqb_spec plan "STANDARD"); [contradiction|].
      destruct (String.eqb_spec plan "PREMIUM"); [contradiction|]. reflexivity.
    + intros n. unfold Legacy.getMaxSessions.
      destruct (String.eqb_spec plan "BASIC"); [contradiction|].
      destruct (String.eqb_spec plan "STANDARD"); [contradiction|].
      destruct (String.eqb_spec plan "PREMIUM"); [contradiction|]. reflexivity.
  - intros user d ip ua trust loc w Hf u active maxSessions.
    destruct (establishSession_nofault user d ip ua trust loc w Hf)
      as (w' & E & C & F & Hnew & Hgone & Hkeep).
    fold u active maxSessions in E, Hnew, Hgone, Hkeep.
    destruct (getUserSessions_nofault u w Hf) as (w0 & E0 & _).
    eexists _, w'. split; [rewrite E0; reflexivity|]. split; [exact E|].
    split; [apply (sort_by_head_least createdAt)|].
    split; [intros s; apply sort_by_In|].
    rewrite <- C in Hnew, Hgone, Hkeep.
    split; [|split].
    + eexists. rewrite getSession_nofault by exact F. cbn [fst].
      rewrite Hnew. split; [reflexivity|].
      cbn [token createdAt new_session]. rewrite C. split; reflexivity.
    + intros oldest rest Hact Hfull Hne.
      rewrite getSession_nofault by exact F. cbn [fst]. f_equal.
      apply Hgone; [|exact Hne]. rewrite Hact in Hfull |- *.
      apply evicted_head. exact Hfull.
    + intros d' Hne Hnot.
      rewrite !getSession_nofault by assumption. cbn [fst]. f_equal.
      rewrite Hkeep, C; [reflexivity | exact Hne|].
      unfold evicted. destruct Hnot as [Hroom | (oldest & rest & Hact & Hd)].
      * destruct (Z.leb_spec maxSessions (Z.of_nat (length active)));
          [lia | discriminate].
      * rewrite Hact. destruct (_ <=? _); [|discriminate].
        cbn [head fmap option_fmap option_map]. congruence.
  - intros user d1 d2 ip1 ip2 ua1 ua2 trust1 trust2 loc1 loc2 w t2
           Hf Hplan Hnone Hd Ht u r1 r2.
    destruct (establishSession_first user d1 ip1 ua1 trust1 loc1 w Hf Hnone)
      as (w1 & E1 & C1 & F1 & R1).
    fold u in E1, R1. rewrite Hplan in E1. change (getMaxSessions "BASIC") with 1 in E1.
    set (tok1 := jwt_sign u d1 (user_email user) (clock w)) in *.
    set (s1 := new_session u d1 tok1 (login_metadata ip1 ua1 trust1 loc1) (clock w)) in *.
    assert (Hr1 : r1 = (Ok (tok1, [], 1), w1)) by exact E1.
    assert (Hs1 : forall t, clock w <= t < clock w + 86400 * 1000 ->
                            session_at t (redis w1) u d1 = Some s1).
    { intros t Ht'. unfold session_at, db_get, db_entry. rewrite R1.
      rewrite lookup_insert_ne
        by (intros E; symmetry in E; exact (session_key_not_index _ _ _ E)).
      rewrite lookup_insert_eq. unfold live. cbn [expiresAt].
      destruct (Z.ltb_spec t (clock w + 86400 * 1000)); [reflexivity | lia]. }
    set (w1' := set_clock t2 w1).
    assert (Hf1' : faults w1' = []) by (destruct w1; exact F1).
    assert (Hact : active_sessions (clock w1') (redis w1') u = [s1]).
    { unfold active_sessions. subst w1'. destruct w1 as [us ds ms db cl hr fs tr].
      cbn [clock redis set_clock] in *.
      assert (Hm : db_members t2 db (user_sessions_key u) = [d1]).
      { unfold db_members, db_get, db_entry. rewrite R1, lookup_insert_eq.
        reflexivity. }
      rewrite Hm. cbn [live_sessions]. rewrite (Hs1 t2 Ht). reflexivity. }
    destruct (establishSession_nofault user d2 ip2 ua2 trust2 loc2 w1' Hf1')
      as (w2 & E2 & C2 & F2 & Hnew & Hgone & _).
    fold u in E2, Hnew, Hgone. rewrite Hact, Hplan in E2, Hgone.
    change (getMaxSessions "BASIC") with 1 in E2, Hgone.
    assert (Hr2 : r2 = (Ok (jwt_sign u d2 (user_email user) (clock w1'), [s1], 1), w2)).
    { subst r2. rewrite Hr1. exact E2. }
    exists tok1, (jwt_sign u d2 (user_email user) (clock w1')), s1.
    eexists. rewrite Hr1, Hr2. cbn [fst snd].
    split; [reflexivity|].
    split; [rewrite getSession_nofault by exact F1; cbn [fst]; f_equal;
            rewrite C1; apply Hs1; lia|].
    split; [reflexivity|]. split; [reflexivity|].
    rewrite !getSession_nofault by exact F2. cbn [fst]. rewrite C2.
    split; [f_equal; apply Hgone; [reflexivity | exact Hd]|].
    split; [f_equal; exact Hnew | reflexivity].
Qed.

Lemma session_limit_evicts_oldest_witness :
  faults bobWorld = [] /\ user_plan bob = "BASIC" /\
  redis bobWorld !! user_sessions_key (user_id bob) = None /\
  "living-room-tv" <> "phone" /\
  clock bobWorld <= t0 + 60000 < clock bobWorld + 86400 * 1000 /\
  let r1 := establishSession bob "living-room-tv" "203.0.113.1" None 70 None
              bobWorld in
  let r2 := establishSession bob "phone" "203.0.113.2" None 70 None
              (set_clock (t0 + 60000) (snd r1)) in
  exists tok1 tok2 s1 s2,
    fst r1 = Ok (tok1, [], 1) /\
    fst (getSession (user_id bob) "living-room-tv" (snd r1)) = Ok (Some s1) /\
    token s1 = tok1 /\
    fst r2 = Ok (tok2, [s1], 1) /\
    fst (getSession (user_id bob) "living-room-tv" (snd r2)) = Ok None /\
    fst (getSession (user_id bob) "phone" (snd r2)) = Ok (Some s2) /\
    token s2 = tok2.
Proof.
  assert (Hd : "living-room-tv" <> "phone") by discriminate.
  assert (Ht : clock bobWorld <= t0 + 60000 < clock bobWorld + 86400 * 1000)
    by (vm_compute; split; congruence).
  split; [reflexivity|]. split; [reflexivity|]. split; [reflexivity|].
  split; [exact Hd|]. split; [exact Ht|].
  exact (proj2 (proj2 (@session_limit_evicts_oldest scenarioPlatform))
           bob "living-room-tv" "phone" "203.0.113.1" "203.0.113.2" None None
           70 70 None None bobWorld (t0 + 60000)
           eq_refl eq_refl eq_refl Hd Ht).
Defined.

(** *** No login reaches the limit *)

(** C4 (run on the code). The helper maps BASIC to 1, STANDARD to 2,
    PREMIUM to 4 and any other plan to 1. Bob is on the BASIC plan and holds
    one live session, on his television. He logs in on his phone with the
    right password; the spoofing check and the geo check pass. The
    handler answers 500 "Login failed" with the ReferenceError of
    [device]: the television's session is still there with its token,
    the phone has none, and the session documents are as before. In
    general a login that gets past the geo check is answered 500, with
    every session entry of Redis and every session document as it was. *)
Theorem login_second_device_evicts_nothing :
  (getMaxSessions "BASIC" = 1 /\ getMaxSessions "STANDARD" = 2 /\
   getMaxSessions "PREMIUM" = 4 /\
   (forall plan, plan <> "BASIC" -> plan <> "STANDARD" -> plan <> "PREMIUM" ->
                 getMaxSessions plan = 1)) /\
  (user_plan bob = "BASIC" /\ getMaxSessions (user_plan bob) = 1 /\
   credentials_valid bobPhoneRequest bobAtHome bob /\
   assessed bobPhoneRequest bobAtHome bobPhoneFingerprint bobPhoneAssessment /\
   spoof_riskScore bobPhoneAssessment <= 70 /\
   (exists geo,
      fst (checkGeoImpossibility (user_id bob) (request_ip bobPhoneRequest)
             bobAtHome) = Ok geo /\ isImpossible geo = false) /\
   (exists s,
      fst (getUserSessions (user_id bob) bobAtHome) = Ok [s] /\
      s_deviceId s = "living-room-tv" /\ token s = "jwt.tv") /\
   fp_deviceId bobPhoneFingerprint <> "living-room-tv" /\
   fst (login bobPhoneRequest bobAtHome) =
     Ok {| status := 500;
           body := LoginFailedBody "Login failed"
                     "Cannot access 'device' before initialization" |} /\
   (exists s,
      fst (getUserSessions (user_id bob) (snd (login bobPhoneRequest bobAtHome)))
        = Ok [s] /\
      s_deviceId s = "living-room-tv" /\ token s = "jwt.tv") /\
   (exists s,
      fst (getSession (user_id bob) "living-room-tv"
             (snd (login bobPhoneRequest bobAtHome))) = Ok (Some s) /\
      token s = "jwt.tv") /\
   fst (getSession (user_id bob) (fp_deviceId bobPhoneFingerprint)
          (snd (login bobPhoneRequest bobAtHome))) = Ok None /\
   mongoSessions (snd (login bobPhoneRequest bobAtHome)) = []) /\
  (forall `{Platform} (req : Request) (w w1 : World) (user : User)
          (fp : Fingerprint) (check : SpoofAssessment) (geo : GeoCheck),
     credentials_valid req w user ->
     assessed req w fp check ->
     spoof_riskScore check <= 70 ->
     checkGeoImpossibility (user_id user) (request_ip req) w = (Ok geo, w1) ->
     isImpossible geo = false ->
     exists r w',
       login req w = (Ok r, w') /\ status r = 500 /\
       (forall k, is_session_key k = true -> redis w' !! k = redis w !! k) /\
       mongoSessions w' = mongoSessions w).
Proof.
  split; [|split].
  - repeat split; try reflexivity. intros plan H1 H2 H3. unfold getMaxSessions.
    destruct (String.eqb_spec plan "BASIC"); [contradiction|].
    destruct (String.eqb_spec plan "STANDARD"); [contradiction|].
    destruct (String.eqb_spec plan "PREMIUM"); [contradiction|]. reflexivity.
  - split; [reflexivity|]. split; [reflexivity|].
    split; [split; reflexivity|].
    split; [split; vm_compute; reflexivity|].
    split; [apply Z.leb_le; vm_compute; reflexivity|].
    split; [eexists; split; vm_compute; reflexivity|].
    split; [eexists; split; [vm_compute; reflexivity | split; reflexivity]|].
    split; [vm_compute; discriminate|].
    split; [vm_compute; reflexivity|].
    split; [eexists; split; [vm_compute; reflexivity | split; reflexivity]|].
    split; [eexists; split; [vm_compute; reflexivity | reflexivity]|].
    split; vm_compute; reflexivity.
  - intros P req w w1 user fp check geo Hcred Ha Hrisk Hgeo Himp.
    eexists _, _.
    split; [apply (login_dead_zone req w w1 user fp check geo); assumption|].
    split; [reflexivity|].
    assert (Hext : extends is_redis w
              (snd (calculateTrustScore (user_id user) (fp_deviceId fp)
                      (request_ip req) w1))).
    { apply (extends_trans _ w w1).
      - exact (frame_checkGeoImpossibility _ _ _ _ _ Hgeo).
      - eapply frame_calculateTrustScore. apply surjective_pairing. }
    destruct Hext as (_ & _ & Hm & Hk & _). split; assumption.
Qed.

(** ** Alert engine: failures are contained *)

Lemma evaluateRule_unfold (rule : Rule) (context : Context)
  (triggered : list Alert) :
  evaluateRule rule context triggered =
  try_catch (rule_attempt rule context triggered)
    (fun err =>
       emitM (ConsoleError ("Error evaluating rule " +:+ rule_id rule) err);;
       mret triggered).
Proof. reflexivity. Qed.

Lemma evaluateRule_failure (rule : Rule) (ctx : Context) (acc : list Alert)
  (w w1 : World) (e : Exn) :
  rule_attempt rule ctx acc w = (Throw e, w1) ->
  evaluateRule rule ctx acc w =
  (Ok acc, emit (ConsoleError ("Error evaluating rule " +:+ rule_id rule) e) w1).
Proof.
  intros E. rewrite evaluateRule_unfold. unfold try_catch. rewrite E. reflexivity.
Qed.

Lemma executeActions_failure (a : string) (rest : list string) (alert : Alert)
  (ctx : Context) (w w1 : World) (e : Exn) :
  performAction a alert ctx w = (Throw e, w1) ->
  executeActions (a :: rest) alert ctx w =
  executeActions rest alert ctx
    (emit (ConsoleError ("Error executing action " +:+ a) e) w1).
Proof.
  intros E. cbn [executeActions]. rewrite bind_run. unfold try_catch.
  rewrite E. reflexivity.
Qed.

Lemma executeActions_app (acts1 acts2 : list string) (alert : Alert)
  (ctx : Context) (w : World) :
  executeActions (acts1 ++ acts2) alert ctx w =
  executeActions acts2 alert ctx (snd (executeActions acts1 alert ctx w)).
Proof.
  revert w. induction acts1 as [|a acts1 IH]; intros w; [reflexivity|].
  cbn [app executeActions]. rewrite !bind_run.
  destruct (total_try_catch (performAction a alert ctx)
              (fun err => emitM (ConsoleError ("Error executing action " +:+ a) err))
              (fun e => total_emitM _) w) as ([] & w1 & E1).
  rewrite E1. apply IH.
Qed.

Lemma evaluateRulesFrom_app (pre post : list Rule) (ctx : Context)
  (acc : list Alert) (w : World) :
  exists acc1,
    fst (evaluateRulesFrom pre ctx acc w) = Ok acc1 /\
    evaluateRulesFrom (pre ++ post) ctx acc w =
    evaluateRulesFrom post ctx acc1 (snd (evaluateRulesFrom pre ctx acc w)).
Proof.
  revert acc w. induction pre as [|r pre IH]; intros acc w.
  - exists acc. split; reflexivity.
  - cbn [app evaluateRulesFrom]. rewrite !bind_run.
    destruct (total_evaluateRule r ctx acc w) as (acc' & w1 & E1). rewrite E1.
    apply IH.
Qed.

(** C8. Whatever fails, [evaluateRules] returns normally, so the handler
    statement after it runs; a rule whose evaluation throws (in its
    condition, its message, its actions' bookkeeping or the storing of the
    alert) is logged and the rules after it are evaluated from the world it
    left; an action that throws is logged and the actions after it run;
    and the login that found an impossible journey answers with its OTP
    challenge whatever happened inside the engine. *)
Theorem alert_failures_are_contained :
  forall `{Platform},
    (forall (table : list Rule) (ctx : Context) (acc : list Alert) (w : World),
       exists alerts w', evaluateRulesFrom table ctx acc w = (Ok alerts, w')) /\
    (forall (A : Type) (k : list Alert -> M A) (ctx : Context) (w : World),
       exists alerts w', (evaluateRules ctx ≫= k) w = k alerts w') /\
    (forall (rule : Rule) (ctx : Context) (acc : list Alert) (w w1 : World)
            (e : Exn),
       rule_attempt rule ctx acc w = (Throw e, w1) ->
       evaluateRule rule ctx acc w =
       (Ok acc,
        emit (ConsoleError ("Error evaluating rule " +:+ rule_id rule) e) w1)) /\
    (forall (pre post : list Rule) (ctx : Context) (acc : list Alert) (w : World),
       exists acc1,
         fst (evaluateRulesFrom pre ctx acc w) = Ok acc1 /\
         evaluateRulesFrom (pre ++ post) ctx acc w =
         evaluateRulesFrom post ctx acc1
           (snd (evaluateRulesFrom pre ctx acc w))) /\
    (forall (acts : list string) (alert : Alert) (ctx : Context) (w : World),
       exists w', executeActions acts alert ctx w = (Ok tt, w')) /\
    (forall (a : string) (rest : list string) (alert : Alert) (ctx : Context)
            (w w1 : World) (e : Exn),
       performAction a alert ctx w = (Throw e, w1) ->
       executeActions (a :: rest) alert ctx w =
       executeActions rest alert ctx
         (emit (ConsoleError ("Error executing action " +:+ a) e) w1)) /\
    (forall (acts1 acts2 : list string) (alert : Alert) (ctx : Context)
            (w : World),
       executeActions (acts1 ++ acts2) alert ctx w =
       executeActions acts2 alert ctx (snd (executeActions acts1 alert ctx w))) /\
    (forall (req : Request) (w w1 : World) (user : User)
            (fp : Fingerprint) (check : SpoofAssessment) (geo : GeoCheck),
       credentials_valid req w user ->
       assessed req w fp check ->
       spoof_riskScore check <= 70 ->
       checkGeoImpossibility (user_id user) (request_ip req) w = (Ok geo, w1) ->
       isImpossible geo = true ->
       exists w',
         login req w =
         (Ok {| status := 200; body := GeoOtpBody (reason geo) |}, w')).
Proof.
  intros P. repeat split.
  - intros table ctx acc w. apply total_evaluateRulesFrom.
  - intros A k ctx w.
    destruct (total_evaluateRulesFrom rules ctx [] w) as (alerts & w' & E).
    exists alerts, w'. rewrite bind_run. unfold evaluateRules. rewrite E.
    reflexivity.
  - apply evaluateRule_failure.
  - apply evaluateRulesFrom_app.
  - intros acts alert ctx w.
    destruct (total_executeActions acts alert ctx w) as ([] & w' & E).
    exists w'. exact E.
  - apply executeActions_failure.
  - apply executeActions_app.
  - apply login_geo_challenge.
Qed.

(** The session block fails on the faulty Redis: the failure is logged,
    and the alert is still stored and returned. *)
Lemma alert_failures_are_contained_witness :
  let alert := geoAlertAt impossibleContext SuspiciousLongDistance t0 in
  let w1 := set_faults [] (emit (Redis (DEL (session_key "64b7f0c2a1" "tv-livingroom")))
                             faultyWorld) in
  performAction "block_session" alert impossibleContext faultyWorld
    = (Throw RedisError, w1) /\
  executeActions ["block_session"; "log"] alert impossibleContext faultyWorld =
  executeActions ["log"] alert impossibleContext
    (emit (ConsoleError ("Error executing action " +:+ "block_session") RedisError)
       w1) /\
  exists w', evaluateRules impossibleContext faultyWorld = (Ok [alert], w').
Proof.
  intros alert w1.
  assert (E : performAction "block_session" alert impossibleContext faultyWorld
              = (Throw RedisError, w1)) by reflexivity.
  split; [exact E|]. split.
  - exact (proj1 (proj2 (proj2 (proj2 (proj2 (proj2
             (@alert_failures_are_contained scenarioPlatform))))))
             "block_session" ["log"] alert impossibleContext faultyWorld w1
             RedisError E).
  - exists (snd (evaluateRules impossibleContext faultyWorld)).
    etransitivity; [apply surjective_pairing|].
    apply (f_equal (fun r => (r, snd (evaluateRules impossibleContext faultyWorld)))).
    vm_compute. reflexivity.
Defined.

(** ** Alert engine: the geo-impossibility rule *)

Lemma frame_storeAlert (alert : Alert) : frame quiet (storeAlert alert).
Proof.
  unfold storeAlert.
  repeat first
    [ apply frame_Date_now
    | apply frame_redis_setex; [exact Logic.I | reflexivity]
    | apply frame_redis_zadd; [exact Logic.I | reflexivity]
    | apply frame_redis_zremrangebyrank_keep; [exact Logic.I | reflexivity]
    | apply frame_bind; [| intros ?] ].
Qed.

Lemma frame_performAction (action : string) (alert : Alert) (ctx : Context) :
  String.eqb action "block_session" = false ->
  ruleId alert <> "geo_impossibility" ->
  frame quiet (performAction action alert ctx).
Proof.
  intros Hnb Hid. unfold performAction, blockUser, flagUser. rewrite Hnb.
  repeat first
    [ apply frame_emitM; first [exact Hid | exact Logic.I]
    | apply frame_Date_now
    | apply frame_redis_setex; [exact Logic.I | reflexivity]
    | apply frame_redis_sadd; [exact Logic.I | reflexivity]
    | apply frame_bind; [| intros ?]
    | match goal with
      | |- frame _ (if ?b then _ else _) => destruct b
      end ].
Qed.

Lemma frame_executeActions (acts : list string) (alert : Alert) (ctx : Context) :
  forallb (fun a => negb (String.eqb a "block_session")) acts = true ->
  ruleId alert <> "geo_impossibility" ->
  frame quiet (executeActions acts alert ctx).
Proof.
  intros Hacts Hid. induction acts as [|a acts IH]; cbn [executeActions].
  - apply frame_ret.
  - cbn [forallb] in Hacts. apply andb_true_iff in Hacts as [Ha Hrest].
    apply negb_true_iff in Ha.
    apply frame_bind; [|intros _; exact (IH Hrest)].
    apply frame_try_catch; [apply frame_performAction; assumption|].
    intros e. apply frame_emitM. exact Logic.I.
Qed.

Lemma frame_evaluateRule (rule : Rule) (ctx : Context) (acc : list Alert) :
  rule_quiet rule -> frame quiet (evaluateRule rule ctx acc).
Proof.
  intros (Hid & Hacts & Hcond & Hmsg). unfold evaluateRule.
  apply frame_try_catch.
  - apply frame_bind; [apply Hcond | intros holds].
    destruct holds; [|apply frame_ret].
    apply frame_bind; [apply Hmsg | intros msg].
    apply frame_bind; [apply frame_Date_now | intros now].
    apply frame_bind; [apply frame_executeActions; assumption | intros _].
    apply frame_bind; [apply frame_storeAlert | intros _]. apply frame_ret.
  - intros e. apply frame_bind; [|intros _; apply frame_ret].
    apply frame_emitM. exact Logic.I.
Qed.

Lemma frame_evaluateRulesFrom (table : list Rule) (ctx : Context)
  (acc : list Alert) :
  Forall rule_quiet table -> frame quiet (evaluateRulesFrom table ctx acc).
Proof.
  intros Htable. revert acc.
  induction Htable as [|r table Hr _ IH]; intros acc; cbn [evaluateRulesFrom].
  - apply frame_ret.
  - apply frame_bind; [apply frame_evaluateRule, Hr | intros acc'; apply IH].
Qed.

Lemma other_rules_quiet : Forall rule_quiet (tail rules).
Proof.
  unfold rules. cbn [tail].
  repeat (constructor;
          [ split; [discriminate|]; split; [reflexivity|];
            split; intros ctx; cbn [condition rule_message];
            repeat first [ apply frame_ret | apply frame_getHours
                         | apply frame_bind; [| intros ?] ]
          | ]).
  constructor.
Qed.

(** What one iteration adds to [triggeredAlerts]. *)
Lemma evaluateRule_result (rule : Rule) (ctx : Context) (acc r : list Alert)
  (w w' : World) :
  evaluateRule rule ctx acc w = (Ok r, w') ->
  r = acc \/ exists alert, r = (acc ++ [alert])%list /\ ruleId alert = rule_id rule.
Proof.
  unfold evaluateRule, try_catch. intros E.
  match type of E with
  | (let (_, _) := ?m w in _) = _ => destruct (m w) as [[a|e] w1] eqn:Em
  end.
  - injection E as <- <-.
    repeat (rewrite bind_run in Em;
            match type of Em with
            | match ?m ?w0 with _ => _ end = _ =>
                destruct (m w0) as [[?|?] ?]; [|discriminate Em]
            end;
            try match type of Em with
                | (if ?b then _ else _) _ = _ => destruct b
                end).
    + rewrite ret_run in Em. injection Em as <- _. right. eexists.
      split; reflexivity.
    + injection Em as <- _. left. reflexivity.
  - rewrite bind_run in E. cbn in E. injection E as <- _. left. reflexivity.
Qed.

Lemma evaluateRulesFrom_result (table : list Rule) (ctx : Context) :
  forall (acc r : list Alert) (w w' : World),
    evaluateRulesFrom table ctx acc w = (Ok r, w') ->
    exists new,
      r = (acc ++ new)%list /\
      Forall (fun a => In (ruleId a) (map rule_id table)) new.
Proof.
  induction table as [|rule table IH]; intros acc r w w' E;
    cbn [evaluateRulesFrom] in E.
  - injection E as <- _. exists []. split; [symmetry; apply app_nil_r | constructor].
  - rewrite bind_run in E.
    destruct (evaluateRule rule ctx acc w) as [[acc1|e] w1] eqn:E1;
      [|discriminate E].
    destruct (IH acc1 r w1 w' E) as (new & -> & Hnew).
    assert (Hweak : Forall (fun a => In (ruleId a) (map rule_id (rule :: table))) new).
    { eapply Forall_impl; [exact Hnew|]. intros a Ha. right. exact Ha. }
    destruct (evaluateRule_result rule ctx acc acc1 w w1 E1)
      as [-> | (alert & -> & Hid)].
    + exists new. split; [reflexivity | exact Hweak].
    + exists (alert :: new). split; [rewrite <- app_assoc; reflexivity|].
      constructor; [left; symmetry; exact Hid | exact Hweak].
Qed.

Lemma prefix_append (p s : string) : String.prefix p (p +:+ s) = true.
Proof.
  induction p as [|c p IH]; [destruct s; reflexivity|].
  rewrite append_cons. cbn [String.prefix].
  destruct (ascii_dec c c); [exact IH | contradiction].
Qed.

Lemma session_key_is_session_key (u d : string) :
  is_session_key (session_key u d) = true.
Proof. apply prefix_append. Qed.

Lemma deleteSession_trace (u d : string) (w : World) :
  faults w = [] ->
  exists w',
    deleteSession u d w = (Ok tt, w') /\
    trace w' = (trace w ++ [Redis (DEL (session_key u d));
                            Redis (SREM (user_sessions_key u) d)])%list /\
    faults w' = [] /\ clock w' = clock w /\
    redis w' !! session_key u d = None.
Proof.
  intros Hf. unfold deleteSession, redis_del, redis_srem. rewrite bind_run.
  rewrite redis_unit_nofault by exact Hf.
  rewrite redis_unit_nofault by (destruct w; exact Hf).
  eexists. split; [reflexivity|].
  destruct w as [us ds ms db cl hr fs tr].
  cbn [trace faults clock redis set_redis emit snd] in *.
  split; [rewrite <- app_assoc; reflexivity|].
  split; [exact Hf|]. split; [reflexivity|].
  assert (Hgone : delete (session_key u d) db !! session_key u d = None)
    by apply lookup_delete_eq.
  repeat match goal with
         | |- context [match ?x with _ => _ end] => destruct x
         end;
    cbn [snd];
    first [ exact Hgone
          | rewrite lookup_insert_ne by
              (intros E; symmetry in E; exact (session_key_not_index _ _ _ E));
            exact Hgone
          | rewrite lookup_delete_ne by
              (intros E; symmetry in E; exact (session_key_not_index _ _ _ E));
            exact Hgone ].
Qed.

Lemma storeAlert_trace (alert : Alert) (w : World) :
  faults w = [] ->
  exists w',
    storeAlert alert w = (Ok tt, w') /\
    trace w' = (trace w ++
                [Redis (SETEX ("alerts:" +:+ pretty (clock w)) (86400 * 7));
                 Redis (ZADD "alerts:sorted" (clock w)
                          ("alerts:" +:+ pretty (clock w)));
                 Redis (ZREMRANGEBYRANK "alerts:sorted" 0 (- (1000 + 1)))])%list /\
    faults w' = [] /\ clock w' = clock w /\
    (forall k, is_session_key k = true -> redis w' !! k = redis w !! k).
Proof.
  intros Hf.
  destruct (storeAlert alert w) as [r w'] eqn:E.
  pose proof (frame_storeAlert alert w r w' E) as (_ & _ & _ & Hkeys & _ & _).
  revert E. unfold storeAlert, redis_setex, redis_zadd, redis_zremrangebyrank_keep.
  rewrite bind_run. unfold Date_now at 1. cbv beta iota zeta.
  rewrite bind_run, redis_unit_nofault by exact Hf.
  rewrite bind_run. unfold Date_now at 1. cbv beta iota zeta.
  rewrite bind_run, redis_unit_nofault by (destruct w; exact Hf).
  rewrite redis_unit_nofault by (destruct w; exact Hf).
  intros E. injection E as <- <-.
  eexists. split; [reflexivity|].
  destruct w as [us ds ms db cl hr fs tr].
  cbn [trace faults clock redis set_redis emit snd] in *.
  split; [rewrite <- !app_assoc; reflexivity|].
  split; [exact Hf|]. split; [reflexivity | exact Hkeys].
Qed.

(** With Redis answering, the first rule of the table fires on an
    impossible journey: mail, Slack, session block, then the alert is
    stored. *)
Lemma geo_rule_fires (ctx : Context) (g : GeoCheck) (w : World) :
  ctx_geoCheck ctx = Some g ->
  isImpossible g = true ->
  faults w = [] ->
  let alert := geoAlertAt ctx (reason g) (clock w) in
  let u := ctx_userId ctx in
  let d := ctx_deviceId ctx in
  exists w1,
    evaluateRules ctx w = evaluateRulesFrom (tail rules) ctx [alert] w1 /\
    trace w1 =
      (trace w ++
       [EmailAlert alert; SlackAlert alert;
        Redis (DEL (session_key u d));
        Redis (SREM (user_sessions_key u) d);
        Redis (SETEX ("alerts:" +:+ pretty (clock w)) (86400 * 7));
        Redis (ZADD "alerts:sorted" (clock w) ("alerts:" +:+ pretty (clock w)));
        Redis (ZREMRANGEBYRANK "alerts:sorted" 0 (- (1000 + 1)))])%list /\
    faults w1 = [] /\ clock w1 = clock w /\
    redis w1 !! session_key u d = None.
Proof.
  intros Hg Himp Hf alert u d.
  unfold evaluateRules, rules. cbn [evaluateRulesFrom tail].
  rewrite bind_run. unfold evaluateRule at 1, try_catch.
  cbn [condition rule_message actions rule_id rule_name rule_severity].
  rewrite Hg, Himp.
  repeat (progress (rewrite ?ret_run, ?bind_run; cbv beta iota)).
  unfold Date_now at 1. cbv beta iota zeta. fold (geoAlertAt ctx (reason g) (clock w)).
  fold alert. cbn [executeActions].
  change (performAction "email" alert ctx) with (emitM (EmailAlert alert)).
  change (performAction "slack" alert ctx) with (emitM (SlackAlert alert)).
  change (performAction "block_session" alert ctx) with (deleteSession u d).
  repeat (progress (rewrite ?ret_run, ?bind_run; cbv beta iota)).
  unfold try_catch, emitM, modify_world. cbv beta iota.
  repeat (progress (rewrite ?ret_run, ?bind_run; cbv beta iota)).
  set (wa := emit (SlackAlert alert) (emit (EmailAlert alert) w)).
  destruct (deleteSession_trace u d wa) as (wb & Eb & Tb & Fb & Cb & Rb);
    [destruct w; exact Hf|].
  rewrite Eb. repeat (progress (rewrite ?ret_run, ?bind_run; cbv beta iota)).
  destruct (storeAlert_trace alert wb Fb) as (wc & Ec & Tc & Fc & Cc & Rc).
  rewrite Ec. repeat (progress (rewrite ?ret_run, ?bind_run; cbv beta iota)).
  exists wc. split; [reflexivity|].
  assert (Cwa : clock wa = clock w) by (destruct w; reflexivity).
  assert (Twa : trace wa = (trace w ++ [EmailAlert alert; SlackAlert alert])%list)
    by (destruct w; cbn [trace wa emit]; rewrite <- app_assoc; reflexivity).
  split; [|split; [exact Fc | split; [congruence|]]].
  - rewrite Tc, Tb, Twa, Cb, Cwa. rewrite <- !app_assoc. reflexivity.
  - rewrite Rc; [exact Rb | apply session_key_is_session_key].
Qed.

(** C7. With Redis answering, an evaluation on a context whose geo check
    is impossible returns the geo-impossibility alert first and no other
    alert of that rule; the engine's interactions start with that alert's
    mail, its Slack message and the deletion of the session of the
    context's user and device, in the order of the rule's action list,
    followed by the storing of the alert; nothing after that is a mail or
    Slack message for this alert or a session deletion; and the session is
    gone afterwards. *)
Theorem geo_impossibility_fires_once :
  forall (ctx : Context) (g : GeoCheck) (w : World),
    ctx_geoCheck ctx = Some g ->
    isImpossible g = true ->
    faults w = [] ->
    let alert := geoAlertAt ctx (reason g) (clock w) in
    let u := ctx_userId ctx in
    let d := ctx_deviceId ctx in
    exists others rest w',
      evaluateRules ctx w = (Ok (alert :: others), w') /\
      Forall (fun a => ruleId a <> "geo_impossibility") others /\
      trace w' =
        (trace w ++
         [EmailAlert alert; SlackAlert alert;
          Redis (DEL (session_key u d));
          Redis (SREM (user_sessions_key u) d);
          Redis (SETEX ("alerts:" +:+ pretty (clock w)) (86400 * 7));
          Redis (ZADD "alerts:sorted" (clock w) ("alerts:" +:+ pretty (clock w)));
          Redis (ZREMRANGEBYRANK "alerts:sorted" 0 (- (1000 + 1)))]
         ++ rest)%list /\
      Forall quiet rest /\
      fst (getSession u d w') = Ok None.
Proof.
  intros ctx g w Hg Himp Hf alert u d.
  destruct (geo_rule_fires ctx g w Hg Himp Hf) as (w1 & E1 & T1 & F1 & C1 & R1).
  fold alert u d in E1, T1, R1.
  destruct (total_evaluateRulesFrom (tail rules) ctx [alert] w1) as (r & w' & E2).
  destruct (evaluateRulesFrom_result _ _ _ _ _ _ E2) as (others & -> & Hothers).
  pose proof (frame_evaluateRulesFrom (tail rules) ctx [alert] other_rules_quiet
                w1 _ w' E2) as (_ & _ & _ & Hkeys & F2' & rest & T2 & Hquiet).
  exists others, rest, w'. split; [rewrite E1; exact E2|].
  split; [|split; [|split]].
  - eapply Forall_impl; [exact Hothers|]. intros a Ha E. cbv beta in Ha.
    rewrite E in Ha. cbn in Ha. repeat destruct Ha as [Ha|Ha]; try discriminate Ha. exact Ha.
  - rewrite T2, T1. rewrite <- app_assoc. reflexivity.
  - exact Hquiet.
  - destruct (getSession u d w') as [r2 w2] eqn:E3. cbn [fst].
    unfold getSession in E3. rewrite bind_run in E3. unfold redis_get in E3.
    assert (Hnone : db_get (clock w') (redis w') (session_key u d) = None).
    { unfold db_get, db_entry.
      rewrite Hkeys by apply session_key_is_session_key. rewrite R1.
      reflexivity. }
    assert (F2 : faults w' = []) by exact (F2' F1).
    rewrite redis_cmd_nofault in E3 by exact F2. cbn [fst snd] in E3.
    rewrite Hnone in E3. injection E3 as <- _. reflexivity.
Qed.

Lemma geo_impossibility_fires_once_witness :
  ctx_geoCheck impossibleContext
    = Some {| isImpossible := true; reason := SuspiciousLongDistance;
              geo_riskScore := 95; currentLocation := None;
              lastLocation := None; geo_distance := None;
              geo_timeDiff := None |} /\
  faults aliceWorld = [] /\
  fst (getSession "64b7f0c2a1" "tv-livingroom" aliceWorld) <> Ok None /\
  let alert := geoAlertAt impossibleContext SuspiciousLongDistance t0 in
  exists others rest w',
    evaluateRules impossibleContext aliceWorld = (Ok (alert :: others), w') /\
    Forall (fun a => ruleId a <> "geo_impossibility") others /\
    trace w' =
      ([EmailAlert alert; SlackAlert alert;
        Redis (DEL (session_key "64b7f0c2a1" "tv-livingroom"));
        Redis (SREM (user_sessions_key "64b7f0c2a1") "tv-livingroom");
        Redis (SETEX ("alerts:" +:+ pretty t0) (86400 * 7));
        Redis (ZADD "alerts:sorted" t0 ("alerts:" +:+ pretty t0));
        Redis (ZREMRANGEBYRANK "alerts:sorted" 0 (- (1000 + 1)))]
       ++ rest)%list /\
    Forall quiet rest /\
    fst (getSession "64b7f0c2a1" "tv-livingroom" w') = Ok None.
Proof.
  split; [reflexivity|]. split; [reflexivity|].
  split; [vm_compute; discriminate|].
  exact (geo_impossibility_fires_once impossibleContext _ aliceWorld
           eq_refl eq_refl eq_refl).
Defined.

(* ===================================================================== *)
(** * Further properties *)
(* ===================================================================== *)

(** ** Fingerprint quality and comparison *)

Lemma add_step (b : bool) (score k : Z) :
  (if b then score + k else score) = score + k * b2z b.
Proof. destruct b; cbn [b2z]; lia. Qed.

Lemma b2z_range (b : bool) : 0 <= b2z b <= 1.
Proof. destruct b; cbn [b2z]; lia. Qed.

Lemma b2z_one (b : bool) : b2z b = 1 <-> b = true.
Proof. destruct b; cbn [b2z]; split; intros E; congruence || lia. Qed.

Lemma b2z_zero (b : bool) : b2z b = 0 <-> b = false.
Proof. destruct b; cbn [b2z]; split; intros E; congruence || lia. Qed.

(** X1. The weights of [calculateStabilityScore] add up to exactly 100, so its
    cap never applies: the score is the plain sum of the weights of the
    signals present, it is 100 exactly when all eight are present and 0
    exactly when none is, and a fingerprint without any client-side signal
    scores at most 20. *)
Theorem calculateStabilityScore_is_plain_sum :
  forall c : Components,
    let canvas := js_truthy (c K_canvas) in
    let webgl := js_truthy (c K_webgl) in
    let fonts := js_truthy (c K_fonts) in
    let audio := js_truthy (c K_audioContext) in
    let browser := js_truthy (c K_browser) && js_truthy (c K_browserVersion) in
    let os := js_truthy (c K_os) && js_truthy (c K_osVersion) in
    let screen := js_truthy (c K_screenResolution) in
    let cores := js_truthy (c K_hardwareConcurrency) in
    calculateStabilityScore c
      = 20 * b2z canvas + 20 * b2z webgl + 15 * b2z fonts + 10 * b2z audio
        + 10 * b2z browser + 10 * b2z os + 10 * b2z screen + 5 * b2z cores /\
    0 <= calculateStabilityScore c <= 100 /\
    (calculateStabilityScore c = 100 <->
     canvas && webgl && fonts && audio && browser && os && screen && cores
     = true) /\
    (calculateStabilityScore c = 0 <->
     canvas || webgl || fonts || audio || browser || os || screen || cores
     = false) /\
    (canvas || webgl || fonts || audio || screen || cores = false ->
     calculateStabilityScore c <= 20).
Proof.
  intros c canvas webgl fonts audio browser os screen cores.
  assert (E : calculateStabilityScore c
              = 20 * b2z canvas + 20 * b2z webgl + 15 * b2z fonts
                + 10 * b2z audio + 10 * b2z browser + 10 * b2z os
                + 10 * b2z screen + 5 * b2z cores).
  { unfold calculateStabilityScore. cbv zeta.
    fold canvas webgl fonts audio browser os screen cores.
    rewrite !add_step.
    pose proof (b2z_range canvas). pose proof (b2z_range webgl).
    pose proof (b2z_range fonts). pose proof (b2z_range audio).
    pose proof (b2z_range browser). pose proof (b2z_range os).
    pose proof (b2z_range screen). pose proof (b2z_range cores). lia. }
  rewrite E. split; [reflexivity|].
  destruct canvas, webgl, fonts, audio, browser, os, screen, cores;
    cbn [b2z andb orb];
    (split; [lia|]); (split; [split; intros; (lia || congruence)|]);
    (split; [split; intros; (lia || congruence)|]);
    intros; (lia || congruence).
Qed.

Lemma compare_keys_fold (old new : Components) (keys : list ComponentKey)
  (acc : list FieldChange) :
  fold_left (compare_key old new) keys acc
  = (acc ++ map (change_of old new) (List.filter (differs old new) keys))%list.
Proof.
  revert acc. induction keys as [|k keys IH]; intros acc;
    cbn [fold_left List.filter map].
  - symmetry. apply app_nil_r.
  - rewrite IH. unfold compare_key. fold (differs old new k).
    destruct (differs old new k); cbn [map]; [|reflexivity].
    rewrite <- app_assoc. reflexivity.
Qed.

Lemma strict_eq_sym (a b : JValue) : strict_eq a b = strict_eq b a.
Proof.
  destruct a, b; cbn [strict_eq]; try reflexivity;
    first [apply String.eqb_sym | apply Nat.eqb_sym | idtac].
  destruct b0, b; reflexivity.
Qed.

Lemma strict_eq_refl (a : JValue) : strict_eq a a = true.
Proof.
  destruct a; cbn [strict_eq]; try reflexivity;
    first [apply String.eqb_refl | apply Nat.eqb_refl | idtac].
  destruct b; reflexivity.
Qed.

Lemma differs_sym (a b : Components) (k : ComponentKey) :
  differs a b k = differs b a k.
Proof.
  unfold differs. rewrite (strict_eq_sym (a k) (b k)).
  destruct (js_truthy (a k)), (js_truthy (b k)); reflexivity.
Qed.

Lemma differs_true (a b : Components) (k : ComponentKey) :
  differs a b k = true <->
  js_truthy (a k) = true /\ js_truthy (b k) = true /\
  strict_eq (a k) (b k) = false.
Proof.
  unfold differs. rewrite !andb_true_iff, !negb_true_iff. tauto.
Qed.

(** X2. [compareFingerprints] reports exactly the critical keys (browser, os,
    deviceType, screenResolution, canvas, webgl, hardwareConcurrency) under
    which both mappings hold a truthy value and the two values are not
    strictly equal, in that order, each with the two values as they are;
    so a value that appears or disappears is not a change, nor is any
    difference under another key; a mapping compared with itself has no
    change; the number of changes and the suspicion level do not depend
    on the order of the two arguments. Strict equality compares objects
    by identity: under a critical key, two objects are a change exactly
    when they are two distinct objects, whatever they hold, so equal
    contents parsed from two requests are reported as changed; and a
    number is never equal to the string of its digits. *)
Theorem compareFingerprints_reports_critical_differences :
  forall old new : Components,
    changes (compareFingerprints old new)
      = map (change_of old new) (List.filter (differs old new) criticalKeys) /\
    (forall k, In (change_of old new k) (changes (compareFingerprints old new))
               <-> In k criticalKeys /\
                   js_truthy (old k) = true /\ js_truthy (new k) = true /\
                   strict_eq (old k) (new k) = false) /\
    (hasChanges (compareFingerprints old new) = true <->
     exists k, In k criticalKeys /\
               js_truthy (old k) = true /\ js_truthy (new k) = true /\
               strict_eq (old k) (new k) = false) /\
    0 <= changeCount (compareFingerprints old new) <= 7 /\
    hasChanges (compareFingerprints old old) = false /\
    suspicionLevel (compareFingerprints old old) = "LOW" /\
    changeCount (compareFingerprints new old)
      = changeCount (compareFingerprints old new) /\
    suspicionLevel (compareFingerprints new old)
      = suspicionLevel (compareFingerprints old new) /\
    (forall k r1 r2 fields1 fields2,
       In k criticalKeys ->
       old k = JObj r1 fields1 -> new k = JObj r2 fields2 ->
       (In {| field := key_name k; oldValue := JObj r1 fields1;
              newValue := JObj r2 fields2 |}
           (changes (compareFingerprints old new))
        <-> r1 <> r2)) /\
    (forall k digits,
       In k criticalKeys ->
       old k = JNum digits -> new k = JStr digits -> digits <> "0" ->
       digits <> "" ->
       In {| field := key_name k; oldValue := JNum digits;
             newValue := JStr digits |}
          (changes (compareFingerprints old new))).
Proof.
  intros old new.
  assert (E : forall a b,
            fold_left (compare_key a b) criticalKeys []
            = map (change_of a b) (List.filter (differs a b) criticalKeys)).
  { intros a b. rewrite compare_keys_fold. reflexivity. }
  assert (Hlen : forall a b,
            length (map (change_of a b) (List.filter (differs a b) criticalKeys))
            = length (List.filter (differs a b) criticalKeys))
    by (intros; apply length_map).
  assert (Hsym : List.filter (differs new old) criticalKeys
                 = List.filter (differs old new) criticalKeys).
  { apply filter_ext. intros k. apply differs_sym. }
  assert (Hin : forall k, In (change_of old new k)
                            (map (change_of old new)
                               (List.filter (differs old new) criticalKeys))
                          <-> In k criticalKeys /\
                              js_truthy (old k) = true /\
                              js_truthy (new k) = true /\
                              strict_eq (old k) (new k) = false).
  { intros k. rewrite in_map_iff. split.
    - intros (k' & Hk' & Hf). apply filter_In in Hf as [Hc Hd].
      assert (k' = k).
      { apply key_name_inj. unfold change_of in Hk'. congruence. }
      subst k'. split; [exact Hc | apply differs_true, Hd].
    - intros (Hc & Hd). exists k. split; [reflexivity|].
      apply filter_In. split; [exact Hc | apply differs_true, Hd]. }
  unfold compareFingerprints.
  cbn [changes hasChanges changeCount suspicionLevel].
  rewrite !E, !Hlen, Hsym.
  assert (Hnone : List.filter (differs old old) criticalKeys = []).
  { cbn [criticalKeys List.filter]. unfold differs.
    rewrite !strict_eq_refl. cbn [negb]. rewrite !andb_false_r. reflexivity. }
  rewrite Hnone.
  split; [reflexivity|]. split; [exact Hin|].
  split; [|split; [|split; [reflexivity|split; [reflexivity|
    split; [reflexivity|split; [reflexivity|split]]]]]].
  - rewrite Z.ltb_lt. split.
    + intros Hpos.
      destruct (List.filter (differs old new) criticalKeys) as [|k l] eqn:Hf;
        [cbn [length] in Hpos; lia|].
      assert (Hk : In k (List.filter (differs old new) criticalKeys))
        by (rewrite Hf; left; reflexivity).
      apply filter_In in Hk as [Hc Hd]. exists k.
      split; [exact Hc | apply differs_true, Hd].
    + intros (k & Hc & Hd).
      assert (Hk : In k (List.filter (differs old new) criticalKeys))
        by (apply filter_In; split; [exact Hc | apply differs_true, Hd]).
      destruct (List.filter (differs old new) criticalKeys);
        [destruct Hk | cbn [length]; lia].
  - pose proof (filter_length_le (differs old new) criticalKeys) as Hle.
    cbn [criticalKeys length] in Hle. lia.
  - intros k r1 r2 fields1 fields2 Hc Ho Hn.
    pose proof (Hin k) as Hk. unfold change_of in Hk. rewrite Ho, Hn in Hk.
    rewrite Hk. cbn [js_truthy strict_eq]. rewrite Nat.eqb_neq. tauto.
  - intros k digits Hc Ho Hn Hz He.
    pose proof (Hin k) as Hk. unfold change_of in Hk. rewrite Ho, Hn in Hk.
    apply Hk. cbn [js_truthy strict_eq]. unfold truthy.
    apply String.eqb_neq in Hz, He. rewrite Hz, He. repeat split. exact Hc.
Qed.

(** ** Spoofing detection: the warnings *)

Lemma scan_signals_warnings (uaLower : string) (tokens : list string)
  (st : list string * Z) :
  fst (fold_left (scan_signal uaLower) tokens st) =
  (fst st ++ map (fun s => "Automation detected: " +:+ s)
                 (List.filter (includes uaLower) tokens))%list.
Proof.
  revert st. induction tokens as [|t tokens IH]; intros st;
    cbn [fold_left List.filter map].
  - symmetry. apply app_nil_r.
  - rewrite IH. unfold scan_signal.
    destruct (includes uaLower t); cbn [fst map]; [|reflexivity].
    rewrite <- app_assoc. reflexivity.
Qed.

Lemma fst_step {B : Type} (b : bool) (x : string) (st : list string * B) (v : B) :
  fst (if b then ((fst st ++ [x])%list, v) else st)
  = (fst st ++ (if b then [x] else []))%list.
Proof. destruct b; cbn [fst]; [reflexivity | symmetry; apply app_nil_r]. Qed.

Lemma detectSpoofing_warnings (c : Components) (a : SpoofAssessment) :
  detectSpoofing c = Ok a ->
  warnings a =
  ((if short_userAgent c then ["Suspicious user agent"] else [])
   ++ map (fun s => "Automation detected: " +:+ s) (tokens_found c)
   ++ (if platform_mismatch c then ["Platform-OS mismatch"] else [])
   ++ (if no_client_signal c then ["No client-side fingerprint provided"]
       else []))%list.
Proof.
  unfold detectSpoofing, short_userAgent, tokens_found, platform_mismatch,
    no_client_signal.
  destruct (c K_userAgent) as [| | | |ua| |] eqn:Eua; try discriminate.
  cbv zeta. cbn [js_truthy text].
  destruct (js_truthy (c K_platform) && js_truthy (c K_os)) eqn:Eb.
  - destruct (c K_platform) as [| | | |pl| |] eqn:Epl; try discriminate;
    destruct (c K_os) as [| | | |os| |] eqn:Eos; try discriminate.
    cbn [string_method mbind Res_bind text]. intros E. apply Ok_inj in E.
    subst a. cbn [warnings].
    rewrite fst_step, fst_step, scan_signals_warnings, fst_step.
    cbn [fst app andb]. rewrite <- !app_assoc. reflexivity.
  - cbn [mbind Res_bind andb]. intros E. apply Ok_inj in E. subst a.
    cbn [warnings].
    rewrite fst_step, scan_signals_warnings, fst_step. cbn [fst app].
    rewrite <- !app_assoc. reflexivity.
Qed.

(** X3. Whenever [detectSpoofing] returns, every point of risk it reports is
    explained by a warning: the warnings are, in order, the
    short-user-agent finding, one per automation token found, the
    platform mismatch and the missing client-side fingerprint; the risk
    is 0 exactly when there is no warning; no single finding makes the
    assessment suspicious (at least two warnings are needed); and there
    are at most ten warnings. *)
Theorem detectSpoofing_warnings_explain_risk :
  forall (c : Components) (a : SpoofAssessment),
    detectSpoofing c = Ok a ->
    warnings a =
      ((if short_userAgent c then ["Suspicious user agent"] else [])
       ++ map (fun s => "Automation detected: " +:+ s) (tokens_found c)
       ++ (if platform_mismatch c then ["Platform-OS mismatch"] else [])
       ++ (if no_client_signal c then ["No client-side fingerprint provided"]
           else []))%list /\
    (spoof_riskScore a = 0 <-> warnings a = []) /\
    (isSuspicious a = true -> (2 <= length (warnings a))%nat) /\
    (length (warnings a) <= 10)%nat.
Proof.
  intros c a Ha. split; [exact (detectSpoofing_warnings c a Ha)|].
  destruct (detectSpoofing_closed_form c a Ha) as [Hrisk Hsus].
  rewrite Hrisk, Hsus, (detectSpoofing_warnings c a Ha).
  unfold raw_risk. fold (short_userAgent c) (tokens_found c)
                        (platform_mismatch c) (no_client_signal c).
  pose proof (filter_length_le (includes (toLowerCase (text (c K_userAgent))))
                automationSignals) as Hn.
  fold (tokens_found c) in Hn. cbn [automationSignals length] in Hn.
  assert (Hlen : length
            ((if short_userAgent c then ["Suspicious user agent"] else [])
             ++ map (fun s => "Automation detected: " +:+ s) (tokens_found c)
             ++ (if platform_mismatch c then ["Platform-OS mismatch"] else [])
             ++ (if no_client_signal c
                 then ["No client-side fingerprint provided"] else []))%list
          = Z.to_nat (b2z (short_userAgent c)
                      + Z.of_nat (length (tokens_found c))
                      + b2z (platform_mismatch c) + b2z (no_client_signal c))).
  { rewrite !length_app, length_map.
    destruct (short_userAgent c), (platform_mismatch c), (no_client_signal c);
      cbn [length b2z]; lia. }
  split; [|split].
  - split.
    + intros Hz. apply length_zero_iff_nil. rewrite Hlen.
      destruct (short_userAgent c), (platform_mismatch c), (no_client_signal c);
        cbn [b2z] in *; lia.
    + intros Hnil. apply (f_equal (@length string)) in Hnil.
      rewrite Hlen in Hnil. cbn [length] in Hnil.
      destruct (short_userAgent c), (platform_mismatch c), (no_client_signal c);
        cbn [b2z] in *; lia.
  - rewrite Z.ltb_lt, Hlen. intros Hraw.
    destruct (short_userAgent c), (platform_mismatch c), (no_client_signal c);
      cbn [b2z] in *; lia.
  - rewrite Hlen.
    destruct (short_userAgent c), (platform_mismatch c), (no_client_signal c);
      cbn [b2z] in *; lia.
Qed.

Lemma detectSpoofing_warnings_explain_risk_witness :
  detectSpoofing automationOnly =
    Ok {| isSuspicious := true; spoof_riskScore := 100;
          warnings := [ "Suspicious user agent";
                        "Automation detected: automation";
                        "No client-side fingerprint provided" ] |} /\
  short_userAgent automationOnly = true /\
  tokens_found automationOnly = ["automation"] /\
  platform_mismatch automationOnly = false /\
  no_client_signal automationOnly = true /\
  (2 <= length [ "Suspicious user agent"; "Automation detected: automation";
                 "No client-side fingerprint provided" ])%nat.
Proof.
  assert (Ha : detectSpoofing automationOnly =
               Ok {| isSuspicious := true; spoof_riskScore := 100;
                     warnings := [ "Suspicious user agent";
                                   "Automation detected: automation";
                                   "No client-side fingerprint provided" ] |})
    by (vm_compute; reflexivity).
  split; [exact Ha|]. split; [reflexivity|]. split; [reflexivity|].
  split; [reflexivity|]. split; [reflexivity|].
  exact (proj1 (proj2 (proj2 (detectSpoofing_warnings_explain_risk
                                automationOnly _ Ha))) eq_refl).
Defined.

(** ** Session registry: lifetime and tokens *)

Lemma faults_set_clock (t : Z) (w : World) : faults (set_clock t w) = faults w.
Proof. destruct w as [us ds ms db cl hr fs tr]; reflexivity. Qed.

Lemma redis_set_clock (t : Z) (w : World) : redis (set_clock t w) = redis w.
Proof. destruct w as [us ds ms db cl hr fs tr]; reflexivity. Qed.

Lemma clock_set_clock (t : Z) (w : World) : clock (set_clock t w) = t.
Proof. destruct w as [us ds ms db cl hr fs tr]; reflexivity. Qed.

Lemma session_at_stored (t e : Z) (db : gmap string Entry) (u d : string)
  (s : SessionData) :
  db !! session_key u d = Some {| expiresAt := Some e; value := VSession s |} ->
  session_at t db u d = if t <? e then Some s else None.
Proof.
  intros E. unfold session_at, db_get, db_entry. rewrite E.
  unfold live. cbn [expiresAt]. destruct (t <? e); reflexivity.
Qed.

Lemma session_at_absent (t : Z) (db : gmap string Entry) (u d : string) :
  db !! session_key u d = None -> session_at t db u d = None.
Proof. intros E. unfold session_at, db_get, db_entry. rewrite E. reflexivity. Qed.

Lemma getSession_later (u d : string) (t : Z) (w : World) :
  faults w = [] ->
  fst (getSession u d (set_clock t w)) = Ok (session_at t (redis w) u d).
Proof.
  intros Hf. rewrite getSession_nofault by (rewrite faults_set_clock; exact Hf).
  cbn [fst]. rewrite clock_set_clock, redis_set_clock. reflexivity.
Qed.

(** X4. A session lives for 24 hours counted from its creation or, once
    touched, from the last [updateActivity]: [getSession] returns it
    before that instant and [null] from it on; touching a session that
    has already expired does not bring it back. *)
Theorem session_expires_24h_after_last_touch :
  forall (u d tok : string) (md : Metadata) (w : World),
    faults w = [] ->
    let s := new_session u d tok md (clock w) in
    let w1 := snd (createSession u d tok md w) in
    (forall t, clock w <= t ->
       fst (getSession u d (set_clock t w1))
       = Ok (if t <? clock w + 86400 * 1000 then Some s else None)) /\
    (forall t1 t, clock w <= t1 < clock w + 86400 * 1000 -> t1 <= t ->
       let w2 := snd (updateActivity u d (set_clock t1 w1)) in
       fst (getSession u d (set_clock t w2))
       = Ok (if t <? t1 + 86400 * 1000 then Some (touch t1 s) else None)) /\
    (forall t1 t, clock w + 86400 * 1000 <= t1 -> t1 <= t ->
       let w2 := snd (updateActivity u d (set_clock t1 w1)) in
       fst (getSession u d (set_clock t w2)) = Ok None).
Proof.
  intros u d tok md w Hf s w1.
  destruct (createSession_nofault u d tok md w Hf)
    as (w' & E & (C & F & _) & Hnew & _).
  assert (Hw1 : w1 = w') by (subst w1; rewrite E; reflexivity).
  fold s in Hnew. rewrite Hw1. clear Hw1 w1 E.
  assert (Hf' : faults w' = []) by congruence.
  assert (Hat : forall t, session_at t (redis w') u d
                          = if t <? clock w + 86400 * 1000 then Some s else None)
    by (intros t; apply session_at_stored; exact Hnew).
  split; [|split].
  - intros t _. rewrite getSession_later by exact Hf'. rewrite Hat. reflexivity.
  - intros t1 t Ht1 Ht w2.
    assert (Hf1 : faults (set_clock t1 w') = [])
      by (rewrite faults_set_clock; exact Hf').
    assert (Hs1 : session_at (clock (set_clock t1 w')) (redis (set_clock t1 w')) u d
                  = Some s).
    { rewrite clock_set_clock, redis_set_clock, Hat.
      destruct (Z.ltb_spec t1 (clock w + 86400 * 1000)); [reflexivity | lia]. }
    subst w2. rewrite (updateActivity_present u d s _ Hf1 Hs1). cbn [snd].
    rewrite getSession_later by (destruct w' as [us ds ms db cl hr fs tr]; exact Hf').
    rewrite clock_set_clock.
    apply f_equal. apply session_at_stored.
    destruct w' as [us ds ms db cl hr fs tr]; cbn [redis set_redis emit set_clock].
    apply lookup_insert_eq.
  - intros t1 t Ht1 Ht w2.
    assert (Hf1 : faults (set_clock t1 w') = [])
      by (rewrite faults_set_clock; exact Hf').
    assert (Hs1 : session_at (clock (set_clock t1 w')) (redis (set_clock t1 w')) u d
                  = None).
    { rewrite clock_set_clock, redis_set_clock, Hat.
      destruct (Z.ltb_spec t1 (clock w + 86400 * 1000)); [lia | reflexivity]. }
    subst w2. rewrite (updateActivity_absent u d _ Hf1 Hs1). cbn [snd].
    rewrite getSession_later by (destruct w' as [us ds ms db cl hr fs tr]; exact Hf').
    apply f_equal.
    replace (redis (emit (Redis (GET (session_key u d))) (set_clock t1 w')))
      with (redis w')
      by (destruct w' as [us ds ms db cl hr fs tr]; reflexivity).
    rewrite Hat. destruct (Z.ltb_spec t (clock w + 86400 * 1000)); [lia | reflexivity].
Qed.

Lemma session_expires_24h_after_last_touch_witness :
  faults bobWorld = [] /\
  let s := new_session "77aa01" "phone" "jwt.1" no_metadata t0 in
  let w1 := snd (createSession "77aa01" "phone" "jwt.1" no_metadata bobWorld) in
  fst (getSession "77aa01" "phone" (set_clock (t0 + 86399999) w1)) = Ok (Some s) /\
  fst (getSession "77aa01" "phone" (set_clock (t0 + 86400000) w1)) = Ok None /\
  fst (getSession "77aa01" "phone"
         (set_clock (t0 + 89999999)
            (snd (updateActivity "77aa01" "phone" (set_clock (t0 + 3600000) w1)))))
  = Ok (Some (touch (t0 + 3600000) s)).
Proof.
  split; [reflexivity|].
  destruct (session_expires_24h_after_last_touch
              "77aa01" "phone" "jwt.1" no_metadata bobWorld eq_refl)
    as (H1 & H2 & _).
  split; [|split].
  - exact (H1 (t0 + 86399999) ltac:(vm_compute; discriminate)).
  - exact (H1 (t0 + 86400000) ltac:(vm_compute; discriminate)).
  - exact (H2 (t0 + 3600000) (t0 + 89999999)
             ltac:(vm_compute; split; [discriminate | reflexivity])
             ltac:(vm_compute; discriminate)).
Defined.

Lemma validateSession_nofault (u d tok : string) (w : World) :
  faults w = [] ->
  fst (validateSession u d tok w)
  = Ok (match session_at (clock w) (redis w) u d with
        | Some s => String.eqb (token s) tok
        | None => false
        end).
Proof.
  intros Hf. unfold validateSession. rewrite bind_run.
  rewrite getSession_nofault by exact Hf. reflexivity.
Qed.

(** X5. [validateSession] accepts exactly the token of the live session of
    that user and device: logging in again on the same device replaces the
    token, so the earlier one is refused from then on, and after
    [deleteSession] every token is refused. *)
Theorem validateSession_accepts_only_the_latest_token :
  forall (u d tok1 tok2 tok : string) (md1 md2 : Metadata) (w : World),
    faults w = [] ->
    let w1 := snd (createSession u d tok1 md1 w) in
    let w2 := snd (createSession u d tok2 md2 w1) in
    let w3 := snd (deleteSession u d w2) in
    fst (validateSession u d tok w1) = Ok (String.eqb tok1 tok) /\
    fst (validateSession u d tok w2) = Ok (String.eqb tok2 tok) /\
    fst (validateSession u d tok w3) = Ok false /\
    (forall s, fst (getSession u d w) = Ok (Some s) ->
               fst (validateSession u d tok w) = Ok (String.eqb (token s) tok)) /\
    (fst (getSession u d w) = Ok None ->
     fst (validateSession u d tok w) = Ok false).
Proof.
  intros u d tok1 tok2 tok md1 md2 w Hf w1 w2 w3.
  destruct (createSession_nofault u d tok1 md1 w Hf)
    as (w1' & E1 & (C1 & F1 & _) & Hnew1 & _).
  assert (Hw1 : w1 = w1') by (subst w1; rewrite E1; reflexivity).
  assert (Hf1 : faults w1' = []) by congruence.
  destruct (createSession_nofault u d tok2 md2 w1' Hf1)
    as (w2' & E2 & (C2 & F2 & _) & Hnew2 & _).
  assert (Hw2 : w2 = w2') by (subst w2; rewrite Hw1, E2; reflexivity).
  assert (Hf2 : faults w2' = []) by congruence.
  destruct (deleteSession_nofault u d w2' Hf2)
    as (w3' & E3 & (C3 & F3 & _) & Hgone & _).
  assert (Hw3 : w3 = w3') by (subst w3; rewrite Hw2, E3; reflexivity).
  assert (Hf3 : faults w3' = []) by congruence.
  rewrite Hw1, Hw2, Hw3.
  rewrite !validateSession_nofault by assumption.
  rewrite C1 in C2, Hnew2.
  rewrite (session_at_stored _ _ _ _ _ _ Hnew1),
          (session_at_stored _ _ _ _ _ _ Hnew2),
          (session_at_absent _ _ _ _ Hgone).
  rewrite C1, C2.
  destruct (Z.ltb_spec (clock w) (clock w + 86400 * 1000)); [|lia].
  cbn [token new_session].
  split; [reflexivity|]. split; [reflexivity|]. split; [reflexivity|].
  rewrite getSession_nofault by exact Hf. cbn [fst].
  split.
  - intros s Hs. injection Hs as ->. reflexivity.
  - intros Hs. injection Hs as ->. reflexivity.
Qed.

Lemma validateSession_accepts_only_the_latest_token_witness :
  faults bobWorld = [] /\
  let w1 := snd (createSession "77aa01" "phone" "jwt.1" no_metadata bobWorld) in
  let w2 := snd (createSession "77aa01" "phone" "jwt.2" no_metadata w1) in
  fst (validateSession "77aa01" "phone" "jwt.1" w1) = Ok true /\
  fst (validateSession "77aa01" "phone" "jwt.1" w2) = Ok false /\
  fst (validateSession "77aa01" "phone" "jwt.2" w2) = Ok true /\
  fst (validateSession "77aa01" "phone" "jwt.2"
         (snd (deleteSession "77aa01" "phone" w2))) = Ok false.
Proof.
  split; [reflexivity|].
  pose proof (validateSession_accepts_only_the_latest_token
                "77aa01" "phone" "jwt.1" "jwt.2" "jwt.1" no_metadata no_metadata
                bobWorld eq_refl) as (A1 & A2 & _).
  pose proof (validateSession_accepts_only_the_latest_token
                "77aa01" "phone" "jwt.1" "jwt.2" "jwt.2" no_metadata no_metadata
                bobWorld eq_refl) as (_ & B2 & B3 & _).
  split; [exact A1|]. split; [exact A2|]. split; [exact B2 | exact B3].
Defined.

(** ** Suspension *)

(** X6. A suspension set by [blockUser] for a positive number of seconds is
    seen by [checkUserBlocked] until that many seconds have passed, and
    lapses by itself afterwards. *)
Theorem blockUser_lapses_after_its_duration :
  forall (u : string) (seconds : Z) (w : World) (t : Z),
    faults w = [] ->
    0 < seconds ->
    clock w <= t ->
    fst (checkUserBlocked u (set_clock t (snd (blockUser u seconds w))))
    = Ok (t <? clock w + seconds * 1000).
Proof.
  intros u seconds w t Hf Hpos Ht.
  unfold blockUser, redis_setex. rewrite redis_cmd_nofault by exact Hf.
  cbn [snd]. unfold checkUserBlocked, redis_get. rewrite bind_run.
  rewrite redis_cmd_nofault
    by (destruct w as [us ds ms db cl hr fs tr]; exact Hf).
  cbn [fst snd]. rewrite ret_run. cbn [fst].
  destruct w as [us ds ms db cl hr fs tr].
  cbn [clock redis set_redis emit set_clock].
  unfold db_get, db_entry. rewrite lookup_insert_eq. unfold live.
  cbn [expiresAt value fmap option_fmap option_map].
  destruct (t <? cl + seconds * 1000); reflexivity.
Qed.

Lemma blockUser_lapses_after_its_duration_witness :
  faults aliceWorld = [] /\ 0 < 3600 /\
  fst (checkUserBlocked "64b7f0c2a1"
         (set_clock (t0 + 3599999) (snd (blockUser "64b7f0c2a1" 3600 aliceWorld))))
    = Ok true /\
  fst (checkUserBlocked "64b7f0c2a1"
         (set_clock (t0 + 3600000) (snd (blockUser "64b7f0c2a1" 3600 aliceWorld))))
    = Ok false.
Proof.
  split; [reflexivity|]. split; [lia|]. split.
  - exact (blockUser_lapses_after_its_duration "64b7f0c2a1" 3600 aliceWorld
             (t0 + 3599999) eq_refl eq_refl ltac:(vm_compute; discriminate)).
  - exact (blockUser_lapses_after_its_duration "64b7f0c2a1" 3600 aliceWorld
             (t0 + 3600000) eq_refl eq_refl ltac:(vm_compute; discriminate)).
Defined.

(** ** Session registry: listing *)

Lemma insert_sorted_sorted (x : SessionData) (l : list SessionData) :
  StronglySorted (fun a b => createdAt a <= createdAt b) l ->
  StronglySorted (fun a b => createdAt a <= createdAt b)
    (insert_sorted createdAt_le x l).
Proof.
  induction 1 as [|y l Hl IH Hy]; cbn [insert_sorted].
  - constructor; constructor.
  - unfold createdAt_le at 1. destruct (Z.leb_spec (createdAt x) (createdAt y)).
    + constructor; [constructor; assumption|].
      constructor; [assumption|].
      eapply Forall_impl; [exact Hy|]. cbv beta. intros a Ha. lia.
    + constructor; [exact IH|].
      apply List.Forall_forall. intros a Ha.
      apply insert_sorted_In in Ha as [->|Ha]; [lia|].
      rewrite List.Forall_forall in Hy. apply Hy, Ha.
Qed.

Lemma sort_by_sorted (l : list SessionData) :
  StronglySorted (fun a b => createdAt a <= createdAt b) (sort_by createdAt_le l).
Proof.
  induction l as [|x l IH]; cbn [sort_by]; [constructor|].
  apply insert_sorted_sorted, IH.
Qed.

Lemma live_sessions_In (now : Z) (db : gmap string Entry) (u : string)
  (ids : list string) (s : SessionData) :
  In s (live_sessions now db u ids) <->
  exists d, In d ids /\ session_at now db u d = Some s.
Proof.
  induction ids as [|d ids IH]; cbn [live_sessions In].
  - split; [intros [] | intros (d & [] & _)].
  - destruct (session_at now db u d) as [s'|] eqn:Hs; cbn [In]; rewrite IH.
    + split.
      * intros [->|(d' & Hd' & Hs')]; [exists d; auto | exists d'; auto].
      * intros (d' & [->|Hd'] & Hs'); [left; congruence | right; exists d'; auto].
    + split.
      * intros (d' & Hd' & Hs'). exists d'; auto.
      * intros (d' & [->|Hd'] & Hs'); [congruence | exists d'; auto].
Qed.

Lemma live_sessions_filter (now : Z) (db : gmap string Entry) (u : string)
  (ids : list string) :
  live_sessions now db u
    (List.filter (fun d => defined (session_at now db u d)) ids)
  = live_sessions now db u ids.
Proof.
  induction ids as [|d ids IH]; cbn [live_sessions List.filter]; [reflexivity|].
  destruct (session_at now db u d) as [s|] eqn:Hs; cbn [defined live_sessions].
  - rewrite Hs, IH. reflexivity.
  - exact IH.
Qed.

(** [SREM] without faults: the member leaves the set, nothing else
    changes. *)
Lemma redis_srem_members (k member : string) (w : World) :
  faults w = [] ->
  exists w',
    redis_srem k member w = (Ok tt, w') /\ same_but k w w' /\
    trace w' = (trace w ++ [Redis (SREM k member)])%list /\
    db_members (clock w) (redis w') k
    = List.filter (fun x => negb (String.eqb member x))
        (db_members (clock w) (redis w) k).
Proof.
  intros Hf.
  destruct (redis_srem_nofault k member w Hf) as (w' & E & Hsame).
  exists w'. split; [exact E|]. split; [exact Hsame|].
  revert E. unfold redis_srem. rewrite redis_unit_nofault by exact Hf.
  intros E. injection E as <-.
  destruct w as [us ds ms db cl hr fs tr].
  cbn [clock redis set_redis emit snd trace]. split; [reflexivity|].
  unfold db_members, db_get, db_entry.
  destruct (db !! k) as [[t v]|] eqn:Hk; cbn [snd]; [|rewrite Hk; reflexivity].
  destruct (live cl {| expiresAt := t; value := v |}) eqn:Hlive;
    [|cbn [snd]; rewrite Hk, Hlive; reflexivity].
  destruct v; cbn [snd]; try (rewrite Hk, Hlive; reflexivity).
  cbn [fmap option_fmap option_map value].
  destruct (List.filter (fun x => negb (String.eqb member x)) members) eqn:Hfl;
    cbn [snd].
  - rewrite lookup_delete_eq. reflexivity.
  - rewrite lookup_insert_eq.
    change (live cl {| expiresAt := t; value := VSet (s :: l) |})
      with (live cl {| expiresAt := t; value := VSet members |}).
    rewrite Hlive. reflexivity.
Qed.

Lemma filter_filter {A : Type} (p q : A -> bool) (l : list A) :
  List.filter p (List.filter q l) = List.filter (fun x => q x && p x) l.
Proof.
  induction l as [|x l IH]; cbn [List.filter]; [reflexivity|].
  destruct (q x); cbn [List.filter andb]; [destruct (p x)|]; rewrite ?IH; reflexivity.
Qed.

Lemma existsb_ext {A : Type} (f g : A -> bool) (l : list A) :
  (forall x, f x = g x) -> existsb f l = existsb g l.
Proof.
  intros Hfg. induction l as [|x l IH]; cbn [existsb]; [reflexivity|].
  rewrite Hfg, IH. reflexivity.
Qed.

Lemma getUserSessions_loop_prunes (u : string) (ids : list string) :
  forall (acc : list SessionData) (w : World),
    faults w = [] ->
    exists w',
      getUserSessions_loop u ids acc w =
        (Ok (acc ++ live_sessions (clock w) (redis w) u ids)%list, w') /\
      same_but (user_sessions_key u) w w' /\
      db_members (clock w) (redis w') (user_sessions_key u)
      = List.filter
          (fun x => negb (existsb
                     (fun d => String.eqb d x
                               && negb (defined (session_at (clock w) (redis w) u d)))
                     ids))
          (db_members (clock w) (redis w) (user_sessions_key u)).
Proof.
  induction ids as [|d ids IH]; intros acc w Hf;
    cbn [getUserSessions_loop live_sessions existsb].
  - exists w. rewrite app_nil_r. split; [reflexivity|].
    split; [apply same_but_refl|].
    cbn [negb]. symmetry. apply forallb_filter_id.
    apply forallb_forall. reflexivity.
  - rewrite bind_run, getSession_nofault by exact Hf.
    set (w0 := emit (Redis (GET (session_key u d))) w).
    assert (Hf0 : faults w0 = [])
      by (destruct w as [us ds ms db cl hr fs tr]; exact Hf).
    assert (Hc0 : clock w0 = clock w)
      by (destruct w as [us ds ms db cl hr fs tr]; reflexivity).
    assert (Hr0 : redis w0 = redis w)
      by (destruct w as [us ds ms db cl hr fs tr]; reflexivity).
    destruct (session_at (clock w) (redis w) u d) as [s|] eqn:Hs.
    + destruct (IH (acc ++ [s])%list w0 Hf0) as (w' & E & Hsame & Hm).
      rewrite Hc0, Hr0 in E, Hm.
      exists w'. split; [rewrite E, <- app_assoc; reflexivity|].
      split.
      * apply (same_but_trans _ _ w0); [apply same_but_emit | exact Hsame].
      * rewrite Hm. apply filter_ext. intros x.
        cbn [defined negb]. rewrite andb_false_r. reflexivity.
    + rewrite bind_run.
      destruct (redis_srem_members (user_sessions_key u) d w0 Hf0)
        as (w1 & E1 & Hsame1 & _ & Hm1).
      rewrite E1.
      pose proof Hsame1 as (_ & _ & _ & C1 & _ & F1 & K1).
      assert (Hf1 : faults w1 = []) by congruence.
      assert (Hat : forall d', session_at (clock w) (redis w1) u d'
                               = session_at (clock w) (redis w) u d').
      { intros d'. apply session_at_lookup.
        rewrite K1 by apply session_key_not_index. rewrite Hr0. reflexivity. }
      destruct (IH acc w1 Hf1) as (w' & E & Hsame & Hm).
      rewrite C1, Hc0 in E, Hm.
      exists w'. split; [|split].
      * rewrite E. do 3 f_equal. apply live_sessions_same. intros d'.
        rewrite K1 by apply session_key_not_index. rewrite Hr0. reflexivity.
      * apply (same_but_trans _ _ w1); [|exact Hsame].
        apply (same_but_trans _ _ w0); [apply same_but_emit | exact Hsame1].
      * rewrite Hm. rewrite Hc0, Hr0 in Hm1. rewrite Hm1, filter_filter.
        apply filter_ext. intros x. cbn [defined negb].
        rewrite andb_true_r, negb_orb. f_equal.
        f_equal. apply existsb_ext. intros d'. rewrite Hat. reflexivity.
Qed.

(** [getUserSessions] without faults: its result, and the index it
    leaves. *)
Lemma getUserSessions_pruned (u : string) (w : World) :
  faults w = [] ->
  exists w',
    getUserSessions u w = (Ok (active_sessions (clock w) (redis w) u), w') /\
    same_but (user_sessions_key u) w w' /\
    db_members (clock w) (redis w') (user_sessions_key u)
    = List.filter (fun d => defined (session_at (clock w) (redis w) u d))
        (db_members (clock w) (redis w) (user_sessions_key u)).
Proof.
  intros Hf.
  set (index := db_members (clock w) (redis w) (user_sessions_key u)).
  unfold getUserSessions at 1. rewrite bind_run.
  unfold redis_smembers. rewrite redis_cmd_nofault by exact Hf. cbn [fst snd].
  fold index.
  set (w0 := set_redis _ _).
  assert (Hf0 : faults w0 = [])
    by (destruct w as [us ds ms db cl hr fs tr]; exact Hf).
  assert (Hc0 : clock w0 = clock w)
    by (destruct w as [us ds ms db cl hr fs tr]; reflexivity).
  assert (Hr0 : redis w0 = redis w)
    by (destruct w as [us ds ms db cl hr fs tr]; reflexivity).
  assert (Hsame0 : same_but (user_sessions_key u) w w0)
    by (destruct w as [us ds ms db cl hr fs tr]; repeat split).
  destruct (getUserSessions_loop_prunes u index [] w0 Hf0)
    as (w' & E & Hsame & Hm).
  rewrite Hc0, Hr0 in E, Hm. fold index in Hm.
  rewrite bind_run, E. cbn [app]. rewrite ret_run.
  exists w'. split; [reflexivity|].
  split; [exact (same_but_trans _ _ w0 _ Hsame0 Hsame)|].
  rewrite Hm. apply filter_ext_in. intros x Hx.
  destruct (session_at (clock w) (redis w) u x) as [s|] eqn:Hs; cbn [defined].
  - apply negb_true_iff. apply not_true_is_false. intros Hex.
    apply existsb_exists in Hex as (d & _ & Hd).
    apply andb_true_iff in Hd as [Hd1 Hd2]. apply String.eqb_eq in Hd1.
    subst d. rewrite Hs in Hd2. discriminate Hd2.
  - apply negb_false_iff. apply existsb_exists. exists x.
    split; [exact Hx|]. rewrite String.eqb_refl, Hs. reflexivity.
Qed.

(** X7. Without Redis failures [getUserSessions] returns the live sessions of
    the indexed devices sorted by creation time, oldest first; it removes
    from the index exactly the devices whose session is gone, touches no
    session, and a second call returns the same list. *)
Theorem getUserSessions_sorted_and_prunes_index :
  forall (u : string) (w : World),
    faults w = [] ->
    let index := db_members (clock w) (redis w) (user_sessions_key u) in
    exists l w',
      getUserSessions u w = (Ok l, w') /\
      StronglySorted (fun a b => createdAt a <= createdAt b) l /\
      (forall s, In s l <->
                 exists d, In d index /\
                           session_at (clock w) (redis w) u d = Some s) /\
      db_members (clock w) (redis w') (user_sessions_key u)
      = List.filter (fun d => defined (session_at (clock w) (redis w) u d)) index /\
      (forall u' d, redis w' !! session_key u' d = redis w !! session_key u' d) /\
      fst (getUserSessions u w') = Ok l.
Proof.
  intros u w Hf index.
  destruct (getUserSessions_pruned u w Hf) as (w' & E & Hsame & Hpruned).
  fold index in Hpruned.
  pose proof Hsame as (_ & _ & _ & C & _ & F & K).
  eexists _, w'. split; [exact E|].
  split; [apply sort_by_sorted|].
  split; [intros s; unfold active_sessions; rewrite sort_by_In;
          apply live_sessions_In|].
  split; [exact Hpruned|].
  assert (Hkeys : forall u' d,
            redis w' !! session_key u' d = redis w !! session_key u' d).
  { intros u' d. apply K, session_key_not_index. }
  split; [exact Hkeys|].
  assert (Hf' : faults w' = []) by congruence.
  destruct (getUserSessions_nofault u w' Hf') as (w'' & E' & _).
  rewrite E'. cbn [fst]. f_equal. unfold active_sessions. f_equal.
  rewrite C, Hpruned.
  rewrite (live_sessions_same (clock w) (redis w) (redis w') u)
    by (intros d; apply Hkeys).
  apply live_sessions_filter.
Qed.

Lemma getUserSessions_sorted_and_prunes_index_witness :
  faults aliceWorld = [] /\
  exists l w',
    getUserSessions "64b7f0c2a1" aliceWorld = (Ok l, w') /\
    StronglySorted (fun a b => createdAt a <= createdAt b) l /\
    db_members t0 (redis w') (user_sessions_key "64b7f0c2a1") = ["tv-livingroom"] /\
    fst (getUserSessions "64b7f0c2a1" w') = Ok l.
Proof.
  split; [reflexivity|].
  destruct (getUserSessions_sorted_and_prunes_index "64b7f0c2a1" aliceWorld eq_refl)
    as (l & w' & E & Hs & _ & Hm & _ & Hagain).
  exists l, w'. split; [exact E|]. split; [exact Hs|].
  split; [exact Hm | exact Hagain].
Defined.

(** ** Device counters *)

Lemma db_entry_insert (now : Z) (db : gmap string Entry) (k : string) (e : Entry) :
  db_entry now (<[k := e]> db) k = if live now e then Some e else None.
Proof. unfold db_entry. rewrite lookup_insert_eq. reflexivity. Qed.

(** [INCR] then [EXPIRE] on a counter that is absent or holds an
    integer. *)
Lemma counter_bump (k : string) (seconds : Z) (w : World) (n : Z) :
  faults w = [] ->
  (db_get (clock w) (redis w) k = None /\ n = 0) \/
  (exists e, redis w !! k = Some {| expiresAt := Some e; value := VInt n |}
             /\ clock w < e) ->
  exists w',
    (redis_incr k;; redis_expire k seconds) w = (Ok tt, w') /\
    faults w' = [] /\
    redis w' !! k = Some {| expiresAt := Some (clock w + seconds * 1000);
                            value := VInt (n + 1) |}.
Proof.
  intros Hf Hk. unfold redis_incr, redis_expire.
  rewrite bind_run, redis_cmd_nofault by exact Hf. cbn [fst snd].
  rewrite redis_unit_nofault
    by (destruct w as [us ds ms db cl hr fs tr]; exact Hf).
  eexists. split; [reflexivity|].
  destruct w as [us ds ms db cl hr fs tr].
  cbn [faults clock redis set_redis emit snd] in *.
  split; [exact Hf|].
  destruct Hk as [[Hnone ->] | (e & Hk & Hlive)].
  - unfold db_get in Hnone.
    destruct (db_entry cl db k) as [[t v]|] eqn:He; [discriminate Hnone|].
    cbn [snd]. rewrite db_entry_insert. cbn [live expiresAt snd value].
    rewrite insert_insert_eq. apply lookup_insert_eq.
  - assert (He : db_entry cl db k
                 = Some {| expiresAt := Some e; value := VInt n |}).
    { unfold db_entry. rewrite Hk. unfold live. cbn [expiresAt].
      destruct (Z.ltb_spec cl e); [reflexivity | lia]. }
    rewrite He. cbn [snd]. rewrite db_entry_insert. unfold live. cbn [expiresAt].
    destruct (Z.ltb_spec cl e); [|lia]. cbn [snd value].
    rewrite insert_insert_eq. apply lookup_insert_eq.
Qed.

Lemma last_cons (ts : list Z) :
  forall t prev : Z, List.last (t :: ts) prev = List.last ts t.
Proof.
  induction ts as [|a ts IH]; intros t prev; [reflexivity|].
  change (List.last (t :: a :: ts) prev) with (List.last (a :: ts) prev).
  rewrite (IH a prev), (IH a t). reflexivity.
Qed.

Lemma counter_replay (k : string) (seconds : Z) (ts : list Z) :
  0 < seconds ->
  forall (prev n : Z) (w : World),
    faults w = [] ->
    redis w !! k = Some {| expiresAt := Some (prev + seconds * 1000);
                           value := VInt n |} ->
    within (seconds * 1000) prev ts ->
    let w' := replay (redis_incr k;; redis_expire k seconds) ts w in
    faults w' = [] /\
    redis w' !! k = Some {| expiresAt := Some (List.last ts prev + seconds * 1000);
                            value := VInt (n + Z.of_nat (length ts)) |}.
Proof.
  intros Hpos. induction ts as [|t ts IH]; intros prev n w Hf Hk Hin.
  - cbn [replay fold_left List.last length]. rewrite Z.add_0_r. split; assumption.
  - destruct Hin as [Ht Hrest].
    destruct (counter_bump k seconds (set_clock t w) n) as (w1 & E & Hf1 & Hk1).
    { rewrite faults_set_clock. exact Hf. }
    { right. exists (prev + seconds * 1000).
      rewrite redis_set_clock, clock_set_clock. split; [exact Hk | lia]. }
    rewrite clock_set_clock in Hk1.
    destruct (IH t (n + 1) w1 Hf1 Hk1 Hrest) as [Hf' Hk'].
    unfold replay in *. cbn [fold_left]. rewrite E. cbn [snd].
    split; [exact Hf'|]. rewrite Hk', last_cons. do 3 f_equal.
    cbn [length]. lia.
Qed.

Lemma counter_replay_fresh (k : string) (seconds : Z) (t1 : Z) (ts : list Z)
  (w : World) :
  0 < seconds ->
  faults w = [] ->
  db_get t1 (redis w) k = None ->
  within (seconds * 1000) t1 ts ->
  let w' := replay (redis_incr k;; redis_expire k seconds) (t1 :: ts) w in
  faults w' = [] /\
  redis w' !! k = Some {| expiresAt := Some (List.last ts t1 + seconds * 1000);
                          value := VInt (Z.of_nat (length (t1 :: ts))) |}.
Proof.
  intros Hpos Hf Hnone Hin.
  destruct (counter_bump k seconds (set_clock t1 w) 0) as (w1 & E & Hf1 & Hk1).
  { rewrite faults_set_clock. exact Hf. }
  { left. rewrite redis_set_clock, clock_set_clock. split; [exact Hnone | reflexivity]. }
  rewrite clock_set_clock in Hk1.
  destruct (counter_replay k seconds ts Hpos t1 (0 + 1) w1 Hf1 Hk1 Hin) as [Hf' Hk'].
  unfold replay in *. cbn [fold_left]. rewrite E. cbn [snd].
  split; [exact Hf'|]. rewrite Hk'. do 3 f_equal. cbn [length]. lia.
Qed.

Lemma counter_read (k : string) (e n t : Z) (w : World) :
  faults w = [] ->
  redis w !! k = Some {| expiresAt := Some e; value := VInt n |} ->
  redis_get k (set_clock t w)
  = (Ok (if t <? e then Some (VInt n) else None),
     emit (Redis (GET k)) (set_clock t w)).
Proof.
  intros Hf Hk. unfold redis_get.
  rewrite redis_cmd_nofault by (rewrite faults_set_clock; exact Hf).
  cbn [fst snd]. rewrite clock_set_clock, redis_set_clock.
  unfold db_get, db_entry. rewrite Hk. unfold live. cbn [expiresAt].
  destruct (t <? e); destruct w as [us ds ms db cl hr fs tr]; reflexivity.
Qed.

(** X8. The login counter of a device counts the calls of
    [incrementLoginCount] as long as each comes within 90 days of the one
    before: the frequency score is then the tier of that count (5 from 5
    logins, 10 from 15, 15 from 30, 20 from 50) until 90 days after the
    last login, and 0 afterwards. *)
Theorem login_count_drives_frequency_score :
  forall (u d : string) (w : World) (t1 : Z) (ts : list Z) (t : Z),
    faults w = [] ->
    db_get t1 (redis w) ("device:" +:+ d +:+ ":login_count") = None ->
    within (86400 * 90 * 1000) t1 ts ->
    List.last ts t1 <= t ->
    fst (getLoginFrequencyScore u d
           (set_clock t (replay (incrementLoginCount d) (t1 :: ts) w)))
    = Ok (if t <? List.last ts t1 + 86400 * 90 * 1000
          then frequency_tier (Z.of_nat (length (t1 :: ts)))
          else 0).
Proof.
  intros u d w t1 ts t Hf Hnone Hin Ht.
  destruct (counter_replay_fresh _ (86400 * 90) t1 ts w ltac:(lia) Hf Hnone Hin)
    as [Hf' Hk'].
  unfold incrementLoginCount.
  set (w' := replay _ _ w) in *.
  unfold getLoginFrequencyScore. rewrite bind_run.
  rewrite (counter_read _ _ _ t w' Hf' Hk'). rewrite ret_run. cbn [fst].
  destruct (t <? List.last ts t1 + 86400 * 90 * 1000); reflexivity.
Qed.

Lemma login_count_drives_frequency_score_witness :
  faults bobWorld = [] /\
  fst (getLoginFrequencyScore "77aa01" "phone"
         (set_clock (t0 + 5000)
            (replay (incrementLoginCount "phone")
               [t0; t0 + 1000; t0 + 2000; t0 + 3000; t0 + 4000] bobWorld)))
  = Ok 5.
Proof.
  split; [reflexivity|].
  exact (login_count_drives_frequency_score "77aa01" "phone" bobWorld t0
           [t0 + 1000; t0 + 2000; t0 + 3000; t0 + 4000] (t0 + 5000)
           eq_refl eq_refl
           ltac:(vm_compute; repeat split; discriminate)
           ltac:(vm_compute; discriminate)).
Defined.

(** X9. The failure counter of a device counts the calls of
    [recordFailedAttempt] as long as each comes within one hour of the one
    before; the penalty (-5 up to 2 failures, -15 up to 5, -30 beyond)
    holds until one hour after the last failure, and is then forgotten. *)
Theorem failed_attempts_are_forgotten_after_an_hour :
  forall (u d : string) (w : World) (t1 : Z) (ts : list Z) (t : Z),
    faults w = [] ->
    db_get t1 (redis w) ("device:" +:+ d +:+ ":failed_attempts") = None ->
    within (3600 * 1000) t1 ts ->
    List.last ts t1 <= t ->
    fst (getFailedAttemptsScore u d
           (set_clock t (replay (recordFailedAttempt d) (t1 :: ts) w)))
    = Ok (if t <? List.last ts t1 + 3600 * 1000
          then failure_penalty (Z.of_nat (length (t1 :: ts)))
          else 0).
Proof.
  intros u d w t1 ts t Hf Hnone Hin Ht.
  destruct (counter_replay_fresh _ 3600 t1 ts w ltac:(lia) Hf Hnone Hin)
    as [Hf' Hk'].
  unfold recordFailedAttempt.
  set (w' := replay _ _ w) in *.
  unfold getFailedAttemptsScore. rewrite bind_run.
  rewrite (counter_read _ _ _ t w' Hf' Hk'). rewrite ret_run. cbn [fst].
  destruct (t <? List.last ts t1 + 3600 * 1000); reflexivity.
Qed.

Lemma failed_attempts_are_forgotten_after_an_hour_witness :
  faults bobWorld = [] /\
  fst (getFailedAttemptsScore "77aa01" "phone"
         (set_clock (t0 + 3000000)
            (replay (recordFailedAttempt "phone")
               [t0; t0 + 1000; t0 + 2000] bobWorld)))
  = Ok (-15) /\
  fst (getFailedAttemptsScore "77aa01" "phone"
         (set_clock (t0 + 3602000)
            (replay (recordFailedAttempt "phone")
               [t0; t0 + 1000; t0 + 2000] bobWorld)))
  = Ok 0.
Proof.
  split; [reflexivity|]. split.
  - exact (failed_attempts_are_forgotten_after_an_hour "77aa01" "phone" bobWorld
             t0 [t0 + 1000; t0 + 2000] (t0 + 3000000) eq_refl eq_refl
             ltac:(vm_compute; repeat split; discriminate)
             ltac:(vm_compute; discriminate)).
  - exact (failed_attempts_are_forgotten_after_an_hour "77aa01" "phone" bobWorld
             t0 [t0 + 1000; t0 + 2000] (t0 + 3602000) eq_refl eq_refl
             ltac:(vm_compute; repeat split; discriminate)
             ltac:(vm_compute; discriminate)).
Defined.

(** [SADD] then [EXPIRE] on a set that is absent or live. *)
Lemma set_bump (k member : string) (seconds : Z) (w : World) (l : list string) :
  faults w = [] ->
  0 < seconds ->
  (db_get (clock w) (redis w) k = None /\ l = []) \/
  (exists e, redis w !! k = Some {| expiresAt := Some e; value := VSet l |}
             /\ clock w < e) ->
  exists w',
    (redis_sadd k member;; redis_expire k seconds) w = (Ok tt, w') /\
    faults w' = [] /\ clock w' = clock w /\
    redis w' !! k
    = Some {| expiresAt := Some (clock w + seconds * 1000);
              value := VSet (if existsb (String.eqb member) l then l
                             else l ++ [member]) |}.
Proof.
  intros Hf Hpos Hk. unfold redis_sadd, redis_expire.
  rewrite bind_run, redis_unit_nofault by exact Hf.
  rewrite redis_unit_nofault
    by (destruct w as [us ds ms db cl hr fs tr]; exact Hf).
  eexists. split; [reflexivity|].
  destruct w as [us ds ms db cl hr fs tr].
  cbn [faults clock redis set_redis emit snd] in *.
  split; [exact Hf|]. split; [reflexivity|].
  destruct Hk as [[Hnone ->] | (e & Hk & Hlive)].
  - unfold db_get in Hnone.
    destruct (db_entry cl db k) as [[t v]|] eqn:He; [discriminate Hnone|].
    cbn [snd]. rewrite db_entry_insert. cbn [live expiresAt snd value existsb app].
    rewrite insert_insert_eq. apply lookup_insert_eq.
  - assert (He : db_entry cl db k
                 = Some {| expiresAt := Some e; value := VSet l |}).
    { unfold db_entry. rewrite Hk. unfold live. cbn [expiresAt].
      destruct (Z.ltb_spec cl e); [reflexivity | lia]. }
    rewrite He. destruct (existsb (String.eqb member) l); cbn [snd].
    + rewrite He. cbn [snd value]. apply lookup_insert_eq.
    + rewrite db_entry_insert. unfold live. cbn [expiresAt].
      destruct (Z.ltb_spec cl e); [|lia]. cbn [snd value].
      rewrite insert_insert_eq. apply lookup_insert_eq.
Qed.

Lemma add_member_NoDup (member : string) (l : list string) :
  NoDup l ->
  NoDup (if existsb (String.eqb member) l then l else l ++ [member]).
Proof.
  intros Hl. destruct (existsb (String.eqb member) l) eqn:Hex; [exact Hl|].
  apply NoDup_app. split; [exact Hl|]. split.
  - intros x Hx Hx'. apply list_elem_of_In in Hx.
    apply list_elem_of_In in Hx'. destruct Hx' as [<-|[]].
    assert (existsb (String.eqb member) l = true); [|congruence].
    apply existsb_exists. exists member. split; [exact Hx | apply String.eqb_refl].
  - apply NoDup_singleton.
Qed.

Lemma add_member_In (member x : string) (l : list string) :
  In x (if existsb (String.eqb member) l then l else l ++ [member])
  <-> x = member \/ In x l.
Proof.
  destruct (existsb (String.eqb member) l) eqn:Hex.
  - split; [auto|]. intros [->|Hx]; [|exact Hx].
    apply existsb_exists in Hex as (y & Hy & E).
    apply String.eqb_eq in E. subst y. exact Hy.
  - rewrite in_app_iff. cbn [In]. intuition congruence.
Qed.

Lemma track_each (d : string) (us : list string) :
  forall (w : World) (l : list string),
    faults w = [] ->
    (db_get (clock w) (redis w) ("device:" +:+ d +:+ ":users") = None /\ l = []) \/
    (exists e, redis w !! ("device:" +:+ d +:+ ":users")
               = Some {| expiresAt := Some e; value := VSet l |} /\ clock w < e) ->
    NoDup l ->
    let w' := run_each (trackDeviceUser d) us w in
    exists members,
      faults w' = [] /\ clock w' = clock w /\
      db_members (clock w) (redis w') ("device:" +:+ d +:+ ":users") = members /\
      NoDup members /\
      (forall x, In x members <-> In x l \/ In x us).
Proof.
  induction us as [|u us IH]; intros w l Hf Hk Hl.
  - cbn [run_each fold_left]. exists l. split; [exact Hf|]. split; [reflexivity|].
    split; [|split; [exact Hl | intros x; cbn [In]; tauto]].
    unfold db_members. destruct Hk as [[-> ->] | (e & Hk & Hlive)]; [reflexivity|].
    unfold db_get, db_entry. rewrite Hk. unfold live. cbn [expiresAt].
    destruct (Z.ltb_spec (clock w) e); [reflexivity | lia].
  - destruct (set_bump ("device:" +:+ d +:+ ":users") u (86400 * 30) w l Hf
                ltac:(lia) Hk) as (w1 & E & Hf1 & C1 & Hk1).
    destruct (IH w1 (if existsb (String.eqb u) l then l else (l ++ [u])%list) Hf1)
      as (members & Hf' & C' & Hm & Hnd & Hin).
    { right. eexists. split; [exact Hk1 | lia]. }
    { apply add_member_NoDup, Hl. }
    assert (Hstep : snd (trackDeviceUser d u w) = w1)
      by (unfold trackDeviceUser; rewrite E; reflexivity).
    unfold run_each in *. cbn [fold_left]. rewrite Hstep.
    exists members. split; [exact Hf'|]. split; [congruence|].
    split; [rewrite <- C1; exact Hm|]. split; [exact Hnd|].
    intros x. rewrite Hin, add_member_In. cbn [In]. intuition congruence.
Qed.

(** X10. The user set of a device counts each account once, however often
    [trackDeviceUser] records it: after tracking the accounts [us] on a
    device not seen before, the set holds exactly the distinct accounts of
    [us], [SCARD] is their number, and the sharing penalty is 0 for one
    account, -10 for two and -25 for three or more. *)
Theorem device_sharing_counts_distinct_accounts :
  forall (d : string) (us : list string) (w : World),
    faults w = [] ->
    db_get (clock w) (redis w) ("device:" +:+ d +:+ ":users") = None ->
    let w' := run_each (trackDeviceUser d) us w in
    exists members,
      NoDup members /\
      (forall x, In x members <-> In x us) /\
      fst (redis_smembers ("device:" +:+ d +:+ ":users") w') = Ok members /\
      fst (redis_scard ("device:" +:+ d +:+ ":users") w')
        = Ok (Z.of_nat (length members)) /\
      fst (getDeviceSharingScore d w') = Ok (sharing_penalty (length members)).
Proof.
  intros d us w Hf Hnone w'.
  destruct (track_each d us w [] Hf (or_introl (conj Hnone eq_refl))
              NoDup_nil_2)
    as (members & Hf' & C' & Hm & Hnd & Hin).
  fold w' in Hf', C', Hm.
  exists members. split; [exact Hnd|].
  split; [intros x; rewrite Hin; cbn [In]; tauto|].
  unfold getDeviceSharingScore. rewrite bind_run.
  unfold redis_smembers, redis_scard.
  rewrite !redis_cmd_nofault by exact Hf'. cbn [fst snd]. rewrite ret_run.
  cbn [fst]. rewrite C', Hm.
  split; [reflexivity|]. split; reflexivity.
Qed.

Lemma device_sharing_counts_distinct_accounts_witness :
  faults bobWorld = [] /\
  let w' := run_each (trackDeviceUser "shared-tv")
              ["77aa01"; "64b7f0c2a1"; "77aa01"; "5c0ffee"; "64b7f0c2a1"]
              bobWorld in
  exists members,
    NoDup members /\
    fst (redis_smembers ("device:" +:+ "shared-tv" +:+ ":users") w') = Ok members /\
    fst (redis_smembers ("device:" +:+ "shared-tv" +:+ ":users") w')
      = Ok ["77aa01"; "64b7f0c2a1"; "5c0ffee"] /\
    fst (getDeviceSharingScore "shared-tv" w') = Ok (sharing_penalty (length members)) /\
    fst (getDeviceSharingScore "shared-tv" w') = Ok (-25).
Proof.
  split; [reflexivity|].
  destruct (device_sharing_counts_distinct_accounts "shared-tv"
              ["77aa01"; "64b7f0c2a1"; "77aa01"; "5c0ffee"; "64b7f0c2a1"]
              bobWorld eq_refl eq_refl)
    as (members & Hnd & _ & Hm & _ & Hs).
  exists members. split; [exact Hnd|]. split; [exact Hm|].
  split; [vm_compute; reflexivity|]. split; [exact Hs | vm_compute; reflexivity].
Defined.

(** ** Trust score: the stored copy *)

Lemma redis_setex_ok (k : string) (seconds : Z) (v : RValue) (w w' : World) :
  redis_setex k seconds v w = (Ok tt, w') ->
  clock w' = clock w /\
  redis w' !! k = Some {| expiresAt := Some (clock w + seconds * 1000);
                          value := v |}.
Proof.
  unfold redis_setex, redis_cmd.
  destruct w as [us ds ms db cl hr fs tr].
  cbn [faults emit clock redis set_redis set_faults fst snd].
  destruct fs as [|[] fs]; intros E; try discriminate E;
    injection E as <-; cbn [clock redis]; (split; [reflexivity|]);
    apply lookup_insert_eq.
Qed.

(** X11. Whenever [calculateTrustScore] returns, the entry it has written under
    [trust:<user>:<device>] holds the score and the factors it returns;
    the time stored with them is read before the entry is written and
    the time returned after, so the stored time is not later than the
    returned one, and the entry expires no earlier than 24 hours after
    the stored time and no later than 24 hours after the returned one;
    the factors are the seven named ones in their fixed order, and the
    score is the base 50 plus their sum, clamped to 0..100. *)
Theorem calculateTrustScore_caches_its_result :
  forall `{Platform} (u d ip : string) (w w' : World) (r : TrustScore),
    calculateTrustScore u d ip w = (Ok r, w') ->
    (exists stored expiry : Z,
       redis w' !! ("trust:" +:+ u +:+ ":" +:+ d)
         = Some {| expiresAt := Some expiry;
                   value := VTrust (score r) (factors r) stored |} /\
       stored <= ts_timestamp r /\
       stored + 86400 * 1000 <= expiry <= ts_timestamp r + 86400 * 1000) /\
    map fst (factors r)
      = ["Login Frequency"; "Device Age"; "Geo Consistency"; "Failed Attempts";
         "Login Hours"; "Device Sharing"; "VPN Usage"] /\
    score r = clamp100 (50 + fold_right Z.add 0 (map snd (factors r))).
Proof.
  intros P u d ip w w' r. unfold calculateTrustScore. intros E.
  do 6 (rewrite bind_run in E;
        match type of E with
        | match ?m ?w0 with _ => _ end = _ =>
            destruct (m w0) as [[?|?] ?]; [|discriminate E]
        end).
  rewrite bind_run in E. unfold storeTrustScore in E.
  rewrite bind_run in E. unfold Date_now at 1 in E.
  match type of E with
  | match redis_setex ?k ?s ?v ?w0 with _ => _ end = _ =>
      destruct (redis_setex k s v w0) as [[[]|?] wS] eqn:Es; [|discriminate E]
  end.
  apply redis_setex_ok in Es as [C Hk].
  rewrite bind_run in E. unfold Date_now in E. rewrite ret_run in E.
  injection E as <- <-. cbn [score factors ts_timestamp map fst snd app fold_right].
  rewrite C. split; [|split; [reflexivity|]].
  - eexists _, _. split; [exact Hk|]. lia.
  - unfold Math_round. f_equal. lia.
Qed.

Lemma calculateTrustScore_caches_its_result_witness :
  exists r w',
    calculateTrustScore "u1" "dev-x" "10.0.0.5" penalisedWorld = (Ok r, w') /\
    (exists stored expiry : Z,
       redis w' !! ("trust:" +:+ "u1" +:+ ":" +:+ "dev-x")
         = Some {| expiresAt := Some expiry;
                   value := VTrust (score r) (factors r) stored |} /\
       stored <= ts_timestamp r /\
       stored + 86400 * 1000 <= expiry <= ts_timestamp r + 86400 * 1000) /\
    score r = clamp100 (50 + fold_right Z.add 0 (map snd (factors r))).
Proof.
  destruct (@safe_calculateTrustScore scenarioPlatform "u1" "dev-x" "10.0.0.5"
              penalisedWorld eq_refl) as (r & w' & E & _).
  exists r, w'. split; [exact E|].
  destruct (@calculateTrustScore_caches_its_result scenarioPlatform
              "u1" "dev-x" "10.0.0.5" penalisedWorld w' r E) as (Hk & _ & Hs).
  split; [exact Hk | exact Hs].
Defined.

(** ** Geographic distance *)

Section Haversine.
Local Open Scope R_scope.

Lemma calculateDistance_haversine (lat1 lon1 lat2 lon2 : R) :
  calculateDistance lat1 lon1 lat2 lon2
  = 6371 * (2 * Math_atan2 (sqrt (haversine_a lat1 lon1 lat2 lon2))
                           (sqrt (1 - haversine_a lat1 lon1 lat2 lon2))).
Proof. reflexivity. Qed.

Lemma haversine_a_sym (lat1 lon1 lat2 lon2 : R) :
  haversine_a lat2 lon2 lat1 lon1 = haversine_a lat1 lon1 lat2 lon2.
Proof.
  unfold haversine_a.
  replace (toRad (lat1 - lat2) / 2) with (- (toRad (lat2 - lat1) / 2))
    by (unfold toRad; field).
  replace (toRad (lon1 - lon2) / 2) with (- (toRad (lon2 - lon1) / 2))
    by (unfold toRad; field).
  rewrite !sin_neg. ring.
Qed.

Lemma haversine_a_same (lat lon : R) : haversine_a lat lon lat lon = 0.
Proof.
  unfold haversine_a.
  replace (toRad (lat - lat) / 2) with 0 by (unfold toRad; field).
  replace (toRad (lon - lon) / 2) with 0 by (unfold toRad; field).
  rewrite sin_0. ring.
Qed.

Lemma calculateDistance_same (lat lon : R) : calculateDistance lat lon lat lon = 0.
Proof.
  rewrite calculateDistance_haversine, haversine_a_same.
  rewrite Rminus_0_r, sqrt_0, sqrt_1. unfold Math_atan2.
  destruct (Rlt_dec 0 1) as [_|H]; [|exfalso; apply H; lra].
  replace (0 / 1) with 0 by field. rewrite atan_0. ring.
Qed.

(** X12. [calculateDistance] is symmetric in its two points and is 0 for a
    point and itself. *)
Theorem calculateDistance_symmetric_and_zero_at_a_point :
  forall lat1 lon1 lat2 lon2 : R,
    calculateDistance lat2 lon2 lat1 lon1 = calculateDistance lat1 lon1 lat2 lon2 /\
    calculateDistance lat1 lon1 lat1 lon1 = 0.
Proof.
  intros lat1 lon1 lat2 lon2. split.
  - rewrite !calculateDistance_haversine, haversine_a_sym. reflexivity.
  - apply calculateDistance_same.
Qed.
End Haversine.

(** ** Geographic impossibility: the stored location *)

Lemma Rltb_false (x y : R) : (y <= x)%R -> Rltb x y = false.
Proof. intros H. unfold Rltb. destruct (Rlt_dec x y); [lra | reflexivity]. Qed.

(** Whatever was stored before, a check on a resolvable address leaves
    the current location under the key, for seven days. *)
Lemma checkGeoImpossibility_records `{Platform} (u ip : string) (geo : GeoInfo)
  (w : World) :
  geoip_lookup ip = Some geo ->
  faults w = [] ->
  exists r w',
    checkGeoImpossibility u ip w = (Ok r, w') /\
    faults w' = [] /\
    redis w' !! last_location_key u
    = Some {| expiresAt := Some (clock w + 86400 * 7 * 1000);
              value := VLocation (location_now geo (clock w)) |}.
Proof.
  intros Hgeo Hf. unfold checkGeoImpossibility. rewrite Hgeo.
  rewrite bind_run. unfold Date_now at 1. cbv zeta.
  rewrite bind_run. unfold redis_get. rewrite redis_cmd_nofault by exact Hf.
  cbn [fst snd]. unfold redis_setex.
  destruct w as [us ds ms db cl hr fs tr].
  cbn [faults clock redis set_redis emit] in *. subst fs.
  destruct (db_get cl db (last_location_key u)) as [[]|];
    rewrite bind_run, redis_cmd_nofault by reflexivity;
    cbn [fst snd clock redis set_redis emit];
    rewrite ret_run; (eexists _, _; split; [reflexivity|]);
    (split; [reflexivity|]); cbn [redis]; apply lookup_insert_eq.
Qed.

(** X13. A second check from the same address is never a finding: within the
    seven days the stored location lives, the distance is 0, the verdict
    is not impossible and the risk is 0, however short the time between
    the two; after seven days the check starts over with "First location
    recorded". *)
Theorem same_place_is_never_flagged :
  forall `{Platform} (u ip : string) (geo : GeoInfo) (w : World) (t : Z),
    geoip_lookup ip = Some geo ->
    faults w = [] ->
    clock w <= t ->
    let w1 := snd (checkGeoImpossibility u ip w) in
    exists r w2,
      checkGeoImpossibility u ip (set_clock t w1) = (Ok r, w2) /\
      isImpossible r = false /\ geo_riskScore r = 0 /\
      currentLocation r = Some (location_now geo t) /\
      (t < clock w + 86400 * 7 * 1000 ->
       reason r = NoReason /\ geo_distance r = Some 0%R /\
       geo_timeDiff r = Some (t - clock w) /\
       lastLocation r = Some (location_now geo (clock w))) /\
      (clock w + 86400 * 7 * 1000 <= t ->
       reason r = FirstLocationRecorded /\ lastLocation r = None).
Proof.
  intros P u ip geo w t Hgeo Hf Ht w1.
  destruct (checkGeoImpossibility_records u ip geo w Hgeo Hf)
    as (r1 & w1' & E1 & Hf1 & Hk1).
  assert (Hw1 : w1 = w1') by (subst w1; rewrite E1; reflexivity).
  rewrite Hw1. clear Hw1 w1 E1.
  unfold checkGeoImpossibility. rewrite Hgeo.
  rewrite bind_run. unfold Date_now at 1. cbv zeta.
  rewrite bind_run. unfold redis_get.
  rewrite redis_cmd_nofault by (rewrite faults_set_clock; exact Hf1).
  cbn [fst snd]. rewrite clock_set_clock, redis_set_clock.
  unfold db_get at 1, db_entry. rewrite Hk1. unfold live. cbn [expiresAt].
  unfold redis_setex.
  destruct (Z.ltb_spec t (clock w + 86400 * 7 * 1000)) as [Hin|Hout];
    cbn [fmap option_fmap option_map value];
    rewrite bind_run, redis_cmd_nofault
      by (destruct w1' as [us ds ms db cl hr fs tr]; exact Hf1);
    cbn [fst snd]; rewrite ret_run; eexists _, _; (split; [reflexivity|]).
  - unfold compareLocations.
    cbn [isImpossible geo_riskScore reason currentLocation lastLocation
         geo_distance geo_timeDiff location_now loc_lat loc_lon loc_country
         loc_timestamp].
    rewrite calculateDistance_same.
    rewrite (Rltb_false 500 0), (Rltb_false 3000 0), (Rltb_false 100 0) by lra.
    rewrite andb_false_r, String.eqb_refl. cbn [andb negb fst snd].
    split; [reflexivity|]. split; [reflexivity|]. split; [reflexivity|].
    split; [intros _; repeat split | intros Hc; lia].
  - cbn [isImpossible geo_riskScore reason currentLocation lastLocation].
    split; [reflexivity|]. split; [reflexivity|]. split; [reflexivity|].
    split; [intros Hc; lia | intros _; split; reflexivity].
Qed.

Lemma same_place_is_never_flagged_witness :
  geoip_lookup "49.36.0.1" = Some delhi /\
  faults travellerWorld = [] /\
  clock travellerWorld <= t0 + 1 /\
  let w1 := snd (checkGeoImpossibility "u-42" "49.36.0.1" travellerWorld) in
  exists r w2,
    checkGeoImpossibility "u-42" "49.36.0.1" (set_clock (t0 + 1) w1) = (Ok r, w2) /\
    isImpossible r = false /\ geo_riskScore r = 0 /\ reason r = NoReason.
Proof.
  assert (Ht : clock travellerWorld <= t0 + 1) by (vm_compute; discriminate).
  split; [reflexivity|]. split; [reflexivity|]. split; [exact Ht|].
  destruct (@same_place_is_never_flagged scenarioPlatform "u-42" "49.36.0.1"
              delhi travellerWorld (t0 + 1) eq_refl eq_refl Ht)
    as (r & w2 & E & Hi & Hr & _ & Hin & _).
  exists r, w2. split; [exact E|]. split; [exact Hi|]. split; [exact Hr|].
  apply Hin. vm_compute. reflexivity.
Defined.

(** ** Location history *)

(** X14. [storeLocationHistory] puts the new record at the head of the user's
    history, keeps the 50 most recent records and renews the 30 days of
    the list; an address that does not resolve leaves the world
    untouched. *)
Theorem storeLocationHistory_keeps_50_newest_first :
  forall `{Platform} (u ip d : string) (w : World)
         (old : list (string * string * string * string * Z)),
    faults w = [] ->
    db_get (clock w) (redis w) ("user:" +:+ u +:+ ":location_history")
      = Some (VHistory old) \/
    (db_get (clock w) (redis w) ("user:" +:+ u +:+ ":location_history") = None
     /\ old = []) ->
    match geoip_lookup ip with
    | None => storeLocationHistory u ip d w = (Ok tt, w)
    | Some geo =>
        let item := (d, gi_country geo, gi_city geo, ip, clock w) in
        exists w' kept,
          storeLocationHistory u ip d w = (Ok tt, w') /\
          redis w' !! ("user:" +:+ u +:+ ":location_history")
          = Some {| expiresAt := Some (clock w + 86400 * 30 * 1000);
                    value := VHistory (item :: kept) |} /\
          kept = take 49 old /\
          (length (item :: kept) <= 50)%nat /\
          (forall k, k <> "user:" +:+ u +:+ ":location_history" ->
                     redis w' !! k = redis w !! k)
    end.
Proof.
  intros P u ip d w old Hf Hold. unfold storeLocationHistory.
  destruct (geoip_lookup ip) as [geo|]; [|reflexivity].
  cbv zeta. set (key := "user:" +:+ u +:+ ":location_history") in *.
  rewrite bind_run. unfold Date_now at 1.
  unfold redis_lpush, redis_ltrim, redis_expire.
  rewrite bind_run, redis_unit_nofault by exact Hf.
  rewrite bind_run, redis_unit_nofault
    by (destruct w as [us ds ms db cl hr fs tr]; exact Hf).
  rewrite redis_unit_nofault
    by (destruct w as [us ds ms db cl hr fs tr]; exact Hf).
  destruct w as [us ds ms db cl hr fs tr].
  cbn [faults clock redis set_redis emit snd] in *.
  set (item := (d, gi_country geo, gi_city geo, ip, cl)).
  assert (Hpush : exists t0',
            snd (match db_entry cl db key with
                 | Some {| expiresAt := t; value := VHistory l |} =>
                     (tt, <[key := {| expiresAt := t;
                                      value := VHistory (item :: l) |}]> db)
                 | _ => (tt, <[key := {| expiresAt := None;
                                         value := VHistory [item] |}]> db)
                 end)
            = <[key := {| expiresAt := t0'; value := VHistory (item :: old) |}]> db
            /\ live cl {| expiresAt := t0'; value := VHistory (item :: old) |} = true).
  { unfold db_get in Hold.
    destruct Hold as [Hold | [Hold ->]].
    - destruct (db_entry cl db key) as [[t v]|] eqn:He; [|discriminate Hold].
      cbn [fmap option_fmap option_map value] in Hold. injection Hold as ->.
      exists t. split; [reflexivity|].
      unfold db_entry in He. destruct (db !! key) as [e|]; [|discriminate He].
      destruct (live cl e) eqn:Hl; [|discriminate He].
      injection He as ->. exact Hl.
    - destruct (db_entry cl db key) as [[t v]|] eqn:He; [discriminate Hold|].
      exists None. split; reflexivity. }
  destruct Hpush as (t0' & -> & Hlive).
  rewrite db_entry_insert, Hlive. cbn [snd].
  rewrite db_entry_insert.
  change (live cl {| expiresAt := t0';
                     value := VHistory (take (Z.to_nat (49 + 1)) (item :: old)) |})
    with (live cl {| expiresAt := t0'; value := VHistory (item :: old) |}).
  rewrite Hlive. cbn [snd value].
  eexists _, (take 49 old). split; [reflexivity|]. cbn [redis set_redis].
  split; [|split; [reflexivity|split]].
  - rewrite lookup_insert_eq. reflexivity.
  - cbn [length]. rewrite length_take. lia.
  - intros k Hk. rewrite !lookup_insert_ne by congruence. reflexivity.
Qed.

Lemma storeLocationHistory_keeps_50_newest_first_witness :
  faults travellerWorld = [] /\
  exists w' kept,
    storeLocationHistory "u-42" "49.36.0.1" "tv" travellerWorld = (Ok tt, w') /\
    redis w' !! ("user:" +:+ "u-42" +:+ ":location_history")
    = Some {| expiresAt := Some (t0 + 86400 * 30 * 1000);
              value := VHistory (("tv", "IN", "Delhi", "49.36.0.1", t0) :: kept) |} /\
    kept = [].
Proof.
  split; [reflexivity|].
  destruct (@storeLocationHistory_keeps_50_newest_first scenarioPlatform
              "u-42" "49.36.0.1" "tv" travellerWorld [] eq_refl
              (or_intror (conj eq_refl eq_refl)))
    as (w' & kept & E & Hk & Hkept & _).
  exists w', kept. split; [exact E|]. split; [exact Hk | exact Hkept].
Defined.

(** ** Commands that returned, whatever the fault script *)

Lemma redis_cmd_ok {A : Type} (c : RCmd)
  (f : Z -> gmap string Entry -> A * gmap string Entry) (w w' : World) (a : A) :
  redis_cmd c f w = (Ok a, w') ->
  a = fst (f (clock w) (redis w)) /\
  redis w' = snd (f (clock w) (redis w)) /\
  clock w' = clock w /\ users w' = users w /\ devices w' = devices w /\
  mongoSessions w' = mongoSessions w.
Proof.
  unfold redis_cmd. destruct w as [us ds ms db cl hr fs tr].
  cbn [faults emit clock redis set_redis set_faults users devices mongoSessions].
  destruct fs as [|[] fs]; intros E; try discriminate E;
    injection E as <- <-; repeat split.
Qed.

Lemma redis_cmd_throw {A : Type} (c : RCmd)
  (f : Z -> gmap string Entry -> A * gmap string Entry) (w w' : World) (e : Exn) :
  redis_cmd c f w = (Throw e, w') ->
  redis w' = redis w /\ clock w' = clock w /\ users w' = users w /\
  devices w' = devices w /\ mongoSessions w' = mongoSessions w.
Proof.
  unfold redis_cmd. destruct w as [us ds ms db cl hr fs tr].
  cbn [faults emit clock redis set_redis set_faults users devices mongoSessions].
  destruct fs as [|[] fs]; intros E; try discriminate E;
    injection E as _ <-; repeat split.
Qed.

Lemma checkUserBlocked_ok (u : string) (w w' : World) (b : bool) :
  checkUserBlocked u w = (Ok b, w') ->
  b = match db_get (clock w) (redis w) ("blocked:" +:+ u) with
      | Some (VStr s) => String.eqb s "1"
      | _ => false
      end /\
  redis w' = redis w /\ clock w' = clock w /\ mongoSessions w' = mongoSessions w.
Proof.
  unfold checkUserBlocked, redis_get. rewrite bind_run.
  destruct (redis_cmd _ _ w) as [[v|e] w1] eqn:E; [|discriminate].
  apply redis_cmd_ok in E as (-> & R & C & _ & _ & S). cbn [fst snd] in *.
  rewrite ret_run. intros E. injection E as <- <-. repeat split; assumption.
Qed.

Lemma getSession_ok (u d : string) (w w' : World) (r : option SessionData) :
  getSession u d w = (Ok r, w') ->
  r = session_at (clock w) (redis w) u d /\
  redis w' = redis w /\ clock w' = clock w /\ mongoSessions w' = mongoSessions w.
Proof.
  unfold getSession, redis_get. rewrite bind_run.
  destruct (redis_cmd _ _ w) as [[v|e] w1] eqn:E; [|discriminate].
  apply redis_cmd_ok in E as (-> & R & C & _ & _ & S). cbn [fst snd] in *.
  rewrite ret_run. intros E. injection E as <- <-. repeat split; assumption.
Qed.

Lemma validateSession_ok (u d tok : string) (w w' : World) (b : bool) :
  validateSession u d tok w = (Ok b, w') ->
  b = match session_at (clock w) (redis w) u d with
      | Some s => String.eqb (token s) tok
      | None => false
      end /\
  redis w' = redis w /\ clock w' = clock w /\ mongoSessions w' = mongoSessions w.
Proof.
  unfold validateSession. rewrite bind_run.
  destruct (getSession u d w) as [[r|e] w1] eqn:E; [|discriminate].
  apply getSession_ok in E as (-> & R & C & S).
  rewrite ret_run. intros E. injection E as <- <-. repeat split; assumption.
Qed.

Lemma updateActivity_ok (u d : string) (w w' : World) :
  updateActivity u d w = (Ok tt, w') ->
  clock w' = clock w /\ mongoSessions w' = mongoSessions w /\
  redis w' =
    match session_at (clock w) (redis w) u d with
    | Some s =>
        <[session_key u d :=
            {| expiresAt := Some (clock w + 86400 * 1000);
               value := VSession (touch (clock w) s) |}]> (redis w)
    | None => redis w
    end.
Proof.
  unfold updateActivity. rewrite bind_run.
  destruct (getSession u d w) as [[r|e] w1] eqn:E; [|discriminate].
  apply getSession_ok in E as (-> & R & C & S).
  destruct (session_at (clock w) (redis w) u d) as [s|].
  - rewrite bind_run. unfold Date_now at 1. unfold redis_setex. intros E.
    apply redis_cmd_ok in E as (_ & R' & C' & _ & _ & S'). cbn [snd] in R'.
    rewrite R', C', S', R, C, S. repeat split.
  - rewrite ret_run. intros E. injection E as <-. repeat split; assumption.
Qed.

(** ** The auth middleware *)

Ltac dead_end :=
  unfold mbind, M_bind, mret, M_ret, emitM, modify_world;
  let E := fresh "E" in intros E; discriminate E.

Lemma authMiddleware_next `{TokenVerifier} (req : Request) (w w' : World)
  (a : AuthUser) :
  authMiddleware req w = (Ok (Next a), w') ->
  exists authHeader tok decoded s,
    headers req !! "authorization" = Some authHeader /\
    nth_error (split_space authHeader) 1 = Some tok /\
    jwt_verify tok (clock w) = Verified decoded /\
    a = {| au_userId := claim_userId decoded;
           au_deviceId := claim_deviceId decoded;
           au_email := claim_email decoded; au_plan := None |} /\
    db_get (clock w) (redis w) ("blocked:" +:+ claim_userId decoded)
      <> Some (VStr "1") /\
    session_at (clock w) (redis w) (claim_userId decoded) (claim_deviceId decoded)
      = Some s /\
    token s = tok /\
    clock w' = clock w /\
    redis w' =
      <[session_key (claim_userId decoded) (claim_deviceId decoded) :=
          {| expiresAt := Some (clock w + 86400 * 1000);
             value := VSession (touch (clock w) s) |}]> (redis w).
Proof.
  unfold authMiddleware, try_catch, answer.
  destruct (headers req !! "authorization") as [authHeader|];
    [|dead_end].
  destruct (truthy authHeader); cbn [negb]; [|dead_end].
  destruct (nth_error (split_space authHeader) 1) as [tok|] eqn:Htok;
    [|dead_end].
  destruct (truthy tok); cbn [negb]; [|dead_end].
  rewrite bind_run. unfold Date_now at 1.
  destruct (jwt_verify tok (clock w)) as [decoded| |] eqn:Hv;
    try dead_end.
  rewrite bind_run.
  destruct (checkUserBlocked (claim_userId decoded) w) as [[b|e] w1] eqn:E1;
    [|dead_end].
  apply checkUserBlocked_ok in E1 as (Hb & R1 & C1 & _).
  destruct b; [dead_end|].
  rewrite bind_run.
  destruct (validateSession (claim_userId decoded) (claim_deviceId decoded) tok w1)
    as [[v|e] w2] eqn:E2; [|dead_end].
  apply validateSession_ok in E2 as (Hv2 & R2 & C2 & _).
  rewrite R1, C1 in Hv2.
  destruct v; cbn [negb]; [|dead_end].
  rewrite bind_run.
  destruct (updateActivity (claim_userId decoded) (claim_deviceId decoded) w2)
    as [[[]|e] w3] eqn:E3; [|dead_end].
  apply updateActivity_ok in E3 as (C3 & _ & R3).
  rewrite R2, C2, R1, C1 in R3. rewrite C2, C1 in C3.
  rewrite ret_run. intros E. injection E as <- <-.
  destruct (session_at (clock w) (redis w) (claim_userId decoded)
              (claim_deviceId decoded)) as [s|] eqn:Hs; [|discriminate Hv2].
  exists authHeader, tok, decoded, s.
  split; [reflexivity|]. split; [exact Htok|]. split; [exact Hv|].
  split; [reflexivity|]. split.
  - intros Hblocked. rewrite Hblocked in Hb. discriminate Hb.
  - split; [exact Hs|]. split; [|split; assumption].
    symmetry in Hv2. apply String.eqb_eq in Hv2. exact Hv2.
Qed.

Lemma results_bind {A B : Type} (P : B -> Prop) (m : M A) (f : A -> M B) :
  (forall a, results_only P (f a)) -> results_only P (m ≫= f).
Proof.
  intros Hf w b w' E. rewrite bind_run in E.
  destruct (m w) as [[a|e] w1]; [exact (Hf a _ _ _ E) | discriminate E].
Qed.

Lemma results_ret {A : Type} (P : A -> Prop) (a : A) :
  P a -> results_only P (mret a : M A).
Proof. intros HP w b w' E. injection E as <- _. exact HP. Qed.

Lemma results_try_catch {A : Type} (P : A -> Prop) (m : M A) (h : Exn -> M A) :
  results_only P m -> (forall e, results_only P (h e)) ->
  results_only P (try_catch m h).
Proof.
  intros Hm Hh w a w' E. unfold try_catch in E.
  destruct (m w) as [[x|e] w1] eqn:Em.
  - injection E as <- <-. exact (Hm _ _ _ Em).
  - exact (Hh e _ _ _ E).
Qed.

Ltac results_steps :=
  repeat first
    [ apply results_ret
    | apply results_bind; intros ?
    | match goal with
      | |- results_only _ (match ?x with _ => _ end) => destruct x
      | |- results_only _ (if ?b then _ else _) => destruct b
      end ].

Lemma authMiddleware_status `{TokenVerifier} (req : Request) :
  results_only auth_status (authMiddleware req).
Proof.
  unfold authMiddleware, answer. apply results_try_catch.
  - results_steps; cbn [auth_status reply_status]; auto.
  - intros e. results_steps. cbn [auth_status reply_status]. auto.
Qed.

Lemma total_answer {A : Type} (st : Z) (b : Json) : total (answer st b : M (Outcome A)).
Proof. intros w. eexists _, _. reflexivity. Qed.

(** X15. The auth middleware lets a request through only if its bearer token
    verifies, the account is not suspended and Redis holds a live session
    of the token's user and device with that very token, whatever Redis
    commands fail; it then stamps the session with the current time,
    renews its 24 hours and attaches the token's user, device and email
    (and no plan) to the request. It never throws: every other case is an
    answer with status 401, 403 or 500. *)
Theorem authMiddleware_passes_only_live_sessions :
  forall `{TokenVerifier} (req : Request) (w : World),
    (forall a w',
       authMiddleware req w = (Ok (Next a), w') ->
       exists authHeader tok decoded s,
         headers req !! "authorization" = Some authHeader /\
         nth_error (split_space authHeader) 1 = Some tok /\
         jwt_verify tok (clock w) = Verified decoded /\
         a = {| au_userId := claim_userId decoded;
                au_deviceId := claim_deviceId decoded;
                au_email := claim_email decoded; au_plan := None |} /\
         fst (checkUserBlocked (au_userId a) (set_faults [] w)) = Ok false /\
         fst (getSession (au_userId a) (au_deviceId a) (set_faults [] w))
           = Ok (Some s) /\
         token s = tok /\
         fst (getSession (au_userId a) (au_deviceId a) (set_faults [] w'))
           = Ok (Some (touch (clock w) s))) /\
    (exists o w', authMiddleware req w = (Ok o, w') /\ auth_status o).
Proof.
  intros V req w. split.
  - intros a w' E.
    destruct (authMiddleware_next req w w' a E)
      as (authHeader & tok & decoded & s & Hh & Htok & Hv & -> & Hb & Hs & Ht & C & R).
    exists authHeader, tok, decoded, s. cbn [au_userId au_deviceId].
    split; [exact Hh|]. split; [exact Htok|]. split; [exact Hv|].
    split; [reflexivity|].
    assert (Hf0 : forall x, faults (set_faults [] x) = [])
      by (intros [us ds ms db cl hr fs tr]; reflexivity).
    assert (Hc0 : forall x, clock (set_faults [] x) = clock x)
      by (intros [us ds ms db cl hr fs tr]; reflexivity).
    assert (Hr0 : forall x, redis (set_faults [] x) = redis x)
      by (intros [us ds ms db cl hr fs tr]; reflexivity).
    split; [|split; [|split; [exact Ht|]]].
    + unfold checkUserBlocked, redis_get. rewrite bind_run.
      rewrite redis_cmd_nofault by apply Hf0. cbn [fst snd]. rewrite ret_run.
      cbn [fst]. rewrite Hc0, Hr0.
      destruct (db_get (clock w) (redis w) ("blocked:" +:+ claim_userId decoded))
        as [[x| | | | | | | | |]|]; try reflexivity.
      destruct (String.eqb_spec x "1") as [->|]; [|reflexivity].
      exfalso. apply Hb. reflexivity.
    + rewrite getSession_nofault by apply Hf0. cbn [fst].
      rewrite Hc0, Hr0, Hs. reflexivity.
    + rewrite getSession_nofault by apply Hf0. cbn [fst].
      rewrite Hc0, Hr0, C. f_equal.
      erewrite session_at_stored by (rewrite R; apply lookup_insert_eq).
      destruct (Z.ltb_spec (clock w) (clock w + 86400 * 1000)); [reflexivity | lia].
  - assert (Ht : total (authMiddleware req)).
    { unfold authMiddleware. apply total_try_catch.
      intros e. apply total_bind; [apply total_emitM | intros _; apply total_answer]. }
    destruct (Ht w) as (o & w' & E). exists o, w'. split; [exact E|].
    apply (authMiddleware_status req w o w' E).
Qed.

Lemma run_fst {A : Type} (m : M A) (w : World) (a : A) :
  fst (m w) = Ok a -> m w = (Ok a, snd (m w)).
Proof. destruct (m w) as [r w']. cbn [fst snd]. intros ->. reflexivity. Qed.

Lemma authMiddleware_passes_only_live_sessions_witness :
  exists w',
    @authMiddleware scenarioVerifier tvRequest aliceWorld = (Ok (Next aliceOnTv), w') /\
    exists s,
      fst (getSession "64b7f0c2a1" "tv-livingroom" (set_faults [] aliceWorld))
        = Ok (Some s) /\
      token s = "jwt.old" /\
      fst (getSession "64b7f0c2a1" "tv-livingroom" (set_faults [] w'))
        = Ok (Some (touch t0 s)).
Proof.
  assert (E : @authMiddleware scenarioVerifier tvRequest aliceWorld
              = (Ok (Next aliceOnTv),
                 snd (@authMiddleware scenarioVerifier tvRequest aliceWorld)))
    by (apply run_fst; vm_compute; reflexivity).
  eexists. split; [exact E|].
  destruct (proj1 (@authMiddleware_passes_only_live_sessions scenarioVerifier
                     tvRequest aliceWorld) _ _ E)
    as (authHeader & tok & decoded & s & Hh & Htok & _ & _ & _ & Hs & Ht & Hafter).
  exists s. split; [exact Hs|]. split; [|exact Hafter].
  rewrite Ht. injection Hh as <-. injection Htok as <-. reflexivity.
Defined.

(** ** Logout and session termination *)

Lemma redis_cmd_keeps {A : Type} (c : RCmd)
  (f : Z -> gmap string Entry -> A * gmap string Entry) (w w' : World)
  (r : Res A) (k : string) :
  redis_cmd c f w = (r, w') ->
  (forall now db, snd (f now db) !! k = db !! k) ->
  redis w' !! k = redis w !! k.
Proof.
  intros E Hk. destruct r as [a|e].
  - apply redis_cmd_ok in E as (_ & -> & _). apply Hk.
  - apply redis_cmd_throw in E as (-> & _). reflexivity.
Qed.

Lemma redis_cmd_mongo {A : Type} (c : RCmd)
  (f : Z -> gmap string Entry -> A * gmap string Entry) (w w' : World)
  (r : Res A) :
  redis_cmd c f w = (r, w') ->
  mongoSessions w' = mongoSessions w /\ clock w' = clock w.
Proof.
  intros E. destruct r as [a|e].
  - apply redis_cmd_ok in E as (_ & _ & C & _ & _ & S). split; assumption.
  - apply redis_cmd_throw in E as (_ & C & _ & _ & S). split; assumption.
Qed.

Ltac keeps_cases :=
  intros ? ?;
  repeat match goal with
         | |- context [match ?x with _ => _ end] => destruct x
         end;
  cbn [snd];
  first [ reflexivity
        | apply lookup_insert_ne; congruence
        | apply lookup_delete_ne; congruence ].

(** Whether it fails or not, [deleteSession] touches two keys only. *)
Lemma deleteSession_keeps (u d : string) (w w' : World) (r : Res unit) (k : string) :
  deleteSession u d w = (r, w') ->
  k <> session_key u d -> k <> user_sessions_key u ->
  redis w' !! k = redis w !! k.
Proof.
  unfold deleteSession. rewrite bind_run. intros E Hk1 Hk2.
  destruct (redis_del (session_key u d) w) as [[[]|e] w1] eqn:E1.
  - rewrite (redis_cmd_keeps _ _ _ _ _ k E) by keeps_cases.
    apply (redis_cmd_keeps _ _ _ _ _ k E1).
    intros now db. cbn [snd]. apply lookup_delete_ne. congruence.
  - injection E as _ <-. apply (redis_cmd_keeps _ _ _ _ _ k E1).
    intros now db. cbn [snd]. apply lookup_delete_ne. congruence.
Qed.

Lemma deleteSession_mongo (u d : string) (w w' : World) (r : Res unit) :
  deleteSession u d w = (r, w') ->
  mongoSessions w' = mongoSessions w /\ clock w' = clock w.
Proof.
  unfold deleteSession. rewrite bind_run. intros E.
  destruct (redis_del (session_key u d) w) as [[[]|e] w1] eqn:E1.
  - apply redis_cmd_mongo in E as [S C]. apply redis_cmd_mongo in E1 as [S1 C1].
    split; congruence.
  - injection E as _ <-. apply redis_cmd_mongo in E1. exact E1.
Qed.

Lemma deleteSession_full (u d : string) (w : World) :
  faults w = [] ->
  exists w',
    deleteSession u d w = (Ok tt, w') /\
    faults w' = [] /\ clock w' = clock w /\
    mongoSessions w' = mongoSessions w /\
    redis w' !! session_key u d = None /\
    (forall k, k <> session_key u d -> k <> user_sessions_key u ->
               redis w' !! k = redis w !! k) /\
    db_members (clock w) (redis w') (user_sessions_key u)
    = List.filter (fun x => negb (String.eqb d x))
        (db_members (clock w) (redis w) (user_sessions_key u)).
Proof.
  intros Hf.
  destruct (deleteSession_nofault u d w Hf) as (w' & E & (C & F & _) & Hnone & S).
  exists w'. split; [exact E|]. split; [congruence|]. split; [exact C|].
  split; [exact S|]. split; [exact Hnone|].
  split; [intros k Hk1 Hk2; exact (deleteSession_keeps u d w w' _ k E Hk1 Hk2)|].
  revert E. unfold deleteSession. rewrite bind_run.
  unfold redis_del. rewrite redis_unit_nofault by exact Hf. cbn [snd].
  set (w1 := set_redis _ _).
  assert (Hf1 : faults w1 = [])
    by (destruct w as [us ds ms db cl hr fs tr]; exact Hf).
  destruct (redis_srem_members (user_sessions_key u) d w1 Hf1)
    as (w2 & E2 & _ & _ & Hm).
  rewrite E2. intros E. injection E as <-.
  assert (C1 : clock w1 = clock w)
    by (destruct w as [us ds ms db cl hr fs tr]; reflexivity).
  rewrite C1 in Hm. rewrite Hm. f_equal.
  unfold db_members, db_get, db_entry. subst w1.
  destruct w as [us ds ms db cl hr fs tr]. cbn [redis set_redis emit].
  rewrite lookup_delete_ne by apply session_key_not_index. reflexivity.
Qed.

Lemma clock_set_faults (fs : list bool) (w : World) :
  clock (set_faults fs w) = clock w.
Proof. destruct w as [us ds ms db cl hr fs0 tr]; reflexivity. Qed.

Lemma redis_set_faults (fs : list bool) (w : World) :
  redis (set_faults fs w) = redis w.
Proof. destruct w as [us ds ms db cl hr fs0 tr]; reflexivity. Qed.

(** X16. Without Redis failures [logout] answers 200, removes the session of
    the request's user and device from Redis and from the user's index,
    leaves the user's other sessions alone, and marks the first active
    MongoDB copy inactive; from then on no request passes the auth
    middleware as that user on that device, at any later time and whatever
    Redis does, until a new session is created. *)
Theorem logout_revokes_the_session :
  forall `{TokenVerifier} (user : AuthUser) (w : World),
    faults w = [] ->
    let u := au_userId user in
    let d := au_deviceId user in
    exists w1,
      logout user w
        = (Ok {| reply_status := 200;
                 reply_body := JMessage "Logged out successfully" |}, w1) /\
      (forall t, fst (getSession u d (set_clock t w1)) = Ok None) /\
      db_members (clock w) (redis w1) (user_sessions_key u)
        = List.filter (fun x => negb (String.eqb d x))
            (db_members (clock w) (redis w) (user_sessions_key u)) /\
      (forall d', d' <> d ->
                  redis w1 !! session_key u d' = redis w !! session_key u d') /\
      mongoSessions w1
        = update_first (fun s => String.eqb (ms_userId s) u
                                 && String.eqb (ms_deviceId s) d
                                 && ms_isActive s) (mongoSessions w) /\
      (forall req t fs a w2,
         authMiddleware req (set_clock t (set_faults fs w1)) = (Ok (Next a), w2) ->
         ~ (au_userId a = u /\ au_deviceId a = d)).
Proof.
  intros V user w Hf u d.
  destruct (deleteSession_full u d w Hf) as (w1 & E & F1 & C1 & S1 & Hnone & Hkeep & Hm).
  unfold logout, try_catch. fold u d. rewrite bind_run, E.
  rewrite bind_run. unfold Session_deactivateActiveOne, modify_world. cbv beta iota.
  unfold reply. rewrite ret_run.
  eexists. split; [reflexivity|].
  set (w2 := set_mongoSessions _ w1).
  assert (R2 : redis w2 = redis w1)
    by (destruct w1 as [us ds ms db cl hr fs tr]; reflexivity).
  assert (F2 : faults w2 = [])
    by (destruct w1 as [us ds ms db cl hr fs tr]; exact F1).
  split; [|split; [|split; [|split]]].
  - intros t. rewrite getSession_later by exact F2.
    rewrite R2, (session_at_absent _ _ _ _ Hnone). reflexivity.
  - rewrite R2. exact Hm.
  - intros d' Hd'. rewrite R2. apply Hkeep.
    + intros Hk. apply session_key_inj in Hk. exact (Hd' Hk).
    + apply session_key_not_index.
  - subst w2. rewrite <- S1.
    destruct w1 as [us ds ms db cl hr fs tr]; reflexivity.
  - intros req t fs a w3 E3 [Hu Hd].
    destruct (authMiddleware_next req _ _ _ E3)
      as (_ & _ & decoded & s & _ & _ & _ & -> & _ & Hs & _).
    cbn [au_userId au_deviceId] in Hu, Hd. rewrite Hu, Hd in Hs.
    rewrite redis_set_clock, redis_set_faults, R2 in Hs.
    rewrite (session_at_absent _ _ _ _ Hnone) in Hs. discriminate Hs.
Qed.

Lemma logout_revokes_the_session_witness :
  faults aliceWorld = [] /\
  exists w1,
    logout aliceOnTv aliceWorld
      = (Ok {| reply_status := 200;
               reply_body := JMessage "Logged out successfully" |}, w1) /\
    fst (getSession "64b7f0c2a1" "tv-livingroom" aliceWorld) <> Ok None /\
    fst (getSession "64b7f0c2a1" "tv-livingroom" (set_clock t0 w1)) = Ok None /\
    forall w2,
      @authMiddleware scenarioVerifier tvRequest (set_clock t0 (set_faults [] w1))
      <> (Ok (Next aliceOnTv), w2).
Proof.
  split; [reflexivity|].
  destruct (@logout_revokes_the_session scenarioVerifier aliceOnTv aliceWorld eq_refl)
    as (w1 & E & Hgone & _ & _ & _ & Hauth).
  exists w1. split; [exact E|]. split; [vm_compute; discriminate|].
  split; [exact (Hgone t0)|].
  intros w2 E2. apply (Hauth tvRequest t0 [] aliceOnTv w2 E2).
  split; reflexivity.
Defined.

Lemma total_reply (st : Z) (b : Json) : total (reply st b).
Proof. intros w. eexists _, _. reflexivity. Qed.

(** X17. [terminateSession] never touches the session of the device the
    request comes from, whatever Redis does: asked to end that very
    session it answers 400 and changes nothing; for another device and
    without Redis failures it answers 200 and that device's session is
    gone. It never throws. *)
Theorem terminateSession_spares_the_current_session :
  forall (user : AuthUser) (deviceId : option string) (w : World),
    let u := au_userId user in
    (exists r w', terminateSession user deviceId w = (Ok r, w')) /\
    (forall r w',
       terminateSession user deviceId w = (Ok r, w') ->
       redis w' !! session_key u (au_deviceId user)
         = redis w !! session_key u (au_deviceId user)) /\
    (deviceId = Some (au_deviceId user) ->
     exists r, terminateSession user deviceId w = (Ok r, w) /\ reply_status r = 400) /\
    (forall d,
       deviceId = Some d -> d <> "" -> d <> au_deviceId user -> faults w = [] ->
       exists w',
         terminateSession user deviceId w
           = (Ok {| reply_status := 200;
                    reply_body :=
                      JMessageDevice "Session terminated successfully" d |}, w') /\
         fst (getSession u d w') = Ok None /\
         mongoSessions w'
           = update_first (fun s => String.eqb (ms_userId s) u
                                    && String.eqb (ms_deviceId s) d)
               (mongoSessions w)).
Proof.
  intros user deviceId w u. split; [|split; [|split]].
  - assert (Ht : total (terminateSession user deviceId)).
    { unfold terminateSession. apply total_try_catch. intros e.
      apply total_bind; [apply total_emitM | intros _; apply total_reply]. }
    destruct (Ht w) as (r & w' & E). exists r, w'. exact E.
  - intros r w'. unfold terminateSession, try_catch, reply.
    destruct deviceId as [d|]; [|intros E; injection E as _ <-; reflexivity].
    destruct (truthy d); cbn [negb]; [|intros E; injection E as _ <-; reflexivity].
    destruct (String.eqb_spec d (au_deviceId user)) as [->|Hne];
      [intros E; injection E as _ <-; reflexivity|].
    rewrite bind_run.
    destruct (deleteSession (au_userId user) d w) as [[[]|e] w1] eqn:E1.
    + rewrite bind_run. unfold Session_deactivateOne, modify_world. cbv beta iota.
      rewrite ret_run. intros E. injection E as _ <-.
      replace (redis (set_mongoSessions _ w1)) with (redis w1)
        by (destruct w1 as [us ds ms db cl hr fs tr]; reflexivity).
      apply (deleteSession_keeps _ _ _ _ _ _ E1).
      * intros Hk. apply session_key_inj in Hk. congruence.
      * apply session_key_not_index.
    + rewrite bind_run. unfold emitM, modify_world. cbv beta iota.
      rewrite ret_run. intros E. injection E as _ <-.
      replace (redis (emit _ w1)) with (redis w1)
        by (destruct w1 as [us ds ms db cl hr fs tr]; reflexivity).
      apply (deleteSession_keeps _ _ _ _ _ _ E1).
      * intros Hk. apply session_key_inj in Hk. congruence.
      * apply session_key_not_index.
  - intros ->. unfold terminateSession, try_catch, reply.
    destruct (truthy (au_deviceId user)); cbn [negb].
    + rewrite String.eqb_refl. eexists. split; reflexivity.
    + eexists. split; reflexivity.
  - intros d -> Hd Hne Hf. unfold terminateSession, try_catch, reply.
    unfold truthy. destruct (String.eqb_spec d "") as [|_]; [contradiction|].
    cbn [negb].
    destruct (String.eqb_spec d (au_deviceId user)) as [|_]; [contradiction|].
    destruct (deleteSession_full u d w Hf) as (w1 & E & F1 & C1 & S1 & Hnone & _).
    fold u. rewrite bind_run, E.
    rewrite bind_run. unfold Session_deactivateOne, modify_world. cbv beta iota.
    rewrite ret_run. eexists. split; [reflexivity|].
    split.
    + rewrite getSession_nofault
        by (destruct w1 as [us ds ms db cl hr fs tr]; exact F1).
      cbn [fst]. f_equal. apply session_at_absent.
      destruct w1 as [us ds ms db cl hr fs tr]; exact Hnone.
    + rewrite <- S1. destruct w1 as [us ds ms db cl hr fs tr]; reflexivity.
Qed.

Lemma terminateSession_spares_the_current_session_witness :
  "tv-livingroom" <> "" /\ "tv-livingroom" <> "laptop" /\ faults aliceWorld = [] /\
  exists w',
    terminateSession
      {| au_userId := "64b7f0c2a1"; au_deviceId := "laptop";
         au_email := None; au_plan := None |}
      (Some "tv-livingroom") aliceWorld
      = (Ok {| reply_status := 200;
               reply_body :=
                 JMessageDevice "Session terminated successfully" "tv-livingroom" |},
         w') /\
    fst (getSession "64b7f0c2a1" "tv-livingroom" aliceWorld) <> Ok None /\
    fst (getSession "64b7f0c2a1" "tv-livingroom" w') = Ok None.
Proof.
  assert (H1 : "tv-livingroom" <> "") by discriminate.
  assert (H2 : "tv-livingroom" <> "laptop") by discriminate.
  split; [exact H1|]. split; [exact H2|]. split; [reflexivity|].
  destruct (proj2 (proj2 (proj2
              (terminateSession_spares_the_current_session
                 {| au_userId := "64b7f0c2a1"; au_deviceId := "laptop";
                    au_email := None; au_plan := None |}
                 (Some "tv-livingroom") aliceWorld)))
              "tv-livingroom" eq_refl H1 H2 eq_refl)
    as (w' & E & Hgone & _).
  exists w'. split; [exact E|]. split; [vm_compute; discriminate | exact Hgone].
Defined.

(** ** Listing the sessions *)

Lemma mapM_enrich (user : AuthUser) (l : list SessionData) (w : World) :
  mapM (enrich user) l w = (Ok (map (view_of user (devices w)) l), w).
Proof.
  induction l as [|s l IH]; cbn [mapM map]; [reflexivity|].
  rewrite bind_run. unfold enrich at 1. rewrite bind_run.
  unfold Device_findOne at 1. cbv beta iota. rewrite ret_run.
  rewrite bind_run, IH, ret_run. reflexivity.
Qed.

(** X18. Without Redis failures [getSessions] answers 200 with one entry per
    live session of the user, oldest first, [total] being their number;
    an entry is marked current exactly when it is the session of the
    requesting device; [maxAllowed] is the limit of the plan found on
    [req.user], and the limit of BASIC when there is none. The auth
    middleware never puts a plan there, so behind it [maxAllowed] is 1
    whatever plan the user holds. *)
Theorem getSessions_lists_live_sessions :
  forall `{TokenVerifier} (user : AuthUser) (w : World),
    faults w = [] ->
    exists views w',
      getSessions user w
        = (Ok {| reply_status := 200;
                 reply_body :=
                   JSessions views (Z.of_nat (length views))
                     (getMaxSessions (or_default (au_plan user) "BASIC")) |}, w') /\
      views = map (view_of user (devices w))
                (active_sessions (clock w) (redis w) (au_userId user)) /\
      StronglySorted (fun a b => sv_createdAt a <= sv_createdAt b) views /\
      (forall v, In v views ->
                 (sv_isCurrent v = true <-> sv_deviceId v = au_deviceId user)) /\
      (au_plan user = None ->
       getMaxSessions (or_default (au_plan user) "BASIC") = 1) /\
      (forall req w0 w1,
         authMiddleware req w0 = (Ok (Next user), w1) ->
         getMaxSessions (or_default (au_plan user) "BASIC") = 1).
Proof.
  intros V user w Hf.
  destruct (getUserSessions_nofault (au_userId user) w Hf) as (w1 & E & Hsame).
  pose proof Hsame as (_ & D & _).
  unfold getSessions, try_catch, reply. rewrite bind_run, E.
  rewrite bind_run, mapM_enrich, ret_run.
  eexists _, w1. split; [reflexivity|]. rewrite D.
  split; [reflexivity|]. split; [|split; [|split]].
  - unfold active_sessions.
    pose proof (sort_by_sorted
                  (live_sessions (clock w) (redis w) (au_userId user)
                     (db_members (clock w) (redis w)
                        (user_sessions_key (au_userId user))))) as Hs.
    induction Hs as [|s l Hl IH Hall]; cbn [map]; constructor.
    + exact IH.
    + apply List.Forall_forall. intros v Hv. apply in_map_iff in Hv as (s' & <- & Hs').
      rewrite List.Forall_forall in Hall. cbn [sv_createdAt view_of].
      apply Hall, Hs'.
  - intros v Hv. apply in_map_iff in Hv as (s & <- & _).
    cbn [sv_isCurrent sv_deviceId view_of]. apply String.eqb_eq.
  - intros ->. reflexivity.
  - intros req w0 w2 E2.
    destruct (authMiddleware_next req w0 w2 user E2)
      as (_ & _ & decoded & _ & _ & _ & _ & -> & _).
    reflexivity.
Qed.

Lemma getSessions_lists_live_sessions_witness :
  faults aliceWorld = [] /\
  exists views w',
    @getSessions aliceOnTv aliceWorld
      = (Ok {| reply_status := 200;
               reply_body := JSessions views (Z.of_nat (length views)) 1 |}, w') /\
    map sv_deviceId views = ["tv-livingroom"] /\
    map sv_isCurrent views = [true] /\
    user_plan alice = "STANDARD".
Proof.
  split; [reflexivity|].
  destruct (@getSessions_lists_live_sessions scenarioVerifier aliceOnTv aliceWorld
              eq_refl) as (views & w' & E & Hv & _).
  exists views, w'. split; [exact E|]. rewrite Hv.
  split; [vm_compute; reflexivity|]. split; [vm_compute; reflexivity | reflexivity].
Defined.

(** ** The suspension check in front of login *)

Lemma checkBlockedMiddleware_nofault (email : string) (user : option AuthUser)
  (w : World) :
  faults w = [] ->
  fst (checkBlockedMiddleware email user w)
  = Ok (match resolved_user email user w with
        | Some id =>
            match db_get (clock w) (redis w) ("blocked:" +:+ id) with
            | Some (VStr s) => if String.eqb s "1" then Done suspended_reply
                               else Next tt
            | _ => Next tt
            end
        | None => Next tt
        end).
Proof.
  intros Hf. unfold checkBlockedMiddleware, resolved_user, answer, suspended_reply.
  assert (Hcheck : forall id,
            fst ((blocked ← checkUserBlocked id;
                  if blocked : bool
                  then mret (Done
                    {| reply_status := 403;
                       reply_body :=
                         JErrorMessage "Account temporarily suspended"
                           "Your account has been temporarily suspended due to suspicious activity. Please try again later or contact support." |})
                  else mret (Next tt)) w)
            = Ok (match db_get (clock w) (redis w) ("blocked:" +:+ id) with
                  | Some (VStr s) =>
                      if String.eqb s "1"
                      then Done
                        {| reply_status := 403;
                           reply_body :=
                             JErrorMessage "Account temporarily suspended"
                               "Your account has been temporarily suspended due to suspicious activity. Please try again later or contact support." |}
                      else Next tt
                  | _ => Next tt
                  end)).
  { intros id. rewrite bind_run. unfold checkUserBlocked, redis_get.
    rewrite bind_run, redis_cmd_nofault by exact Hf. cbn [fst snd].
    rewrite ret_run.
    destruct (db_get (clock w) (redis w) ("blocked:" +:+ id))
      as [[s| | | | | | | | |]|]; try reflexivity.
    destruct (String.eqb s "1"); reflexivity. }
  destruct (truthy email) eqn:He; cbn [negb andb].
  - rewrite bind_run. rewrite bind_run. unfold User_findOne at 1. cbv beta iota.
    rewrite ret_run.
    destruct (List.find _ (users w)) as [u|];
      cbn [fmap option_fmap option_map]; [apply Hcheck | reflexivity].
  - destruct user as [a|]; cbn [fmap option_fmap option_map]; [|reflexivity].
    destruct (truthy (au_userId a)); cbn [negb]; [|reflexivity].
    rewrite bind_run, ret_run. apply Hcheck.
Qed.

(** X19. [checkBlockedMiddleware] only reads: whatever it answers and whatever
    Redis does, it changes no MongoDB collection and no Redis key. Without
    Redis failures it answers 403 exactly when the request names a user
    (by the email of the body, else by [req.user]) whose suspension flag
    is live, and calls [next()] otherwise, so also for an email that
    belongs to nobody; a user suspended by [blockUser] is thus turned away
    until the suspension has lapsed. *)
Theorem checkBlockedMiddleware_stops_suspended_users :
  forall (email : string) (user : option AuthUser) (w : World),
    (forall r w',
       checkBlockedMiddleware email user w = (r, w') ->
       redis w' = redis w /\ users w' = users w /\ devices w' = devices w /\
       mongoSessions w' = mongoSessions w) /\
    (faults w = [] ->
     fst (checkBlockedMiddleware email user w)
     = Ok (match resolved_user email user w with
           | Some id =>
               match db_get (clock w) (redis w) ("blocked:" +:+ id) with
               | Some (VStr s) => if String.eqb s "1" then Done suspended_reply
                                  else Next tt
               | _ => Next tt
               end
           | None => Next tt
           end)) /\
    (forall (u : User) (seconds t : Z),
       faults w = [] -> email <> "" ->
       List.find (fun x => String.eqb (user_email x) email) (users w) = Some u ->
       0 < seconds -> clock w <= t ->
       fst (checkBlockedMiddleware email user
              (set_clock t (snd (blockUser (user_id u) seconds w))))
       = Ok (if t <? clock w + seconds * 1000 then Done suspended_reply
             else Next tt)).
Proof.
  intros email user w. split; [|split].
  - intros r w'. unfold checkBlockedMiddleware, answer.
    assert (Hcheck : forall id (k : bool -> M (Outcome unit)) w0,
              (forall b w1 r1 w2, k b w1 = (r1, w2) -> w2 = w1) ->
              (blocked ← checkUserBlocked id; k blocked) w0 = (r, w') ->
              redis w' = redis w0 /\ users w' = users w0 /\
              devices w' = devices w0 /\ mongoSessions w' = mongoSessions w0).
    { intros id k w0 Hk. rewrite bind_run. unfold checkUserBlocked, redis_get.
      rewrite bind_run.
      destruct (redis_cmd _ _ w0) as [[v|e] w1] eqn:E1.
      - apply redis_cmd_ok in E1 as (_ & R & _ & U & D & S). cbn [snd] in R.
        rewrite ret_run. intros E. apply Hk in E. subst w'.
        repeat split; assumption.
      - apply redis_cmd_throw in E1 as (R & _ & U & D & S).
        intros E. injection E as _ <-. repeat split; assumption. }
    destruct (negb (truthy email) &&
              negb match au_userId <$> user with
                   | Some id => truthy id
                   | None => false
                   end).
    { intros E. injection E as _ <-. repeat split. }
    rewrite bind_run.
    destruct (truthy email).
    + rewrite bind_run. unfold User_findOne at 1. cbv beta iota. rewrite ret_run.
      destruct (user_id <$> List.find _ (users w)) as [id|].
      * apply Hcheck. intros [] w1 r1 w2 E; injection E as _ <-; reflexivity.
      * intros E. injection E as _ <-. repeat split.
    + rewrite ret_run. destruct (au_userId <$> user) as [id|].
      * apply Hcheck. intros [] w1 r1 w2 E; injection E as _ <-; reflexivity.
      * intros E. injection E as _ <-. repeat split.
  - apply checkBlockedMiddleware_nofault.
  - intros u seconds t Hf He Hfind Hpos Ht.
    unfold blockUser, redis_setex. rewrite redis_cmd_nofault by exact Hf.
    cbn [snd].
    rewrite checkBlockedMiddleware_nofault
      by (destruct w as [us ds ms db cl hr fs tr]; exact Hf).
    unfold resolved_user, truthy.
    destruct (String.eqb_spec email "") as [|_]; [contradiction|]. cbn [negb].
    destruct w as [us ds ms db cl hr fs tr].
    cbn [users clock redis set_clock set_redis emit] in *.
    rewrite Hfind. cbn [fmap option_fmap option_map].
    unfold db_get, db_entry. rewrite lookup_insert_eq. unfold live.
    cbn [expiresAt value fmap option_fmap option_map].
    destruct (t <? cl + seconds * 1000); reflexivity.
Qed.

Lemma checkBlockedMiddleware_stops_suspended_users_witness :
  faults aliceWorld = [] /\ "alice@example.com" <> "" /\ 0 < 3600 /\
  fst (checkBlockedMiddleware "alice@example.com" None
         (set_clock (t0 + 60000) (snd (blockUser "64b7f0c2a1" 3600 aliceWorld))))
    = Ok (Done suspended_reply) /\
  fst (checkBlockedMiddleware "alice@example.com" None
         (set_clock (t0 + 3600000) (snd (blockUser "64b7f0c2a1" 3600 aliceWorld))))
    = Ok (Next tt).
Proof.
  assert (He : "alice@example.com" <> "") by discriminate.
  split; [reflexivity|]. split; [exact He|]. split; [lia|].
  pose proof (proj2 (proj2 (checkBlockedMiddleware_stops_suspended_users
                              "alice@example.com" None aliceWorld))) as H.
  split.
  - exact (H alice 3600 (t0 + 60000) eq_refl He eq_refl eq_refl
             ltac:(vm_compute; discriminate)).
  - exact (H alice 3600 (t0 + 3600000) eq_refl He eq_refl eq_refl
             ltac:(vm_compute; discriminate)).
Defined.

(** ** The rate-limit store *)

Lemma increment_first (prefix key : string) (w : World) (t : Z) :
  faults w = [] ->
  db_get t (redis w) (prefix +:+ key) = None ->
  exists w',
    RedisStore_increment prefix key (set_clock t w)
      = (Ok {| totalHits := 1; resetTime := t + 900000 |}, w') /\
    faults w' = [] /\
    redis w' !! (prefix +:+ key)
      = Some {| expiresAt := Some (t + 900 * 1000); value := VInt 1 |}.
Proof.
  intros Hf Hnone. unfold RedisStore_increment, redis_incr, redis_expire.
  assert (Hf' : faults (set_clock t w) = []) by (rewrite faults_set_clock; exact Hf).
  rewrite bind_run, redis_cmd_nofault by exact Hf'.
  rewrite clock_set_clock, redis_set_clock.
  unfold db_get in Hnone.
  destruct (db_entry t (redis w) (prefix +:+ key)) as [[e v]|] eqn:He;
    [discriminate Hnone|].
  cbn [fst snd]. change (1 =? 1) with true. cbv beta iota.
  destruct w as [us ds ms db cl hr fs tr].
  unfold set_clock. cbn [faults redis clock users devices mongoSessions localHour trace] in *.
  subst fs.
  rewrite bind_run, redis_unit_nofault by reflexivity.
  cbn [fst snd clock redis set_redis emit].
  rewrite db_entry_insert. cbn [live expiresAt snd value].
  rewrite bind_run. unfold Date_now at 1. cbv beta iota. rewrite ret_run.
  cbn [clock set_redis emit].
  eexists. split; [reflexivity|]. split; [reflexivity|].
  cbn [redis]. rewrite insert_insert_eq. apply lookup_insert_eq.
Qed.

Lemma increment_next (prefix key : string) (w : World) (t e n : Z) :
  faults w = [] ->
  redis w !! (prefix +:+ key) = Some {| expiresAt := Some e; value := VInt n |} ->
  t < e -> 1 <= n ->
  exists w',
    RedisStore_increment prefix key (set_clock t w)
      = (Ok {| totalHits := n + 1; resetTime := t + 900000 |}, w') /\
    faults w' = [] /\
    redis w' !! (prefix +:+ key)
      = Some {| expiresAt := Some e; value := VInt (n + 1) |}.
Proof.
  intros Hf Hk Ht Hn. unfold RedisStore_increment, redis_incr, redis_expire.
  assert (Hf' : faults (set_clock t w) = []) by (rewrite faults_set_clock; exact Hf).
  rewrite bind_run, redis_cmd_nofault by exact Hf'.
  rewrite clock_set_clock, redis_set_clock.
  assert (He : db_entry t (redis w) (prefix +:+ key)
               = Some {| expiresAt := Some e; value := VInt n |}).
  { unfold db_entry. rewrite Hk. unfold live. cbn [expiresAt].
    destruct (Z.ltb_spec t e); [reflexivity | lia]. }
  rewrite He. cbn [fst snd].
  destruct (Z.eqb_spec (n + 1) 1); [lia|].
  rewrite bind_run, ret_run.
  rewrite bind_run. unfold Date_now at 1. cbv beta iota. rewrite ret_run.
  destruct w as [us ds ms db cl hr fs tr].
  unfold set_clock. cbn [faults redis clock users devices mongoSessions localHour trace set_redis emit] in *.
  eexists. split; [reflexivity|]. split; [exact Hf|].
  cbn [redis]. apply lookup_insert_eq.
Qed.

Lemma increment_replay (prefix key : string) (e : Z) (ts : list Z) :
  forall (n : Z) (w : World),
    faults w = [] ->
    redis w !! (prefix +:+ key) = Some {| expiresAt := Some e; value := VInt n |} ->
    1 <= n ->
    Forall (fun x => x < e) ts ->
    let w' := replay (RedisStore_increment prefix key) ts w in
    faults w' = [] /\
    redis w' !! (prefix +:+ key)
      = Some {| expiresAt := Some e; value := VInt (n + Z.of_nat (length ts)) |}.
Proof.
  induction ts as [|t ts IH]; intros n w Hf Hk Hn Hts.
  - cbn [replay fold_left length]. rewrite Z.add_0_r. split; assumption.
  - apply Forall_cons in Hts as [Ht Hts].
    destruct (increment_next prefix key w t e n Hf Hk Ht Hn) as (w1 & E & Hf1 & Hk1).
    destruct (IH (n + 1) w1 Hf1 Hk1 ltac:(lia) Hts) as [Hf' Hk'].
    unfold replay in *. cbn [fold_left]. rewrite E. cbn [snd].
    split; [exact Hf'|]. rewrite Hk'. do 3 f_equal. cbn [length]. lia.
Qed.

(** X20. The rate-limit store counts hits in a window of 15 minutes that
    starts with the first hit and is not extended by later ones: the n-th
    hit inside the window is reported as hit n, the first hit at or after
    the end of the window is reported as hit 1 again, and so is the first
    hit after [resetKey]; the reported reset time is always 15 minutes
    after the hit itself. *)
Theorem RedisStore_counts_a_fixed_window :
  forall (prefix key : string) (w : World) (t1 : Z) (ts : list Z) (t : Z),
    faults w = [] ->
    db_get t1 (redis w) (prefix +:+ key) = None ->
    Forall (fun x => x < t1 + 900000) ts ->
    let w' := replay (RedisStore_increment prefix key) (t1 :: ts) w in
    fst (RedisStore_increment prefix key (set_clock t w'))
      = Ok {| totalHits := if t <? t1 + 900000
                           then Z.of_nat (length (t1 :: ts)) + 1 else 1;
              resetTime := t + 900000 |} /\
    fst (RedisStore_increment prefix key
           (set_clock t (snd (RedisStore_resetKey prefix key w'))))
      = Ok {| totalHits := 1; resetTime := t + 900000 |}.
Proof.
  intros prefix key w t1 ts t Hf Hnone Hts w'.
  destruct (increment_first prefix key w t1 Hf Hnone) as (w1 & E1 & Hf1 & Hk1).
  replace (t1 + 900 * 1000) with (t1 + 900000) in Hk1 by lia.
  destruct (increment_replay prefix key (t1 + 900000) ts 1 w1 Hf1 Hk1
              ltac:(lia) Hts) as [Hf' Hk'].
  assert (Hw' : w' = replay (RedisStore_increment prefix key) ts w1).
  { subst w'. unfold replay. cbn [fold_left]. rewrite E1. reflexivity. }
  rewrite <- Hw' in Hf', Hk'. clearbody w'. split.
  - destruct (Z.ltb_spec t (t1 + 900000)) as [Hin|Hout].
    + destruct (increment_next prefix key w' t _ _ Hf' Hk' Hin ltac:(lia))
        as (w2 & E2 & _).
      rewrite E2. cbn [fst length]. do 2 f_equal. lia.
    + destruct (increment_first prefix key w' t Hf') as (w2 & E2 & _).
      { unfold db_get, db_entry. rewrite Hk'. unfold live. cbn [expiresAt].
        destruct (Z.ltb_spec t (t1 + 900000)); [lia | reflexivity]. }
      rewrite E2. reflexivity.
  - unfold RedisStore_resetKey, redis_del.
    rewrite redis_unit_nofault by exact Hf'. cbn [snd].
    set (w2 := set_redis _ _).
    destruct (increment_first prefix key w2 t) as (w3 & E3 & _).
    { destruct w' as [us ds ms db cl hr fs tr]; exact Hf'. }
    { subst w2. destruct w' as [us ds ms db cl hr fs tr].
      cbn [redis set_redis emit]. apply db_get_delete_eq. }
    rewrite E3. reflexivity.
Qed.

Lemma RedisStore_counts_a_fixed_window_witness :
  faults bobWorld = [] /\
  let w' := replay (RedisStore_increment "rl:login:" "203.0.113.1")
              [t0; t0 + 1000; t0 + 899000] bobWorld in
  fst (RedisStore_increment "rl:login:" "203.0.113.1" (set_clock (t0 + 899999) w'))
    = Ok {| totalHits := 4; resetTime := t0 + 899999 + 900000 |} /\
  fst (RedisStore_increment "rl:login:" "203.0.113.1" (set_clock (t0 + 900000) w'))
    = Ok {| totalHits := 1; resetTime := t0 + 900000 + 900000 |}.
Proof.
  split; [reflexivity|].
  assert (Hts : Forall (fun x => x < t0 + 900000) [t0 + 1000; t0 + 899000])
    by (repeat constructor).
  split.
  - exact (proj1 (RedisStore_counts_a_fixed_window "rl:login:" "203.0.113.1"
                    bobWorld t0 [t0 + 1000; t0 + 899000] (t0 + 899999)
                    eq_refl eq_refl Hts)).
  - exact (proj1 (RedisStore_counts_a_fixed_window "rl:login:" "203.0.113.1"
                    bobWorld t0 [t0 + 1000; t0 + 899000] (t0 + 900000)
                    eq_refl eq_refl Hts)).
Defined.

(** ** Blocking a user from the admin routes *)

Lemma blocked_key_not_session (u u' d : string) :
  "blocked:" +:+ u <> session_key u' d.
Proof. unfold session_key. intros E. discriminate E. Qed.

Lemma blocked_key_not_index (u u' : string) :
  "blocked:" +:+ u <> user_sessions_key u'.
Proof. unfold user_sessions_key. intros E. discriminate E. Qed.

Lemma db_entry_earlier (t t' : Z) (db : gmap string Entry) (k : string) (e : Entry) :
  t' <= t -> db_entry t db k = Some e -> db_entry t' db k = Some e.
Proof.
  intros Ht. unfold db_entry. destruct (db !! k) as [[x v]|]; [|discriminate].
  unfold live. cbn [expiresAt]. destruct x as [x|]; [|auto].
  destruct (Z.ltb_spec t x); [|discriminate].
  destruct (Z.ltb_spec t' x); [auto | lia].
Qed.

Lemma db_members_earlier (t t' : Z) (db : gmap string Entry) (k d : string) :
  t' <= t -> In d (db_members t db k) -> In d (db_members t' db k).
Proof.
  intros Ht. unfold db_members, db_get.
  destruct (db_entry t db k) as [e|] eqn:He; [|intros []].
  rewrite (db_entry_earlier t t' db k e Ht He). auto.
Qed.

Lemma session_at_earlier (t t' : Z) (db : gmap string Entry) (u d : string)
  (s : SessionData) :
  t' <= t -> session_at t db u d = Some s -> session_at t' db u d = Some s.
Proof.
  intros Ht. unfold session_at, db_get.
  destruct (db_entry t db (session_key u d)) as [e|] eqn:He; [|discriminate].
  rewrite (db_entry_earlier t t' db _ e Ht He). auto.
Qed.

(** The loop over the sessions to end: every listed session's key is
    deleted, any other key but the index is deleted or untouched, and the
    index only shrinks. *)
Lemma terminate_all_nofault (u : string) (l : list SessionData) :
  forall (w : World),
    faults w = [] ->
    exists w',
      terminate_all u l w = (Ok tt, w') /\
      faults w' = [] /\ clock w' = clock w /\
      (forall s, In s l -> redis w' !! session_key u (s_deviceId s) = None) /\
      (forall k, k <> user_sessions_key u ->
                 redis w' !! k = None \/ redis w' !! k = redis w !! k) /\
      (forall k, k <> user_sessions_key u ->
                 (forall s, In s l -> k <> session_key u (s_deviceId s)) ->
                 redis w' !! k = redis w !! k) /\
      (forall d, In d (db_members (clock w) (redis w') (user_sessions_key u)) ->
                 In d (db_members (clock w) (redis w) (user_sessions_key u))).
Proof.
  induction l as [|s l IH]; intros w Hf; cbn [terminate_all].
  - exists w. rewrite ret_run. split; [reflexivity|].
    split; [exact Hf|]. split; [reflexivity|].
    split; [intros s []|]. split; [auto|]. split; auto.
  - destruct (deleteSession_full u (s_deviceId s) w Hf)
      as (w1 & E1 & Hf1 & C1 & _ & Hnone & Hkeep & Hm).
    destruct (IH w1 Hf1) as (w' & E & Hf' & C & Hdel & Hmono & Hother & Hincl).
    rewrite bind_run, E1. exists w'. split; [exact E|].
    split; [exact Hf'|]. split; [congruence|].
    assert (Hstep : forall k, k <> user_sessions_key u ->
                      redis w1 !! k = None \/ redis w1 !! k = redis w !! k).
    { intros k Hk. destruct (String.eqb_spec k (session_key u (s_deviceId s)))
        as [->|Hne]; [left; exact Hnone | right; apply Hkeep; assumption]. }
    split; [|split; [|split]].
    + intros s' [<-|Hin]; [|apply Hdel, Hin].
      destruct (Hmono (session_key u (s_deviceId s)))
        as [H|H]; [apply session_key_not_index | exact H | congruence].
    + intros k Hk. destruct (Hmono k Hk) as [H|H]; [left; exact H|].
      rewrite H. apply Hstep, Hk.
    + intros k Hk Hnot. rewrite Hother.
      * apply Hkeep; [apply Hnot; left; reflexivity | exact Hk].
      * exact Hk.
      * intros s' Hs'. apply Hnot. right. exact Hs'.
    + intros d Hd. rewrite C1 in Hincl. apply Hincl in Hd.
      rewrite Hm in Hd. apply filter_In in Hd as [Hd _]. exact Hd.
Qed.

(** X21. Without Redis failures the block route, given a positive duration,
    answers 200, and the user counts as blocked exactly until [duration]
    seconds after the block was written, which is the first thing the
    handler does; the expiry the reply reports is computed at the end and
    is no earlier than that instant; provided each stored session of the
    user names the device it is filed under, the user is left without any
    session, now and at any later time, while the keys of other sessions
    are untouched. *)
Theorem admin_block_ends_every_session :
  forall (u : string) (duration : Z) (w : World),
    faults w = [] ->
    0 < duration ->
    (forall d s, In d (db_members (clock w) (redis w) (user_sessions_key u)) ->
                 session_at (clock w) (redis w) u d = Some s ->
                 s_deviceId s = d) ->
    exists w' reported,
      admin_block u (Some duration) w
        = (Ok {| reply_status := 200;
                 reply_body := JBlocked "User blocked" u duration reported |},
           w') /\
      clock w + duration * 1000 <= reported /\
      (forall t, fst (checkUserBlocked u (set_clock t w'))
                 = Ok (t <? clock w + duration * 1000)) /\
      (forall t, clock w <= t -> fst (getUserSessions u (set_clock t w')) = Ok []) /\
      (forall t d, clock w <= t ->
                   In d (db_members (clock w) (redis w) (user_sessions_key u)) ->
                   fst (getSession u d (set_clock t w')) = Ok None) /\
      (forall k, k <> "blocked:" +:+ u -> k <> user_sessions_key u ->
                 (forall d, In d (db_members (clock w) (redis w) (user_sessions_key u)) ->
                            k <> session_key u d) ->
                 redis w' !! k = redis w !! k).
Proof.
  intros u duration w Hf Hpos Hwf.
  set (index := db_members (clock w) (redis w) (user_sessions_key u)) in *.
  unfold admin_block, try_catch. rewrite bind_run.
  unfold redis_setex at 1. rewrite redis_unit_nofault by exact Hf. cbn [snd].
  set (w1 := set_redis _ _).
  assert (Hf1 : faults w1 = [])
    by (destruct w as [us ds ms db cl hr fs tr]; exact Hf).
  assert (C1 : clock w1 = clock w)
    by (destruct w as [us ds ms db cl hr fs tr]; reflexivity).
  assert (R1 : redis w1 = <["blocked:" +:+ u :=
                  {| expiresAt := Some (clock w + duration * 1000);
                     value := VStr "1" |}]> (redis w))
    by (destruct w as [us ds ms db cl hr fs tr]; reflexivity).
  assert (K1 : forall k, k <> "blocked:" +:+ u -> redis w1 !! k = redis w !! k).
  { intros k Hk. rewrite R1. apply lookup_insert_ne. congruence. }
  assert (B1 : redis w1 !! ("blocked:" +:+ u)
               = Some {| expiresAt := Some (clock w + duration * 1000);
                         value := VStr "1" |})
    by (rewrite R1; apply lookup_insert_eq).
  assert (Hat1 : forall t d, session_at t (redis w1) u d = session_at t (redis w) u d).
  { intros t d. apply session_at_lookup, K1.
    intros E. symmetry in E. exact (blocked_key_not_session _ _ _ E). }
  assert (Hm1 : db_members (clock w) (redis w1) (user_sessions_key u) = index).
  { unfold index, db_members, db_get, db_entry. rewrite K1; [reflexivity|].
    intros E. symmetry in E. exact (blocked_key_not_index _ _ E). }
  destruct (getUserSessions_pruned u w1 Hf1) as (w2 & E2 & Hsame2 & Hm2).
  pose proof Hsame2 as (_ & _ & _ & C2 & _ & F2 & K2).
  assert (Hf2 : faults w2 = []) by congruence.
  rewrite C1 in Hm2, E2. rewrite Hm1 in Hm2.
  destruct (terminate_all_nofault u (active_sessions (clock w) (redis w1) u) w2 Hf2)
    as (w' & E3 & Hf' & C3 & Hdel & Hmono & Hother & Hincl).
  rewrite C2, C1 in C3, Hincl.
  rewrite bind_run, E2, bind_run, E3, bind_run.
  unfold Date_now at 1. cbv beta iota. rewrite C3.
  unfold reply. rewrite ret_run.
  (* what is left of the user's sessions *)
  assert (Hgone : forall t d, clock w <= t -> In d index ->
                    session_at t (redis w') u d = None).
  { intros t d Ht Hd.
    destruct (session_at t (redis w') u d) as [s|] eqn:Hs; [exfalso|reflexivity].
    destruct (Hmono (session_key u d) (session_key_not_index _ _ _)) as [H|H].
    - unfold session_at, db_get, db_entry in Hs. rewrite H in Hs. discriminate Hs.
    - pose proof Hs as Hs'.
      rewrite (session_at_lookup t (redis w2) (redis w') u d H) in Hs.
      rewrite (session_at_lookup t (redis w1) (redis w2) u d) in Hs
        by apply K2, session_key_not_index.
      rewrite Hat1 in Hs.
      pose proof (session_at_earlier t (clock w) _ _ _ _ Ht Hs) as Hs0.
      pose proof (Hwf d s Hd Hs0) as Hdev.
      assert (Hin : In s (active_sessions (clock w) (redis w1) u)).
      { unfold active_sessions. rewrite sort_by_In. apply live_sessions_In.
        exists d. rewrite Hm1, Hat1. split; assumption. }
      apply Hdel in Hin. rewrite Hdev in Hin.
      unfold session_at, db_get, db_entry in Hs'. rewrite Hin in Hs'.
      discriminate Hs'. }
  assert (Hidx : forall t d, clock w <= t ->
                   In d (db_members t (redis w') (user_sessions_key u)) ->
                   In d index).
  { intros t d Ht Hd. apply (db_members_earlier t (clock w)) in Hd; [|exact Ht].
    apply Hincl in Hd. rewrite Hm2 in Hd. apply filter_In in Hd as [Hd _].
    exact Hd. }
  exists w'. eexists. split; [reflexivity|]. split; [lia|].
  split; [|split; [|split]].
  - intros t. unfold checkUserBlocked, redis_get. rewrite bind_run.
    rewrite redis_cmd_nofault by (rewrite faults_set_clock; exact Hf').
    cbn [fst snd]. rewrite ret_run. cbn [fst].
    rewrite clock_set_clock, redis_set_clock.
    unfold db_get, db_entry.
    rewrite Hother, K2, B1.
    + unfold live. cbn [expiresAt value fmap option_fmap option_map].
      destruct (t <? clock w + duration * 1000); reflexivity.
    + apply blocked_key_not_index.
    + apply blocked_key_not_index.
    + intros s _. apply blocked_key_not_session.
  - intros t Ht.
    destruct (getUserSessions_nofault u (set_clock t w'))
      as (w3 & E & _); [rewrite faults_set_clock; exact Hf'|].
    rewrite E. cbn [fst]. f_equal.
    rewrite clock_set_clock, redis_set_clock. unfold active_sessions.
    assert (Hnil : live_sessions t (redis w') u
                     (db_members t (redis w') (user_sessions_key u)) = []).
    { destruct (live_sessions t (redis w') u _) as [|s rest] eqn:Hl; [reflexivity|].
      exfalso.
      assert (Hin : In s (live_sessions t (redis w') u
                            (db_members t (redis w') (user_sessions_key u))))
        by (rewrite Hl; left; reflexivity).
      apply live_sessions_In in Hin as (d & Hd & Hs).
      rewrite (Hgone t d Ht (Hidx t d Ht Hd)) in Hs. discriminate Hs. }
    rewrite Hnil. reflexivity.
  - intros t d Ht Hd.
    rewrite getSession_nofault by (rewrite faults_set_clock; exact Hf').
    cbn [fst]. rewrite clock_set_clock, redis_set_clock.
    f_equal. apply Hgone; assumption.
  - intros k Hb Hi Hs. rewrite Hother, K2, K1; auto.
    intros s Hin. unfold active_sessions in Hin.
    rewrite sort_by_In in Hin. apply live_sessions_In in Hin as (d & Hd & Hsd).
    rewrite Hm1 in Hd. rewrite Hat1 in Hsd.
    rewrite (Hwf d s Hd Hsd). apply Hs, Hd.
Qed.

Lemma admin_block_ends_every_session_witness :
  faults aliceWorld = [] /\
  exists w' reported,
    fst (admin_block "64b7f0c2a1" (Some 600) aliceWorld)
      = Ok {| reply_status := 200;
              reply_body := JBlocked "User blocked" "64b7f0c2a1" 600 reported |} /\
    t0 + 600000 <= reported /\
    w' = snd (admin_block "64b7f0c2a1" (Some 600) aliceWorld) /\
    fst (checkUserBlocked "64b7f0c2a1" (set_clock (t0 + 599999) w')) = Ok true /\
    fst (getUserSessions "64b7f0c2a1" (set_clock (t0 + 1) w')) = Ok [] /\
    fst (getSession "64b7f0c2a1" "tv-livingroom" (set_clock (t0 + 1) w')) = Ok None.
Proof.
  split; [reflexivity|].
  assert (Hwf : forall d s,
            In d (db_members (clock aliceWorld) (redis aliceWorld)
                    (user_sessions_key "64b7f0c2a1")) ->
            session_at (clock aliceWorld) (redis aliceWorld) "64b7f0c2a1" d = Some s ->
            s_deviceId s = d).
  { intros d s [<-|[]] Hs. vm_compute in Hs. injection Hs as <-. reflexivity. }
  destruct (admin_block_ends_every_session "64b7f0c2a1" 600 aliceWorld eq_refl
              eq_refl Hwf)
    as (w' & reported & E & Hrep & Hblocked & Hlist & Hget & _).
  exists w', reported. rewrite E. split; [reflexivity|].
  split; [exact Hrep|]. split; [reflexivity|].
  split; [exact (Hblocked (t0 + 599999))|].
  split; [apply Hlist; vm_compute; discriminate|].
  apply Hget; [vm_compute; discriminate | left; reflexivity].
Defined.

(** ** Flags for manual review *)

Lemma flag_key_not_set (u : string) : "user:" +:+ u +:+ ":flagged" <> "flagged_users".
Proof. intros E. discriminate E. Qed.

Lemma db_members_unexpiring (t : Z) (db : gmap string Entry) (k : string)
  (l : list string) :
  db !! k = Some {| expiresAt := None; value := VSet l |} ->
  db_members t db k = l.
Proof.
  intros Hk. unfold db_members, db_get, db_entry. rewrite Hk. reflexivity.
Qed.

Lemma db_members_missing (t : Z) (db : gmap string Entry) (k : string) :
  db !! k = None -> db_members t db k = [].
Proof.
  intros Hk. unfold db_members, db_get, db_entry. rewrite Hk. reflexivity.
Qed.

Lemma flagUser_nofault (u : string) (alert : Alert) (w : World) (l : list string) :
  faults w = [] ->
  (redis w !! "flagged_users" = None /\ l = []) \/
  redis w !! "flagged_users" = Some {| expiresAt := None; value := VSet l |} ->
  exists w1,
    flagUser u alert w = (Ok tt, w1) /\ faults w1 = [] /\
    redis w1 !! ("user:" +:+ u +:+ ":flagged")
    = Some {| expiresAt := Some (clock w + 2592000000);
              value := VFlag (message alert) (severity alert) (clock w) |} /\
    redis w1 !! "flagged_users"
    = Some {| expiresAt := None;
              value := VSet (if existsb (String.eqb u) l then l
                             else (l ++ [u])%list) |}.
Proof.
  intros Hf Hset. pose proof (flag_key_not_set u) as Hne.
  unfold flagUser.
  rewrite bind_run. unfold Date_now at 1. cbv beta iota.
  rewrite bind_run. unfold redis_setex.
  rewrite redis_unit_nofault by exact Hf. cbn [snd].
  unfold redis_sadd. rewrite redis_unit_nofault
    by (destruct w as [us ds ms db cl hr fs tr]; exact Hf).
  cbn [snd]. eexists. split; [reflexivity|].
  destruct w as [us ds ms db cl hr fs tr].
  cbn [faults clock redis set_redis emit] in *.
  split; [exact Hf|].
  unfold db_entry. rewrite lookup_insert_ne by exact Hne.
  destruct Hset as [[Hk ->]|Hk]; rewrite Hk; cbn [live expiresAt].
  - cbn [existsb snd app]. rewrite lookup_insert_eq.
    rewrite lookup_insert_ne by congruence. rewrite lookup_insert_eq.
    split; [do 3 f_equal; lia | reflexivity].
  - destruct (existsb (String.eqb u) l) eqn:Hex; cbn [snd].
    + rewrite lookup_insert_eq, lookup_insert_ne, Hk by exact Hne.
      split; [do 3 f_equal; lia | reflexivity].
    + rewrite lookup_insert_eq.
      rewrite lookup_insert_ne by congruence. rewrite lookup_insert_eq.
      split; [do 3 f_equal; lia | reflexivity].
Qed.

Lemma clearUserFlag_nofault (u : string) (w : World) (l : list string) :
  faults w = [] ->
  redis w !! "flagged_users" = Some {| expiresAt := None; value := VSet l |} ->
  exists w2,
    clearUserFlag u w = (Ok tt, w2) /\
    redis w2 !! ("user:" +:+ u +:+ ":flagged") = None /\
    forall t, db_members t (redis w2) "flagged_users"
              = List.filter (fun x => negb (String.eqb u x)) l.
Proof.
  intros Hf Hset. pose proof (flag_key_not_set u) as Hne.
  unfold clearUserFlag.
  rewrite bind_run. unfold redis_srem.
  rewrite redis_unit_nofault by exact Hf. cbn [snd].
  unfold redis_del. rewrite redis_unit_nofault
    by (destruct w as [us ds ms db cl hr fs tr]; exact Hf).
  cbn [snd]. eexists. split; [reflexivity|].
  destruct w as [us ds ms db cl hr fs tr].
  cbn [faults clock redis set_redis emit] in *.
  split; [apply lookup_delete_eq|].
  intros t. unfold db_entry at 1. rewrite Hset. cbn [live expiresAt].
  destruct (List.filter (fun x => negb (String.eqb u x)) l) as [|y l2];
    cbn [snd].
  - apply db_members_missing. rewrite lookup_delete_ne by congruence.
    apply lookup_delete_eq.
  - apply db_members_unexpiring. rewrite lookup_delete_ne by congruence.
    apply lookup_insert_eq.
Qed.

(** X22. With the set of flagged users absent or kept without expiry, as the
    engine keeps it, and without Redis failures, [flagUser] files the
    reason, severity and time of the alert under the user's flag key for
    exactly 30 days and adds the user to the set of flagged users, where
    membership does not lapse: once the 30 days are over the user is still
    listed, with no details left.  [clearUserFlag] then removes both, and
    leaves the other flagged users listed. *)
Theorem flag_outlives_its_details :
  forall (u : string) (alert : Alert) (w : World),
    faults w = [] ->
    (redis w !! "flagged_users" = None \/
     exists l, redis w !! "flagged_users"
               = Some {| expiresAt := None; value := VSet l |}) ->
    let flagKey := "user:" +:+ u +:+ ":flagged" in
    let w1 := snd (flagUser u alert w) in
    let w2 := snd (clearUserFlag u w1) in
    fst (flagUser u alert w) = Ok tt /\
    (forall t, db_get t (redis w1) flagKey
               = if t <? clock w + 2592000000
                 then Some (VFlag (message alert) (severity alert) (clock w))
                 else None) /\
    (forall t x, In x (db_members t (redis w1) "flagged_users")
                 <-> x = u \/ In x (db_members t (redis w) "flagged_users")) /\
    fst (clearUserFlag u w1) = Ok tt /\
    (forall t, db_get t (redis w2) flagKey = None) /\
    (forall t x, In x (db_members t (redis w2) "flagged_users")
                 <-> x <> u /\ In x (db_members t (redis w) "flagged_users")).
Proof.
  intros u alert w Hf Hset flagKey w1 w2.
  set (l := db_members (clock w) (redis w) "flagged_users").
  assert (Hl : forall t, db_members t (redis w) "flagged_users" = l).
  { intros t. subst l. destruct Hset as [Hk|[l' Hk]].
    - rewrite !(db_members_missing _ _ _ Hk). reflexivity.
    - rewrite !(db_members_unexpiring _ _ _ l' Hk). reflexivity. }
  assert (Hset' : (redis w !! "flagged_users" = None /\ l = []) \/
                  redis w !! "flagged_users"
                  = Some {| expiresAt := None; value := VSet l |}).
  { subst l. destruct Hset as [Hk|[l' Hk]].
    - left. split; [exact Hk | apply db_members_missing, Hk].
    - right. rewrite (db_members_unexpiring _ _ _ l' Hk). exact Hk. }
  destruct (flagUser_nofault u alert w l Hf Hset')
    as (wa & E1 & Hf1 & Hflag1 & Hset1).
  set (l1 := if existsb (String.eqb u) l then l else (l ++ [u])%list) in *.
  assert (Hin1 : forall x, In x l1 <-> x = u \/ In x l)
    by (intros x; apply add_member_In).
  destruct (clearUserFlag_nofault u wa l1 Hf1 Hset1) as (wb & E2 & Hflag2 & Hset2).
  assert (Hw1 : w1 = wa) by (subst w1; rewrite E1; reflexivity).
  assert (Hw2 : w2 = wb) by (subst w2; rewrite Hw1, E2; reflexivity).
  clearbody w1 w2. subst wa wb. fold flagKey in Hflag1, Hflag2.
  split; [rewrite E1; reflexivity|]. split; [|split; [|split; [|split]]].
  - intros t. unfold db_get, db_entry. rewrite Hflag1. unfold live.
    cbn [expiresAt]. destruct (t <? clock w + 2592000000); reflexivity.
  - intros t x. rewrite (db_members_unexpiring _ _ _ l1 Hset1), Hl. apply Hin1.
  - rewrite E2. reflexivity.
  - intros t. unfold db_get, db_entry. rewrite Hflag2. reflexivity.
  - intros t x. rewrite Hset2, Hl. rewrite filter_In, Hin1.
    rewrite negb_true_iff. split.
    + intros [[->|Hx] Hneq].
      * rewrite String.eqb_refl in Hneq. discriminate Hneq.
      * split; [|exact Hx]. intros ->. rewrite String.eqb_refl in Hneq.
        discriminate Hneq.
    + intros [Hneq Hx]. split; [right; exact Hx|].
      apply String.eqb_neq. congruence.
Qed.

Lemma flag_outlives_its_details_witness :
  faults bobWorld = [] /\
  let w1 := snd (flagUser "77aa01" vpnAlert bobWorld) in
  db_get (t0 + 2592000000) (redis w1) "user:77aa01:flagged" = None /\
  In "77aa01" (db_members (t0 + 2592000000) (redis w1) "flagged_users") /\
  db_get t0 (redis (snd (clearUserFlag "77aa01" w1))) "user:77aa01:flagged" = None.
Proof.
  split; [reflexivity|].
  destruct (flag_outlives_its_details "77aa01" vpnAlert bobWorld eq_refl
              (or_introl eq_refl)) as (_ & Hdetails & Hlisted & _ & Hcleared & _).
  split; [exact (Hdetails (t0 + 2592000000))|].
  split; [exact (proj2 (Hlisted (t0 + 2592000000) "77aa01") (or_introl eq_refl))
         | exact (Hcleared t0)].
Defined.

(** ** Stored alerts *)

Lemma pretty_N_go_not_sorted (x : N) (s : string) :
  s <> "sorted" -> pretty_N_go x s <> "sorted".
Proof.
  revert s. induction (N.lt_wf_0 x) as [x _ IH]. intros s Hs.
  destruct (N.eq_dec x 0%N) as [->|Hx].
  - rewrite pretty_N_go_0. exact Hs.
  - rewrite pretty_N_go_step by lia. apply IH.
    + apply N.div_lt; lia.
    + unfold pretty_N_char.
      repeat match goal with
             | |- context [match ?y with _ => _ end] => destruct y
             end; discriminate.
Qed.

Lemma pretty_Z_not_sorted (n : Z) : pretty n <> "sorted".
Proof.
  destruct n as [|p|p]; unfold pretty, pretty_Z.
  - discriminate.
  - unfold pretty, pretty_positive, pretty, pretty_N.
    destruct (decide (N.pos p = 0%N)); [discriminate|].
    apply pretty_N_go_not_sorted. discriminate.
  - discriminate.
Qed.

Lemma alert_key_not_index (n : Z) : "alerts:" +:+ pretty n <> "alerts:sorted".
Proof.
  intros E. apply (append_cancel_l "alerts:" (pretty n) "sorted") in E.
  exact (pretty_Z_not_sorted n E).
Qed.

Lemma filter_insert_sorted_length {A : Type} (le : A -> A -> bool) (p : A -> bool)
  (x : A) (l : list A) :
  length (List.filter p (insert_sorted le x l))
  = length (List.filter p (x :: l)).
Proof.
  induction l as [|y l IH]; cbn [insert_sorted]; [reflexivity|].
  destruct (le x y); [reflexivity|].
  cbn [List.filter] in *. destruct (p y), (p x); cbn [length] in *; lia.
Qed.

Lemma filter_drop_length {A : Type} (p : A -> bool) (n : nat) (l : list A) :
  (length (List.filter p (drop n l)) <= length (List.filter p l))%nat.
Proof.
  revert n. induction l as [|y l IH]; intros [|n]; cbn [drop List.filter];
    try lia.
  specialize (IH n). destruct (p y); cbn [length]; lia.
Qed.

Lemma filter_twice_nil {A : Type} (p : A -> bool) (l : list A) :
  List.filter p (List.filter (fun x => negb (p x)) l) = [].
Proof.
  induction l as [|y l IH]; cbn [List.filter]; [reflexivity|].
  destruct (p y) eqn:Hp; cbn [negb List.filter]; [exact IH|].
  rewrite Hp. exact IH.
Qed.

(** [storeAlert] without faults: the alert sits under the key of the
    current millisecond, and the index holds that key at most once among at
    most 1000 members. *)
Lemma storeAlert_nofault (alert : Alert) (w : World) :
  faults w = [] ->
  let key := "alerts:" +:+ pretty (clock w) in
  exists w' items,
    storeAlert alert w = (Ok tt, w') /\
    faults w' = [] /\ clock w' = clock w /\
    redis w' !! key
    = Some {| expiresAt := Some (clock w + 604800000); value := VAlert alert |} /\
    redis w' !! "alerts:sorted"
    = Some {| expiresAt := None; value := VZSet items |} /\
    (length items <= 1000)%nat /\
    (length (List.filter (fun x => String.eqb key (snd x)) items) <= 1)%nat /\
    (forall k, k <> key -> k <> "alerts:sorted" -> redis w' !! k = redis w !! k).
Proof.
  intros Hf key. pose proof (alert_key_not_index (clock w)) as Hne. fold key in Hne.
  unfold storeAlert. fold key.
  rewrite bind_run. unfold Date_now at 1. cbv beta iota. fold key.
  rewrite bind_run. unfold redis_setex.
  rewrite redis_unit_nofault by exact Hf. cbn [snd].
  rewrite bind_run. unfold Date_now at 1. cbv beta iota.
  rewrite bind_run. unfold redis_zadd. rewrite redis_unit_nofault
    by (destruct w as [us ds ms db cl hr fs tr]; exact Hf).
  cbn [snd]. unfold redis_zremrangebyrank_keep. rewrite redis_unit_nofault
    by (destruct w as [us ds ms db cl hr fs tr]; exact Hf).
  cbn [snd].
  destruct w as [us ds ms db cl hr fs tr].
  cbn [faults clock redis set_redis emit] in *.
  set (db1 := <[key := _]> db).
  set (old := match db_entry cl db1 "alerts:sorted" with
              | Some {| expiresAt := _; value := VZSet l |} => l
              | _ => []
              end).
  set (l2 := insert_sorted (fun a b => fst a <=? fst b) (cl, key)
               (List.filter (fun x => negb (String.eqb key (snd x))) old)).
  unfold db_entry at 1. rewrite lookup_insert_eq. cbn [live expiresAt snd].
  eexists _, _. split; [reflexivity|].
  cbn [faults clock redis set_redis emit]. split; [exact Hf|]. split; [reflexivity|].
  split; [|split; [|split; [|split]]].
  - rewrite !lookup_insert_ne by congruence. subst db1.
    rewrite lookup_insert_eq. reflexivity.
  - apply lookup_insert_eq.
  - rewrite length_drop. change (Z.to_nat 1000) with 1000%nat. lia.
  - etransitivity; [apply filter_drop_length|].
    subst l2. rewrite filter_insert_sorted_length. cbn [List.filter snd].
    rewrite String.eqb_refl. cbn [length].
    rewrite (filter_twice_nil (fun x => String.eqb key (snd x))). cbn [length]. lia.
  - intros k Hk1 Hk2. rewrite !lookup_insert_ne by congruence.
    subst db1. apply lookup_insert_ne. congruence.
Qed.

(** X23. Without Redis failures [storeAlert] keeps the alert for 7 days under
    a key made of the current millisecond, so that of two alerts stored
    in the same millisecond only the second is kept; the index of alerts
    then holds at most 1000 keys, and that key at most once. *)
Theorem storeAlert_same_millisecond_overwrites :
  forall (a b : Alert) (w : World),
    faults w = [] ->
    let key := "alerts:" +:+ pretty (clock w) in
    let w1 := snd (storeAlert a w) in
    let w2 := snd (storeAlert b w1) in
    fst (storeAlert a w) = Ok tt /\
    (forall t, db_get t (redis w1) key
               = if t <? clock w + 604800000 then Some (VAlert a) else None) /\
    fst (storeAlert b w1) = Ok tt /\
    (forall t, db_get t (redis w2) key
               = if t <? clock w + 604800000 then Some (VAlert b) else None) /\
    exists items,
      redis w2 !! "alerts:sorted"
      = Some {| expiresAt := None; value := VZSet items |} /\
      (length items <= 1000)%nat /\
      (length (List.filter (fun x => String.eqb key (snd x)) items) <= 1)%nat.
Proof.
  intros a b w Hf key w1 w2.
  destruct (storeAlert_nofault a w Hf) as (wa & la & Ea & Hfa & Ca & Hka & _).
  destruct (storeAlert_nofault b wa Hfa)
    as (wb & lb & Eb & _ & _ & Hkb & Hidx & Hlen & Honce & _).
  rewrite Ca in Hkb, Honce. fold key in Hka, Hkb, Honce.
  assert (Hw1 : w1 = wa) by (subst w1; rewrite Ea; reflexivity).
  assert (Hw2 : w2 = wb) by (subst w2; rewrite Hw1, Eb; reflexivity).
  clearbody w1 w2. subst wa wb.
  split; [rewrite Ea; reflexivity|]. split; [|split; [|split]].
  - intros t. unfold db_get, db_entry. rewrite Hka. unfold live. cbn [expiresAt].
    destruct (t <? clock w + 604800000); reflexivity.
  - rewrite Eb. reflexivity.
  - intros t. unfold db_get, db_entry. rewrite Hkb. unfold live. cbn [expiresAt].
    destruct (t <? clock w + 604800000); reflexivity.
  - exists lb. split; [exact Hidx|]. split; assumption.
Qed.

Lemma storeAlert_same_millisecond_overwrites_witness :
  faults bobWorld = [] /\
  let w1 := snd (storeAlert (geoAlertAt impossibleContext FirstLocationRecorded t0)
                   bobWorld) in
  let w2 := snd (storeAlert vpnAlert w1) in
  db_get t0 (redis w2) ("alerts:" +:+ pretty t0) = Some (VAlert vpnAlert).
Proof.
  split; [reflexivity|].
  destruct (storeAlert_same_millisecond_overwrites
              (geoAlertAt impossibleContext FirstLocationRecorded t0)
              vpnAlert bobWorld eq_refl) as (_ & _ & _ & Hkept & _).
  exact (Hkept t0).
Defined.

(** ** Rejected credentials *)

Lemma credentials_cases `{Platform} (req : Request) (w : World) :
  (exists user, credentials_valid req w user) \/
  List.find (fun u => String.eqb (user_email u) (body_email req)) (users w) = None \/
  (exists user,
     List.find (fun u => String.eqb (user_email u) (body_email req)) (users w)
       = Some user /\
     bcrypt_compare (body_password req) (user_password user) = false).
Proof.
  unfold credentials_valid.
  destruct (List.find _ (users w)) as [user|]; [|right; left; reflexivity].
  destruct (bcrypt_compare (body_password req) (user_password user)) eqn:Hpw.
  - left. exists user. split; [reflexivity | exact Hpw].
  - right. right. exists user. split; [reflexivity | exact Hpw].
Qed.

(** X24. Both login handlers answer 400 exactly when no account has the
    e-mail address or the password does not match it, with the same body
    in the two cases; such a request changes nothing: no document, no
    Redis key, no Redis command, no failed-attempt counter. *)
Theorem login_400_is_bad_credentials_and_leaves_no_trace :
  forall `{Platform} (req : Request) (w : World),
    ((forall user, ~ credentials_valid req w user) ->
     login req w
       = (Ok {| status := 400; body := ErrorBody "Invalid credentials" |}, w) /\
     Legacy.login req w = (Ok (400, Legacy.LegacyError "Invalid credentials"), w)) /\
    (forall r w', login req w = (Ok r, w') -> status r = 400 ->
                  forall user, ~ credentials_valid req w user) /\
    (forall b w', Legacy.login req w = (Ok (400, b), w') ->
                  forall user, ~ credentials_valid req w user).
Proof.
  intros P req w.
  destruct (credentials_cases req w) as [[user [Hfind Hpw]] | Hbad].
  - (* valid credentials: neither handler answers 400 *)
    assert (Hvalid : credentials_valid req w user) by (split; assumption).
    split; [intros Hnone; destruct (Hnone user Hvalid)|].
    split.
    + intros r w' E Hst. exfalso. revert E.
      unfold login, try_catch. rewrite bind_run. unfold User_findOne at 1.
      rewrite Hfind, Hpw. cbn [negb].
      match goal with
      | |- (let (_, _) := ?m w in _) = _ -> _ =>
          assert (Hno : responds_only (fun r => status r <> 400) m)
      end.
      { responds_steps; cbn [status]; lia. }
      match goal with
      | |- (let (_, _) := ?m w in _) = _ -> _ =>
          destruct (m w) as [[a|e] w1] eqn:Em
      end.
      * intros E. injection E as <- <-. exact (Hno w a w1 Em Hst).
      * cbv. intros E. injection E as <- _. discriminate Hst.
    + intros b w' E. exfalso. revert E.
      unfold Legacy.login. rewrite bind_run. unfold User_findOne at 1.
      rewrite Hfind, Hpw. cbn [negb].
      repeat (rewrite bind_run;
              match goal with
              | |- context [let (_, _) := ?m ?w0 in _] =>
                  destruct (m w0) as [[?|?] ?]
              end; try discriminate).
  - assert (Hnone : forall user, ~ credentials_valid req w user).
    { intros user [Hfind Hpw]. destruct Hbad as [Hb | (u' & Hb & Hpw')].
      - congruence.
      - rewrite Hfind in Hb. injection Hb as <-. congruence. }
    split; [intros _|split; intros; apply Hnone].
    destruct Hbad as [Hb | (u' & Hb & Hpw')].
    + split.
      * unfold login, try_catch. rewrite bind_run. unfold User_findOne at 1.
        rewrite Hb. reflexivity.
      * unfold Legacy.login. rewrite bind_run. unfold User_findOne at 1.
        rewrite Hb. reflexivity.
    + split.
      * unfold login, try_catch. rewrite bind_run. unfold User_findOne at 1.
        rewrite Hb, Hpw'. reflexivity.
      * unfold Legacy.login. rewrite bind_run. unfold User_findOne at 1.
        rewrite Hb, Hpw'. reflexivity.
Qed.

Lemma login_400_is_bad_credentials_and_leaves_no_trace_witness :
  login bobWrongPassword bobWorld
    = (Ok {| status := 400; body := ErrorBody "Invalid credentials" |}, bobWorld) /\
  Legacy.login bobWrongPassword bobWorld
    = (Ok (400, Legacy.LegacyError "Invalid credentials"), bobWorld).
Proof.
  apply (proj1 (login_400_is_bad_credentials_and_leaves_no_trace
                  bobWrongPassword bobWorld)).
  intros user [Hfind Hpw]. vm_compute in Hfind. injection Hfind as <-.
  vm_compute in Hpw. discriminate Hpw.
Defined.

(** ** The session limit of the first login handler *)

Lemma combine_seq_nth (l : list MongoSession) :
  forall (a i : nat) (s : MongoSession),
    In (i, s) (combine (seq a (length l)) l) ->
    (a <= i)%nat /\ nth_error l (i - a) = Some s.
Proof.
  induction l as [|x l IH]; intros a i s; cbn [length seq combine In]; [intros []|].
  intros [E|Hin].
  - injection E as <- <-. split; [lia|]. rewrite Nat.sub_diag. reflexivity.
  - apply IH in Hin as [Hle Hnth]. split; [lia|].
    replace (i - a)%nat with (S (i - S a)) by lia. exact Hnth.
Qed.

Lemma filter_combine_seq_length (p : MongoSession -> bool) (l : list MongoSession) :
  forall a : nat,
    length (List.filter (fun q => p (snd q)) (combine (seq a (length l)) l))
    = length (List.filter p l).
Proof.
  induction l as [|x l IH]; intros a; cbn [length seq combine List.filter snd];
    [reflexivity|].
  destruct (p x); cbn [length]; rewrite IH; reflexivity.
Qed.

Lemma activeSessionsOf_length (u : string) (l : list MongoSession) :
  Z.of_nat (length (Legacy.activeSessionsOf u l)) = activeCount u l.
Proof.
  unfold Legacy.activeSessionsOf, activeCount. rewrite sort_by_length.
  rewrite (filter_combine_seq_length
             (fun s => String.eqb (ms_userId s) u && ms_isActive s)).
  reflexivity.
Qed.

Lemma activeSessionsOf_In (u : string) (l : list MongoSession) (i : nat)
  (s : MongoSession) :
  In (i, s) (Legacy.activeSessionsOf u l) ->
  nth_error l i = Some s /\ ms_userId s = u /\ ms_isActive s = true.
Proof.
  unfold Legacy.activeSessionsOf. rewrite sort_by_In, filter_In. cbn [snd].
  intros [Hin Hp]. apply combine_seq_nth in Hin as [_ Hnth].
  rewrite Nat.sub_0_r in Hnth. apply andb_true_iff in Hp as [Hu Ha].
  apply String.eqb_eq in Hu. auto.
Qed.

Lemma activeCount_deactivate_at (u : string) (l : list MongoSession) :
  forall (i : nat) (s : MongoSession),
    nth_error l i = Some s -> ms_userId s = u -> ms_isActive s = true ->
    activeCount u (Legacy.deactivate_at i l) = activeCount u l - 1.
Proof.
  unfold activeCount.
  induction l as [|x l IH]; intros [|i] s Hnth Hu Ha; cbn [nth_error] in Hnth;
    try discriminate Hnth; cbn [Legacy.deactivate_at List.filter].
  - injection Hnth as ->. unfold deactivate at 1 2. cbn [ms_userId ms_isActive].
    rewrite Hu, Ha, String.eqb_refl, andb_false_r. cbn [andb length]. lia.
  - specialize (IH i s Hnth Hu Ha).
    destruct (String.eqb (ms_userId x) u && ms_isActive x); cbn [length]; lia.
Qed.

Lemma deactivate_at_others (u u' : string) (l : list MongoSession) :
  forall (i : nat) (s : MongoSession),
    nth_error l i = Some s -> ms_userId s = u -> u' <> u ->
    sessionsOf u' (Legacy.deactivate_at i l) = sessionsOf u' l.
Proof.
  unfold sessionsOf.
  induction l as [|x l IH]; intros [|i] s Hnth Hu Hne; cbn [nth_error] in Hnth;
    try discriminate Hnth; cbn [Legacy.deactivate_at List.filter].
  - injection Hnth as ->. unfold deactivate at 1. cbn [ms_userId].
    rewrite Hu. destruct (String.eqb_spec u u'); [congruence | reflexivity].
  - rewrite (IH i s Hnth Hu Hne). reflexivity.
Qed.

Lemma activeCount_app (u : string) (l l' : list MongoSession) :
  activeCount u (l ++ l') = activeCount u l + activeCount u l'.
Proof. unfold activeCount. rewrite List.filter_app, List.length_app. lia. Qed.

Lemma activeCount_new (u d tok : string) (t : Z) :
  activeCount u [{| ms_userId := u; ms_deviceId := d; ms_token := tok;
                    ms_isActive := true; ms_createdAt := t |}] = 1.
Proof.
  unfold activeCount. cbn [List.filter ms_userId ms_isActive].
  rewrite String.eqb_refl. reflexivity.
Qed.

Lemma Legacy_getMaxSessions_known (plan : string) (M : Z) :
  Legacy.getMaxSessions plan = Some M -> 1 <= M.
Proof.
  unfold Legacy.getMaxSessions.
  repeat match goal with
         | |- context [if ?b then _ else _] => destruct b
         end; intros E; inversion E; lia.
Qed.

(** X25. The first login handler, for a user on one of the three named plans
    with N active sessions where the plan allows M: it answers 200 with a
    new active session for the device, after marking one active session
    of the user inactive when N >= M, so that the user ends with N + 1
    active sessions below the limit and with N at or above it; it
    touches no session of another user and nothing in Redis. *)
Theorem Legacy_login_keeps_the_plan_limit :
  forall `{Platform} (req : Request) (w : World) (user : User) (M : Z),
    credentials_valid req w user ->
    Legacy.getMaxSessions (user_plan user) = Some M ->
    let u := user_id user in
    let N := activeCount u (mongoSessions w) in
    exists tok d w',
      Legacy.login req w = (Ok (200, Legacy.LegacySuccess tok d), w') /\
      activeCount u (mongoSessions w') = (if N <? M then N + 1 else N) /\
      (N <= M -> activeCount u (mongoSessions w') <= M) /\
      List.last (mongoSessions w')
        {| ms_userId := ""; ms_deviceId := ""; ms_token := "";
           ms_isActive := false; ms_createdAt := 0 |}
      = {| ms_userId := u; ms_deviceId := d; ms_token := tok;
           ms_isActive := true; ms_createdAt := clock w |} /\
      (forall u', u' <> u ->
                  sessionsOf u' (mongoSessions w') = sessionsOf u' (mongoSessions w)) /\
      redis w' = redis w.
Proof.
  intros P req w user M [Hfind Hpw] Hplan u N.
  pose proof (Legacy_getMaxSessions_known _ _ Hplan) as HM.
  unfold Legacy.login. rewrite bind_run. unfold User_findOne at 1.
  rewrite Hfind, Hpw. cbn [negb]. cbv zeta.
  set (d := Legacy.deviceId_of_request req).
  rewrite bind_run. unfold Device_findOne at 1.
  (* the device step leaves sessions, Redis and the clock alone *)
  assert (Hdev : exists w0,
            (match List.find (same_device (user_id user) d) (devices w) with
             | Some d0 => now ← Date_now; Device_save (with_lastLogin d0 now)
             | None =>
                 Device_create (user_id user) d (headers req !! "user-agent")
                   (request_ip req) true;; mret tt
             end) w = (Ok tt, w0) /\
            mongoSessions w0 = mongoSessions w /\ redis w0 = redis w /\
            clock w0 = clock w).
  { destruct (List.find _ (devices w)) as [d0|];
      eexists; (split; [reflexivity|]);
      destruct w as [us ds ms db cl hr fs tr]; repeat split. }
  destruct Hdev as (w0 & E0 & S0 & R0 & C0).
  rewrite bind_run, E0. rewrite bind_run. unfold get_world at 1. cbv beta iota zeta.
  rewrite Hplan, S0. fold u.
  unfold ge_undef. rewrite activeSessionsOf_length. fold N.
  rewrite bind_run.
  destruct (Z.leb_spec M N) as [Hfull|Hroom].
  - (* at the limit: the first of the sorted active sessions goes *)
    destruct (Legacy.activeSessionsOf u (mongoSessions w)) as [|[i s] rest] eqn:Hact.
    { exfalso. pose proof (activeSessionsOf_length u (mongoSessions w)) as Hlen.
      rewrite Hact in Hlen. cbn [length] in Hlen. fold N in Hlen. lia. }
    destruct (activeSessionsOf_In u (mongoSessions w) i s) as (Hnth & Hu & Ha);
      [rewrite Hact; left; reflexivity|].
    unfold modify_world at 1. cbv beta iota. cbn [fst].
    rewrite bind_run. unfold Date_now at 1. cbv beta iota.
    rewrite bind_run. unfold Session_create at 1. cbv beta iota. rewrite ret_run.
    eexists _, d, _. split; [reflexivity|].
    destruct w0 as [us ds ms db cl hr fs tr].
    cbn [mongoSessions redis clock set_mongoSessions users devices localHour
           faults trace] in *.
    subst ms db cl.
    destruct (Z.ltb_spec N M); [lia|].
    rewrite activeCount_app, (activeCount_deactivate_at u _ i s Hnth Hu Ha).
    fold N. rewrite activeCount_new.
    split; [lia|]. split; [lia|]. split; [apply List.last_last|].
    split; [|reflexivity].
    intros u' Hne. unfold sessionsOf at 1. rewrite List.filter_app.
    cbn [List.filter ms_userId].
    destruct (String.eqb_spec u u'); [congruence|]. rewrite app_nil_r.
    apply (deactivate_at_others u u' _ i s Hnth Hu Hne).
  - rewrite ret_run.
    rewrite bind_run. unfold Date_now at 1. cbv beta iota.
    rewrite bind_run. unfold Session_create at 1. cbv beta iota. rewrite ret_run.
    eexists _, d, _. split; [reflexivity|].
    destruct w0 as [us ds ms db cl hr fs tr].
    cbn [mongoSessions redis clock set_mongoSessions users devices localHour
           faults trace] in *.
    subst ms db cl.
    destruct (Z.ltb_spec N M); [|lia].
    rewrite activeCount_app. fold N. rewrite activeCount_new.
    split; [lia|]. split; [lia|]. split; [apply List.last_last|].
    split; [|reflexivity].
    intros u' Hne. unfold sessionsOf at 1. rewrite List.filter_app.
    cbn [List.filter ms_userId].
    destruct (String.eqb_spec u u'); [congruence|]. apply app_nil_r.
Qed.

Lemma Legacy_login_keeps_the_plan_limit_witness :
  credentials_valid aliceRequest aliceAtLimit alice /\
  Legacy.getMaxSessions (user_plan alice) = Some 2 /\
  activeCount "64b7f0c2a1" (mongoSessions aliceAtLimit) = 2 /\
  exists tok d w',
    Legacy.login aliceRequest aliceAtLimit
      = (Ok (200, Legacy.LegacySuccess tok d), w') /\
    activeCount "64b7f0c2a1" (mongoSessions w') = 2.
Proof.
  assert (Hvalid : credentials_valid aliceRequest aliceAtLimit alice)
    by (split; reflexivity).
  split; [exact Hvalid|]. split; [reflexivity|]. split; [reflexivity|].
  destruct (Legacy_login_keeps_the_plan_limit aliceRequest aliceAtLimit alice 2
              Hvalid eq_refl) as (tok & d & w' & E & Hcount & _).
  exists tok, d, w'. split; [exact E | exact Hcount].
Defined.

(** ** Forced termination and the protected route *)

(** [verifySession] reads the collection and the clock, and changes
    nothing. *)
Lemma verifySession_reads `{TokenVerifier} (req : Request) (w w' : World) :
  mongoSessions w' = mongoSessions w -> clock w' = clock w ->
  fst (verifySession req w') = fst (verifySession req w).
Proof.
  intros S C. unfold verifySession.
  destruct (headers req !! "authorization" ≫= _) as [tok|]; [|reflexivity].
  destruct (negb (truthy tok)); [reflexivity|].
  rewrite !bind_run. unfold Date_now. cbv beta iota. rewrite C.
  destruct (jwt_verify tok (clock w)) as [decoded| |]; try reflexivity.
  rewrite !bind_run. unfold Session_findOneActive. cbv beta iota. rewrite S.
  destruct (List.find _ (mongoSessions w)); reflexivity.
Qed.

Lemma verifySession_next `{TokenVerifier} (req : Request) (w : World)
  (decoded : Claims) :
  fst (verifySession req w) = Ok (Next decoded) ->
  exists s, In s (mongoSessions w) /\
            ms_userId s = claim_userId decoded /\
            ms_deviceId s = claim_deviceId decoded /\
            ms_isActive s = true.
Proof.
  unfold verifySession.
  destruct (headers req !! "authorization" ≫= _) as [tok|]; [|discriminate].
  destruct (negb (truthy tok)); [discriminate|].
  rewrite bind_run. unfold Date_now. cbv beta iota.
  destruct (jwt_verify tok (clock w)) as [dec| |]; try discriminate.
  rewrite bind_run. unfold Session_findOneActive. cbv beta iota.
  destruct (List.find _ (mongoSessions w)) as [s|] eqn:Hfind; [|discriminate].
  rewrite ret_run. cbn [fst]. intros E. injection E as <-.
  apply find_some in Hfind as [Hin Hp].
  apply andb_true_iff in Hp as [Hp Ha]. apply andb_true_iff in Hp as [Hp Hd].
  apply andb_true_iff in Hp as [Hu _].
  apply String.eqb_eq in Hu, Hd. exists s. auto.
Qed.

Lemma update_first_unchanged (p : MongoSession -> bool) (l : list MongoSession)
  (s : MongoSession) :
  List.find p l = Some s -> ms_isActive s = false -> update_first p l = l.
Proof.
  induction l as [|x l IH]; cbn [List.find update_first]; [discriminate|].
  destruct (p x).
  - intros E Ha. injection E as ->. f_equal. destruct s. cbn in Ha. subst.
    reflexivity.
  - intros E Ha. f_equal. exact (IH E Ha).
Qed.

Lemma update_first_survivor (p : MongoSession -> bool) (l : list MongoSession)
  (s : MongoSession) :
  In s (update_first p l) -> p s = true -> ms_isActive s = true ->
  exists pre first post,
    l = (pre ++ first :: post)%list /\ p first = true /\ In s post.
Proof.
  induction l as [|x l IH]; cbn [update_first]; [intros []|].
  destruct (p x) eqn:Hx.
  - intros [<-|Hin] Hp Ha; [discriminate Ha|].
    exists [], x, l. auto.
  - intros [<-|Hin] Hp Ha; [congruence|].
    destruct (IH Hin Hp Ha) as (pre & first & post & -> & Hfirst & Hpost).
    exists (x :: pre), first, post. auto.
Qed.

(** X26. Without Redis failures the forced termination of the admin routes
    answers 200 and removes the session from Redis for good, but in the
    MongoDB collection it marks the first document of that user and
    device only, active or not.  When that document is already inactive
    the collection stays as it is and the protected route answers every
    request as before; after a termination the protected route can still
    admit that user and device, and only through an active document filed
    after another document of the same user and device. *)
Theorem admin_terminate_marks_the_first_document_only :
  forall `{TokenVerifier} (u d : string) (w : World),
    faults w = [] ->
    let same := fun s => String.eqb (ms_userId s) u && String.eqb (ms_deviceId s) d in
    exists w',
      admin_terminate u d w
        = (Ok {| reply_status := 200;
                 reply_body := JTerminated "Session terminated" u d |}, w') /\
      (forall t, fst (getSession u d (set_clock t w')) = Ok None) /\
      (forall s, List.find same (mongoSessions w) = Some s ->
                 ms_isActive s = false ->
                 mongoSessions w' = mongoSessions w /\
                 forall req t, fst (verifySession req (set_clock t w'))
                               = fst (verifySession req (set_clock t w))) /\
      (forall req t decoded,
         fst (verifySession req (set_clock t w')) = Ok (Next decoded) ->
         claim_userId decoded = u -> claim_deviceId decoded = d ->
         exists pre first post s,
           mongoSessions w = (pre ++ first :: post)%list /\
           same first = true /\
           In s post /\ same s = true /\ ms_isActive s = true).
Proof.
  intros V u d w Hf same.
  destruct (deleteSession_full u d w Hf)
    as (w1 & E & F1 & C1 & S1 & Hnone & _ & _).
  unfold admin_terminate, try_catch. rewrite bind_run, E.
  rewrite bind_run. unfold Session_deactivateOne, modify_world. cbv beta iota.
  unfold reply. rewrite ret_run. fold same.
  eexists. split; [reflexivity|].
  set (w2 := set_mongoSessions _ w1).
  assert (R2 : redis w2 = redis w1)
    by (destruct w1 as [us ds ms db cl hr fs tr]; reflexivity).
  assert (F2 : faults w2 = [])
    by (destruct w1 as [us ds ms db cl hr fs tr]; exact F1).
  assert (S2 : mongoSessions w2 = update_first same (mongoSessions w)).
  { subst w2. rewrite <- S1.
    destruct w1 as [us ds ms db cl hr fs tr]; reflexivity. }
  assert (Hms : forall t w0, mongoSessions (set_clock t w0) = mongoSessions w0)
    by (intros t [us ds ms db cl hr fs tr]; reflexivity).
  split; [|split].
  - intros t. rewrite getSession_later by exact F2.
    rewrite R2, (session_at_absent _ _ _ _ Hnone). reflexivity.
  - intros s Hfind Ha.
    assert (Hsame : mongoSessions w2 = mongoSessions w)
      by (rewrite S2; exact (update_first_unchanged same _ s Hfind Ha)).
    split; [exact Hsame|]. intros req t. apply verifySession_reads.
    + rewrite !Hms. exact Hsame.
    + rewrite !clock_set_clock. reflexivity.
  - intros req t decoded Hpass Hu Hd.
    apply verifySession_next in Hpass as (s & Hin & Hsu & Hsd & Ha).
    rewrite Hms, S2 in Hin.
    assert (Hp : same s = true).
    { unfold same. rewrite Hsu, Hsd, Hu, Hd, !String.eqb_refl. reflexivity. }
    destruct (update_first_survivor same _ s Hin Hp Ha)
      as (pre & first & post & Hl & Hfirst & Hpost).
    exists pre, first, post, s. auto.
Qed.

Lemma admin_terminate_marks_the_first_document_only_witness :
  faults aliceReturned = [] /\
  exists w',
    fst (@admin_terminate "64b7f0c2a1" "tv-livingroom" aliceReturned)
      = Ok {| reply_status := 200;
              reply_body := JTerminated "Session terminated" "64b7f0c2a1"
                              "tv-livingroom" |} /\
    w' = snd (admin_terminate "64b7f0c2a1" "tv-livingroom" aliceReturned) /\
    fst (getSession "64b7f0c2a1" "tv-livingroom" (set_clock t0 w')) = Ok None /\
    fst (@verifySession scenarioVerifier tvRequest (set_clock t0 w'))
      = Ok (Next {| claim_userId := "64b7f0c2a1";
                    claim_deviceId := "tv-livingroom";
                    claim_email := Some "alice@example.com" |}).
Proof.
  split; [reflexivity|].
  destruct (@admin_terminate_marks_the_first_document_only scenarioVerifier
              "64b7f0c2a1" "tv-livingroom" aliceReturned eq_refl)
    as (w' & E & Hredis & Hmongo & _).
  exists w'. rewrite E. split; [reflexivity|]. split; [reflexivity|].
  split; [exact (Hredis t0)|].
  destruct (Hmongo _ eq_refl eq_refl) as [_ Hsame].
  rewrite (Hsame tvRequest t0). reflexivity.
Defined.

(** ** Countries seen from a device *)

Lemma geo_first_country `{Platform} (u d ip : string) (geo : GeoInfo)
  (w : World) (t : Z) :
  faults w = [] ->
  geoip_lookup ip = Some geo ->
  db_get t (redis w) ("device:" +:+ d +:+ ":countries") = None ->
  exists w',
    getGeoConsistencyScore u d ip (set_clock t w) = (Ok 10, w') /\
    faults w' = [] /\
    redis w' !! ("device:" +:+ d +:+ ":countries")
    = Some {| expiresAt := Some (t + 2592000000);
              value := VSet [gi_country geo] |}.
Proof.
  intros Hf Hgeo Hnone. unfold getGeoConsistencyScore. rewrite Hgeo.
  set (key := "device:" +:+ d +:+ ":countries") in *.
  assert (Hf' : faults (set_clock t w) = []) by (rewrite faults_set_clock; exact Hf).
  rewrite bind_run. unfold redis_smembers.
  rewrite redis_cmd_nofault by exact Hf'. cbn [fst snd].
  rewrite clock_set_clock, redis_set_clock.
  unfold db_members at 1. rewrite Hnone. cbn [length Nat.eqb].
  unfold db_get in Hnone.
  destruct (db_entry t (redis w) key) as [e|] eqn:He; [discriminate Hnone|].
  unfold redis_sadd, redis_expire.
  destruct w as [us ds ms db cl hr fs tr].
  unfold set_clock.
  cbn [faults redis clock users devices mongoSessions localHour trace] in *.
  subst fs.
  rewrite bind_run, redis_unit_nofault by reflexivity.
  cbn [fst snd clock redis set_redis emit]. rewrite He. cbn [snd].
  rewrite bind_run, redis_unit_nofault by reflexivity.
  cbn [fst snd clock redis set_redis emit].
  rewrite db_entry_insert. cbn [live expiresAt snd value]. rewrite ret_run.
  eexists. split; [reflexivity|]. split; [reflexivity|].
  cbn [redis]. rewrite insert_insert_eq. apply lookup_insert_eq.
Qed.

Lemma geo_same_country `{Platform} (u d ip : string) (geo : GeoInfo)
  (w : World) (t e : Z) :
  faults w = [] ->
  geoip_lookup ip = Some geo ->
  redis w !! ("device:" +:+ d +:+ ":countries")
    = Some {| expiresAt := Some e; value := VSet [gi_country geo] |} ->
  t < e ->
  exists w',
    getGeoConsistencyScore u d ip (set_clock t w) = (Ok 25, w') /\
    faults w' = [] /\ redis w' = redis w.
Proof.
  intros Hf Hgeo Hk Ht. unfold getGeoConsistencyScore. rewrite Hgeo.
  set (key := "device:" +:+ d +:+ ":countries") in *.
  assert (Hf' : faults (set_clock t w) = []) by (rewrite faults_set_clock; exact Hf).
  rewrite bind_run. unfold redis_smembers.
  rewrite redis_cmd_nofault by exact Hf'. cbn [fst snd].
  rewrite clock_set_clock, redis_set_clock.
  assert (Hm : db_members t (redis w) key = [gi_country geo]).
  { unfold db_members, db_get, db_entry. rewrite Hk. unfold live. cbn [expiresAt].
    destruct (Z.ltb_spec t e); [reflexivity | lia]. }
  rewrite Hm. cbn [length Nat.eqb existsb]. rewrite String.eqb_refl.
  cbn [orb]. rewrite ret_run.
  eexists. split; [reflexivity|].
  destruct w as [us ds ms db cl hr fs tr]. split; [exact Hf | reflexivity].
Qed.

(** X27. A device that is only ever seen from one country: the first login
    scores 10 and starts a period of 30 days; every login inside that
    period scores 25; the period is not extended by these logins, so the
    first login at or after its end scores 10 again, however regular the
    logins were. *)
Theorem geo_consistency_restarts_every_30_days :
  forall `{Platform} (u d ip : string) (geo : GeoInfo) (w : World)
         (t1 : Z) (ts : list Z) (t : Z),
    faults w = [] ->
    geoip_lookup ip = Some geo ->
    db_get t1 (redis w) ("device:" +:+ d +:+ ":countries") = None ->
    Forall (fun x => x < t1 + 2592000000) ts ->
    fst (getGeoConsistencyScore u d ip (set_clock t1 w)) = Ok 10 /\
    let w' := replay (getGeoConsistencyScore u d ip) (t1 :: ts) w in
    fst (getGeoConsistencyScore u d ip (set_clock t w'))
      = Ok (if t <? t1 + 2592000000 then 25 else 10).
Proof.
  intros P u d ip geo w t1 ts t Hf Hgeo Hnone Hts.
  destruct (geo_first_country u d ip geo w t1 Hf Hgeo Hnone)
    as (w1 & E1 & Hf1 & Hk1).
  split; [rewrite E1; reflexivity|].
  unfold replay. cbn [fold_left]. rewrite E1. cbn [snd].
  assert (Hinv : forall l w0,
            faults w0 = [] ->
            redis w0 !! ("device:" +:+ d +:+ ":countries")
              = Some {| expiresAt := Some (t1 + 2592000000);
                        value := VSet [gi_country geo] |} ->
            Forall (fun x => x < t1 + 2592000000) l ->
            let w' := fold_left
                        (fun w2 t2 => snd (getGeoConsistencyScore u d ip (set_clock t2 w2)))
                        l w0 in
            faults w' = [] /\
            redis w' !! ("device:" +:+ d +:+ ":countries")
              = Some {| expiresAt := Some (t1 + 2592000000);
                        value := VSet [gi_country geo] |}).
  { induction l as [|x l IH]; intros w0 Hf0 Hk0 Hl; cbn [fold_left].
    - split; assumption.
    - apply Forall_cons in Hl as [Hx Hl].
      destruct (geo_same_country u d ip geo w0 x _ Hf0 Hgeo Hk0 Hx)
        as (w2 & E2 & Hf2 & R2).
      rewrite E2. cbn [snd]. apply IH; [exact Hf2 | rewrite R2; exact Hk0 | exact Hl]. }
  destruct (Hinv ts w1 Hf1 Hk1 Hts) as [Hf' Hk'].
  set (w' := fold_left _ ts w1) in *. clearbody w'.
  destruct (Z.ltb_spec t (t1 + 2592000000)) as [Hin|Hout].
  - destruct (geo_same_country u d ip geo w' t _ Hf' Hgeo Hk' Hin) as (w2 & E2 & _).
    rewrite E2. reflexivity.
  - destruct (geo_first_country u d ip geo w' t Hf' Hgeo) as (w2 & E2 & _).
    { unfold db_get, db_entry. rewrite Hk'. unfold live. cbn [expiresAt].
      destruct (Z.ltb_spec t (t1 + 2592000000)); [lia | reflexivity]. }
    rewrite E2. reflexivity.
Qed.

Lemma geo_consistency_restarts_every_30_days_witness :
  faults bobWorld = [] /\
  let daily := map (fun k => t0 + k * 86400000) [1; 2; 3; 4; 5; 6; 7] in
  let w' := replay (getGeoConsistencyScore "77aa01" "bob-laptop" "49.36.0.1")
              (t0 :: daily) bobWorld in
  fst (getGeoConsistencyScore "77aa01" "bob-laptop" "49.36.0.1"
         (set_clock (t0 + 2591999999) w')) = Ok 25 /\
  fst (getGeoConsistencyScore "77aa01" "bob-laptop" "49.36.0.1"
         (set_clock (t0 + 2592000000) w')) = Ok 10.
Proof.
  split; [reflexivity|].
  assert (Hts : Forall (fun x => x < t0 + 2592000000)
                  (map (fun k => t0 + k * 86400000) [1; 2; 3; 4; 5; 6; 7]))
    by (repeat constructor).
  split.
  - exact (proj2 (geo_consistency_restarts_every_30_days
                    "77aa01" "bob-laptop" "49.36.0.1" delhi bobWorld t0 _
                    (t0 + 2591999999) eq_refl eq_refl eq_refl Hts)).
  - exact (proj2 (geo_consistency_restarts_every_30_days
                    "77aa01" "bob-laptop" "49.36.0.1" delhi bobWorld t0 _
                    (t0 + 2592000000) eq_refl eq_refl eq_refl Hts)).
Defined.

(** ** The alerts one evaluation returns *)

Lemma steady_ret {A : Type} (a : A) : steady (mret a : M A).
Proof. intros w Hf. exists a, w. auto. Qed.

Lemma steady_bind {A B : Type} (m : M A) (f : A -> M B) :
  steady m -> (forall a, steady (f a)) -> steady (m ≫= f).
Proof.
  intros Hm Hk w Hf. destruct (Hm w Hf) as (a & w1 & E1 & Hf1 & C1 & H1).
  destruct (Hk a w1 Hf1) as (b & w2 & E2 & Hf2 & C2 & H2).
  exists b, w2. rewrite bind_run, E1. repeat split; congruence.
Qed.

Lemma steady_redis_cmd {A : Type} (c : RCmd)
  (f : Z -> gmap string Entry -> A * gmap string Entry) :
  steady (redis_cmd c f).
Proof.
  intros w Hf. eexists _, _. split; [apply redis_cmd_nofault; exact Hf|].
  destruct w as [us ds ms db cl hr fs tr]. repeat split. exact Hf.
Qed.

Lemma steady_try_catch {A : Type} (m : M A) (h : Exn -> M A) :
  steady m -> steady (try_catch m h).
Proof.
  intros Hm w Hf. destruct (Hm w Hf) as (a & w1 & E1 & Hrest).
  exists a, w1. unfold try_catch. rewrite E1. split; [reflexivity | exact Hrest].
Qed.

Lemma steady_emitM (e : Event) : steady (emitM e).
Proof.
  intros w Hf. exists tt, (emit e w). split; [reflexivity|].
  destruct w as [us ds ms db cl hr fs tr]. repeat split. exact Hf.
Qed.

Lemma steady_Date_now : steady Date_now.
Proof. intros w Hf. exists (clock w), w. auto. Qed.

Ltac steady_steps :=
  repeat first
    [ apply steady_ret
    | apply steady_redis_cmd
    | apply steady_Date_now
    | apply steady_emitM
    | apply steady_try_catch
    | apply steady_bind; [| intros ?]
    | match goal with
      | |- steady (if ?b then _ else _) => destruct b
      end ].

Lemma steady_executeActions (acts : list string) (alert : Alert) (ctx : Context) :
  steady (executeActions acts alert ctx).
Proof.
  induction acts as [|a acts IH]; cbn [executeActions]; [apply steady_ret|].
  apply steady_bind; [|intros _; exact IH].
  apply steady_try_catch.
  unfold performAction, deleteSession, blockUser, flagUser, redis_del, redis_srem,
    redis_setex, redis_sadd.
  steady_steps.
Qed.

Lemma steady_storeAlert (alert : Alert) : steady (storeAlert alert).
Proof.
  unfold storeAlert, redis_setex, redis_zadd, redis_zremrangebyrank_keep.
  steady_steps.
Qed.

Lemma rules_well_behaved : Forall well_behaved rules.
Proof.
  unfold rules.
  repeat (apply Forall_cons; split;
          [ intros ctx w; unfold fires; cbn [condition rule_message]; split;
            [ first [ eexists; intros w2 _; reflexivity
                    | exists ((2 <=? localHour w) && (localHour w <=? 5));
                      intros w2 Hh; rewrite bind_run; unfold getHours;
                      rewrite Hh; reflexivity ]
            | first [ intros _; eexists; intros w2; reflexivity
                    | destruct (ctx_geoCheck ctx);
                      [ intros _; eexists; intros w2; reflexivity
                      | intros Hno; discriminate Hno ] ] ]
          | ]).
  apply Forall_nil_2.
Qed.

Lemma fires_same_hour (rule : Rule) (ctx : Context) (w w2 : World) :
  well_behaved rule -> localHour w2 = localHour w ->
  fires w2 ctx rule = fires w ctx rule.
Proof.
  intros Hr Hh. destruct (Hr ctx w) as [(b & Hb) _]. unfold fires.
  rewrite (Hb w2 Hh), (Hb w eq_refl). reflexivity.
Qed.

(** One iteration without faults: the rule adds its alert exactly when
    its condition holds. *)
Lemma evaluateRule_nofault (rule : Rule) (ctx : Context) (acc : list Alert)
  (w : World) :
  well_behaved rule -> faults w = [] ->
  exists new w',
    evaluateRule rule ctx acc w = (Ok (acc ++ new)%list, w') /\
    faults w' = [] /\ clock w' = clock w /\ localHour w' = localHour w /\
    map ruleId new = (if fires w ctx rule then [rule_id rule] else []) /\
    Forall (fun a => alert_context a = context_of ctx /\
                     alert_timestamp a = clock w /\
                     In (ruleId a, ruleName a, severity a)
                        (map (fun r => (rule_id r, rule_name r, rule_severity r))
                             [rule])) new.
Proof.
  intros Hr Hf. destruct (Hr ctx w) as [(b & Hb) Hmsg].
  unfold fires in *. rewrite (Hb w eq_refl) in *. cbn [fst] in *.
  unfold evaluateRule, try_catch. rewrite bind_run, (Hb w eq_refl).
  destruct b.
  - destruct (Hmsg eq_refl) as (msg & Hm).
    rewrite bind_run, Hm. rewrite bind_run. unfold Date_now at 1. cbv beta iota.
    rewrite bind_run.
    destruct (steady_executeActions (actions rule)
                {| ruleId := rule_id rule; ruleName := rule_name rule;
                   severity := rule_severity rule; message := msg;
                   alert_timestamp := clock w;
                   alert_context := context_of ctx |} ctx w Hf)
      as ([] & w1 & E1 & Hf1 & C1 & H1).
    unfold context_of in E1. rewrite E1.
    rewrite bind_run.
    destruct (steady_storeAlert
                {| ruleId := rule_id rule; ruleName := rule_name rule;
                   severity := rule_severity rule; message := msg;
                   alert_timestamp := clock w;
                   alert_context := context_of ctx |} w1 Hf1)
      as ([] & w2 & E2 & Hf2 & C2 & H2).
    unfold context_of in E2. rewrite E2. rewrite ret_run.
    eexists [_], w2. split; [reflexivity|].
    split; [exact Hf2|]. split; [congruence|]. split; [congruence|].
    split; [reflexivity|].
    apply Forall_cons. split; [|apply Forall_nil_2].
    cbn [alert_context alert_timestamp ruleId ruleName severity map In].
    unfold context_of. auto.
  - rewrite ret_run. exists [], w. rewrite app_nil_r.
    split; [reflexivity|]. repeat split; try assumption. apply Forall_nil_2.
Qed.

Lemma evaluateRulesFrom_nofault (ctx : Context) (table : list Rule) :
  Forall well_behaved table ->
  forall (acc : list Alert) (w : World),
    faults w = [] ->
    exists new w',
      evaluateRulesFrom table ctx acc w = (Ok (acc ++ new)%list, w') /\
      faults w' = [] /\
      map ruleId new = map rule_id (List.filter (fires w ctx) table) /\
      Forall (fun a => alert_context a = context_of ctx /\
                       alert_timestamp a = clock w /\
                       In (ruleId a, ruleName a, severity a)
                          (map (fun r => (rule_id r, rule_name r, rule_severity r))
                               table)) new.
Proof.
  induction 1 as [|rule table Hr Htable IH]; intros acc w Hf;
    cbn [evaluateRulesFrom].
  - exists [], w. rewrite ret_run, app_nil_r. split; [reflexivity|].
    split; [exact Hf|]. split; [reflexivity | apply Forall_nil_2].
  - destruct (evaluateRule_nofault rule ctx acc w Hr Hf)
      as (new1 & w1 & E1 & Hf1 & C1 & H1 & Hids1 & Hall1).
    destruct (IH (acc ++ new1)%list w1 Hf1) as (new2 & w2 & E2 & Hf2 & Hids2 & Hall2).
    rewrite bind_run, E1, E2.
    exists (new1 ++ new2)%list, w2. rewrite app_assoc. split; [reflexivity|].
    split; [exact Hf2|]. split.
    + rewrite map_app, Hids1, Hids2. cbn [List.filter].
      assert (Hsame : List.filter (fires w1 ctx) table
                      = List.filter (fires w ctx) table).
      { apply filter_ext_in. intros r Hin.
        apply fires_same_hour; [|exact H1].
        rewrite List.Forall_forall in Htable. apply Htable, Hin. }
      rewrite Hsame. destruct (fires w ctx rule); reflexivity.
    + apply Forall_app. split.
      * eapply Forall_impl; [exact Hall1|]. cbv beta.
        intros a (Hc & Ht & Hin). split; [exact Hc|]. split; [exact Ht|].
        destruct Hin as [<-|[]]. left. reflexivity.
      * eapply Forall_impl; [exact Hall2|]. cbv beta.
        intros a (Hc & Ht & Hin). split; [exact Hc|]. split; [congruence|].
        right. exact Hin.
Qed.

Lemma filter_none {A : Type} (p : A -> bool) (l : list A) :
  forallb (fun x => negb (p x)) l = true -> List.filter p l = [].
Proof.
  induction l as [|x l IH]; cbn [List.filter forallb]; [reflexivity|].
  intros H. apply andb_true_iff in H as [Hx Hl]. apply negb_true_iff in Hx.
  rewrite Hx. exact (IH Hl).
Qed.

(** X28. Without Redis failures [evaluateRules] returns one alert for each
    rule of the table whose condition holds for the context, in the order
    of the table and none else; each alert carries the identity fields of
    the context and the id, name and severity of its rule.  With no
    condition holding the result is empty. *)
Theorem evaluateRules_returns_the_rules_that_hold :
  forall (ctx : Context) (w : World),
    faults w = [] ->
    exists alerts w',
      evaluateRules ctx w = (Ok alerts, w') /\
      map ruleId alerts = map rule_id (List.filter (fires w ctx) rules) /\
      Forall (fun a => alert_context a = context_of ctx /\
                       In (ruleId a, ruleName a, severity a)
                          (map (fun r => (rule_id r, rule_name r, rule_severity r))
                               rules)) alerts /\
      (forallb (fun r => negb (fires w ctx r)) rules = true -> alerts = []).
Proof.
  intros ctx w Hf.
  destruct (evaluateRulesFrom_nofault ctx rules rules_well_behaved [] w Hf)
    as (new & w' & E & _ & Hids & Hall).
  exists new, w'. split; [exact E|]. split; [exact Hids|]. split.
  - eapply Forall_impl; [exact Hall|]. cbv beta. intros a (Hc & _ & Hin). auto.
  - intros Hnone.
    rewrite (filter_none _ _ Hnone) in Hids. destruct new; [reflexivity | discriminate Hids].
Qed.

Lemma evaluateRules_returns_the_rules_that_hold_witness :
  faults bobWorld = [] /\
  exists alerts w',
    evaluateRules (with_trust (with_isNewDevice impossibleContext true) 35 true)
      (set_clock 5 bobWorld) = (Ok alerts, w') /\
    map ruleId alerts
    = ["geo_impossibility"; "trust_score_critical"; "new_device_high_risk"].
Proof.
  split; [reflexivity|].
  destruct (evaluateRules_returns_the_rules_that_hold
              (with_trust (with_isNewDevice impossibleContext true) 35 true)
              (set_clock 5 bobWorld) eq_refl)
    as (alerts & w' & E & Hids & _).
  exists alerts, w'. split; [exact E | exact Hids].
Defined.

Lemma gt_undef_none_l (b : option Z) : gt_undef None b = false.
Proof. reflexivity. Qed.

Lemma gt_undef_none_r (a : option Z) : gt_undef a None = false.
Proof. destruct a; reflexivity. Qed.

(** X29. A context that, like the one the login handler builds, leaves the
    failed-attempt count, one of the two session counts, the VPN mark, the
    location-change count and the password-change mark undefined: without
    Redis failures only five of the ten rules can produce an alert for it;
    failed logins, session limit, VPN, rapid location changes and account
    takeover never do. *)
Theorem rules_without_inputs_never_fire :
  forall (ctx : Context) (w : World),
    faults w = [] ->
    ctx_failedAttempts ctx = None ->
    ctx_activeSessions ctx = None \/ ctx_maxSessions ctx = None ->
    ctx_isVPN ctx = None ->
    ctx_locationChangeCount ctx = None ->
    ctx_passwordChanged ctx = None ->
    exists alerts w',
      evaluateRules ctx w = (Ok alerts, w') /\
      Forall (fun a => In (ruleId a)
                         ["geo_impossibility"; "trust_score_critical";
                          "device_sharing"; "unusual_login_hours";
                          "new_device_high_risk"]) alerts.
Proof.
  intros ctx w Hf Hfailed Hsessions Hvpn Hloc Hpw.
  destruct (evaluateRulesFrom_nofault ctx rules rules_well_behaved [] w Hf)
    as (new & w' & E & _ & Hids & _).
  exists new, w'. split; [exact E|].
  assert (Hfired : Forall (fun id => In id
                     ["geo_impossibility"; "trust_score_critical";
                      "device_sharing"; "unusual_login_hours";
                      "new_device_high_risk"])
                     (map rule_id (List.filter (fires w ctx) rules))).
  { apply List.Forall_forall. intros id Hid.
    apply in_map_iff in Hid as (r & <- & Hr).
    apply filter_In in Hr as [Hin Hfires].
    unfold rules in Hin. cbn [In] in Hin.
    repeat (destruct Hin as [<-|Hin]);
      try (cbn [rule_id In]; auto 10; fail);
      try (exfalso; revert Hfires; unfold fires; cbn [condition fst];
           rewrite ?Hfailed, ?Hvpn, ?Hloc, ?Hpw; cbn; discriminate).
    exfalso. revert Hfires. unfold fires. cbn [condition fst].
    destruct Hsessions as [-> | ->];
      rewrite ?gt_undef_none_l, ?gt_undef_none_r; discriminate. }
  rewrite <- Hids in Hfired.
  apply List.Forall_forall. intros a Ha. rewrite List.Forall_forall in Hfired.
  apply Hfired, in_map, Ha.
Qed.

Lemma rules_without_inputs_never_fire_witness :
  faults aliceWorld = [] /\
  exists alerts w',
    evaluateRules (with_deviceUserCount
                     (with_trust impossibleContext 72 false) 3) aliceWorld
      = (Ok alerts, w') /\
    Forall (fun a => In (ruleId a)
                       ["geo_impossibility"; "trust_score_critical";
                        "device_sharing"; "unusual_login_hours";
                        "new_device_high_risk"]) alerts.
Proof.
  split; [reflexivity|].
  exact (rules_without_inputs_never_fire
           (with_deviceUserCount (with_trust impossibleContext 72 false) 3)
           aliceWorld eq_refl eq_refl (or_introl eq_refl) eq_refl eq_refl eq_refl).
Defined.
